(* ===== verification/_CoqProject ===== *)
-Q . S2P
Prelude.v
PyValue.v
JsonStore.v
Entity.v
QuerySet.v
Adapters.v
Frame.v
Concurrency.v
Views.v
Recommend.v
Pages.v
StoreWf.v
OrmModels.v
OrmViews.v
OrmProps.v
Waste.v
Calendar.v
WasteImport.v
WasteDates.v
WasteProps.v
Dunder.v
Urls.v
