(* ===== verification/Prelude.v ===== *)
(** * GreenCycle: a verification development of the JSON document store

    The repository (Django app [src/main_app]) keeps its marketplace data
    in flat JSON files instead of a database.  Five layers cooperate:

    - the collection store [src/main_app/data/json_manager.py]: one JSON
      file per collection, read and rewritten whole by every operation
      ([load_data], [save_data], [create_item], [get_all_items],
      [get_item_by_id], [update_item], [delete_item], the relationship
      scans, [sort_items], [paginate_items]);
    - the query layer [QuerySetAdapter] of
      [src/main_app/data/model_adapter.py]: a filter dict, an ordering
      field and a result cache filled on first evaluation;
    - the entity layer [ModelAdapter] and its six subclasses in the same
      file (aliased as the "models" by [models_json.py]): attribute bags
      built from documents, [get]/[filter]/[create]/[save]/[delete], and
      the relationship properties ([category], [owner], [items], ...);
    - the many-to-many manager [CategoryManager] built by
      [UserPreferenceAdapter.preferred_categories];
    - the views of [src/main_app/views_json.py], routed by [urls.py],
      which call the entity and query layers, and its recommendation
      helpers ([calculate_recommendation_score], [update_recommendations]),
      which [item_detail] calls and whose results [marketplace] shows.

    Django serves requests concurrently, and nothing serialises the
    read-modify-write of a collection file.  Beside this store, the
    repository keeps the ORM version the JSON views were ported from:
    [src/main_app/views.py] on the Django models of
    [src/main_app/models.py] (not routed by [urls.py]).  A separate
    waste-forecasting part keeps its own Django models
    ([src/main_app/models_waste.py]): the management command
    [import_waste_data] fills [WasteGeneration] from a CSV file, and the
    view [predictions] of [views_waste.py] asks
    [services/waste_prediction_service.py] to fit Prophet to a
    location's history, store the forecast in [WastePrediction] and read
    it back.  [src/main_app/urls.py] routes each request path to a view
    of [views_json.py] or to [predictions], and the views' redirects are
    [reverse]d through the same table.

    ** Files of the development (in dependency order)

    - [Prelude] (this file): Python exceptions, the state-and-exception
      monad [st] every stateful operation runs in, the evaluation notation
      [c ⟦ s ⟧ ⇓ s', r] of [py_scope], Python's list slicing and indexing,
      the hint databases [py]/[py_rw] and the list lemmas the components
      share ([find_index], [pop_at], [res_filter], filters), and the
      string lemmas with the rewrite database [str] ([String.append]
      does not unfold by [simpl]).
    - [PyValue]: Python/JSON values ([None], [bool], [int], [float], [str],
      [list]) and the Python operations the code applies to them:
      [==] ([py_eq]), truthiness, [<] ([py_lt], which can raise
      [TypeError]), [str()] and [repr()], [str.lower], the substring test,
      [key.split('__')] and [in]; the runtime interface [Runtime] (clock,
      [uuid4], float formatting) as a typeclass.
    - [JsonStore]: the world (files on disk, clock and random draws) and
      every function of [json_manager.py] (Section [Store]), with Python's
      stable [sorted] ([StableSort]).
    - [Entity]: the six adapter classes, their [file_name], their
      read-only properties and their [__init__] ([construct]).
    - [QuerySet]: [QuerySetAdapter], every method; the cache is threaded
      through the builder (each evaluating method returns the updated
      builder with its result).
    - [Adapters]: Module [ModelAdapter] (class and instance methods),
      the forward ([related]) and reverse ([reverse]) relations of each
      adapter in Modules named after the classes, [User.preference] and
      the [CategoryManager] operations in Module [UserPreference].
    - [Frame]: frame conditions of computations on the store: a
      computation writes no file but one ([touches_only]), writes none
      ([keeps_files]), or keeps a predicate of one file ([st_inv] of
      [file_inv]); the hint database [frame] and the tactic [frame_auto]
      prove them for a composed computation from its calls.
    - [Concurrency]: a request as a thread with a read step ([load_data])
      and a write step ([update_commit], [create_commit]); an
      interleaving step relation [step] and an executable scheduler
      [run_schedule].
    - [Views]: requests and responses, [get_json_object_or_404],
      [add_item], [my_items], [update_item], [delete_item],
      [search_items], and URL reversal of the [<int:item_id>] routes
      (Module [views_json]).
    - [Recommend]: [calculate_recommendation_score] in binary64
      arithmetic ([str.split], [str.strip], [+], [/] and [min] as Python
      computes them) and [update_recommendations] with its loop
      ([rec_step], [rec_loop]).
    - [Pages]: Module [pages]: [home], [register], [map_view],
      [marketplace] (with the recommendation block [recommended_items]),
      [item_detail] ([count_view], [similar_items], [detail_recommend])
      and [user_preferences].
    - [StoreWf]: the well-formedness invariant of the store ([doc_wf]:
      every document has an [id] and string [created_at]/[updated_at]
      stamps) and its preservation by every operation and view.
    - [OrmModels]: the models of [models.py] as records, the database
      as one table per model (rows in key order, the next key of the
      [AutoField] sequence), the class [Model] with an instance per
      model, and the ORM operations the views use ([objects_get],
      [get_object_or_404], [get_or_create], [insert_row], [save_row],
      [delete_where], the many-to-many manager, [CASCADE]).
    - [OrmViews]: Module [orm]: every view of [views.py] and its
      [update_recommendations] / [calculate_recommendation_score], with
      the conversion [int()] of a posted key ([pk_of]).
    - [OrmProps]: the theorems on the ORM version and its relation to
      the JSON one.
    - [Waste]: the models of [models_waste.py] as tables ([wdb]), the
      class [WasteEnv] of what the service takes from outside (clock,
      time zone conversion, Prophet's [fit] and [predict], [float()],
      [str(e)]), every method of [WastePredictionService]
      ([load_historic_data], [train_model], [make_predictions],
      [save_predictions], [generate_predictions], [get_available_locations],
      [get_predictions]) and the view [predictions].
    - [Calendar]: CPython's [_ymd2ord] and [_ord2ymd] ([ymd2ord],
      [ord2ymd], with [divmod] as [Z.div_eucl]): the date of a
      timestamp and the timestamp of a date.
    - [WasteImport]: [Command.handle] of [import_waste_data.py]:
      [datetime.strptime(s, '%Y-%m-%d')] written out from CPython's
      regular expressions and [datetime]'s range checks, the row parsing,
      [update_or_create] and the loop with its [try]/[except].
    - [WasteDates]: [strftime('%Y-%m-%d')] ([strftime_ymd]) and the
      [__str__] of [WasteGeneration] and [WastePrediction] ([gen_str],
      [pred_str]).
    - [WasteProps]: the theorems on the waste part.
    - [Dunder]: [QuerySetAdapter.__len__] ([qs_len]) and the [__str__]
      of every adapter class ([adapter_str]; [pref_str] and [rec_str]
      look the related user and item up and fall back to ["Unknown"]).
    - [Urls]: the route table of [urls.py] ([urlpatterns_base], the
      [static()] media route under [DEBUG]), Django's resolution of a
      path ([resolve]: [^/] stripped, the first route whose expression
      matches the whole rest, [<int:...>] as [[0-9]+] with the
      backtracking of a greedy [+]), [reverse] (the last route of a name
      first, the arguments checked against the route), and [dispatch],
      which calls the view a route names on the store ([site_world]) or
      on the waste tables ([site_waste]).

    ** What the theorems show

    - Store: the exact effect of [create_item], [update_item] and
      [delete_item] on the file; filters, the stable sort (succeeds iff
      all keys are comparable) and pagination, with their error cases.
    - Query sets: the cache (evaluated at most once), [get]'s three
      outcomes, [exclude]'s OR semantics and how chaining forgets it.
    - Adapters: [get] never raises [MultipleObjectsReturned] and returns
      the first match in file order; create/get
      round trip; the three branches of [save]; relations tolerate
      dangling references; get-or-create preference; [add] idempotent,
      [all] refines a list-level specification.
    - Concurrency: interleaved updates and creates lose writes (for
      every collection and every pair of requests); serial updates
      persist; the document count is invariant under any interleaving
      of updates (rule induction on [rtc step]).
    - Views: ownership checks lock out the owner of every item added
      through the site; [my_items] misses them; [add_item] fails to
      redirect after storing; the [DoesNotExist] handlers fail with
      [AttributeError]; [search_items] refines a per-document predicate;
      [register] stores the JSON user.
    - Recommendations: before the draw the score is between [0.0] and
      [1.0] for each of the 64 combinations of the six tests, and
      exactly [1.0] when all match; [update_recommendations] never adds a
      recommendation, fails for a user without preferences and on the
      first view of any available item of another owner.
    - Pages: [item_detail] commits the view count whatever happens next
      and fails for every signed-in non-owner without a stored
      preference, on every item document as [add_item] stores it;
      [user_preferences] fails for every user without preferences; the
      recommended items are available and at most four, and a dangling
      recommendation breaks the marketplace page.
    - Store invariant: every view keeps every collection well formed
      ([StoreWf]), proved once per store operation and composed through
      the hint database [wf].
    - ORM version ([OrmProps]): [update_recommendations] keeps
      [unique_together] and creates a recommendation per available item
      of another owner; [delete_item] cascades to the recommendations,
      so the marketplace recommendations are available and never
      dangle; [user_preferences] clears the categories before it can
      fail with [Http404]; [update_item] stores any posted status;
      [int()] reads back a rendered key; the ORM location test refines
      the JSON one.
    - Waste forecasting ([WasteProps]): on a valid request, [predictions]
      shows exactly the [days] forecasts it saved, tomorrow first, one
      day apart, in date order (the dates fall in the window
      [get_predictions] reads while the clock moves less than a day); a
      failed fit reports the error after the location's old predictions
      were deleted; invalid input writes nothing, and a non-integer
      [days] raises [ValueError] uncaught; [get_available_locations]
      lists a location once per row; [dedup] ([unique()]) lists each
      location once; the import keeps [unique_together], counts exactly
      the rows it adds, skips and reports a row it cannot read, and a
      second run adds none.
    - Dates ([Calendar], [WasteDates]): the text
      [WasteGeneration.__str__] writes carries a date that the import
      command's [strptime] reads back as midnight of the row's day, for
      the years 1000 to 9999 ([gen_str_date_reads_back]); it rests on
      [_ord2ymd] inverting [_ymd2ord] on every day from 0001-01-01 on
      ([ord2ymd_valid]).
    - URLs ([Urls]): every named route reverses, and the path resolves
      back to its view with the same arguments; the [reverse] the view
      proofs use ([views_json.reverse_int_arg]) is Django's on this
      table; the item routes only pass non-negative integer ids, so the
      items [create_item] stores (uuid4 string ids) have no reachable
      page; following the redirect to [item_detail] runs that view.
    - [__str__] ([Dunder]): a recommendation whose user and item are
      gone shows as [Recommendation for Unknown: Unknown] and leaves
      the store unchanged.
    Each theorem with hypotheses has a closed witness run on concrete data
    (Sections [...Witnesses], with the [demo_runtime] clock and uuid, and
    the forecaster [demo_waste_env]).

    ** Modelling choices

    - Every stateful Python function becomes a function
      [world -> world * res A] ([st]): the state persists when an
      exception is raised part-way, as it does in Python (e.g. [load_data]
      rewrites a corrupt file even if the caller then raises).
    - Documents are [gmap string value]: a Python dict with string keys;
      key order is unobservable by the modelled code.  Filter dicts, whose
      iteration order decides which exception is raised first, are
      association lists with Python's [dict.update] semantics.
    - [datetime.now().isoformat()] and [uuid.uuid4()] are read from the
      [Runtime] interface indexed by counters kept in the world, so a
      concrete run is deterministic and the theorems quantify over every
      clock and every random source.
    - Strings are [String.string] over Latin-1 code points; [str.lower]
      lowers ASCII letters.  Floats are IEEE binary64 values of
      [SpecFloat] ([f64_add], [f64_div], comparisons by [SFcompare]), so
      the recommendation scores round as Python's do; their decimal
      rendering and the draws of [np.random.uniform(0, 0.1)] are fields
      of [Runtime].
    - Django's forms, [render], [redirect] and [messages] are modelled by
      their results: a view returns the messages it adds and a
      [response] (template and context, or a redirect); a valid
      [UserCreationForm] by the user its [save()] returns.
    - No fuel or bounds are needed: every loop of the modelled code runs
      over a finite list and is a structural [Fixpoint] or [foldl], so every
      definition is total and executable by [vm_compute].  The
      interleaving of requests is a step relation, and its invariants
      are proved by rule induction.
    - One bound is used, in [Calendar]: the Gregorian calendar repeats
      every 400 years, [146097] days ([ord2ymd_400], [ymd2ord_400]), so
      [ord2ymd_valid] for every ordinal follows from the 146097 days of
      the first cycle, checked by the boolean [check_block 18 1]
      ([2^18 >= 146097] days) under [vm_compute] and its soundness
      lemma (proof by reflection).  The month and day fields of
      [strptime] are checked the same way on their 12 x 31 cases.
    - The ORM: a table is a list of rows in primary-key order (the
      order of a query without [ORDER BY]); [order_by] is a stable sort.
      A query set is evaluated where the template evaluates it; no view
      writes between building it and rendering, so the rows are the
      same.  A foreign key read twice in one request is read twice (the
      instance cache of Django returns the same row, as no view writes
      the categories or users).  [icontains] is SQLite's [LIKE] (ASCII
      case folding).  Requests are not wrapped in transactions
      ([ATOMIC_REQUESTS] is off by default).
    - Waste forecasting: a naive [datetime] is an integer count of
      microseconds ([us_per_day] a day), a date its proleptic ordinal
      times [us_per_day]; a pandas data frame is a list of rows; Prophet
      is opaque ([WasteEnv]), so the theorems hold for every forecaster
      ([fit] may raise; where a theorem needs it, [predict] returns one
      line per date).  The clock is read through a counter, like
      [Runtime]'s.
    - Concurrency is modelled at the granularity of whole [load_data] and
      write steps, the smallest units the code performs without yielding
      a file to another request (each is one [open]/[json] call).

    ** What is not modelled

    Template rendering, form validation and authentication are Django's
    and are taken as inputs ([req_user], the form's result);
    [request.POST.getlist] is modelled with at most one value per key.
    [admin.py] (model registration) is Django configuration without
    behaviour of its own; the media files [static()] serves are a
    result ([RespServe]), not read.  The import statements and the
    empty exception classes of [model_adapter.py] carry no behaviour.  Prophet's fitting and
    forecasting are the library's and stay abstract; the import
    command's [add_arguments] (argparse), [os.path.exists] and the CSV
    reader are inputs (a boolean and the list of rows).  The JSON
    encoder/decoder is treated as exact on the documents the store
    writes.
*)

From stdpp Require Export base list gmap strings.
From Stdlib Require Export ZArith Lia.

Declare Scope py_scope.
Delimit Scope py_scope with py.
Open Scope Z_scope.

(** ** Python exceptions raised by the modelled code *)

Inductive exn :=
  | DoesNotExist (cls : string)
  | MultipleObjectsReturned (cls : string)
  | TypeError
  | ValueError
  | AttributeError
  | IndexError
  | Http404 (cls : string)
  | NoReverseMatch (view : string)
  | OverflowError
  | ZeroDivisionError
  | KeyError
  | IntegrityError
  | ImproperlyConfigured.

#[export] Instance exn_eq_dec : EqDecision exn.
Proof. solve_decision. Defined.

(** The outcome of a Python call: a value or a raised exception. *)
Inductive res (A : Type) :=
  | Ok (a : A)
  | Raise (e : exn).
Arguments Ok {A} a.
Arguments Raise {A} e.

(** ** The state-and-exception monad *)

Definition st (S A : Type) : Type := S -> S * res A.

Section Monad.
Context {S : Type}.

Definition st_ret {A} (a : A) : st S A := fun s => (s, Ok a).

Definition st_bind {A B} (f : A -> st S B) (c : st S A) : st S B :=
  fun s => match c s with
           | (s', Ok a) => f a s'
           | (s', Raise e) => (s', Raise e)
           end.

Definition raise {A} (e : exn) : st S A := fun s => (s, Raise e).

(** [try: c except e: h e] for the exceptions [h] handles: [h] returns
    [None] for an exception it does not catch, which propagates. *)
Definition catch {A} (c : st S A) (h : exn -> option (st S A)) : st S A :=
  fun s => match c s with
           | (s', Raise e) =>
               match h e with Some k => k s' | None => (s', Raise e) end
           | r => r
           end.

Definition get_st : st S S := fun s => (s, Ok s).
Definition put_st (s : S) : st S unit := fun _ => (s, Ok tt).
Definition lift_res {A} (r : res A) : st S A := fun s => (s, r).
End Monad.

#[export] Instance st_mret {S} : MRet (st S) := @st_ret S.
#[export] Instance st_mbind {S} : MBind (st S) := @st_bind S.

(** [c ⟦ s ⟧ ⇓ s' , r]: run from state [s], [c] ends in [s'] with outcome
    [r]. *)
Notation "c ⟦ s ⟧ ⇓ s' , r" := (c s = (s', r))
  (at level 70, s' at next level, format "c  ⟦ s ⟧  ⇓  s' ,  r") : py_scope.

(** The outcome and the final state of a run. *)
Definition outcome {S A} (c : st S A) (s : S) : res A := snd (c s).
Definition final {S A} (c : st S A) (s : S) : S := fst (c s).

Section MonadLaws.
Context {S : Type}.

Lemma bind_ret_l {A B} (a : A) (f : A -> st S B) s :
  (mret a ≫= f) s = f a s.
Proof. reflexivity. Qed.

Lemma bind_ret_r {A} (c : st S A) s : (c ≫= mret) s = c s.
Proof. cbv. destruct (c s) as [? []]; reflexivity. Qed.

Lemma bind_assoc {A B C} (c : st S A) (f : A -> st S B) (g : B -> st S C) s :
  ((c ≫= f) ≫= g) s = (c ≫= (fun a => f a ≫= g)) s.
Proof. cbv. destruct (c s) as [? []]; reflexivity. Qed.

Lemma bind_ok {A B} (c : st S A) (f : A -> st S B) s s' a :
  c s = (s', Ok a) -> (c ≫= f) s = f a s'.
Proof. intros H. cbv [mbind st_mbind st_bind]. by rewrite H. Qed.

Lemma bind_raise {A B} (c : st S A) (f : A -> st S B) s s' e :
  c s = (s', Raise e) -> (c ≫= f) s = (s', Raise e).
Proof. intros H. cbv [mbind st_mbind st_bind]. by rewrite H. Qed.
End MonadLaws.

(** ** Invariants of [st] computations *)

(** [st_inv I c]: every run of [c] from a state satisfying [I], normal
    or exceptional, ends in a state satisfying [I]. *)
Definition st_inv {S A} (I : S -> Prop) (c : st S A) : Prop :=
  forall s s' r, I s -> c s = (s', r) -> I s'.

Section StInv.
Context {S : Type} (I : S -> Prop).

Lemma st_inv_ret {A} (a : A) : st_inv I (mret a).
Proof. by intros s s' r HI [= <- _]. Qed.

Lemma st_inv_raise {A} e : st_inv I (raise (A:=A) e).
Proof. by intros s s' r HI [= <- _]. Qed.

Lemma st_inv_lift {A} (x : res A) : st_inv I (lift_res x).
Proof. by intros s s' r HI [= <- _]. Qed.

Lemma st_inv_bind {A B} (c : st S A) (f : A -> st S B) :
  st_inv I c -> (forall a, st_inv I (f a)) -> st_inv I (c ≫= f).
Proof.
  intros Hc Hf s s' r HI. cbv [mbind st_mbind st_bind].
  destruct (c s) as [s1 [a|e]] eqn:E.
  - apply (Hf a s1). by apply (Hc s s1 (Ok a)).
  - intros [= <- _]. by apply (Hc s s1 (Raise e)).
Qed.

Lemma st_inv_catch {A} (c : st S A) h :
  st_inv I c -> (forall e k, h e = Some k -> st_inv I k) -> st_inv I (catch c h).
Proof.
  intros Hc Hh s s' r HI. unfold catch.
  destruct (c s) as [s1 [a|e]] eqn:E.
  - intros [= <- _]. by apply (Hc s s1 (Ok a)).
  - destruct (h e) as [k|] eqn:Ek.
    + apply (Hh e k Ek). by apply (Hc s s1 (Raise e)).
    + intros [= <- _]. by apply (Hc s s1 (Raise e)).
Qed.
(** [st_inv_bind] when the rest of the computation needs a property [Q]
    of the intermediate result. *)
Lemma st_inv_bind_post {A B} (Q : A -> Prop) (c : st S A) (f : A -> st S B) :
  st_inv I c -> (forall s s' a, I s -> c s = (s', Ok a) -> Q a) ->
  (forall a, Q a -> st_inv I (f a)) -> st_inv I (c ≫= f).
Proof.
  intros Hc HQ Hf s s' r HI. cbv [mbind st_mbind st_bind].
  destruct (c s) as [s1 [a|e]] eqn:E.
  - apply (Hf a (HQ _ _ _ HI E) s1). by apply (Hc s s1 (Ok a)).
  - intros [= <- _]. by apply (Hc s s1 (Raise e)).
Qed.
End StInv.

Create HintDb st_inv.
#[export] Hint Resolve st_inv_ret st_inv_raise st_inv_lift st_inv_bind st_inv_catch : st_inv.

Create HintDb py.
Create Rewrite HintDb py_rw.
#[export] Hint Rewrite @bind_ret_l : py_rw.

(** ** Python list indexing and slicing *)

(** [l[k]] on a Python list: a negative index counts from the end; an
    index out of range raises [IndexError]. *)
Definition py_index {A} (l : list A) (k : Z) : res A :=
  let k' := if k <? 0 then k + Z.of_nat (length l) else k in
  if k' <? 0 then Raise IndexError
  else match l !! Z.to_nat k' with
       | Some x => Ok x
       | None => Raise IndexError
       end.

(** The bound of a slice [l[i:j]] (step 1) after CPython's
    [PySlice_AdjustIndices]: a negative bound counts from the end and
    every bound is clamped to [0, len]. *)
Definition slice_bound (n : Z) (i : option Z) (dflt : Z) : Z :=
  match i with
  | None => dflt
  | Some i => if i <? 0 then Z.max 0 (i + n) else Z.min i n
  end.

Definition py_slice {A} (l : list A) (i j : option Z) : list A :=
  let n := Z.of_nat (length l) in
  let a := slice_bound n i 0 in
  let b := slice_bound n j n in
  take (Z.to_nat (b - a)) (drop (Z.to_nat a) l).

(** [l[:k]] has at most [k] elements. *)
Lemma py_slice_prefix_length {A} (l : list A) k :
  0 <= k -> (length (py_slice l None (Some k)) <= Z.to_nat k)%nat.
Proof.
  intros Hk. unfold py_slice, slice_bound. simpl. rewrite drop_0, length_take.
  destruct (Z.ltb_spec k 0); lia.
Qed.

(** Every element of a slice is an element of the list. *)
Lemma py_slice_Forall {A} (P : A -> Prop) (l : list A) i j :
  Forall P l -> Forall P (py_slice l i j).
Proof. intros Hl. unfold py_slice. by apply Forall_take, Forall_drop. Qed.

(** [l.pop(i)] for an index found in range, and the first index whose
    element satisfies [p] ([for i, x in enumerate(l): if p(x): ...]). *)
Fixpoint find_index {A} (p : A -> bool) (l : list A) : option nat :=
  match l with
  | [] => None
  | x :: l' => if p x then Some 0%nat else S <$> find_index p l'
  end.

Definition pop_at {A} (i : nat) (l : list A) : list A := take i l ++ drop (S i) l.

(** ** Shared lemmas on these list operations *)

Lemma slice_bound_range n i d :
  0 <= n -> 0 <= d <= n -> 0 <= slice_bound n i d <= n.
Proof. destruct i as [i|]; simpl; [destruct (Z.ltb_spec i 0)|]; lia. Qed.

Lemma py_slice_full {A} (l : list A) : py_slice l None None = l.
Proof.
  unfold py_slice; simpl. rewrite drop_0, Z.sub_0_r, Nat2Z.id.
  apply take_ge. lia.
Qed.

Lemma py_slice_nonneg {A} (l : list A) (i j : Z) :
  0 <= i -> 0 <= j ->
  py_slice l (Some i) (Some j) =
  take (Z.to_nat (Z.min j (Z.of_nat (length l)) - Z.min i (Z.of_nat (length l))))
       (drop (Z.to_nat (Z.min i (Z.of_nat (length l)))) l).
Proof.
  intros Hi Hj. unfold py_slice, slice_bound.
  destruct (Z.ltb_spec i 0), (Z.ltb_spec j 0); try lia. reflexivity.
Qed.

Lemma find_index_spec {A} (p : A -> bool) (l : list A) i :
  find_index p l = Some i ->
  exists x, l !! i = Some x /\ p x = true /\
            forall j y, (j < i)%nat -> l !! j = Some y -> p y = false.
Proof.
  revert i; induction l as [|x l IH]; intros i H; simpl in H; [done|].
  destruct (p x) eqn:Hp.
  - injection H as <-. exists x. split_and!; [done|done|]. intros j y Hj. lia.
  - destruct (find_index p l) as [i'|] eqn:E; simpl in H; [|done].
    injection H as <-. destruct (IH i' eq_refl) as (y & Hy & Hpy & Hmin).
    exists y. split_and!; [done|done|].
    intros [|j] z Hj Hz; simpl in Hz; [by injection Hz as <-|].
    apply (Hmin j); [lia|done].
Qed.

Lemma find_index_ext {A} (p q : A -> bool) (l : list A) :
  (forall x, p x = q x) -> find_index p l = find_index q l.
Proof. intros Hpq. induction l as [|x l IH]; simpl; [done|]. by rewrite Hpq, IH. Qed.

(** The first match found by index heads the filtered list. *)
Lemma find_index_filter {A} (p : A -> bool) (l : list A) j x :
  find_index p l = Some j -> l !! j = Some x ->
  exists rest, filter (fun y => p y = true) l = x :: rest.
Proof.
  revert j; induction l as [|y l IH]; intros j Hj Hx; simpl in Hj; [done|].
  destruct (p y) eqn:Hy.
  - injection Hj as <-. injection Hx as <-. rewrite filter_cons_True by done. by eexists.
  - destruct (find_index p l) as [j'|] eqn:E; simpl in Hj; [|done]. injection Hj as <-.
    rewrite filter_cons_False by congruence. by apply (IH j').
Qed.

(** [next(x for x in l if p(x))] is the head of the filtered list. *)
Lemma find_head_filter {A} (p : A -> bool) (l : list A) :
  List.find p l = head (filter (fun x => p x = true) l).
Proof.
  induction l as [|x l IH]; simpl; [done|]. destruct (p x) eqn:Hp.
  - by rewrite filter_cons_True.
  - by rewrite filter_cons_False by congruence.
Qed.

Lemma find_ext {A} (p q : A -> bool) (l : list A) :
  (forall x, p x = q x) -> List.find p l = List.find q l.
Proof. intros Hpq. induction l as [|x l IH]; simpl; [done|]. by rewrite Hpq, IH. Qed.

Lemma find_index_None {A} (p : A -> bool) (l : list A) :
  find_index p l = None <-> Forall (fun x => p x = false) l.
Proof.
  induction l as [|x l IH]; simpl; [split; by auto|].
  rewrite Forall_cons. destruct (p x); [split; [done|intros [? _]; done]|].
  destruct (find_index p l); simpl; rewrite <- IH; naive_solver.
Qed.

(** Overwriting another position with an element that fails the test
    leaves the first match where it was. *)
Lemma find_index_insert_other {A} (p : A -> bool) (l : list A) k j x :
  find_index p l = Some k -> j ≠ k -> p x = false -> find_index p (<[j := x]> l) = Some k.
Proof.
  revert k j; induction l as [|y l IH]; intros k j Hk Hjk Hx; simpl in Hk; [done|].
  destruct (p y) eqn:Hy.
  - injection Hk as <-. destruct j as [|j]; [done|]. simpl. by rewrite Hy.
  - destruct (find_index p l) as [k'|] eqn:E; simpl in Hk; [|done]. injection Hk as <-.
    destruct j as [|j]; simpl; [by rewrite Hx, E|]. rewrite Hy, (IH k' j); [done|done|lia|done].
Qed.

Lemma length_pop_at {A} (i : nat) (l : list A) :
  (i < length l)%nat -> length (pop_at i l) = pred (length l).
Proof.
  intros H. unfold pop_at. rewrite length_app, length_take, length_drop. lia.
Qed.

Lemma pop_at_lookup {A} (i : nat) (l : list A) x :
  l !! i = Some x -> l = take i l ++ x :: drop (S i) l.
Proof.
  intros H. rewrite <- (take_drop i l) at 1. f_equal.
  by apply drop_S.
Qed.

Lemma elem_of_pop_at {A} (i : nat) (l : list A) y :
  y ∈ pop_at i l -> y ∈ l.
Proof.
  unfold pop_at. rewrite elem_of_app. intros [H|H].
  - apply elem_of_take in H as [? [? _]]. by eapply list_elem_of_lookup_2.
  - by eapply elem_of_sublist; [|apply sublist_drop].
Qed.

#[export] Hint Resolve slice_bound_range elem_of_pop_at : py.

(** A small Ltac for the runs of [st] computations: unfold the monad
    plumbing and split the [match] on the intermediate results. *)
Ltac st_simpl :=
  cbv [mbind st_mbind st_bind mret st_mret st_ret raise lift_res get_st put_st catch] in *.

Ltac st_case :=
  repeat match goal with
  | |- context [match ?c with (_, _) => _ end] =>
      let s := fresh "s" in let r := fresh "r" in destruct c as [s r] eqn:?
  | |- context [match ?r with Ok _ => _ | Raise _ => _ end] =>
      let a := fresh "a" in destruct r as [a|?]
  end.

(** ** Strings *)

Local Open Scope string_scope.

Lemma str_app_cons x (a b : string) : String x a ++ b = String x (a ++ b).
Proof. reflexivity. Qed.

Lemma str_app_nil_l (a : string) : "" ++ a = a.
Proof. reflexivity. Qed.

Create Rewrite HintDb str.
#[export] Hint Rewrite str_app_cons str_app_nil_l : str.

Lemma str_app_assoc (a b c : string) : (a ++ b) ++ c = a ++ (b ++ c).
Proof. induction a as [|x a IH]; autorewrite with str; [done|by rewrite IH]. Qed.

Lemma str_length_app (a b : string) : String.length (a ++ b) = (String.length a + String.length b)%nat.
Proof. induction a as [|x a IH]; autorewrite with str; simpl; [done|by rewrite IH]. Qed.

Lemma str_app_nil_r (a : string) : a ++ "" = a.
Proof. induction a as [|x a IH]; autorewrite with str; [done|by rewrite IH]. Qed.

Lemma str_app_inv_r (a b c : string) : a ++ c = b ++ c -> a = b.
Proof.
  revert b. induction a as [|x a IH]; intros [|y b] E; autorewrite with str in E; try done.
  - apply (f_equal String.length) in E. simpl in E. rewrite str_length_app in E. lia.
  - apply (f_equal String.length) in E. simpl in E. rewrite str_length_app in E. lia.
  - injection E as -> E. f_equal. by apply IH.
Qed.

Close Scope string_scope.

(** ** Exceptions inside pure list code *)

(** A list comprehension [[x for x in l if p(x)]] whose test can raise:
    the first element whose test raises aborts the whole comprehension. *)
Fixpoint res_filter {A} (p : A -> res bool) (l : list A) : res (list A) :=
  match l with
  | [] => Ok []
  | x :: l' =>
      match p x with
      | Raise e => Raise e
      | Ok b =>
          match res_filter p l' with
          | Raise e => Raise e
          | Ok r => Ok (if b then x :: r else r)
          end
      end
  end.

(** [any(p(x) for x in l)]: short-circuits on the first [True]. *)
Fixpoint res_any {A} (p : A -> res bool) (l : list A) : res bool :=
  match l with
  | [] => Ok false
  | x :: l' =>
      match p x with
      | Ok true => Ok true
      | Ok false => res_any p l'
      | Raise e => Raise e
      end
  end.

Definition ok_true (r : res bool) : bool :=
  match r with Ok true => true | _ => false end.

Lemma res_filter_ok {A} (p : A -> res bool) l r :
  res_filter p l = Ok r -> r = filter (fun x => ok_true (p x) = true) l.
Proof.
  revert r; induction l as [|x l IH]; intros r H; simpl in H.
  - by injection H as <-.
  - destruct (p x) as [[]|] eqn:Hp; [| |done];
      destruct (res_filter p l) as [r'|] eqn:Hl; try done; injection H as <-;
      rewrite (IH r' eq_refl);
      [rewrite filter_cons_True|rewrite filter_cons_False]; by rewrite ?Hp.
Qed.

(** A test that never raises filters like [filter]. *)
Lemma res_filter_pure {A} (p : A -> res bool) (q : A -> bool) l :
  (forall x, p x = Ok (q x)) ->
  res_filter p l = Ok (filter (fun x => q x = true) l).
Proof.
  intros Hpq. induction l as [|x l IH]; [done|]. simpl. rewrite Hpq, IH.
  destruct (q x) eqn:Hq; [rewrite filter_cons_True|rewrite filter_cons_False]; by rewrite ?Hq.
Qed.

Lemma res_filter_total {A} (p : A -> res bool) l :
  Forall (fun x => exists b, p x = Ok b) l ->
  exists r, res_filter p l = Ok r.
Proof.
  induction 1 as [|x l [b Hb] _ [r Hr]]; [by eexists|].
  simpl. rewrite Hb, Hr. by eexists.
Qed.

#[export] Hint Resolve res_filter_total : py.

(** A filter that no element passes is empty. *)
Lemma filter_Forall_not {A} (P : A -> Prop) `{forall x, Decision (P x)} l :
  Forall (fun x => ~ P x) l -> filter P l = [].
Proof. induction 1; [done|]. by rewrite filter_cons_False. Qed.

(** A test that does not raise on the elements of the list filters like
    [filter]. *)
Lemma res_filter_pure_in {A} (p : A -> res bool) (q : A -> bool) l :
  (forall x, x ∈ l -> p x = Ok (q x)) ->
  res_filter p l = Ok (filter (fun x => q x = true) l).
Proof.
  induction l as [|x l IH]; intros Hpq; [done|]. simpl. rewrite Hpq by left.
  rewrite IH by (intros y Hy; apply Hpq; by right).
  destruct (q x) eqn:Hq; [rewrite filter_cons_True|rewrite filter_cons_False]; by rewrite ?Hq.
Qed.

Lemma filter_all {A} (P : A -> Prop) `{forall x, Decision (P x)} (l : list A) :
  (forall x, x ∈ l -> P x) -> filter P l = l.
Proof.
  induction l as [|x l IH]; intros Hl; [done|].
  rewrite filter_cons_True by (apply Hl; left). f_equal. apply IH. intros y Hy. apply Hl. by right.
Qed.

(** An exception of [res_filter] is the exception of the test on some
    element. *)
Lemma res_filter_raise {A} (p : A -> res bool) l e :
  res_filter p l = Raise e -> exists x, x ∈ l /\ p x = Raise e.
Proof.
  induction l as [|x l IH]; simpl; [done|].
  destruct (p x) as [b|e'] eqn:Hp; [|intros [= <-]; exists x; split; [left|done]].
  destruct (res_filter p l) eqn:Hl; [done|]. intros [= ->].
  destruct IH as (y & Hy & Hpy); [done|]. exists y. split; [by right|done].
Qed.

(** ** Pairwise properties of lists *)

Lemma ForallOrdPairs_snoc {A} (R : A -> A -> Prop) l x :
  ForallOrdPairs R (l ++ [x]) <-> ForallOrdPairs R l /\ Forall (fun a => R a x) l.
Proof.
  induction l as [|y l IH]; simpl.
  - split; [intros _; split; constructor|intros _; repeat constructor].
  - split.
    + intros H. inversion H as [|? ? Hy Hl]; subst.
      apply IH in Hl as [Hl Hx]. apply Forall_app in Hy as [Hy Hyx].
      split; [by constructor|]. constructor; [by inversion Hyx|done].
    + intros [Hl Hx]. inversion Hl as [|? ? Hy Hl']; subst.
      inversion Hx as [|? ? Hyx Hx']; subst.
      constructor; [apply Forall_app; split; [done|by constructor]|].
      by apply IH.
Qed.

Lemma ForallOrdPairs_lookup {A} (R : A -> A -> Prop) l i j a b :
  ForallOrdPairs R l -> (i < j)%nat -> l !! i = Some a -> l !! j = Some b -> R a b.
Proof.
  intros H. revert i j. induction H as [|x l Hx Hl IH]; intros i j Hij Hi Hj; [done|].
  destruct i as [|i], j as [|j]; simpl in *; try lia.
  - injection Hi as <-. rewrite Forall_lookup in Hx. by apply (Hx j).
  - apply (IH i j); [lia|done|done].
Qed.
