(* ===== verification/PyValue.v ===== *)
(** Python values as the JSON store holds them, and the Python operations
    the store applies to them: [==], truthiness, [<], [str()], [repr()],
    [str.lower()], substring test, [str.split('__')] and [in].  The
    runtime services the store calls ([datetime.now], [uuid.uuid4] and
    float formatting) form the interface [Runtime]. *)

From S2P Require Import Prelude.
From stdpp Require Import pretty.
From Stdlib Require Import Ascii String SpecFloat QArith.

Open Scope string_scope.

(** ** Values *)

(** What [json.load] returns for a field of a document: [None], [bool],
    [int], [float], [str] or a list of those. *)
Inductive value :=
  | VNone
  | VBool (b : bool)
  | VInt (z : Z)
  | VFloat (f : spec_float)
  | VStr (s : string)
  | VList (l : list value).

#[export] Instance spec_float_eq_dec : EqDecision spec_float.
Proof. solve_decision. Defined.

Fixpoint value_eq_dec (a b : value) : {a = b} + {a ≠ b}.
Proof.
  refine (match a, b with
  | VNone, VNone => left eq_refl
  | VBool x, VBool y => cast_if (decide (x = y))
  | VInt x, VInt y => cast_if (decide (x = y))
  | VFloat x, VFloat y => cast_if (decide (x = y))
  | VStr x, VStr y => cast_if (decide (x = y))
  | VList xs, VList ys => cast_if (List.list_eq_dec value_eq_dec xs ys)
  | _, _ => right _
  end); congruence.
Defined.
#[export] Instance value_eq_decision : EqDecision value := value_eq_dec.

(** A document: a JSON object, i.e. a Python dict with string keys. *)
Abbreviation doc := (gmap string value).

(** ** Binary64 arithmetic *)

(** Python's [float] is IEEE-754 binary64 with round-to-nearest-even:
    [SpecFloat]'s operations at precision 53 and maximal exponent 1024. *)
Definition f64_add (x y : spec_float) : spec_float := SFadd 53 1024 x y.
Definition f64_div (x y : spec_float) : spec_float := SFdiv 53 1024 x y.
Definition f64_ltb (x y : spec_float) : bool := SFltb x y.
Definition f64_leb (x y : spec_float) : bool := SFleb x y.

(** [float(z)] of an integer, correctly rounded. *)
Definition f64_of_Z (z : Z) : spec_float := binary_normalize 53 1024 z 0 false.

(** The float literal [n/d] of the source text ([0.4] is [f64_lit 4 10]):
    the binary64 value nearest to the rational, which is what one
    correctly rounded division of the two exact integers gives. *)
Definition f64_lit (n d : Z) : spec_float := f64_div (f64_of_Z n) (f64_of_Z d).

(** ** The runtime services *)

(** [datetime.now().isoformat()] at the [n]-th reading of the clock,
    the [n]-th [str(uuid.uuid4())], [np.random.uniform(0, 0.1)] at the
    [n]-th random draw (both random sources are indexed by one draw
    counter: any interleaving of the two sequences is such a pair of
    functions), and [repr] of a float. *)
Class Runtime := {
  rt_now : nat -> string;
  rt_uuid4 : nat -> string;
  rt_uniform : nat -> spec_float;
  rt_float_repr : spec_float -> string
}.

(** ** Numbers: [bool], [int] and [float] compare as the reals they denote *)

Inductive num := NFin (q : Q) | NInf (neg : bool) | NNaN.

Definition float_num (f : spec_float) : num :=
  match f with
  | S754_zero _ => NFin 0
  | S754_infinity s => NInf s
  | S754_nan => NNaN
  | S754_finite s m e =>
      NFin ((if s then -1 else 1) * inject_Z (Zpos m) * Qpower (2 # 1) e)%Q
  end.

Definition num_of (v : value) : option num :=
  match v with
  | VBool b => Some (NFin (if b then 1 else 0)%Q)
  | VInt z => Some (NFin (inject_Z z))
  | VFloat f => Some (float_num f)
  | _ => None
  end.

Definition num_eqb (x y : num) : bool :=
  match x, y with
  | NFin a, NFin b => Qeq_bool a b
  | NInf a, NInf b => Bool.eqb a b
  | _, _ => false
  end.

Definition num_ltb (x y : num) : bool :=
  match x, y with
  | NFin a, NFin b => negb (Qle_bool b a)
  | NInf true, NFin _ | NInf true, NInf false | NFin _, NInf false => true
  | _, _ => false
  end.

Arguments num_eqb : simpl never.
Arguments num_ltb : simpl never.

(** ** Strings *)

Definition char_code (c : ascii) : nat := Ascii.nat_of_ascii c.

(** [str < str]: lexicographic on code points. *)
Fixpoint str_ltb (s t : string) : bool :=
  match s, t with
  | EmptyString, String _ _ => true
  | String a s', String b t' =>
      if (char_code a <? char_code b)%nat then true
      else if (char_code b <? char_code a)%nat then false
      else str_ltb s' t'
  | _, EmptyString => false
  end.

Definition ascii_lower (c : ascii) : ascii :=
  let n := char_code c in
  if (65 <=? n)%nat && (n <=? 90)%nat then Ascii.ascii_of_nat (n + 32) else c.

(** [s.lower()] *)
Fixpoint str_lower (s : string) : string :=
  match s with
  | EmptyString => EmptyString
  | String c s' => String (ascii_lower c) (str_lower s')
  end.

Fixpoint str_prefix (p s : string) : bool :=
  match p, s with
  | EmptyString, _ => true
  | String a p', String b s' => bool_decide (a = b) && str_prefix p' s'
  | String _ _, EmptyString => false
  end.

(** [needle in hay] for two strings. *)
Fixpoint str_contains (needle hay : string) : bool :=
  str_prefix needle hay ||
  match hay with
  | EmptyString => false
  | String _ hay' => str_contains needle hay'
  end.

Definition is_underscore (c : ascii) : bool := bool_decide (c = "_"%char).

(** [s.split('__')]: maximal non-overlapping separators, left to right. *)
Fixpoint split_dunder (s : string) : list string :=
  match s with
  | EmptyString => [EmptyString]
  | String c s' =>
      match s' with
      | String d s'' =>
          if is_underscore c && is_underscore d then EmptyString :: split_dunder s''
          else match split_dunder s' with
               | h :: t => String c h :: t
               | [] => [String c EmptyString]
               end
      | EmptyString => [String c EmptyString]
      end
  end.

(** ['__'.join(parts)] *)
Fixpoint join_dunder (parts : list string) : string :=
  match parts with
  | [] => EmptyString
  | [p] => p
  | p :: ps => p ++ "__" ++ join_dunder ps
  end.

(** ** [str()] and [repr()] *)

Definition hex_digit (n : nat) : ascii :=
  Ascii.ascii_of_nat (if (n <? 10)%nat then 48 + n else 87 + n).

(** [str.isprintable()] on a Latin-1 code point. *)
Definition printable (n : nat) : bool :=
  negb ((n <? 32)%nat || ((127 <=? n)%nat && (n <=? 160)%nat) || (n =? 173)%nat).

Definition escape_char (q c : ascii) : string :=
  let n := char_code c in
  if bool_decide (c = "\"%char) then "\\"
  else if bool_decide (c = q) then String "\"%char (String q EmptyString)
  else if (n =? 10)%nat then "\n"
  else if (n =? 13)%nat then "\r"
  else if (n =? 9)%nat then "\t"
  else if printable n then String c EmptyString
  else "\x" ++ String (hex_digit (n / 16)) (String (hex_digit (n mod 16)) EmptyString).

Fixpoint escape_str (q : ascii) (s : string) : string :=
  match s with
  | EmptyString => EmptyString
  | String c s' => escape_char q c ++ escape_str q s'
  end.

Definition dquote : ascii := Ascii.ascii_of_nat 34.

(** [repr(s)]: single quotes unless [s] contains a single quote and no
    double quote. *)
Definition repr_str (s : string) : string :=
  let q := if str_contains "'" s && negb (str_contains (String dquote EmptyString) s)
           then dquote else "'"%char in
  String q (escape_str q s ++ String q EmptyString).

Fixpoint join_comma (l : list string) : string :=
  match l with
  | [] => EmptyString
  | [x] => x
  | x :: l' => x ++ ", " ++ join_comma l'
  end.

Section Render.
Context `{Runtime}.

Fixpoint py_repr (v : value) : string :=
  match v with
  | VNone => "None"
  | VBool true => "True"
  | VBool false => "False"
  | VInt z => stdpp.pretty.pretty z
  | VFloat f => rt_float_repr f
  | VStr s => repr_str s
  | VList l => "[" ++ join_comma (map py_repr l) ++ "]"
  end.

(** [str(v)] *)
Definition py_str (v : value) : string :=
  match v with VStr s => s | _ => py_repr v end.
End Render.

(** ** Equality, truthiness and ordering *)

(** [a == b] (the element test [x is y] of list equality is not modelled:
    it only differs on a NaN compared with itself). *)
Fixpoint py_eq (a b : value) : bool :=
  match a, b with
  | VNone, VNone => true
  | VStr s, VStr t => bool_decide (s = t)
  | VList xs, VList ys =>
      (fix go (xs ys : list value) : bool :=
         match xs, ys with
         | [], [] => true
         | x :: xs', y :: ys' => py_eq x y && go xs' ys'
         | _, _ => false
         end) xs ys
  | _, _ =>
      match num_of a, num_of b with
      | Some x, Some y => num_eqb x y
      | _, _ => false
      end
  end.

(** [bool(v)] *)
Definition truthy (v : value) : bool :=
  match v with
  | VNone => false
  | VBool b => b
  | VInt z => negb (Z.eqb z 0)
  | VFloat f => match f with S754_zero _ => false | _ => true end
  | VStr s => negb (bool_decide (s = EmptyString))
  | VList l => negb (bool_decide (l = []))
  end.

(** [a < b]; [None] is the [TypeError] of an unorderable pair.  Lists
    compare at their first unequal elements, then by length. *)
Fixpoint py_lt (a b : value) : option bool :=
  match a, b with
  | VStr s, VStr t => Some (str_ltb s t)
  | VList xs, VList ys =>
      (fix go (xs ys : list value) : option bool :=
         match xs, ys with
         | x :: xs', y :: ys' => if py_eq x y then go xs' ys' else py_lt x y
         | [], _ :: _ => Some true
         | _, [] => Some false
         end) xs ys
  | _, _ =>
      match num_of a, num_of b with
      | Some x, Some y => Some (num_ltb x y)
      | _, _ => None
      end
  end.

(** [x in container]: membership in a list, substring in a string;
    anything else is not iterable. *)
Definition py_in (x container : value) : res bool :=
  match container with
  | VList ys => Ok (existsb (py_eq x) ys)
  | VStr h => match x with VStr n => Ok (str_contains n h) | _ => Raise TypeError end
  | _ => Raise TypeError
  end.

(** ** Properties of the Python operations *)

(** Induction on values, with the hypothesis for every element of a list. *)
Definition value_ind' (P : value -> Prop)
  (HN : P VNone) (HB : forall b, P (VBool b)) (HI : forall z, P (VInt z))
  (HF : forall f, P (VFloat f)) (HS : forall s, P (VStr s))
  (HL : forall l, Forall P l -> P (VList l)) : forall v, P v :=
  fix go v :=
    match v with
    | VNone => HN
    | VBool b => HB b
    | VInt z => HI z
    | VFloat f => HF f
    | VStr s => HS s
    | VList l =>
        HL l ((fix gol (l : list value) : Forall P l :=
                 match l as l0 return Forall P l0 with
                 | [] => @List.Forall_nil value P
                 | x :: l' => @List.Forall_cons value P x l' (go x) (gol l')
                 end) l)
    end.

Lemma num_eqb_sym x y : num_eqb x y = num_eqb y x.
Proof. destruct x as [a|a|], y as [b|b|]; simpl; try done; [apply Qeq_bool_comm | by destruct a, b]. Qed.

Lemma num_eqb_trans x y z : num_eqb x y = true -> num_eqb y z = true -> num_eqb x z = true.
Proof.
  destruct x as [a|a|], y as [b|b|], z as [c|c|]; simpl; try done;
    [apply Qeq_bool_trans | by destruct a, b, c].
Qed.

#[export] Hint Resolve num_eqb_trans : py.

(** [==] is symmetric. *)
Lemma py_eq_sym a b : py_eq a b = py_eq b a.
Proof.
  revert b; induction a as [| | | | |xs IH] using value_ind'; intros [| | | | |ys];
    simpl; try done; try apply num_eqb_sym; try (by apply bool_decide_ext).
  revert ys; induction IH as [|x xs Hx _ IHxs]; intros [|y ys]; simpl; try done.
  by rewrite Hx, IHxs.
Qed.

(** [==] is transitive (a NaN is equal to nothing, itself included). *)
Lemma py_eq_trans a b c : py_eq a b = true -> py_eq b c = true -> py_eq a c = true.
Proof.
  revert b c; induction a as [| | | | |xs IH] using value_ind';
    intros [| | | | |ys] [| | | | |zs]; simpl; try done; eauto with py;
    try (rewrite !bool_decide_eq_true; congruence).
  revert ys zs; induction IH as [|x xs Hx _ IHxs]; intros [|y ys] [|z zs]; simpl; try done.
  intros [H1 H2]%andb_prop [H3 H4]%andb_prop. apply andb_true_intro. eauto.
Qed.

(** ** [split('__')] and ['__'.join] *)

Lemma split_dunder_nonempty s : split_dunder s ≠ [].
Proof.
  destruct s as [|c [|d s]]; simpl; repeat case_match; done.
Qed.

Lemma join_dunder_cons_char c h t :
  join_dunder (String c h :: t) = String c (join_dunder (h :: t)).
Proof. by destruct t. Qed.

Lemma join_dunder_cons h t : t ≠ [] -> join_dunder (h :: t) = h ++ "__" ++ join_dunder t.
Proof. by destruct t. Qed.

Lemma split_dunder_cons2 c d s :
  split_dunder (String c (String d s)) =
  if is_underscore c && is_underscore d then EmptyString :: split_dunder s
  else match split_dunder (String d s) with
       | h :: t => String c h :: t
       | [] => [String c EmptyString]
       end.
Proof. reflexivity. Qed.

(** [join_dunder] inverts [split_dunder]. *)
Lemma join_split_dunder_id s : join_dunder (split_dunder s) = s.
Proof.
  induction s as [s IH] using (induction_ltof1 _ String.length).
  destruct s as [|c [|d s]]; [done|done|]. rewrite split_dunder_cons2.
  destruct (is_underscore c && is_underscore d) eqn:Hu.
  - apply andb_prop in Hu as [Hc Hd]. unfold is_underscore in Hc, Hd.
    apply bool_decide_eq_true in Hc, Hd. subst.
    rewrite join_dunder_cons by apply split_dunder_nonempty.
    rewrite IH; [done|]. unfold ltof; simpl; lia.
  - destruct (split_dunder (String d s)) as [|h t] eqn:E;
      [by apply split_dunder_nonempty in E|].
    rewrite join_dunder_cons_char, <- E, IH; [done|]. unfold ltof; simpl; lia.
Qed.

(** splitting a filter key on [__] and joining the parts back with [__]
    gives the key back: [split_dunder] loses no character. *)
Theorem join_split_dunder s : join_dunder (split_dunder s) = s.
Proof. apply join_split_dunder_id. Qed.

(** ** The substring test *)

Lemma str_prefix_spec p s : str_prefix p s = true <-> exists q, s = p ++ q.
Proof.
  revert s; induction p as [|a p IH]; intros [|b s]; simpl.
  - split; eauto.
  - split; eauto.
  - split; [done|]. by intros [q ?].
  - rewrite andb_true_iff, bool_decide_eq_true, IH. split.
    + intros [-> [q ->]]. by exists q.
    + intros [q Hq]. injection Hq as -> ->. eauto.
Qed.

(** [needle in hay] holds exactly when [needle] occurs in [hay]. *)
Lemma str_contains_spec n h :
  str_contains n h = true <-> exists p q, h = p ++ n ++ q.
Proof.
  induction h as [|c h IH]; simpl; rewrite orb_true_iff, str_prefix_spec.
  - split.
    + intros [[q Hq]|?]; [by exists "", q | done].
    + intros (p & q & Hpq). left. exists q.
      destruct p; [done|discriminate].
  - rewrite IH. split.
    + intros [[q Hq]|(p & q & ->)]; [by exists "", q|].
      by exists (String c p), q.
    + intros ([|c' p] & q & Hpq); [left; by exists q|].
      right. injection Hpq as -> ->. eauto.
Qed.

(** A key that splits into two or more parts contains [__]. *)
Lemma split_dunder_long_contains s :
  (2 <= List.length (split_dunder s))%nat -> str_contains "__" s = true.
Proof.
  intros Hlen. rewrite <- (join_split_dunder_id s).
  destruct (split_dunder s) as [|h [|h' t]]; simpl in Hlen; try lia.
  rewrite join_dunder_cons by done. apply str_contains_spec.
  exists h, (join_dunder (h' :: t)). reflexivity.
Qed.

(** ** [<] is asymmetric *)

Lemma str_ltb_asym s t : str_ltb s t = true -> str_ltb t s = false.
Proof.
  revert t; induction s as [|a s IH]; intros [|b t]; simpl; try done.
  destruct (Nat.ltb_spec (char_code a) (char_code b)), (Nat.ltb_spec (char_code b) (char_code a));
    try lia; auto.
Qed.

Lemma num_ltb_asym x y : num_ltb x y = true -> num_ltb y x = false.
Proof.
  destruct x as [a|[]|], y as [b|[]|]; cbv [num_ltb]; try done.
  intros Hab. apply negb_true_iff in Hab. apply negb_false_iff.
  apply Qle_bool_iff. apply Qlt_le_weak, Qnot_le_lt.
  intros Hba. apply Qle_bool_iff in Hba. congruence.
Qed.

(** A pair that [<] orders one way is ordered (not less) the other way. *)
Lemma py_lt_asym a b : py_lt a b = Some true -> py_lt b a = Some false.
Proof.
  revert b; induction a as [| | | | |xs IH] using value_ind'; intros [| | | | |ys];
    simpl; try done;
    try (intros [=Hab]; f_equal; by apply num_ltb_asym);
    try (intros [=Hab]; f_equal; by apply str_ltb_asym).
  revert ys; induction IH as [|x xs Hx _ IHxs]; intros [|y ys]; simpl; try done.
  rewrite (py_eq_sym y x). destruct (py_eq x y); [apply IHxs|apply Hx].
Qed.

(** A runtime for concrete runs: the [n]-th clock reading is
    ["2024-05-01T10:00:0<n>"] (increasing for [n < 10]), the [n]-th uuid is
    ["uuid-<n>"]. *)
Definition digit_str (n : nat) : string := String (Ascii.ascii_of_nat (48 + n)) EmptyString.

Definition demo_runtime : Runtime := {|
  rt_now := fun n => "2024-05-01T10:00:0" ++ digit_str n;
  rt_uuid4 := fun n => "uuid-" ++ digit_str n;
  rt_uniform := fun _ => f64_lit 1 20;
  rt_float_repr := fun _ => "0.0"
|}.
