(* ===== verification/JsonStore.v ===== *)
(** The collection store of [src/main_app/data/json_manager.py]: the
    files on disk as a map from collection name to file contents, the
    clock and random source as counters into [Runtime], and one
    definition per function of the module.  Every operation reads the
    whole collection with [load_data] and writes it whole with
    [save_data]. *)

From S2P Require Import Prelude PyValue.
From Stdlib Require Import Ascii Sorted.


Open Scope string_scope.

(** ** The world *)

(** A collection file holds a JSON list of documents, or text that does
    not parse as JSON. *)
Inductive file :=
  | FJson (docs : list doc)
  | FCorrupt.

Record world := mk_world {
  w_files : gmap string file;   (** [BASE_DIR/<name>.json], by collection name *)
  w_ticks : nat;                (** readings of [datetime.now()] so far *)
  w_draws : nat                 (** calls of [uuid.uuid4()] so far *)
}.

Definition set_files (fs : gmap string file) (w : world) : world :=
  mk_world fs (w_ticks w) (w_draws w).

(** A filter dict ([**kwargs]): an association list in insertion order. *)
Abbreviation fdict := (list (string * value)).

Definition field (d : doc) (k : string) : option value := d !! k.

(** [d.get(k)] and [d.get(k, dflt)] *)
Definition get_or (d : doc) (k : string) (dflt : value) : value :=
  default dflt (d !! k).

Section Store.
Context `{Runtime}.

(** [datetime.now().isoformat()] *)
Definition now_iso : st world string :=
  fun w => (mk_world (w_files w) (S (w_ticks w)) (w_draws w), Ok (rt_now (w_ticks w))).

(** [str(uuid.uuid4())] *)
Definition uuid4 : st world string :=
  fun w => (mk_world (w_files w) (w_ticks w) (S (w_draws w)), Ok (rt_uuid4 (w_draws w))).

(** ** [ensure_data_files] *)

Definition data_files : list string :=
  ["recycling_centers"; "categories"; "marketplace_items";
   "user_preferences"; "item_recommendations"].

Definition ensure_data_files : st world unit :=
  fun w =>
    (set_files (foldl (fun fs n => match fs !! n with
                                   | Some _ => fs
                                   | None => <[n := FJson []]> fs
                                   end) (w_files w) data_files) w,
     Ok tt).

(** ** [load_data] and [save_data] *)

(** A missing or unparsable file is replaced by an empty list. *)
Definition load_data (name : string) : st world (list doc) :=
  fun w =>
    match w_files w !! name with
    | Some (FJson docs) => (w, Ok docs)
    | _ => (set_files (<[name := FJson []]> (w_files w)) w, Ok [])
    end.

Definition save_data (name : string) (data : list doc) : st world unit :=
  fun w => (set_files (<[name := FJson data]> (w_files w)) w, Ok tt).

(** ** [create_item] *)

Definition create_item (name : string) (item_data : doc) : st world doc :=
  data ← load_data name;
  item1 ← (match item_data !! "id" with
           | Some _ => mret item_data
           | None => u ← uuid4; mret (<["id" := VStr u]> item_data)
           end);
  now ← now_iso;
  let item2 := <["updated_at" := VStr now]> (<["created_at" := VStr now]> item1) in
  save_data name (data ++ [item2]);;
  mret item2.

(** ** [get_all_items]: the filter grammar *)

(** [field__contains]: [value.lower() in str(item[field]).lower()];
    [value.lower()] raises [AttributeError] on a non-string, but only
    once an item that has the field is reached. *)
Definition contains_test (fld : string) (v : value) (item : doc) : res bool :=
  match item !! fld with
  | None => Ok false
  | Some x =>
      match v with
      | VStr s => Ok (str_contains (str_lower s) (str_lower (py_str x)))
      | _ => Raise AttributeError
      end
  end.

(** [field__exact] and the plain [field] key: [item[field] == value]. *)
Definition exact_test (fld : string) (v : value) (item : doc) : bool :=
  match item !! fld with
  | None => false
  | Some x => py_eq x v
  end.

(** [field__in]: [item[field] in value]. *)
Definition in_test (fld : string) (v : value) (item : doc) : res bool :=
  match item !! fld with
  | None => Ok false
  | Some x => py_in x v
  end.

(** One [key, value] pair of the filter loop.  A key with two or more
    [__] fails to unpack into [field, operator] ([ValueError]); an
    operator other than [contains], [exact] and [in] filters nothing. *)
Definition apply_filter (kv : string * value) (data : list doc) : res (list doc) :=
  let '(key, v) := kv in
  if str_contains "__" key then
    match split_dunder key with
    | [fld; op] =>
        if bool_decide (op = "contains") then res_filter (contains_test fld v) data
        else if bool_decide (op = "exact") then Ok (filter (fun it => exact_test fld v it = true) data)
        else if bool_decide (op = "in") then res_filter (in_test fld v) data
        else Ok data
    | _ => Raise ValueError
    end
  else Ok (filter (fun it => exact_test key v it = true) data).

Fixpoint apply_filters (filters : fdict) (data : list doc) : res (list doc) :=
  match filters with
  | [] => Ok data
  | kv :: fs =>
      match apply_filter kv data with
      | Ok data' => apply_filters fs data'
      | Raise e => Raise e
      end
  end.

Definition get_all_items (name : string) (filters : fdict) : st world (list doc) :=
  data ← load_data name;
  match filters with
  | [] => mret data
  | _ => lift_res (apply_filters filters data)
  end.

(** ** Lookup, update and delete by id *)

Definition id_matches (item_id : value) (item : doc) : bool :=
  py_eq (get_or item "id" VNone) item_id.

Definition get_item_by_id (name : string) (item_id : value) : st world (option doc) :=
  data ← load_data name;
  mret (List.find (id_matches item_id) data).

(** The read-modify-write of [update_item] after [load_data]: the
    replacement keeps [id] (set to the argument [item_id]) and the
    stored [created_at] when the stored item has one, and takes a fresh
    [updated_at]; the whole list read before is written back. *)
Definition update_commit (name : string) (item_id : value) (updated_data : doc)
    (data : list doc) : st world (option doc) :=
  match find_index (id_matches item_id) data with
  | None => mret None
  | Some i =>
      let item := default ∅ (data !! i) in
      let upd1 := <["id" := item_id]> updated_data in
      let upd2 := match item !! "created_at" with
                  | Some c => <["created_at" := c]> upd1
                  | None => upd1
                  end in
      now ← now_iso;
      let upd3 := <["updated_at" := VStr now]> upd2 in
      save_data name (<[i := upd3]> data);;
      mret (Some upd3)
  end.

Definition update_item (name : string) (item_id : value) (updated_data : doc)
    : st world (option doc) :=
  data ← load_data name;
  update_commit name item_id updated_data data.

Definition delete_item (name : string) (item_id : value) : st world (option doc) :=
  data ← load_data name;
  match find_index (id_matches item_id) data with
  | None => mret None
  | Some i =>
      save_data name (pop_at i data);;
      mret (data !! i)
  end.

(** ** Relationship scans *)

Definition get_related_items (name related_field : string) (related_id : value)
    : st world (list doc) :=
  data ← load_data name;
  mret (filter (fun it => exact_test related_field related_id it = true) data).

(** [relation_field in item and any(rel_id in item[relation_field] for
    rel_id in item_ids)]: [in] raises [TypeError] on a non-container. *)
Definition m2m_test (relation_field : string) (item_ids : list value) (item : doc)
    : res bool :=
  match item !! relation_field with
  | None => Ok false
  | Some rel => res_any (fun rel_id => py_in rel_id rel) item_ids
  end.

Definition get_many_to_many_related_items (name relation_field : string)
    (item_ids : list value) : st world (list doc) :=
  data ← load_data name;
  lift_res (res_filter (m2m_test relation_field item_ids) data).
End Store.

(** ** Sorting and pagination *)

(** Python's [sorted(l, key=k, reverse=rev)]: a stable sort on [<] of the
    keys.  [before rev a b] says that [a] goes strictly before [b]. *)
Definition key_lt (a b : value) : bool := default false (py_lt a b).

Definition before (rev : bool) (a b : value) : bool :=
  if rev then key_lt b a else key_lt a b.

Section StableSort.
Context {A : Type} (key : A -> value) (rev : bool).

Fixpoint insert_by (x : A) (l : list A) : list A :=
  match l with
  | [] => [x]
  | y :: l' => if before rev (key x) (key y) then x :: l else y :: insert_by x l'
  end.

(** Each element is inserted after the elements already placed whose
    keys are not greater, so equal keys keep their input order. *)
Definition stable_sort (l : list A) : list A :=
  foldl (fun acc x => insert_by x acc) [] l.

(** The sort raises [TypeError] as soon as it compares two unorderable
    keys; a comparison sort compares every pair that ends up adjacent,
    so it raises exactly when some pair of keys is unorderable. *)
Fixpoint all_orderable (l : list A) : bool :=
  match l with
  | [] => true
  | x :: l' => forallb (fun y => bool_decide (is_Some (py_lt (key x) (key y)))) l'
               && all_orderable l'
  end.

Definition py_sorted (l : list A) : res (list A) :=
  if all_orderable l then Ok (stable_sort l) else Raise TypeError.
End StableSort.

(** [if sort_by.startswith('-'): sort_by = sort_by[1:]; reverse = True] *)
Definition strip_desc (sort_by : string) (reverse : bool) : string * bool :=
  match sort_by with
  | String c rest => if bool_decide (c = "-"%char) then (rest, true) else (sort_by, reverse)
  | EmptyString => (sort_by, reverse)
  end.

(** [sort_items]: [sorted(items, key=lambda x: x.get(sort_by, ''),
    reverse=reverse)]; a document without the field sorts with key [''] . *)
Definition sort_items (items : list doc) (sort_by : string) (reverse : bool)
    : res (list doc) :=
  let '(sort_by', reverse') := strip_desc sort_by reverse in
  py_sorted (fun x => get_or x sort_by' (VStr "")) reverse' items.

(** [paginate_items]: [items[(page-1)*per_page : (page-1)*per_page+per_page]]. *)
Definition paginate_items {A} (items : list A) (page per_page : Z) : list A :=
  let start := (page - 1) * per_page in
  let stop := start + per_page in
  py_slice items (Some start) (Some stop).

(** ** Theorems about the store *)

(** The id of a document as the store reads it: [item.get('id')]. *)
Definition doc_id (d : doc) : value := get_or d "id" VNone.

(** Ids are pairwise distinct under Python's [==]. *)
Fixpoint ids_distinct (docs : list doc) : bool :=
  match docs with
  | [] => true
  | d :: ds => forallb (fun d' => negb (py_eq (doc_id d) (doc_id d'))) ds && ids_distinct ds
  end.

Definition ids_pairwise (docs : list doc) : Prop :=
  ForallOrdPairs (fun a b => py_eq (doc_id a) (doc_id b) = false) docs.

Lemma ids_distinct_spec docs : ids_distinct docs = true <-> ids_pairwise docs.
Proof.
  unfold ids_pairwise. induction docs as [|d ds IH]; simpl.
  - split; [constructor|done].
  - rewrite andb_true_iff, forallb_forall, IH. split.
    + intros [Hd Hds]. constructor; [|done]. apply Forall_forall.
      intros d' Hin. apply negb_true_iff, Hd. by apply list_elem_of_In.
    + intros Hp. inversion Hp as [|? ? Hd Hds]; subst. split; [|done].
      intros d' Hin. apply negb_true_iff. rewrite Forall_forall in Hd.
      apply Hd. by apply list_elem_of_In.
Qed.

Section StoreTheorems.
Context `{Runtime}.
Local Open Scope py_scope.

Lemma load_data_valid name w docs :
  w_files w !! name = Some (FJson docs) -> load_data name w = (w, Ok docs).
Proof. intros Hf. unfold load_data. by rewrite Hf. Qed.

(** The run of [create_item] on a readable collection. *)
Lemma create_item_run name item docs w :
  w_files w !! name = Some (FJson docs) ->
  exists w' d, create_item name item w = (w', Ok d) /\
    w_files w' !! name = Some (FJson (docs ++ [d])) /\
    d !! "created_at" = Some (VStr (rt_now (w_ticks w))) /\
    d !! "updated_at" = Some (VStr (rt_now (w_ticks w))) /\
    d !! "id" = Some (default (VStr (rt_uuid4 (w_draws w))) (item !! "id")) /\
    (forall k, k ≠ "id" -> k ≠ "created_at" -> k ≠ "updated_at" -> d !! k = item !! k).
Proof.
  intros Hf. unfold create_item. st_simpl. rewrite (load_data_valid _ _ _ Hf).
  destruct (item !! "id") as [v|] eqn:Hid; simpl; eexists _, _; (split; [reflexivity|]);
    simpl; rewrite lookup_insert_eq; split_and!; try done;
    try (intros k ? ? ?; by rewrite !lookup_insert_ne); by simplify_map_eq.
Qed.

(** The run of [update_item] when the id is found. *)
Lemma update_item_run name docs w item_id upd i old :
  w_files w !! name = Some (FJson docs) ->
  find_index (id_matches item_id) docs = Some i -> docs !! i = Some old ->
  exists w' d, update_item name item_id upd w = (w', Ok (Some d)) /\
    w_files w' !! name = Some (FJson (<[i := d]> docs)) /\
    d !! "id" = Some item_id /\
    d !! "created_at" = match old !! "created_at" with
                        | Some c => Some c
                        | None => upd !! "created_at"
                        end /\
    d !! "updated_at" = Some (VStr (rt_now (w_ticks w))) /\
    (forall k, k ≠ "id" -> k ≠ "created_at" -> k ≠ "updated_at" -> d !! k = upd !! k).
Proof.
  intros Hf Hi Hold. unfold update_item, update_commit. st_simpl.
  rewrite (load_data_valid _ _ _ Hf), Hi, Hold. simpl.
  eexists _, _; split; [reflexivity|]. simpl. rewrite lookup_insert_eq.
  destruct (old !! "created_at") as [c|] eqn:Hc; split_and!; try done;
    try (intros k ? ? ?; by rewrite !lookup_insert_ne); by simplify_map_eq.
Qed.

(** a collection whose file is missing or does not parse is reset to
    an empty list on disk and read as empty. *)
Theorem load_data_resets name w :
  (forall docs, w_files w !! name ≠ Some (FJson docs)) ->
  load_data name ⟦ w ⟧ ⇓ set_files (<[name := FJson []]> (w_files w)) w, Ok [].
Proof.
  intros Hf. unfold load_data.
  destruct (w_files w !! name) as [[docs|]|]; [by destruct (Hf docs)|done|done].
Qed.

(** C13: [create_item] on a readable collection returns, and the stored
    document is the caller's fields plus the id (the caller's, or a fresh
    [uuid4]) and both timestamps set to the same clock reading; it is
    appended at the end of the collection. *)
Theorem create_item_spec name item docs w :
  w_files w !! name = Some (FJson docs) ->
  exists w' d, create_item name item w = (w', Ok d) /\
    w_files w' !! name = Some (FJson (docs ++ [d])) /\
    d !! "created_at" = Some (VStr (rt_now (w_ticks w))) /\
    d !! "updated_at" = Some (VStr (rt_now (w_ticks w))) /\
    d !! "id" = Some (default (VStr (rt_uuid4 (w_draws w))) (item !! "id")) /\
    (forall k, k ≠ "id" -> k ≠ "created_at" -> k ≠ "updated_at" -> d !! k = item !! k).
Proof. apply create_item_run. Qed.
End StoreTheorems.

Section IdTheorems.
Context `{Runtime}.

(** creating a document without an id keeps the ids of the collection
    pairwise distinct, provided the fresh [uuid4] differs from every id
    already stored. *)
Theorem create_item_keeps_ids_distinct name item docs w :
  w_files w !! name = Some (FJson docs) ->
  ids_distinct docs = true ->
  item !! "id" = None ->
  Forall (fun d => py_eq (doc_id d) (VStr (rt_uuid4 (w_draws w))) = false) docs ->
  exists w' d docs', create_item name item w = (w', Ok d) /\
    w_files w' !! name = Some (FJson docs') /\ ids_distinct docs' = true.
Proof.
  intros Hf Hdist%ids_distinct_spec Hnone Hfresh.
  destruct (create_item_run name item docs w Hf) as (w' & d & Hrun & Hw' & _ & _ & Hid & _).
  exists w', d, (docs ++ [d])%list. split_and!; [done|done|].
  apply ids_distinct_spec, ForallOrdPairs_snoc. split; [done|].
  assert (doc_id d = VStr (rt_uuid4 (w_draws w))) as Hd
    by (rewrite Hnone in Hid; unfold doc_id, get_or; by rewrite Hid).
  by rewrite Hd.
Qed.

(** [create_item] does not check a caller-supplied id: creating a
    document whose [id] equals a stored one leaves two documents with
    that id in the collection. *)
Theorem create_item_duplicate_id name item docs w v d0 :
  w_files w !! name = Some (FJson docs) ->
  item !! "id" = Some v ->
  d0 ∈ docs -> py_eq (doc_id d0) v = true ->
  exists w' d docs', create_item name item w = (w', Ok d) /\
    w_files w' !! name = Some (FJson docs') /\ ids_distinct docs' = false.
Proof.
  intros Hf Hv Hin Heq.
  destruct (create_item_run name item docs w Hf) as (w' & d & Hrun & Hw' & _ & _ & Hid & _).
  exists w', d, (docs ++ [d])%list. split_and!; [done|done|].
  destruct (ids_distinct _) eqn:E; [exfalso|done].
  apply ids_distinct_spec, ForallOrdPairs_snoc in E as [_ Hall]. rewrite Forall_forall in Hall.
  specialize (Hall d0 Hin). simpl in Hall.
  assert (doc_id d = v) as Hd by (rewrite Hv in Hid; unfold doc_id, get_or; by rewrite Hid).
  rewrite Hd in Hall. congruence.
Qed.
End IdTheorems.

Section UpdateDelete.
Context `{Runtime}.

(** C14: [update_item] on the first document [old] whose id equals
    [item_id] replaces it in place by the caller's fields with [id] set
    to [item_id], [created_at] copied from [old] when [old] has one and
    [updated_at] set to the current clock reading. *)
Theorem update_item_found name docs w item_id upd i old :
  w_files w !! name = Some (FJson docs) ->
  find_index (id_matches item_id) docs = Some i -> docs !! i = Some old ->
  exists w' d, update_item name item_id upd w = (w', Ok (Some d)) /\
    w_files w' !! name = Some (FJson (<[i := d]> docs)) /\
    d !! "id" = Some item_id /\
    d !! "created_at" = match old !! "created_at" with
                        | Some c => Some c
                        | None => upd !! "created_at"
                        end /\
    d !! "updated_at" = Some (VStr (rt_now (w_ticks w))) /\
    (forall k, k ≠ "id" -> k ≠ "created_at" -> k ≠ "updated_at" -> d !! k = upd !! k).
Proof. apply update_item_run. Qed.

(** when no document has the id, [update_item] returns [None] and the
    collection is left as it was. *)
Theorem update_item_absent name docs w item_id upd :
  w_files w !! name = Some (FJson docs) ->
  Forall (fun d => id_matches item_id d = false) docs ->
  update_item name item_id upd w = (w, Ok None).
Proof.
  intros Hf Hnone. apply find_index_None in Hnone.
  unfold update_item, update_commit. st_simpl. by rewrite (load_data_valid _ _ _ Hf), Hnone.
Qed.

Lemma elem_of_drop_lookup {A} (l : list A) n x :
  x ∈ drop n l -> exists j, (n <= j)%nat /\ l !! j = Some x.
Proof.
  intros [k Hk]%list_elem_of_lookup. rewrite lookup_drop in Hk.
  exists (n + k)%nat. split; [lia|done].
Qed.

(** C15: in a collection with distinct ids, [delete_item] of a present id
    returns the deleted document, shortens the collection by one and
    leaves no document with that id; of an absent id it returns [None]
    and changes nothing. *)
Theorem delete_item_spec name docs w item_id :
  w_files w !! name = Some (FJson docs) -> ids_distinct docs = true ->
  exists w' r, delete_item name item_id w = (w', Ok r) /\
    match r with
    | Some d => id_matches item_id d = true /\ exists docs',
        w_files w' !! name = Some (FJson docs') /\
        length docs' = pred (length docs) /\
        Forall (fun d' => id_matches item_id d' = false) docs'
    | None => w' = w /\ Forall (fun d => id_matches item_id d = false) docs
    end.
Proof.
  intros Hf Hdist%ids_distinct_spec. unfold delete_item. st_simpl. rewrite (load_data_valid _ _ _ Hf).
  destruct (find_index (id_matches item_id) docs) as [i|] eqn:Hi.
  - destruct (find_index_spec _ _ _ Hi) as (d & Hd & Hmatch & Hbefore).
    simpl. rewrite Hd. eexists _, _; split; [reflexivity|].
    split; [done|]. exists (pop_at i docs). simpl. rewrite lookup_insert_eq.
    split_and!; [done|apply length_pop_at; by eapply lookup_lt_Some|].
    apply Forall_forall. intros d' Hd'. unfold pop_at in Hd'.
    apply elem_of_app in Hd' as [Hd'|Hd'].
    + apply elem_of_take in Hd' as (j & Hj & Hji). by apply (Hbefore j).
    + apply elem_of_drop_lookup in Hd' as (j & Hij & Hj).
      pose proof (ForallOrdPairs_lookup _ _ i j _ _ Hdist ltac:(lia) Hd Hj) as Hne.
      simpl in Hne. destruct (id_matches item_id d') eqn:Hm; [|done].
      unfold id_matches in Hmatch, Hm. rewrite py_eq_sym in Hm.
      pose proof (py_eq_trans _ _ _ Hmatch Hm) as Heq.
      unfold doc_id in Hne. congruence.
  - apply find_index_None in Hi. simpl. eexists _, _. by split.
Qed.
End UpdateDelete.

(** ** The filter grammar *)

Section Filters.
Context `{Runtime}.

Lemma apply_filter_sublist kv data r :
  apply_filter kv data = Ok r -> r `sublist_of` data.
Proof.
  destruct kv as [key v]. unfold apply_filter.
  repeat case_match; intros Hr; simplify_eq;
    try (apply res_filter_ok in Hr; subst); try apply sublist_filter; done.
Qed.

Lemma apply_filters_sub fs data r :
  apply_filters fs data = Ok r -> r `sublist_of` data.
Proof.
  revert data; induction fs as [|kv fs IH]; intros data Hr; simpl in Hr.
  - by injection Hr as <-.
  - destruct (apply_filter kv data) as [data'|] eqn:E; [|done].
    etrans; [by apply IH|]. by eapply apply_filter_sublist.
Qed.

(** a filter dict only removes documents: whatever the keys, a
    successful [apply_filters] returns a sublist of the collection, in
    the collection's order. *)
Theorem apply_filters_sublist fs data r :
  apply_filters fs data = Ok r -> r `sublist_of` data.
Proof. apply apply_filters_sub. Qed.

Lemma apply_filter_two key v fld op data :
  split_dunder key = [fld; op] ->
  apply_filter (key, v) data =
    if bool_decide (op = "contains") then res_filter (contains_test fld v) data
    else if bool_decide (op = "exact") then Ok (filter (fun it => exact_test fld v it = true) data)
    else if bool_decide (op = "in") then res_filter (in_test fld v) data
    else Ok data.
Proof.
  intros Hs. unfold apply_filter.
  rewrite split_dunder_long_contains by (rewrite Hs; simpl; lia). by rewrite Hs.
Qed.

Lemma get_all_items_one name docs w kv :
  w_files w !! name = Some (FJson docs) ->
  get_all_items name [kv] w = (w, apply_filter kv docs).
Proof.
  intros Hf. unfold get_all_items. st_simpl. rewrite (load_data_valid _ _ _ Hf).
  simpl. by destruct (apply_filter kv docs).
Qed.

(** [field__contains] with a string is a case-insensitive substring
    test on [str()] of the field; documents without the field are
    dropped. *)
Theorem get_all_items_contains name docs w key fld s :
  w_files w !! name = Some (FJson docs) ->
  split_dunder key = [fld; "contains"] ->
  get_all_items name [(key, VStr s)] w =
    (w, Ok (filter (fun d => match d !! fld with
                             | Some x => str_contains (str_lower s) (str_lower (py_str x))
                             | None => false
                             end = true) docs)).
Proof.
  intros Hf Hs. rewrite (get_all_items_one _ _ _ _ Hf), (apply_filter_two _ _ _ _ _ Hs).
  simpl. f_equal. apply res_filter_pure. intros d. unfold contains_test. by destruct (d !! fld).
Qed.

(** [field__in] with a list keeps the documents whose field is [==]
    to one of the candidates. *)
Theorem get_all_items_in name docs w key fld cands :
  w_files w !! name = Some (FJson docs) ->
  split_dunder key = [fld; "in"] ->
  get_all_items name [(key, VList cands)] w =
    (w, Ok (filter (fun d => match d !! fld with
                             | Some x => existsb (py_eq x) cands
                             | None => false
                             end = true) docs)).
Proof.
  intros Hf Hs. rewrite (get_all_items_one _ _ _ _ Hf), (apply_filter_two _ _ _ _ _ Hs).
  simpl. f_equal. apply res_filter_pure. intros d. unfold in_test. by destruct (d !! fld).
Qed.

(** a key [field__op] whose operator is not [contains], [exact] or
    [in] (for instance [gte] or [icontains]) is silently ignored: the
    filter keeps every document. *)
Theorem apply_filter_unknown_operator key fld op v data :
  split_dunder key = [fld; op] ->
  op ≠ "contains" -> op ≠ "exact" -> op ≠ "in" ->
  apply_filter (key, v) data = Ok data.
Proof.
  intros Hs H1 H2 H3. rewrite (apply_filter_two _ _ _ _ _ Hs).
  by rewrite !bool_decide_eq_false_2.
Qed.

(** a key with two or more [__] separators raises [ValueError]
    ([field, operator = key.split('__')] cannot unpack). *)
Theorem apply_filter_too_many_parts key v data :
  (3 <= length (split_dunder key))%nat ->
  apply_filter (key, v) data = Raise ValueError.
Proof.
  intros Hlen. unfold apply_filter.
  rewrite split_dunder_long_contains by lia.
  destruct (split_dunder key) as [|a [|b [|c t]]]; simpl in Hlen; [lia..|done].
Qed.

(** [field__contains] with a non-string value raises
    [AttributeError] ([value.lower()]) as soon as one document has the
    field, and filters nothing out otherwise. *)
Theorem contains_non_string_raises fld v data d :
  (forall s, v ≠ VStr s) -> d ∈ data -> is_Some (d !! fld) ->
  res_filter (contains_test fld v) data = Raise AttributeError.
Proof.
  intros Hv Hin [x Hx]. induction data as [|d' data IH]; [by apply not_elem_of_nil in Hin|].
  simpl. unfold contains_test at 1.
  destruct (d' !! fld) as [x'|] eqn:Hd'.
  - destruct v; try done. by destruct (Hv s).
  - apply elem_of_cons in Hin as [->|Hin]; [congruence|]. by rewrite IH.
Qed.

(** [item.get('id') == item_id] agrees with the [id] filter unless
    [item_id] equals [None], which a document without an id matches. *)
Lemma id_matches_exact_test i d :
  py_eq VNone i = false -> id_matches i d = exact_test "id" i d.
Proof. intros Hi. unfold id_matches, exact_test, get_or. by destruct (d !! "id"). Qed.

(** [get_item_by_id(name, item_id)] is the first result of
    [get_all_items(name, {'id': item_id})], state included, for every id
    that does not equal [None]. *)
Theorem get_item_by_id_as_filter name i w :
  py_eq VNone i = false ->
  get_item_by_id name i w =
    (let '(w', r) := get_all_items name [("id", i)] w in
     (w', match r with Ok items => Ok (head items) | Raise e => Raise e end)).
Proof.
  intros Hi. unfold get_item_by_id, get_all_items. st_simpl.
  destruct (load_data name w) as [w' [data|e]]; [|done]. simpl.
  rewrite (find_ext _ (exact_test "id" i)) by (intros; by apply id_matches_exact_test).
  by rewrite find_head_filter.
Qed.
End Filters.

(** ** Sorting *)

Lemma key_lt_asym a b : key_lt a b = true -> key_lt b a = false.
Proof.
  unfold key_lt. destruct (py_lt a b) as [[]|] eqn:E; simpl; try done.
  intros _. by rewrite (py_lt_asym _ _ E).
Qed.

Lemma before_asym rev a b : before rev a b = true -> before rev b a = false.
Proof. destruct rev; apply key_lt_asym. Qed.

Section SortTheorems.
Context {A : Type} (key : A -> value) (rev : bool).

(** [y] does not go strictly before [x]. *)
Definition not_before (x y : A) : Prop := before rev (key y) (key x) = false.

Lemma insert_by_perm x l : insert_by key rev x l ≡ₚ x :: l.
Proof.
  induction l as [|y l IH]; simpl; [done|].
  destruct (before rev (key x) (key y)); [done|].
  rewrite IH. apply perm_swap.
Qed.

Lemma insert_by_hd a x l :
  HdRel not_before a l -> not_before a x -> HdRel not_before a (insert_by key rev x l).
Proof.
  intros Hl Hax. destruct l as [|y l]; simpl; [by constructor|].
  destruct (before rev (key x) (key y)); constructor; [done|by inversion Hl].
Qed.

Lemma insert_by_sorted x l : Sorted not_before l -> Sorted not_before (insert_by key rev x l).
Proof.
  induction 1 as [|y l Hl IH Hhd]; simpl; [by repeat constructor|].
  destruct (before rev (key x) (key y)) eqn:Hxy.
  - constructor; [by constructor|]. constructor. unfold not_before. by apply before_asym.
  - constructor; [done|]. apply insert_by_hd; [done|]. done.
Qed.

Lemma stable_sort_foldl_perm acc l :
  foldl (fun acc x => insert_by key rev x acc) acc l ≡ₚ l ++ acc.
Proof.
  revert acc; induction l as [|x l IH]; intros acc; simpl; [done|].
  rewrite IH, insert_by_perm. by rewrite <- Permutation_middle.
Qed.

Lemma stable_sort_perm l : stable_sort key rev l ≡ₚ l.
Proof. unfold stable_sort. rewrite stable_sort_foldl_perm. by rewrite app_nil_r. Qed.

Lemma stable_sort_sorted l : Sorted not_before (stable_sort key rev l).
Proof.
  unfold stable_sort. generalize (@nil A) (Sorted_nil not_before).
  induction l as [|x l IH]; intros acc Hacc; simpl; [done|].
  apply IH. by apply insert_by_sorted.
Qed.
End SortTheorems.


(** the sort key of a document without the field is the string [''],
    which [<] cannot compare with a number: sorting a collection where one
    document has an integer in the field and another lacks it raises
    [TypeError]. *)
Theorem sort_items_missing_field_raises d1 d2 sort_by reverse fld rv n :
  strip_desc sort_by reverse = (fld, rv) ->
  d1 !! fld = Some (VInt n) -> d2 !! fld = None ->
  sort_items [d1; d2] sort_by reverse = Raise TypeError.
Proof.
  intros Hs H1 H2. unfold sort_items, py_sorted. rewrite Hs. simpl.
  unfold get_or. by rewrite H1, H2.
Qed.

(** ** Pagination *)

(** for a page number from 1 on, [paginate_items] returns the
    [per_page] items that follow the first [(page-1)*per_page] (fewer at
    the end of the list). *)
Theorem paginate_items_spec {A} (items : list A) page per_page :
  1 <= page -> 0 <= per_page ->
  paginate_items items page per_page =
    take (Z.to_nat per_page) (drop (Z.to_nat ((page - 1) * per_page)) items).
Proof.
  intros Hp Hpp. unfold paginate_items.
  rewrite py_slice_nonneg by nia.
  set (n := Z.of_nat (length items)). set (a := (page - 1) * per_page).
  destruct (Z.le_gt_cases n a) as [Hna|Han].
  - rewrite !drop_ge by lia. by rewrite !take_nil.
  - rewrite (Z.min_l a n) by lia.
    destruct (Z.le_gt_cases (a + per_page) n) as [Hb|Hb].
    + rewrite Z.min_l by lia. f_equal. lia.
    + rewrite Z.min_r by lia. rewrite !take_ge; [done| |]; rewrite length_drop; lia.
Qed.

(** a negative page number counts from the end of the list, as Python
    slicing does: page [-k] returns the [per_page] items ending
    [(k-1)*per_page] items before the end, instead of an empty page. *)
Theorem paginate_items_negative_page {A} (items : list A) page per_page :
  page < 0 -> 0 < per_page -> (1 - page) * per_page <= Z.of_nat (length items) ->
  paginate_items items page per_page =
    take (Z.to_nat per_page)
         (drop (Z.to_nat (Z.of_nat (length items) + (page - 1) * per_page)) items).
Proof.
  intros Hp Hpp Hlen. unfold paginate_items, py_slice, slice_bound.
  destruct (Z.ltb_spec ((page - 1) * per_page) 0); [|nia].
  destruct (Z.ltb_spec ((page - 1) * per_page + per_page) 0); [|nia].
  rewrite !Z.max_r by nia.
  replace ((page - 1) * per_page + per_page + Z.of_nat (length items) -
           ((page - 1) * per_page + Z.of_nat (length items))) with per_page by lia.
  by rewrite (Z.add_comm ((page - 1) * per_page)).
Qed.

(** ** Concrete runs *)

Section Witnesses.
#[local] Existing Instance demo_runtime.

Definition chair : doc :=
  {[ "id" := VStr "a"; "title" := VStr "Blue Chair"; "created_at" := VStr "t0" ]}.
Definition table : doc :=
  {[ "id" := VStr "b"; "title" := VStr "Red Table"; "created_at" := VStr "t1" ]}.
Definition demo_world : world :=
  mk_world {[ "marketplace_items" := FJson [chair; table]; "users" := FCorrupt ]} 0 0.

Lemma load_data_resets_witness :
  (forall docs, w_files demo_world !! "users" ≠ Some (FJson docs)) /\
  load_data "users" demo_world =
    (set_files (<[ "users" := FJson [] ]> (w_files demo_world)) demo_world, Ok []).
Proof.
  assert (Hc : forall docs, w_files demo_world !! "users" ≠ Some (FJson docs))
    by (intros docs; vm_compute; discriminate).
  split; [exact Hc|]. exact (load_data_resets "users" demo_world Hc).
Defined.

Lemma get_item_by_id_as_filter_witness :
  get_item_by_id "marketplace_items" (VStr "a") demo_world =
    (let '(w', r) := get_all_items "marketplace_items" [("id", VStr "a")] demo_world in
     (w', match r with Ok items => Ok (head items) | Raise e => Raise e end)).
Proof. apply get_item_by_id_as_filter. reflexivity. Defined.

(** With [item_id = None] the two disagree: [item.get('id') == None]
    holds for a document without an id, which the [id] filter drops. *)
Lemma get_item_by_id_none_diverges :
  let note := {[ "title" := VStr "no id" ]} in
  let w := mk_world {[ "notes" := FJson [note] ]} 0 0 in
  get_item_by_id "notes" VNone w = (w, Ok (Some note)) /\
  get_all_items "notes" [("id", VNone)] w = (w, Ok []).
Proof. split; reflexivity. Qed.
End Witnesses.

Section StoreRuns.
Context `{Runtime}.

Lemma get_all_items_valid name docs w fs :
  w_files w !! name = Some (FJson docs) ->
  get_all_items name fs w = (w, apply_filters fs docs).
Proof.
  intros Hf. unfold get_all_items. st_simpl. rewrite (load_data_valid _ _ _ Hf).
  destruct fs; simpl; [done|]. by destruct (apply_filter _ docs).
Qed.

Lemma apply_filters_app fs1 fs2 data :
  apply_filters (fs1 ++ fs2) data =
    match apply_filters fs1 data with Ok r => apply_filters fs2 r | Raise e => Raise e end.
Proof.
  revert data; induction fs1 as [|kv fs1 IH]; intros data; simpl; [done|].
  destruct (apply_filter kv data); [apply IH|done].
Qed.
End StoreRuns.

(** ** Concrete runs of the store theorems *)

Section StoreWitnesses.
#[local] Existing Instance demo_runtime.

Definition lamp : doc := {[ "title" := VStr "Lamp" ]}.

Lemma create_item_spec_witness :
  exists w' d, create_item "marketplace_items" lamp demo_world = (w', Ok d) /\
    d !! "id" = Some (VStr "uuid-0") /\ d !! "title" = Some (VStr "Lamp").
Proof.
  destruct (create_item_spec "marketplace_items" lamp [chair; table] demo_world)
    as (w' & d & Hc & _ & _ & _ & Hid & Hrest); [reflexivity|].
  exists w', d. split_and!; [exact Hc|rewrite Hid; reflexivity|].
  rewrite Hrest; [reflexivity|discriminate..].
Defined.

Lemma create_item_keeps_ids_distinct_witness :
  exists w' d docs', create_item "marketplace_items" lamp demo_world = (w', Ok d) /\
    w_files w' !! "marketplace_items" = Some (FJson docs') /\ ids_distinct docs' = true.
Proof.
  apply (create_item_keeps_ids_distinct "marketplace_items" lamp [chair; table] demo_world);
    [reflexivity|reflexivity|reflexivity|repeat constructor].
Defined.

Definition second_chair : doc := {[ "id" := VStr "a"; "title" := VStr "Green Chair" ]}.

Lemma create_item_duplicate_id_witness :
  exists w' d docs', create_item "marketplace_items" second_chair demo_world = (w', Ok d) /\
    w_files w' !! "marketplace_items" = Some (FJson docs') /\ ids_distinct docs' = false.
Proof.
  apply (create_item_duplicate_id "marketplace_items" second_chair [chair; table] demo_world
           (VStr "a") chair); [reflexivity|reflexivity|left|reflexivity].
Defined.

Lemma update_item_found_witness :
  exists w' d, update_item "marketplace_items" (VStr "b") lamp demo_world = (w', Ok (Some d)) /\
    d !! "created_at" = Some (VStr "t1") /\ d !! "title" = Some (VStr "Lamp").
Proof.
  destruct (update_item_found "marketplace_items" [chair; table] demo_world (VStr "b") lamp 1 table)
    as (w' & d & Hu & _ & _ & Hc & _ & Hrest); [reflexivity|reflexivity|reflexivity|].
  exists w', d. split_and!; [exact Hu|rewrite Hc; reflexivity|].
  rewrite Hrest; [reflexivity|discriminate..].
Defined.

Lemma delete_item_spec_witness :
  exists w' r, delete_item "marketplace_items" (VStr "a") demo_world = (w', Ok r).
Proof.
  destruct (delete_item_spec "marketplace_items" [chair; table] demo_world (VStr "a"))
    as (w' & r & Hd & _); [reflexivity|reflexivity|]. by exists w', r.
Defined.

Lemma apply_filters_sublist_witness : [chair] `sublist_of` [chair; table].
Proof. apply (apply_filters_sublist [("title", VStr "Blue Chair")]). reflexivity. Defined.

Lemma get_all_items_contains_witness :
  get_all_items "marketplace_items" [("title__contains", VStr "blue")] demo_world = (demo_world, Ok [chair]).
Proof.
  rewrite (get_all_items_contains "marketplace_items" [chair; table] demo_world "title__contains"
             "title" "blue"); reflexivity.
Defined.

Lemma apply_filter_unknown_operator_witness :
  apply_filter ("title__startswith", VStr "Blue") [chair; table] = Ok [chair; table].
Proof.
  apply (apply_filter_unknown_operator _ "title" "startswith"); [reflexivity|discriminate..].
Defined.

Lemma apply_filter_too_many_parts_witness :
  apply_filter ("owner__name__contains", VStr "x") [chair] = Raise ValueError.
Proof. apply apply_filter_too_many_parts. vm_compute. lia. Defined.

Lemma contains_non_string_raises_witness :
  res_filter (contains_test "title" (VInt 3)) [chair; table] = Raise AttributeError.
Proof.
  apply (contains_non_string_raises "title" (VInt 3) [chair; table] chair);
    [discriminate|left|eexists; reflexivity].
Defined.


Lemma sort_items_missing_field_raises_witness :
  sort_items [{[ "price" := VInt 5 ]}; chair] "price" false = Raise TypeError.
Proof. apply (sort_items_missing_field_raises _ _ _ _ "price" false 5); reflexivity. Defined.

Lemma paginate_items_spec_witness : paginate_items [1; 2; 3; 4; 5]%Z 2 2 = [3; 4]%Z.
Proof. rewrite paginate_items_spec by lia. reflexivity. Defined.

Lemma paginate_items_negative_page_witness : paginate_items [1; 2; 3; 4; 5]%Z (-1) 2 = [2; 3]%Z.
Proof. rewrite paginate_items_negative_page by (simpl; lia). reflexivity. Defined.
End StoreWitnesses.
