(* ===== verification/Entity.v ===== *)
(** The six adapter classes of [src/main_app/data/model_adapter.py] as
    data: which JSON file each one reads ([file_name]), which read-only
    properties it declares, and its constructor [__init__], which copies a
    document into the instance's attributes. *)

From S2P Require Import Prelude PyValue JsonStore.

Open Scope string_scope.

(** ** The adapter classes *)

Inductive model :=
  | RecyclingCenterAdapter
  | CategoryAdapter
  | MarketplaceItemAdapter
  | UserPreferenceAdapter
  | ItemRecommendationAdapter
  | UserAdapter.

#[export] Instance model_eq_dec : EqDecision model.
Proof. solve_decision. Defined.

(** The class attribute [file_name]. *)
Definition file_name (m : model) : string :=
  match m with
  | RecyclingCenterAdapter => "recycling_centers"
  | CategoryAdapter => "categories"
  | MarketplaceItemAdapter => "marketplace_items"
  | UserPreferenceAdapter => "user_preferences"
  | ItemRecommendationAdapter => "item_recommendations"
  | UserAdapter => "users"
  end.

(** [cls.__name__], carried by the exceptions the class raises. *)
Definition class_name (m : model) : string :=
  match m with
  | RecyclingCenterAdapter => "RecyclingCenterAdapter"
  | CategoryAdapter => "CategoryAdapter"
  | MarketplaceItemAdapter => "MarketplaceItemAdapter"
  | UserPreferenceAdapter => "UserPreferenceAdapter"
  | ItemRecommendationAdapter => "ItemRecommendationAdapter"
  | UserAdapter => "UserAdapter"
  end.

(** The [@property] methods of each class: read-only attributes that
    [setattr] cannot overwrite. *)
Definition properties (m : model) : list string :=
  match m with
  | RecyclingCenterAdapter => []
  | CategoryAdapter => ["items"]
  | MarketplaceItemAdapter => ["category"; "owner"]
  | UserPreferenceAdapter => ["user"; "preferred_categories"]
  | ItemRecommendationAdapter => ["user"; "item"]
  | UserAdapter => ["items"; "preference"; "recommendations"]
  end.

(** An adapter instance: its class and its [__dict__]. *)
Record entity := mk_entity {
  ent_model : model;
  ent_attrs : doc
}.

(** [cls(...)] with the document as keyword arguments: [setattr(self, key, value)] for every key, which
    raises [AttributeError] on a key that names a property of the class;
    [UserPreferenceAdapter] then defaults [preferred_category_ids] to
    [[]]. *)
Definition construct (m : model) (kwargs : doc) : res entity :=
  if bool_decide (Exists (fun k => is_Some (kwargs !! k)) (properties m)) then
    Raise AttributeError
  else
    let attrs :=
      match m with
      | UserPreferenceAdapter =>
          match kwargs !! "preferred_category_ids" with
          | Some _ => kwargs
          | None => <["preferred_category_ids" := VList []]> kwargs
          end
      | _ => kwargs
      end in
    Ok (mk_entity m attrs).

(** [getattr(self, name)] / [hasattr(self, name)] on an instance attribute. *)
Definition attr (e : entity) (k : string) : option value := ent_attrs e !! k.

(** ** Construction *)

(** building an adapter from a document keeps every field of the
    document as an attribute, unless a field names one of the class's
    read-only properties. *)
Theorem construct_keeps_fields m d e k v :
  construct m d = Ok e -> d !! k = Some v -> attr e k = Some v.
Proof.
  unfold construct, attr. case_bool_decide; [done|]. intros [= <-] Hk. simpl.
  destruct m; simpl; try done. case_match eqn:E; [done|].
  rewrite lookup_insert_ne; [done|]. intros <-. congruence.
Qed.

(** a document with a field named like a property of the class (for
    instance [category] on a marketplace item) cannot be turned into an
    adapter: [setattr] raises [AttributeError]. *)
Theorem construct_property_field_raises m d k v :
  k ∈ properties m -> d !! k = Some v -> construct m d = Raise AttributeError.
Proof.
  intros Hk Hd. unfold construct. rewrite bool_decide_eq_true_2; [done|].
  apply Exists_exists. exists k. split; [done|]. by rewrite Hd.
Qed.

Lemma construct_ok m d :
  Forall (fun k => d !! k = None) (properties m) -> exists e, construct m d = Ok e /\ ent_model e = m.
Proof.
  intros Hnone. unfold construct. rewrite bool_decide_eq_false_2; [by eexists|].
  intros (k & Hin & Hk)%Exists_exists. rewrite Forall_forall in Hnone.
  rewrite (Hnone k) in Hk; [by destruct Hk|done].
Qed.

(** ** A concrete run *)

Lemma construct_property_field_raises_witness :
  construct MarketplaceItemAdapter {[ "title" := VStr "Sofa"; "category" := VStr "furniture" ]}
    = Raise AttributeError.
Proof.
  apply (construct_property_field_raises _ _ "category" (VStr "furniture")); [left|reflexivity].
Defined.
