(* ===== verification/QuerySet.v ===== *)
(** [QuerySetAdapter] of [src/main_app/data/model_adapter.py]: a filter
    dict, an ordering field and a result cache.  A method that evaluates
    the query fills the cache of the object it is called on, so every such
    method returns the updated builder along with its result (state
    passing on the builder object); [filter], [order_by] and [exclude]
    build new builders. *)

From S2P Require Import Prelude PyValue JsonStore Entity.
From Stdlib Require Import Ascii.

Open Scope string_scope.

Record queryset := mk_qs {
  qs_model : model;
  qs_filters : fdict;
  qs_order : option string;
  qs_cache : option (list doc)
}.

(** [QuerySetAdapter(model_class, filters=None, order_by=None)] *)
Definition new_qs (m : model) (filters : fdict) (order : option string) : queryset :=
  mk_qs m filters order None.

(** ** Dict update *)

(** [d[k] = v]: an existing key keeps its position. *)
Fixpoint dict_set (d : fdict) (k : string) (v : value) : fdict :=
  match d with
  | [] => [(k, v)]
  | (k', v') :: d' => if bool_decide (k = k') then (k, v) :: d' else (k', v') :: dict_set d' k v
  end.

(** [d.update(kwargs)] *)
Definition dict_update (d kwargs : fdict) : fdict :=
  foldl (fun acc '(k, v) => dict_set acc k v) d kwargs.

(** [d.get(k)] on a filter dict. *)
Fixpoint dict_get (d : fdict) (k : string) : option value :=
  match d with
  | [] => None
  | (k', v) :: d' => if bool_decide (k = k') then Some v else dict_get d' k
  end.

Section QuerySetOps.
Context `{Runtime}.

(** [filter(kwargs)] *)
Definition qs_filter (qs : queryset) (kwargs : fdict) : queryset :=
  new_qs (qs_model qs) (dict_update (qs_filters qs) kwargs) (qs_order qs).

(** [order_by(field)] *)
Definition qs_order_by (qs : queryset) (fld : string) : queryset :=
  new_qs (qs_model qs) (qs_filters qs) (Some fld).

(** [_fetch_results]: the cached list, or a fresh scan sorted by the
    ordering field ([-] requests descending order; [sort_items] strips a
    second [-] again) which is then cached. *)
Definition fetch (qs : queryset) : st world (queryset * list doc) :=
  match qs_cache qs with
  | Some r => mret (qs, r)
  | None =>
      results ← get_all_items (file_name (qs_model qs)) (qs_filters qs);
      results' ←
        (match qs_order qs with
         | Some fld =>
             if bool_decide (fld = "") then mret results
             else let '(fld', rev) := strip_desc fld false in
                  lift_res (sort_items results fld' rev)
         | None => mret results
         end);
      mret (mk_qs (qs_model qs) (qs_filters qs) (qs_order qs) (Some results'), results')
  end.

(** [exclude(kwargs)]: evaluates [self], drops every item for which
    {e some} key is present with an equal value, and returns a new builder
    whose cache already holds the rest. *)
Definition exclude_hit (kwargs : fdict) (item : doc) : bool :=
  existsb (fun '(k, v) => match item !! k with Some x => py_eq x v | None => false end) kwargs.

Definition qs_exclude (qs : queryset) (kwargs : fdict) : st world (queryset * queryset) :=
  '(self, results) ← fetch qs;
  let kept := filter (fun it => exclude_hit kwargs it = false) results in
  mret (self, mk_qs (qs_model qs) (qs_filters qs) (qs_order qs) (Some kept)).

(** [get(kwargs)]: a fresh scan with the merged filters; the cache and
    the ordering are not used. *)
Definition qs_get (qs : queryset) (kwargs : fdict) : st world entity :=
  items ← get_all_items (file_name (qs_model qs)) (dict_update (qs_filters qs) kwargs);
  match items with
  | [] => raise (DoesNotExist (class_name (qs_model qs)))
  | [d] => lift_res (construct (qs_model qs) d)
  | _ :: _ :: _ => raise (MultipleObjectsReturned (class_name (qs_model qs)))
  end.

(** [first()] and [last()] *)
Definition qs_first (qs : queryset) : st world (queryset * option entity) :=
  '(self, results) ← fetch qs;
  match results with
  | [] => mret (self, None)
  | d :: _ => e ← lift_res (construct (qs_model qs) d); mret (self, Some e)
  end.

Definition qs_last (qs : queryset) : st world (queryset * option entity) :=
  '(self, results) ← fetch qs;
  match last results with
  | None => mret (self, None)
  | Some d => e ← lift_res (construct (qs_model qs) d); mret (self, Some e)
  end.

(** [count()], [exists()] and [len()] *)
Definition qs_count (qs : queryset) : st world (queryset * nat) :=
  '(self, results) ← fetch qs; mret (self, length results).

Definition qs_exists (qs : queryset) : st world (queryset * bool) :=
  '(self, results) ← fetch qs; mret (self, negb (bool_decide (results = []))).

(** [__iter__]: the generator builds one adapter per cached document;
    a document that cannot be built stops the iteration with its
    exception. *)
Fixpoint construct_all (m : model) (docs : list doc) : res (list entity) :=
  match docs with
  | [] => Ok []
  | d :: ds =>
      match construct m d with
      | Raise e => Raise e
      | Ok e => match construct_all m ds with
                | Ok es => Ok (e :: es)
                | Raise ex => Raise ex
                end
      end
  end.

Definition qs_iter (qs : queryset) : st world (queryset * list entity) :=
  '(self, results) ← fetch qs;
  es ← lift_res (construct_all (qs_model qs) results);
  mret (self, es).

(** [__getitem__] with an integer and with a slice (step 1). *)
Definition qs_index (qs : queryset) (k : Z) : st world (queryset * entity) :=
  '(self, results) ← fetch qs;
  d ← lift_res (py_index results k);
  e ← lift_res (construct (qs_model qs) d);
  mret (self, e).

Definition qs_slice (qs : queryset) (i j : option Z) : st world (queryset * list entity) :=
  '(self, results) ← fetch qs;
  es ← lift_res (construct_all (qs_model qs) (py_slice results i j));
  mret (self, es).
End QuerySetOps.

(** ** Dict update *)

Lemma dict_get_set d k v k' :
  dict_get (dict_set d k v) k' = if bool_decide (k' = k) then Some v else dict_get d k'.
Proof.
  induction d as [|[k0 v0] d IH]; [done|]. cbn [dict_set].
  destruct (decide (k = k0)) as [->|Hne].
  - rewrite bool_decide_eq_true_2 by done. cbn [dict_get].
    by destruct (decide (k' = k0)); [rewrite !bool_decide_eq_true_2|rewrite !bool_decide_eq_false_2].
  - rewrite bool_decide_eq_false_2 by done. cbn [dict_get]. rewrite IH.
    destruct (decide (k' = k0)) as [->|]; [rewrite (bool_decide_eq_false_2 (k0 = k)) by congruence|];
      by repeat case_bool_decide.
Qed.

(** after [d.update(kwargs)], a key reads the value the last
    occurrence of the key in [kwargs] gives it, and the old value when
    [kwargs] does not mention it: later filters override earlier ones. *)
Theorem dict_update_get d kwargs k :
  dict_get (dict_update d kwargs) k =
    match dict_get (reverse kwargs) k with Some v => Some v | None => dict_get d k end.
Proof.
  unfold dict_update. revert d; induction kwargs as [|[k1 v1] kw IH]; intros d; simpl; [done|].
  rewrite IH, reverse_cons. clear IH. induction (reverse kw) as [|[k2 v2] r IHr]; simpl.
  - rewrite dict_get_set. by case_bool_decide.
  - by case_bool_decide.
Qed.

Lemma dict_set_fresh d k v : dict_get d k = None -> dict_set d k v = (d ++ [(k, v)])%list.
Proof.
  induction d as [|[k0 v0] d IH]; simpl; [done|].
  case_bool_decide; [done|]. intros Hk. by rewrite IH.
Qed.

Lemma dict_get_app d1 d2 k :
  dict_get (d1 ++ d2) k = match dict_get d1 k with Some v => Some v | None => dict_get d2 k end.
Proof. induction d1 as [|[k0 v0] d1 IH]; simpl; [done|]. by case_bool_decide. Qed.

(** Keys not yet in the dict are appended in order. *)
Lemma dict_update_fresh d kwargs :
  NoDup (map fst kwargs) -> Forall (fun kv => dict_get d kv.1 = None) kwargs ->
  dict_update d kwargs = (d ++ kwargs)%list.
Proof.
  unfold dict_update. revert d; induction kwargs as [|[k v] kw IH]; intros d Hnd Hfresh;
    simpl; [by rewrite app_nil_r|].
  apply NoDup_cons in Hnd as [Hk Hnd]. apply Forall_cons in Hfresh as [Hk' Hfresh].
  simpl in Hk'. rewrite dict_set_fresh by done.
  rewrite IH; [by rewrite <- app_assoc|done|].
  apply Forall_forall. intros [k2 v2] Hin. rewrite Forall_forall in Hfresh.
  simpl. rewrite dict_get_app. specialize (Hfresh (k2, v2) Hin). simpl in Hfresh.
  rewrite Hfresh. simpl. rewrite bool_decide_eq_false_2; [done|]. intros ->. apply Hk.
  apply list_elem_of_fmap. by exists (k, v2).
Qed.

(** ** Evaluation and the cache *)

Section QuerySetTheorems.
Context `{Runtime}.

Lemma fetch_cached qs r w : qs_cache qs = Some r -> fetch qs w = (w, Ok (qs, r)).
Proof. intros Hc. unfold fetch. by rewrite Hc. Qed.

(** The cache of an evaluated builder. *)
Lemma fetch_caches_run qs w w' qs' r :
  fetch qs w = (w', Ok (qs', r)) ->
  qs_cache qs' = Some r /\ forall w'', fetch qs' w'' = (w'', Ok (qs', r)).
Proof.
  unfold fetch. destruct (qs_cache qs) as [c|] eqn:Hc.
  - intros [= <- <- <-]. split; [done|]. intros w''. by rewrite Hc.
  - st_simpl. destruct (get_all_items _ _ w) as [w1 [res1|e]]; [|done].
    destruct (qs_order qs) as [fld|]; [case_bool_decide; [|destruct (strip_desc fld false)]|];
      simpl; try destruct (sort_items res1 _ _); intros [= <- <- <-]; by split.
Qed.

(** a builder is evaluated at most once: after a successful
    evaluation its cache holds the result, and every later evaluation
    returns that same list without reading the store, whatever the store
    holds by then. *)
Theorem fetch_caches qs w w' qs' r :
  fetch qs w = (w', Ok (qs', r)) ->
  qs_cache qs' = Some r /\ forall w'', fetch qs' w'' = (w'', Ok (qs', r)).
Proof. apply fetch_caches_run. Qed.

(** [count()] and [exists()] agree on an evaluated builder: the query
    exists exactly when it counts at least one document. *)
Theorem count_exists_agree qs w w' qs' n :
  qs_count qs w = (w', Ok (qs', n)) ->
  forall w'', qs_exists qs' w'' = (w'', Ok (qs', bool_decide (0 < n)%nat)).
Proof.
  unfold qs_count. st_simpl. destruct (fetch qs w) as [w1 [[q1 r1]|e]] eqn:E; [|done].
  intros [= <- <- <-] w''. destruct (fetch_caches_run _ _ _ _ _ E) as [_ Hc].
  unfold qs_exists. st_simpl. rewrite Hc. simpl.
  do 3 f_equal. destruct r1 as [|d r1]; [done|].
  rewrite (bool_decide_eq_false_2 (d :: r1 = [])) by done.
  rewrite bool_decide_eq_true_2; [done|]. simpl. lia.
Qed.

(** ** [exclude] *)

(** C35: [exclude] drops a document as soon as one of its keyword pairs
    matches, not only when all of them do: with two pairs, a document
    that matches the first and not the second is excluded. *)
Theorem exclude_drops_on_any_match qs kwargs w w' self ex d k v x :
  qs_exclude qs kwargs w = (w', Ok (self, ex)) ->
  (k, v) ∈ kwargs -> d !! k = Some x -> py_eq x v = true ->
  exists kept, qs_cache ex = Some kept /\ d ∉ kept.
Proof.
  unfold qs_exclude. st_simpl. destruct (fetch qs w) as [w1 [[q1 r1]|e]]; [|done].
  intros [= <- <- <-] Hin Hd Hx. eexists; split; [done|].
  rewrite list_elem_of_filter. intros [Hno _].
  assert (exclude_hit kwargs d = true) as Hhit; [|congruence].
  apply existsb_exists. exists (k, v). split; [by apply list_elem_of_In|]. by rewrite Hd.
Qed.

(** the exclusion is forgotten by chaining: [exclude(...).filter(...)]
    and [exclude(...).order_by(...)] are the same builders as
    [filter(...)] and [order_by(...)] on the original query, so their
    results contain the excluded documents again. *)
Theorem exclude_then_chain_forgets qs kwargs kw2 fld w w' self ex :
  qs_exclude qs kwargs w = (w', Ok (self, ex)) ->
  qs_filter ex kw2 = qs_filter qs kw2 /\ qs_order_by ex fld = qs_order_by qs fld.
Proof.
  unfold qs_exclude. st_simpl. destruct (fetch qs w) as [w1 [[q1 r1]|e]]; [|done].
  by intros [= <- <- <-].
Qed.

(** ** [get] *)

(** C17: [get(...)] on a readable collection raises [DoesNotExist] when no
    document matches the merged filters, [MultipleObjectsReturned] when two
    or more do, and builds the adapter of the single match otherwise; the
    store is not changed. *)
Theorem qs_get_cardinality qs kwargs w docs items :
  w_files w !! file_name (qs_model qs) = Some (FJson docs) ->
  apply_filters (dict_update (qs_filters qs) kwargs) docs = Ok items ->
  qs_get qs kwargs w =
    (w, match items with
        | [] => Raise (DoesNotExist (class_name (qs_model qs)))
        | [d] => construct (qs_model qs) d
        | _ => Raise (MultipleObjectsReturned (class_name (qs_model qs)))
        end).
Proof.
  intros Hf Hi. unfold qs_get. st_simpl.
  rewrite (get_all_items_valid _ _ _ _ Hf), Hi. by destruct items as [|? [|? ?]].
Qed.

(** ** Chained [filter] *)

(** chaining [filter] with new keys is a conjunction: evaluating
    [qs.filter(kwargs)] on an unordered query applies the query's filters
    and then the new ones to the collection. *)
Theorem filter_chain_composes qs kwargs w docs :
  w_files w !! file_name (qs_model qs) = Some (FJson docs) ->
  qs_order qs = None ->
  NoDup (map fst kwargs) -> Forall (fun kv => dict_get (qs_filters qs) kv.1 = None) kwargs ->
  exists qs', fetch (qs_filter qs kwargs) w =
    (w, match apply_filters (qs_filters qs) docs with
        | Ok r => match apply_filters kwargs r with
                  | Ok r' => Ok (qs', r')
                  | Raise e => Raise e
                  end
        | Raise e => Raise e
        end).
Proof.
  intros Hf Ho Hnd Hfresh. unfold fetch, qs_filter, new_qs. simpl. st_simpl.
  rewrite (get_all_items_valid _ _ _ _ Hf), dict_update_fresh, apply_filters_app by done.
  rewrite Ho. destruct (apply_filters (qs_filters qs) docs) as [r|e]; [|by exists qs].
  destruct (apply_filters kwargs r); by eexists.
Qed.
End QuerySetTheorems.

(** ** Concrete runs *)

Section QuerySetWitnesses.
#[local] Existing Instance demo_runtime.

Definition items_qs : queryset := new_qs MarketplaceItemAdapter [("title__contains", VStr "chair")] None.

Lemma qs_get_cardinality_witness :
  qs_get (new_qs MarketplaceItemAdapter [] None) [("title__contains", VStr "blue")] demo_world =
    (demo_world, construct MarketplaceItemAdapter chair).
Proof. rewrite (qs_get_cardinality _ _ _ [chair; table] [chair]); reflexivity. Defined.

Lemma fetch_caches_witness :
  exists w' qs' r, fetch items_qs demo_world = (w', Ok (qs', r)) /\ qs_cache qs' = Some r.
Proof.
  destruct (fetch items_qs demo_world) as [w' [[qs' r]|e]] eqn:E; [|vm_compute in E; discriminate].
  exists w', qs', r. split; [done|exact (proj1 (fetch_caches _ _ _ _ _ E))].
Defined.

Lemma count_exists_agree_witness :
  exists w' qs' n, qs_count items_qs demo_world = (w', Ok (qs', n)) /\
    qs_exists qs' demo_world = (demo_world, Ok (qs', bool_decide (0 < n)%nat)).
Proof.
  destruct (qs_count items_qs demo_world) as [w' [[qs' n]|e]] eqn:E; [|vm_compute in E; discriminate].
  exists w', qs', n. split; [done|exact (count_exists_agree _ _ _ _ _ E demo_world)].
Defined.

Definition exclude_kw : fdict := [("title", VStr "Blue Chair"); ("id", VStr "zzz")].

Lemma exclude_drops_on_any_match_witness :
  exists w' self ex kept, qs_exclude (new_qs MarketplaceItemAdapter [] None) exclude_kw demo_world =
    (w', Ok (self, ex)) /\ qs_cache ex = Some kept /\ chair ∉ kept.
Proof.
  destruct (qs_exclude (new_qs MarketplaceItemAdapter [] None) exclude_kw demo_world)
    as [w' [[self ex]|e]] eqn:E; [|vm_compute in E; discriminate].
  destruct (exclude_drops_on_any_match _ _ _ _ _ _ chair "title" (VStr "Blue Chair") (VStr "Blue Chair") E)
    as (kept & Hk & Hn); [left|reflexivity|reflexivity|].
  by exists w', self, ex, kept.
Defined.

Lemma exclude_then_chain_forgets_witness :
  exists w' self ex, qs_exclude items_qs exclude_kw demo_world = (w', Ok (self, ex)) /\
    qs_filter ex [] = qs_filter items_qs [].
Proof.
  destruct (qs_exclude items_qs exclude_kw demo_world) as [w' [[self ex]|e]] eqn:E;
    [|vm_compute in E; discriminate].
  exists w', self, ex. split; [done|exact (proj1 (exclude_then_chain_forgets _ _ [] "" _ _ _ _ E))].
Defined.

Lemma filter_chain_composes_witness :
  exists qs', fetch (qs_filter items_qs [("id", VStr "a")]) demo_world = (demo_world, Ok (qs', [chair])).
Proof.
  destruct (filter_chain_composes items_qs [("id", VStr "a")] demo_world [chair; table])
    as [qs' Hq]; [reflexivity|reflexivity|apply NoDup_singleton|repeat constructor|].
  exists qs'. rewrite Hq. reflexivity.
Defined.
End QuerySetWitnesses.
