(* ===== verification/Adapters.v ===== *)
(** The class methods and instance methods of [ModelAdapter] and the
    relationship properties of the concrete adapters in
    [src/main_app/data/model_adapter.py]: [get], [filter], [all],
    [create], [save], [delete]; the foreign-key properties ([category],
    [owner], [user], [item]) that turn [DoesNotExist] into [None]; the
    reverse relations ([items], [recommendations]); the get-or-create
    [UserAdapter.preference]; and the [CategoryManager] of
    [UserPreferenceAdapter.preferred_categories], whose operations mutate
    the adapter and save it. *)

From S2P Require Import Prelude PyValue JsonStore Entity QuerySet.
From Stdlib Require Import Ascii.

Open Scope string_scope.

(** [hasattr(self, 'id') and self.id] *)
Definition has_truthy_id (e : entity) : option value :=
  match attr e "id" with
  | Some i => if truthy i then Some i else None
  | None => None
  end.

(** [setattr(self, k, v)] on an attribute that is not a property. *)
Definition set_attr (e : entity) (k : string) (v : value) : entity :=
  mk_entity (ent_model e) (<[k := v]> (ent_attrs e)).

(** [self.__dict__.update(d)]: the keys of [d] win. *)
Definition dict_merge (e : entity) (d : doc) : entity :=
  mk_entity (ent_model e) (d ∪ ent_attrs e).

Module ModelAdapter.
Section Ops.
Context `{Runtime}.

(** [objects()] and [all()] *)
Definition objects (m : model) : queryset := new_qs m [] None.
Definition all (m : model) : queryset := new_qs m [] None.

(** [filter(kwargs)] *)
Definition filter (m : model) (kwargs : fdict) : queryset := new_qs m kwargs None.

(** [get(kwargs)]: the {e first} match, with no check for a second. *)
Definition get (m : model) (kwargs : fdict) : st world entity :=
  items ← get_all_items (file_name m) kwargs;
  match items with
  | [] => raise (DoesNotExist (class_name m))
  | d :: _ => lift_res (construct m d)
  end.

(** [create(kwargs)] *)
Definition create (m : model) (kwargs : doc) : st world entity :=
  item_data ← create_item (file_name m) kwargs;
  lift_res (construct m item_data).

(** [save()]: update by id when the instance has a truthy id, otherwise
    create; the instance's [__dict__] is then updated with the stored
    document ([if updated_data] is false only for an empty dict). *)
Definition save (e : entity) : st world entity :=
  let name := file_name (ent_model e) in
  match has_truthy_id e with
  | Some i =>
      updated ← update_item name i (ent_attrs e);
      match updated with
      | Some u => if bool_decide (u = ∅) then mret e else mret (dict_merge e u)
      | None => mret e
      end
  | None =>
      created ← create_item name (ent_attrs e);
      mret (dict_merge e created)
  end.

(** [delete()]: the deleted document, or [None]. *)
Definition delete (e : entity) : st world (option doc) :=
  match has_truthy_id e with
  | Some i => delete_item (file_name (ent_model e)) i
  | None => mret None
  end.
End Ops.
End ModelAdapter.

(** ** Relationships *)

Section Relations.
Context `{Runtime}.

(** [except DoesNotExist: return None]; any other exception propagates. *)
Definition dne_none {A} (ex : exn) : option (st world (option A)) :=
  match ex with
  | DoesNotExist _ => Some (mret None)
  | _ => None
  end.

(** The pattern of every forward relation:
    [if hasattr(self, fk): try: return M.get(id=self.fk) except
    DoesNotExist: return None] and [None] without the attribute. *)
Definition related (m : model) (fk : string) (e : entity) : st world (option entity) :=
  match attr e fk with
  | Some i => catch (x ← ModelAdapter.get m [("id", i)]; mret (Some x)) dne_none
  | None => mret None
  end.

(** The reverse relations [M.filter(fk=self.id)]; [self.id] raises
    [AttributeError] on an instance without an id. *)
Definition reverse_relation (m : model) (fk : string) (e : entity) : res queryset :=
  match attr e "id" with
  | Some i => Ok (ModelAdapter.filter m [(fk, i)])
  | None => Raise AttributeError
  end.
End Relations.

Module MarketplaceItem.
Section P.
Context `{Runtime}.
Definition category (e : entity) := related CategoryAdapter "category_id" e.
Definition owner (e : entity) := related UserAdapter "owner_id" e.
End P.
End MarketplaceItem.

Module ItemRecommendation.
Section P.
Context `{Runtime}.
Definition user (e : entity) := related UserAdapter "user_id" e.
Definition item (e : entity) := related MarketplaceItemAdapter "item_id" e.
End P.
End ItemRecommendation.

Module Category.
Definition items (e : entity) := reverse_relation MarketplaceItemAdapter "category_id" e.
End Category.

Module User.
Section P.
Context `{Runtime}.
Definition items (e : entity) := reverse_relation MarketplaceItemAdapter "owner_id" e.
Definition recommendations (e : entity) := reverse_relation ItemRecommendationAdapter "user_id" e.

(** [preference]: get the preference of the user, or create a default
    one when there is none. *)
Definition preference (e : entity) : st world entity :=
  match attr e "id" with
  | None => raise AttributeError
  | Some i =>
      catch (ModelAdapter.get UserPreferenceAdapter [("user_id", i)])
        (fun ex => match ex with
                   | DoesNotExist _ =>
                       Some (ModelAdapter.create UserPreferenceAdapter
                               {[ "user_id" := i; "preferred_category_ids" := VList [] ]})
                   | _ => None
                   end)
  end.
End P.
End User.

(** ** [UserPreferenceAdapter.preferred_categories] *)

(** The one-character strings of [s], in order. *)
Fixpoint str_chars (s : string) : list value :=
  match s with
  | EmptyString => []
  | String c s' => VStr (String c EmptyString) :: str_chars s'
  end.

(** [for x in v]: a list yields its elements, a string its characters;
    other values are not iterable. *)
Definition py_iter (v : value) : res (list value) :=
  match v with
  | VList l => Ok l
  | VStr s => Ok (str_chars s)
  | _ => Raise TypeError
  end.

(** [lst.remove(x)]: drops the first element equal to [x]. *)
Fixpoint py_remove (x : value) (l : list value) : list value :=
  match l with
  | [] => []
  | y :: l' => if py_eq y x then l' else y :: py_remove x l'
  end.

Module UserPreference.
Section P.
Context `{Runtime}.

Definition user (e : entity) := related UserAdapter "user_id" e.

Definition pref_key : string := "preferred_category_ids".

(** The [CategoryManager] holds the adapter; each operation returns the
    adapter as it is afterwards (its attributes are mutated in place in
    the code). *)

(** The loop of [all()]: [CategoryAdapter.get(id=cat_id)] for each id,
    skipping the ids that raise [DoesNotExist]. *)
Fixpoint get_each (ids : list value) : st world (list entity) :=
  match ids with
  | [] => mret []
  | i :: ids' =>
      x ← catch (c ← ModelAdapter.get CategoryAdapter [("id", i)]; mret (Some c)) dne_none;
      rest ← get_each ids';
      mret (match x with Some c => c :: rest | None => rest end)
  end.

Definition all (e : entity) : st world (list entity) :=
  match attr e pref_key with
  | Some v => ids ← lift_res (py_iter v); get_each ids
  | None => mret []
  end.

(** [add(category)]: appends the category's id when it is not yet in the
    list and saves; [append] on a value that is not a list raises
    [AttributeError]. *)
Definition add (e c : entity) : st world entity :=
  let e1 := match attr e pref_key with
            | Some _ => e
            | None => set_attr e pref_key (VList [])
            end in
  match attr c "id" with
  | None => st_ret e1
  | Some cid =>
      let lst := match attr e1 pref_key with Some v => v | None => VList [] end in
      present ← lift_res (S:=world) (py_in cid lst);
      if (present : bool) then st_ret e1
      else match lst with
           | VList l => ModelAdapter.save (set_attr e1 pref_key (VList (l ++ [cid])))
           | _ => raise AttributeError
           end
  end.

(** [remove(category)] *)
Definition remove (e c : entity) : st world entity :=
  match attr e pref_key, attr c "id" with
  | Some lst, Some cid =>
      present ← lift_res (S:=world) (py_in cid lst);
      if (present : bool) then
        match lst with
        | VList l => ModelAdapter.save (set_attr e pref_key (VList (py_remove cid l)))
        | _ => raise AttributeError
        end
      else st_ret e
  | _, _ => st_ret e
  end.

(** [clear()] *)
Definition clear (e : entity) : st world entity :=
  ModelAdapter.save (set_attr e pref_key (VList [])).
End P.
End UserPreference.

(** ** Which exceptions the store raises *)

(** The exceptions a filter scan can raise: never one of the lookup
    exceptions [DoesNotExist] and [MultipleObjectsReturned]. *)
Definition filter_exn (e : exn) : Prop :=
  e = ValueError \/ e = AttributeError \/ e = TypeError.

Section Exns.
Context `{Runtime}.

Lemma apply_filter_exn kv data e : apply_filter kv data = Raise e -> filter_exn e.
Proof.
  unfold filter_exn, apply_filter. destruct kv as [key v].
  repeat case_match; try discriminate 1; try (intros [= <-]; by left);
    intros (x & _ & Hx)%res_filter_raise;
    [unfold contains_test in Hx|unfold in_test, py_in in Hx]; repeat case_match; simplify_eq; auto.
Qed.

Lemma apply_filters_exn fs data e : apply_filters fs data = Raise e -> filter_exn e.
Proof.
  revert data; induction fs as [|kv fs IH]; intros data; simpl; [done|].
  destruct (apply_filter kv data) eqn:Hf; [apply IH|]. intros [= <-]. by eapply apply_filter_exn.
Qed.

(** [get_all_items] is a [load_data] followed by the filter scan (an
    empty filter dict scans nothing and keeps everything). *)
Lemma get_all_items_eq name fs w :
  get_all_items name fs w =
    (fst (load_data name w),
     match snd (load_data name w) with Ok d => apply_filters fs d | Raise e => Raise e end).
Proof.
  unfold get_all_items. st_simpl. destruct (load_data name w) as [w1 [d|e]]; [|done].
  destruct fs; simpl; [done|]. by destruct (apply_filter _ d).
Qed.

Lemma load_data_ok name w : exists d, snd (load_data name w) = Ok d.
Proof. unfold load_data. destruct (w_files w !! name) as [[]|]; by eexists. Qed.

Lemma get_all_items_exn name fs w w' e :
  get_all_items name fs w = (w', Raise e) -> filter_exn e.
Proof.
  rewrite get_all_items_eq. destruct (load_data_ok name w) as [d ->].
  intros [= _ He]. by eapply apply_filters_exn.
Qed.

Lemma construct_exn m d e : construct m d = Raise e -> e = AttributeError.
Proof. unfold construct. by case_bool_decide; [intros [= <-]|]. Qed.
End Exns.

(** ** [ModelAdapter.get] and [create] *)

Section GetCreate.
Context `{Runtime}.

(** With one or more matching documents, [ModelAdapter.get] builds the
    adapter of the first one in file order, and does not change the
    store. *)
Lemma model_get_returns_first m kwargs w docs d rest :
  w_files w !! file_name m = Some (FJson docs) ->
  apply_filters kwargs docs = Ok (d :: rest) ->
  ModelAdapter.get m kwargs w = (w, construct m d).
Proof.
  intros Hf Ha. unfold ModelAdapter.get. st_simpl.
  by rewrite (get_all_items_valid _ _ _ _ Hf), Ha.
Qed.

(** C1: [ModelAdapter.get] never raises [MultipleObjectsReturned], on
    any store; when several documents match it returns the adapter
    built from the first matching document in file order, and leaves
    the store unchanged. *)
Theorem model_get_never_multiple m kwargs w :
  (forall w' c, ModelAdapter.get m kwargs w ≠ (w', Raise (MultipleObjectsReturned c))) /\
  (forall docs d rest, w_files w !! file_name m = Some (FJson docs) ->
     apply_filters kwargs docs = Ok (d :: rest) -> ModelAdapter.get m kwargs w = (w, construct m d)).
Proof.
  split; [|intros; by eapply model_get_returns_first].
  intros w' c. unfold ModelAdapter.get. st_simpl. destruct (get_all_items _ _ w) as [w1 [items|e]] eqn:Hg.
  - destruct items as [|d ?]; [done|]. simpl. destruct (construct m d) eqn:Hc; [done|].
    apply construct_exn in Hc as ->. done.
  - apply get_all_items_exn in Hg. intros [= _ ->]. by destruct Hg as [|[|]].
Qed.

(** The filter [id=i]: a plain key, so an equality scan. *)
Lemma apply_filters_id i docs :
  apply_filters [("id", i)] docs = Ok (filter (fun d => exact_test "id" i d = true) docs).
Proof. reflexivity. Qed.

(** C29: [create] then [get(id=...)] gives the instance back: the created
    instance has an id [i], and when [i] equals itself and no earlier
    document of the collection has that id, [get(id=i)] on the new store
    builds the same instance. *)
Theorem create_get_roundtrip m kwargs w docs w' e :
  w_files w !! file_name m = Some (FJson docs) ->
  ModelAdapter.create m kwargs w = (w', Ok e) ->
  exists i, attr e "id" = Some i /\
    (py_eq i i = true -> Forall (fun d => exact_test "id" i d = false) docs ->
     ModelAdapter.get m [("id", i)] w' = (w', Ok e)).
Proof.
  intros Hf. destruct (create_item_run _ kwargs _ _ Hf) as (w1 & d & Hc & Hf1 & _ & _ & Hid & _).
  unfold ModelAdapter.create. st_simpl. rewrite Hc. simpl.
  destruct (construct m d) as [e'|] eqn:Hcons; [|done]. intros [= <- <-].
  eexists; split; [exact (construct_keeps_fields _ _ _ _ _ Hcons Hid)|]. intros Hii Hfresh.
  unfold ModelAdapter.get. st_simpl. rewrite (get_all_items_valid _ _ _ _ Hf1), apply_filters_id.
  rewrite filter_app, filter_Forall_not, filter_singleton_True; simpl.
  - by rewrite Hcons.
  - exact [].
  - unfold exact_test. by rewrite Hid.
  - eapply Forall_impl; [exact Hfresh|]. intros x ->. done.
Qed.
End GetCreate.

(** ** [save] and [delete] *)

Lemma union_lookup_same (u a : doc) k : u !! k = a !! k -> (u ∪ a) !! k = a !! k.
Proof. intros Hk. rewrite lookup_union, Hk. by destruct (a !! k). Qed.

Lemma union_subsume (u a : doc) : (forall k, u !! k = None -> a !! k = None) -> u ∪ a = u.
Proof.
  intros Hsub. apply map_eq. intros k. rewrite lookup_union.
  destruct (u !! k) eqn:Hu; [by destruct (a !! k)|]. by rewrite Hsub.
Qed.

(** The keys the store writes itself. *)
Definition store_key (k : string) : Prop := k = "id" \/ k = "created_at" \/ k = "updated_at".

Section SaveLemmas.
Context `{Runtime}.

(** Whatever the state of the file, an update that finds the id returns
    the caller's fields with [id], [created_at] and [updated_at] set. *)
Lemma update_item_result name i upd w w' u :
  update_item name i upd w = (w', Ok (Some u)) ->
  u !! "id" = Some i /\ is_Some (u !! "updated_at") /\
  (is_Some (upd !! "created_at") -> is_Some (u !! "created_at")) /\
  (forall k, ~ store_key k -> u !! k = upd !! k).
Proof.
  unfold update_item, update_commit, store_key. st_simpl.
  destruct (load_data name w) as [w1 [data|]]; [|done].
  destruct (find_index _ data) as [j|]; simpl; [|done]. intros [= _ <-].
  destruct (default ∅ (data !! j) !! "created_at");
    split_and!; try (intros ? ?; rewrite !lookup_insert_ne; intuition congruence);
    simplify_map_eq; try done.
Qed.

Lemma create_item_result name item w w' d :
  create_item name item w = (w', Ok d) ->
  is_Some (d !! "id") /\ is_Some (d !! "created_at") /\ is_Some (d !! "updated_at") /\
  (forall v, item !! "id" = Some v -> d !! "id" = Some v) /\
  (forall k, ~ store_key k -> d !! k = item !! k).
Proof.
  unfold create_item, store_key. st_simpl.
  destruct (load_data name w) as [w1 [data|]]; [|done].
  destruct (item !! "id") as [v|] eqn:Hid; simpl; intros [= _ <-];
    split_and!; try (intros ? ?; rewrite !lookup_insert_ne; intuition congruence);
    simplify_map_eq; try done; intros ? [= ->]; done.
Qed.
End SaveLemmas.

Section SaveTheorems.
Context `{Runtime}.

(** [save()] keeps the class and every attribute other than [id],
    [created_at] and [updated_at], on each branch (update, update of an
    id the file no longer holds, create). *)
Theorem save_keeps_attrs e w w' e' k :
  ModelAdapter.save e w = (w', Ok e') -> ~ store_key k ->
  ent_model e' = ent_model e /\ attr e' k = attr e k.
Proof.
  unfold ModelAdapter.save, dict_merge, attr. st_simpl. intros Hs Hk.
  destruct (has_truthy_id e) as [i|].
  - destruct (update_item _ i _ w) as [w1 [[u|]|]] eqn:Hu; [|by injection Hs as _ <-|done].
    case_bool_decide; injection Hs as _ <-; [done|]. split; [done|]. simpl.
    apply union_lookup_same. by apply (update_item_result _ _ _ _ _ _ Hu).
  - destruct (create_item _ _ w) as [w1 [d|]] eqn:Hc; [|done]. injection Hs as _ <-.
    split; [done|]. simpl. apply union_lookup_same. by apply (create_item_result _ _ _ _ _ Hc).
Qed.

Lemma has_truthy_id_attr e i : has_truthy_id e = Some i -> attr e "id" = Some i.
Proof. unfold has_truthy_id. destruct (attr e "id"); [case_match|]; congruence. Qed.

(** C30: [save()] of an instance whose id is in the collection rewrites
    that document in place, and the instance then holds exactly the stored
    document: its own fields, [created_at] as the store kept it and
    [updated_at] set to the clock reading. *)
Theorem save_updates_in_place e w docs i idx old :
  w_files w !! file_name (ent_model e) = Some (FJson docs) ->
  has_truthy_id e = Some i ->
  find_index (id_matches i) docs = Some idx -> docs !! idx = Some old ->
  exists w' d, ModelAdapter.save e w = (w', Ok (mk_entity (ent_model e) d)) /\
    w_files w' !! file_name (ent_model e) = Some (FJson (<[idx := d]> docs)) /\
    d !! "updated_at" = Some (VStr (rt_now (w_ticks w))) /\
    (forall k, k ≠ "created_at" -> k ≠ "updated_at" -> d !! k = ent_attrs e !! k).
Proof.
  intros Hf Hi Hidx Hold. pose proof (has_truthy_id_attr _ _ Hi) as Hid.
  destruct (update_item_run _ _ _ i (ent_attrs e) _ _ Hf Hidx Hold)
    as (w' & d & Hu & Hf' & Hdid & Hdc & Hdu & Hrest).
  unfold ModelAdapter.save, dict_merge. st_simpl. rewrite Hi, Hu. simpl.
  rewrite bool_decide_eq_false_2 by (intros ->; by rewrite lookup_empty in Hdid).
  exists w', d. rewrite union_subsume; [split_and!; try done|].
  - intros k ? ?. destruct (decide (k = "id")) as [->|]; [by rewrite Hdid|]. by apply Hrest.
  - intros k Hk. destruct (decide (k = "id")) as [->|]; [congruence|].
    destruct (decide (k = "updated_at")) as [->|]; [congruence|].
    destruct (decide (k = "created_at")) as [->|]; [|by rewrite <- Hrest].
    rewrite Hk in Hdc. by destruct (old !! "created_at").
Qed.

(** [save()] of an instance with a truthy id that no document of the
    collection has does nothing: no document is created, the store and the
    instance are unchanged. *)
Theorem save_missing_id_noop e w docs i :
  w_files w !! file_name (ent_model e) = Some (FJson docs) ->
  has_truthy_id e = Some i ->
  Forall (fun d => id_matches i d = false) docs ->
  ModelAdapter.save e w = (w, Ok e).
Proof.
  intros Hf Hi Hnone. unfold ModelAdapter.save. st_simpl.
  by rewrite Hi, (update_item_absent _ _ _ _ _ Hf Hnone).
Qed.

(** [save()] without a truthy id takes the create branch. *)
Lemma save_create e w docs :
  w_files w !! file_name (ent_model e) = Some (FJson docs) -> has_truthy_id e = None ->
  exists w' d, ModelAdapter.save e w = (w', Ok (dict_merge e d)) /\
    w_files w' !! file_name (ent_model e) = Some (FJson (docs ++ [d])) /\
    d !! "id" = Some (default (VStr (rt_uuid4 (w_draws w))) (ent_attrs e !! "id")).
Proof.
  intros Hf Hi. destruct (create_item_run _ (ent_attrs e) _ _ Hf) as (w' & d & Hc & Hf' & _ & _ & Hid & _).
  exists w', d. unfold ModelAdapter.save. st_simpl. by rewrite Hi, Hc.
Qed.

(** C36: an instance whose [id] is falsy ([""], [0], [None]) is created
    again at every [save()]: two saves append two documents that both
    carry that id. *)
Theorem save_falsy_id_duplicates e w docs v :
  w_files w !! file_name (ent_model e) = Some (FJson docs) ->
  attr e "id" = Some v -> truthy v = false ->
  exists w1 e1 w2 e2 d1 d2,
    ModelAdapter.save e w = (w1, Ok e1) /\ ModelAdapter.save e1 w1 = (w2, Ok e2) /\
    w_files w2 !! file_name (ent_model e) = Some (FJson (docs ++ [d1; d2])) /\
    d1 !! "id" = Some v /\ d2 !! "id" = Some v.
Proof.
  intros Hf Hid Hv. assert (Hn : forall x, attr x "id" = Some v -> has_truthy_id x = None)
    by (intros x Hx; unfold has_truthy_id; by rewrite Hx, Hv).
  destruct (save_create _ _ _ Hf (Hn e Hid)) as (w1 & d1 & Hs1 & Hf1 & Hid1).
  unfold attr in Hid. rewrite Hid in Hid1. simpl in Hid1.
  assert (Hid' : attr (dict_merge e d1) "id" = Some v)
    by (unfold attr, dict_merge; simpl; by rewrite (lookup_union_Some_l _ _ _ _ Hid1)).
  destruct (save_create (dict_merge e d1) _ _ Hf1 (Hn _ Hid')) as (w2 & d2 & Hs2 & Hf2 & Hid2).
  unfold attr in Hid'. rewrite Hid' in Hid2. simpl in Hid2.
  exists w1, (dict_merge e d1), w2, (dict_merge (dict_merge e d1) d2), d1, d2.
  split_and!; try done. by rewrite <- app_assoc in Hf2.
Qed.
End SaveTheorems.

(** ** Relationships *)

Section RelationTheorems.
Context `{Runtime}.

Lemma apply_filters_plain k v docs :
  str_contains "__" k = false ->
  apply_filters [(k, v)] docs = Ok (filter (fun d => exact_test k v d = true) docs).
Proof. intros Hk. simpl. by rewrite Hk. Qed.

(** The first document of the collection whose id equals [i]. *)
Definition first_with_id (docs : list doc) (i : value) : option doc :=
  head (filter (fun d => exact_test "id" i d = true) docs).

(** [try: M.get(id=i) except DoesNotExist: None] on a readable
    collection: the adapter of the first document with that id, [None]
    when there is none; only the constructor's exception propagates. *)
Lemma get_or_none_spec m i w docs :
  w_files w !! file_name m = Some (FJson docs) ->
  catch (x ← ModelAdapter.get m [("id", i)]; mret (Some x)) dne_none w =
    (w, match first_with_id docs i with
        | None => Ok None
        | Some d => match construct m d with Ok x => Ok (Some x) | Raise ex => Raise ex end
        end).
Proof.
  intros Hf. unfold ModelAdapter.get, first_with_id. st_simpl.
  rewrite (get_all_items_valid _ _ _ _ Hf), apply_filters_id.
  destruct (filter _ docs) as [|d ?]; simpl; [done|].
  destruct (construct m d) eqn:Hc; [done|]. by apply construct_exn in Hc as ->.
Qed.

(** a forward relation ([item.category], [item.owner], [pref.user],
    [rec.user], [rec.item]) reads the first document with the referenced
    id, and a dangling reference gives [None] instead of an exception;
    without the foreign-key attribute the relation is [None]. *)
Theorem related_spec m fk e w docs :
  w_files w !! file_name m = Some (FJson docs) ->
  related m fk e w =
    (w, match attr e fk with
        | None => Ok None
        | Some i =>
            match first_with_id docs i with
            | None => Ok None
            | Some d => match construct m d with Ok x => Ok (Some x) | Raise ex => Raise ex end
            end
        end).
Proof.
  intros Hf. unfold related. destruct (attr e fk) as [i|]; [|done].
  exact (get_or_none_spec _ _ _ _ Hf).
Qed.

(** [user.preference] is a get-or-create: on a user without a
    preference it creates one with the user's id and an empty category
    list, and asking again returns that same preference without writing
    to the store. *)
Theorem preference_get_or_create u i w docs :
  attr u "id" = Some i -> py_eq i i = true ->
  w_files w !! "user_preferences" = Some (FJson docs) ->
  Forall (fun d => exact_test "user_id" i d = false) docs ->
  exists w1 p, User.preference u w = (w1, Ok p) /\
    attr p "user_id" = Some i /\ attr p "preferred_category_ids" = Some (VList []) /\
    User.preference u w1 = (w1, Ok p).
Proof.
  intros Hu Hii Hf Hnone. unfold User.preference. rewrite Hu.
  destruct (create_item_run "user_preferences"
    {[ "user_id" := i; "preferred_category_ids" := VList [] ]} _ _ Hf)
    as (w' & d & Hc & Hf' & _ & _ & _ & Hrest).
  assert (Hk : forall k, k = "user_id" \/ k = "preferred_category_ids" ->
                 d !! k = {[ "user_id" := i; "preferred_category_ids" := VList [] ]} !! k)
    by (intros k [-> | ->]; apply Hrest; congruence).
  destruct (construct_ok UserPreferenceAdapter d) as (p & Hp & _).
  { repeat constructor; rewrite Hrest by done; reflexivity. }
  exists w', p. unfold ModelAdapter.get, ModelAdapter.create. st_simpl.
  rewrite (get_all_items_valid _ _ _ _ Hf), apply_filters_plain, filter_Forall_not by
    (done || (eapply Forall_impl; [exact Hnone|]; by intros ? ->)).
  simpl. rewrite Hc. simpl. rewrite Hp. split_and!; [done| | |].
  - rewrite (construct_keeps_fields _ _ _ _ i Hp); [done|].
    rewrite Hk by auto. by simplify_map_eq.
  - rewrite (construct_keeps_fields _ _ _ _ (VList []) Hp); [done|].
    rewrite Hk by auto. by simplify_map_eq.
  - rewrite (get_all_items_valid _ _ _ _ Hf'), apply_filters_plain by done.
    rewrite filter_app, filter_Forall_not, filter_singleton_True; simpl.
    + by rewrite Hp.
    + exact [].
    + unfold exact_test. rewrite Hk by auto. by simplify_map_eq.
    + eapply Forall_impl; [exact Hnone|]. by intros ? ->.
Qed.
End RelationTheorems.

(** ** The category manager *)

Section ManagerTheorems.
Context `{Runtime}.
Import UserPreference.

Lemma pref_key_not_store : ~ store_key pref_key.
Proof. unfold store_key, pref_key. intros [?|[?|?]]; discriminate. Qed.

Lemma attr_set_attr e k v : attr (set_attr e k v) k = Some v.
Proof. unfold attr, set_attr. simpl. by rewrite lookup_insert_eq. Qed.

(** The category list survives [save()]. *)
Lemma save_keeps_pref e w w' e' :
  ModelAdapter.save e w = (w', Ok e') -> attr e' pref_key = attr e pref_key.
Proof. intros Hs. apply (save_keeps_attrs _ _ _ _ _ Hs pref_key_not_store). Qed.

(** [add] of an id already in the list changes nothing. *)
Lemma add_present e c cid v w :
  attr e pref_key = Some v -> attr c "id" = Some cid -> py_in cid v = Ok true ->
  add e c w = (w, Ok e).
Proof. intros Hv Hc Hin. unfold add. rewrite Hv, Hc. st_simpl. by rewrite Hv, Hin. Qed.

Lemma py_in_snoc x l : py_eq x x = true -> py_in x (VList (l ++ [x])) = Ok true.
Proof. intros Hx. simpl. rewrite existsb_app. simpl. rewrite Hx. by rewrite orb_true_r. Qed.

(** [preferred_categories.add(category)] is idempotent: adding the
    same category a second time neither changes the adapter nor writes to
    the store. *)
Theorem add_idempotent e c cid w w1 e1 :
  attr c "id" = Some cid -> py_eq cid cid = true ->
  add e c w = (w1, Ok e1) -> add e1 c w1 = (w1, Ok e1).
Proof.
  intros Hc Hcc. unfold add at 1. rewrite Hc. st_simpl.
  assert (Hsave : forall e0 l, ModelAdapter.save (set_attr e0 pref_key (VList (l ++ [cid]))) w = (w1, Ok e1) ->
            add e1 c w1 = (w1, Ok e1)).
  { intros e0 l Hs. eapply add_present; [|done|].
    - rewrite (save_keeps_pref _ _ _ _ Hs). apply attr_set_attr.
    - by apply py_in_snoc. }
  destruct (attr e pref_key) as [v|] eqn:Hv.
  - rewrite Hv. destruct (py_in cid v) as [[]|] eqn:Hin; cbv beta iota; [|destruct v; try done; apply Hsave|done].
    intros [= <- <-]. by eapply add_present.
  - rewrite attr_set_attr. cbv beta iota. apply Hsave.
Qed.

(** after [preferred_categories.clear()] the manager's [all()] is
    empty, whatever the list held before, and reading it touches nothing. *)
Theorem clear_then_all_empty e w w1 e1 :
  clear e w = (w1, Ok e1) -> UserPreference.all e1 w1 = (w1, Ok []).
Proof.
  unfold clear. intros Hs. unfold UserPreference.all.
  by rewrite (save_keeps_pref _ _ _ _ Hs), attr_set_attr.
Qed.

(** The abstract meaning of [all()]: for every id of the list in order,
    the category document with that id, ids without one skipped. *)
Definition all_ref (docs : list doc) (ids : list value) : list entity :=
  omap (fun i => mk_entity CategoryAdapter <$> first_with_id docs i) ids.

Lemma first_with_id_in docs i d : first_with_id docs i = Some d -> d ∈ docs.
Proof.
  unfold first_with_id. destruct (filter _ docs) as [|x l] eqn:E; [done|]. intros [= <-].
  apply (list_elem_of_filter (fun d => exact_test "id" i d = true)). rewrite E. left.
Qed.

Lemma get_each_spec w docs ids :
  w_files w !! "categories" = Some (FJson docs) ->
  Forall (fun d => d !! "items" = None) docs ->
  get_each ids w = (w, Ok (all_ref docs ids)).
Proof.
  intros Hf Hdocs. induction ids as [|i ids IH]; [done|]. cbn [get_each]. st_simpl.
  rewrite (get_or_none_spec CategoryAdapter i w docs Hf).
  destruct (first_with_id docs i) as [d|] eqn:Hd.
  - unfold construct. rewrite bool_decide_eq_false_2.
    + rewrite IH. unfold all_ref. simpl. by rewrite Hd.
    + rewrite Forall_forall in Hdocs. intros Hex. inversion Hex as [? ? Hs|? ? Hs]; [|inversion Hs].
      rewrite (Hdocs d (first_with_id_in _ _ _ Hd)) in Hs. by destruct Hs.
  - rewrite IH. unfold all_ref. simpl. by rewrite Hd.
Qed.

(** C31: [preferred_categories.all()] implements [all_ref]: on a category
    collection whose documents build, it returns the existing categories
    in the order of the id list, skipping dangling ids, and does not
    change the store. *)
Theorem all_refines e ids w docs :
  attr e pref_key = Some (VList ids) ->
  w_files w !! "categories" = Some (FJson docs) ->
  Forall (fun d => d !! "items" = None) docs ->
  UserPreference.all e w = (w, Ok (all_ref docs ids)).
Proof.
  intros He Hf Hdocs. unfold UserPreference.all. rewrite He. st_simpl. cbn [py_iter].
  by apply get_each_spec.
Qed.
End ManagerTheorems.

(** ** Concrete runs *)

Section AdapterWitnesses.
#[local] Existing Instance demo_runtime.

Definition furniture : doc := {[ "id" := VStr "c1"; "name" := VStr "Furniture" ]}.
Definition alice : doc := {[ "id" := VStr "u1"; "username" := VStr "alice" ]}.
Definition shop_world : world :=
  mk_world {[ "marketplace_items" := FJson [chair; table]; "categories" := FJson [furniture];
              "users" := FJson [alice]; "user_preferences" := FJson [] ]} 0 0.

Definition alice_e : entity := mk_entity UserAdapter alice.
Definition furniture_e : entity := mk_entity CategoryAdapter furniture.
Definition alice_pref : entity :=
  mk_entity UserPreferenceAdapter {[ "id" := VStr "p1"; "user_id" := VStr "u1";
                                     "preferred_category_ids" := VList [VStr "c1"; VStr "c9"] ]}.

(** Two items contain an [e] in their title; [get] gives the first. *)
Lemma model_get_never_multiple_witness :
  ModelAdapter.get MarketplaceItemAdapter [("title__contains", VStr "e")] shop_world =
    (shop_world, construct MarketplaceItemAdapter chair).
Proof.
  apply (proj2 (model_get_never_multiple _ _ _) [chair; table] chair [table]); reflexivity.
Defined.

Lemma create_get_roundtrip_witness :
  exists w' e, ModelAdapter.create MarketplaceItemAdapter lamp shop_world = (w', Ok e) /\
    attr e "id" = Some (VStr "uuid-0") /\
    ModelAdapter.get MarketplaceItemAdapter [("id", VStr "uuid-0")] w' = (w', Ok e).
Proof.
  destruct (ModelAdapter.create MarketplaceItemAdapter lamp shop_world) as [w' [e|ex]] eqn:E;
    [|vm_compute in E; discriminate].
  destruct (create_get_roundtrip MarketplaceItemAdapter lamp shop_world [chair; table] w' e eq_refl E) as (i & Hi & Hg).
  assert (Hi' : i = VStr "uuid-0").
  { vm_compute in E. injection E as _ <-. vm_compute in Hi. congruence. }
  subst i. exists w', e. split_and!; [done|done|]. apply Hg; [reflexivity|repeat constructor].
Defined.

Definition oak_table : entity :=
  mk_entity MarketplaceItemAdapter (<[ "title" := VStr "Oak Table" ]> table).

Lemma save_updates_in_place_witness :
  exists w' d, ModelAdapter.save oak_table shop_world = (w', Ok (mk_entity MarketplaceItemAdapter d)) /\
    w_files w' !! "marketplace_items" = Some (FJson [chair; d]) /\ d !! "title" = Some (VStr "Oak Table").
Proof.
  destruct (save_updates_in_place oak_table shop_world [chair; table] (VStr "b") 1 table)
    as (w' & d & Hs & Hf & _ & Hrest); [reflexivity..|].
  exists w', d. split_and!; [exact Hs|exact Hf|]. rewrite Hrest; [reflexivity|discriminate..].
Defined.

Lemma save_missing_id_noop_witness :
  ModelAdapter.save (mk_entity MarketplaceItemAdapter (<[ "id" := VStr "zzz" ]> lamp)) shop_world =
    (shop_world, Ok (mk_entity MarketplaceItemAdapter (<[ "id" := VStr "zzz" ]> lamp))).
Proof. apply (save_missing_id_noop _ _ [chair; table] (VStr "zzz")); [reflexivity..|repeat constructor]. Defined.

Definition blank_id_item : entity := mk_entity MarketplaceItemAdapter (<[ "id" := VStr "" ]> lamp).

Lemma save_falsy_id_duplicates_witness :
  exists w1 e1 w2 e2 d1 d2,
    ModelAdapter.save blank_id_item shop_world = (w1, Ok e1) /\ ModelAdapter.save e1 w1 = (w2, Ok e2) /\
    w_files w2 !! "marketplace_items" = Some (FJson ([chair; table] ++ [d1; d2])) /\
    d1 !! "id" = Some (VStr "") /\ d2 !! "id" = Some (VStr "").
Proof. apply (save_falsy_id_duplicates blank_id_item shop_world [chair; table] (VStr "")); reflexivity. Defined.

Lemma related_spec_witness :
  MarketplaceItem.category (mk_entity MarketplaceItemAdapter {[ "id" := VStr "x"; "category_id" := VStr "c9" ]})
    shop_world = (shop_world, Ok None).
Proof. unfold MarketplaceItem.category. rewrite (related_spec _ _ _ _ [furniture]); reflexivity. Defined.

Lemma preference_get_or_create_witness :
  exists w1 p, User.preference alice_e shop_world = (w1, Ok p) /\ User.preference alice_e w1 = (w1, Ok p).
Proof.
  destruct (preference_get_or_create alice_e (VStr "u1") shop_world [])
    as (w1 & p & H1 & _ & _ & H2); [reflexivity..|constructor|]. by exists w1, p.
Defined.

Lemma add_idempotent_witness :
  exists w1 e1, UserPreference.add alice_pref furniture_e shop_world = (w1, Ok e1) /\
    UserPreference.add e1 furniture_e w1 = (w1, Ok e1).
Proof.
  destruct (UserPreference.add alice_pref furniture_e shop_world) as [w1 [e1|ex]] eqn:E;
    [|vm_compute in E; discriminate].
  exists w1, e1. split; [done|]. apply (add_idempotent alice_pref furniture_e (VStr "c1") shop_world); [reflexivity|reflexivity|exact E].
Defined.

Lemma clear_then_all_empty_witness :
  exists w1 e1, UserPreference.clear alice_pref shop_world = (w1, Ok e1) /\
    UserPreference.all e1 w1 = (w1, Ok []).
Proof.
  destruct (UserPreference.clear alice_pref shop_world) as [w1 [e1|ex]] eqn:E;
    [|vm_compute in E; discriminate].
  exists w1, e1. split; [done|exact (clear_then_all_empty _ _ _ _ E)].
Defined.

Lemma all_refines_witness :
  UserPreference.all alice_pref shop_world = (shop_world, Ok [furniture_e]).
Proof. rewrite (all_refines _ [VStr "c1"; VStr "c9"] _ [furniture]); [reflexivity..|repeat constructor]. Defined.
End AdapterWitnesses.
