(* ===== verification/Frame.v ===== *)
(** Frame lemmas of the store ([src/main_app/data/json_manager.py] and the
    adapters of [src/main_app/models_json.py]): which collection file a
    computation can write ([touches_only]), that the clock and the
    random draws write none ([keeps_files]), and that the read paths
    leave a collection that holds valid JSON as it is ([st_inv] of a
    predicate on that file).  The view theorems compose them with
    [frame_auto] instead of unfolding every call. *)

From S2P Require Import Prelude PyValue JsonStore Entity QuerySet Adapters.

(** A predicate on the file of collection [k], as a predicate on worlds. *)
Definition file_inv (P : option file -> Prop) (k : string) (w : world) : Prop :=
  P (w_files w !! k).

Definition json_file (o : option file) : Prop := exists docs, o = Some (FJson docs).

Section Frame.
Context `{Runtime}.

(** [c] writes no collection file but [n]. *)
Definition touches_only {A} (n : string) (c : st world A) : Prop :=
  forall P k, k ≠ n -> st_inv (file_inv P k) c.

(** [c] writes no collection file. *)
Definition keeps_files {A} (c : st world A) : Prop :=
  forall w w' r, c w = (w', r) -> w_files w' = w_files w.

Lemma keeps_files_inv {A} (c : st world A) P k : keeps_files c -> st_inv (file_inv P k) c.
Proof. intros Hc w w' r HP Hr. unfold file_inv. by rewrite (Hc _ _ _ Hr). Qed.

Lemma keeps_files_touches {A} n (c : st world A) : keeps_files c -> touches_only n c.
Proof. intros Hc P k _. by apply keeps_files_inv. Qed.

Lemma touches_only_inv {A} n (c : st world A) P k :
  touches_only n c -> k ≠ n -> st_inv (file_inv P k) c.
Proof. intros Hc Hk. by apply Hc. Qed.

Lemma touches_only_ret {A} n (a : A) : touches_only n (mret a).
Proof. intros P k _. apply st_inv_ret. Qed.

Lemma touches_only_raise {A} n e : touches_only n (raise (A:=A) e).
Proof. intros P k _. apply st_inv_raise. Qed.

Lemma touches_only_lift {A} n (x : res A) : touches_only n (lift_res x).
Proof. intros P k _. apply st_inv_lift. Qed.

Lemma touches_only_bind {A B} n (c : st world A) (f : A -> st world B) :
  touches_only n c -> (forall a, touches_only n (f a)) -> touches_only n (c ≫= f).
Proof. intros Hc Hf P k Hk. apply st_inv_bind; [by apply Hc|]. intros a. by apply Hf. Qed.

Lemma touches_only_catch {A} n (c : st world A) h :
  touches_only n c -> (forall e k, h e = Some k -> touches_only n k) -> touches_only n (catch c h).
Proof. intros Hc Hh P k Hk. apply st_inv_catch; [by apply Hc|]. intros e k' E. by eapply Hh. Qed.

Lemma now_iso_keeps : keeps_files now_iso.
Proof. by intros w w' r [= <- _]. Qed.

Lemma uuid4_keeps : keeps_files uuid4.
Proof. by intros w w' r [= <- _]. Qed.

Lemma load_data_touches n : touches_only n (load_data n).
Proof.
  intros P k Hk w w' r HP. unfold load_data, file_inv in *.
  destruct (w_files w !! n) as [[]|]; intros [= <- _]; simpl; try done;
    by rewrite lookup_insert_ne by congruence.
Qed.

(** A valid file is read as it is. *)
Lemma load_data_reads n P : (forall o, P o -> json_file o) -> st_inv (file_inv P n) (load_data n).
Proof.
  intros Hj w w' r HP. unfold load_data, file_inv in *.
  destruct (Hj _ HP) as [docs Hd]. rewrite Hd. by intros [= <- _].
Qed.

Lemma save_data_touches n data : touches_only n (save_data n data).
Proof.
  intros P k Hk w w' r HP [= <- _]. unfold file_inv in *. simpl.
  by rewrite lookup_insert_ne by congruence.
Qed.
End Frame.

Create HintDb frame.
#[export] Hint Resolve keeps_files_inv keeps_files_touches touches_only_inv
  touches_only_ret touches_only_raise touches_only_lift touches_only_bind touches_only_catch
  now_iso_keeps uuid4_keeps load_data_touches load_data_reads save_data_touches : frame.

(** Split a computation along its binds, catches and [match]es and close
    the pieces with the frame lemmas. *)
Ltac frame_auto :=
  repeat first
    [ match goal with
      | |- forall _, _ => intro
      | |- touches_only _ (mbind _ _) => apply touches_only_bind
      | |- touches_only _ (catch _ _) => apply touches_only_catch
      | |- st_inv _ (mbind _ _) => apply st_inv_bind
      | |- st_inv _ (catch _ _) => apply st_inv_catch
      end
    | case_match ];
  eauto with frame st_inv.

Section FrameOps.
Context `{Runtime}.

Lemma create_item_touches n d : touches_only n (create_item n d).
Proof. unfold create_item. frame_auto. Qed.

Lemma update_commit_touches n i u data : touches_only n (update_commit n i u data).
Proof. unfold update_commit. frame_auto. Qed.

Lemma update_item_touches n i u : touches_only n (update_item n i u).
Proof. unfold update_item. frame_auto. eauto using update_commit_touches. Qed.

Lemma delete_item_touches n i : touches_only n (delete_item n i).
Proof. unfold delete_item. frame_auto. Qed.

Lemma get_all_items_touches n fs : touches_only n (get_all_items n fs).
Proof. unfold get_all_items. frame_auto. Qed.

Lemma get_all_items_reads n fs P :
  (forall o, P o -> json_file o) -> st_inv (file_inv P n) (get_all_items n fs).
Proof. intros Hj. unfold get_all_items. frame_auto. Qed.
End FrameOps.

#[export] Hint Resolve create_item_touches update_commit_touches update_item_touches
  delete_item_touches get_all_items_touches get_all_items_reads : frame.

Section AdapterFrame.
Context `{Runtime}.

(** On a valid file [get_all_items] changes nothing and returns a
    sublist of the collection. *)
Lemma get_all_items_on_valid n fs docs w w' r :
  w_files w !! n = Some (FJson docs) -> get_all_items n fs w = (w', r) ->
  w' = w /\ forall items, r = Ok items -> items `sublist_of` docs.
Proof.
  intros Hd. unfold get_all_items, load_data. st_simpl. rewrite Hd.
  destruct fs; intros [= <- <-]; split; try done; intros items Hr.
  - injection Hr as ->. reflexivity.
  - by apply (apply_filters_sub (p :: fs)).
Qed.

(** The collection is given as an equation [file_name m = n], so that
    the hints apply to a goal that names the file by its literal. *)
Lemma get_touches m kw n : file_name m = n -> touches_only n (ModelAdapter.get m kw).
Proof. intros <-. unfold ModelAdapter.get. frame_auto. Qed.

Lemma get_reads m kw P n :
  file_name m = n -> (forall o, P o -> json_file o) -> st_inv (file_inv P n) (ModelAdapter.get m kw).
Proof. intros <- Hj. unfold ModelAdapter.get. frame_auto. Qed.

(** [M.get(...)] on a valid file: nothing changes and the result
    is built from a document of the collection. *)
Lemma get_valid m kw docs w w' e :
  w_files w !! file_name m = Some (FJson docs) -> ModelAdapter.get m kw w = (w', Ok e) ->
  w' = w /\ exists d, d ∈ docs /\ construct m d = Ok e.
Proof.
  intros Hd. unfold ModelAdapter.get. st_simpl.
  destruct (get_all_items (file_name m) kw w) as [w1 r] eqn:E.
  destruct (get_all_items_on_valid _ _ _ _ _ _ Hd E) as [-> Hsub].
  destruct r as [[|d ds]|]; try done. intros [= <- Hc]. split; [done|].
  exists d. split; [|done]. eapply elem_of_sublist; [|by apply Hsub]. by left.
Qed.

Lemma apply_filters_plain_nil kw :
  Forall (fun kv => str_contains "__" kv.1 = false) kw -> apply_filters kw [] = Ok [].
Proof. induction 1 as [|[k v] kw Hk _ IH]; [done|]. simpl in *. by rewrite Hk. Qed.

(** [M.get(k=v, ...)] with plain keys, the first of which no document
    matches, raises [DoesNotExist] and changes nothing. *)
Lemma get_none m k v kw docs w :
  w_files w !! file_name m = Some (FJson docs) -> str_contains "__" k = false ->
  Forall (fun kv => str_contains "__" kv.1 = false) kw ->
  Forall (fun d => exact_test k v d = false) docs ->
  ModelAdapter.get m ((k, v) :: kw) w = (w, Raise (DoesNotExist (class_name m))).
Proof.
  intros Hd Hk Hkw Hall. unfold ModelAdapter.get, get_all_items. st_simpl.
  rewrite (load_data_valid _ _ _ Hd). simpl. unfold apply_filter. rewrite Hk.
  rewrite filter_Forall_not; [|eapply Forall_impl; [done|]; simpl; congruence].
  by rewrite apply_filters_plain_nil.
Qed.

Lemma get_model m kw w w' e : ModelAdapter.get m kw w = (w', Ok e) -> ent_model e = m.
Proof.
  unfold ModelAdapter.get. st_simpl. destruct (get_all_items (file_name m) kw w) as [w1 [[|d ds]|ex]];
    try done. unfold construct. case_bool_decide; [done|]. by intros [= _ <-].
Qed.

(** [M.get(...)] followed by code that writes the collection of [n]
    when handed an instance of [M]. *)
Lemma get_bind_touches {B} m kw n (f : entity -> st world B) :
  file_name m = n -> (forall e, ent_model e = m -> touches_only n (f e)) ->
  touches_only n (ModelAdapter.get m kw ≫= f).
Proof.
  intros Hn Hf P k Hk. apply (st_inv_bind_post _ (fun e => ent_model e = m)).
  - by apply (get_touches m kw n Hn P k).
  - intros s s' a _. apply get_model.
  - intros e He. by apply Hf.
Qed.

(** The first document that [M.get(k=v)] matches. *)
Lemma get_first m k v docs j d w :
  w_files w !! file_name m = Some (FJson docs) -> str_contains "__" k = false ->
  find_index (exact_test k v) docs = Some j -> docs !! j = Some d ->
  ModelAdapter.get m [(k, v)] w = (w, construct m d).
Proof.
  intros Hd Hk Hj Hx. unfold ModelAdapter.get. st_simpl.
  rewrite (get_all_items_one _ _ _ _ Hd). unfold apply_filter. rewrite Hk.
  destruct (find_index_filter _ _ _ _ Hj Hx) as [rest ->]. done.
Qed.

(** Adapters other than [UserPreferenceAdapter] keep the document as
    their attributes. *)
Lemma construct_all_map m ds es :
  m ≠ UserPreferenceAdapter -> construct_all m ds = Ok es -> es = map (mk_entity m) ds.
Proof.
  intros Hm. revert es; induction ds as [|d ds IH]; intros es; simpl; [by intros [= <-]|].
  unfold construct at 1. case_bool_decide; [done|].
  destruct (construct_all m ds) as [es'|]; [|done]. intros [= <-]. f_equal; [by destruct m|]. by apply IH.
Qed.

(** Iterating [M.filter(k=v)] on a valid file: nothing changes and the
    instances are built from the matching documents, in file order. *)
Lemma qs_iter_filter_run m k v docs w w1 q es :
  w_files w !! file_name m = Some (FJson docs) -> str_contains "__" k = false ->
  qs_iter (ModelAdapter.filter m [(k, v)]) w = (w1, Ok (q, es)) ->
  w1 = w /\ construct_all m (filter (fun d => exact_test k v d = true) docs) = Ok es.
Proof.
  intros Hd Hk. unfold qs_iter, fetch. simpl. st_simpl.
  rewrite (get_all_items_one _ _ _ _ Hd). unfold apply_filter. rewrite Hk. simpl.
  destruct (construct_all m _) as [es'|]; [|done]. by intros [= <- _ <-].
Qed.

Lemma create_touches m kw n : file_name m = n -> touches_only n (ModelAdapter.create m kw).
Proof. intros <-. unfold ModelAdapter.create. frame_auto. Qed.

Lemma save_touches e n : file_name (ent_model e) = n -> touches_only n (ModelAdapter.save e).
Proof. intros <-. unfold ModelAdapter.save. frame_auto. Qed.

Lemma delete_touches e n : file_name (ent_model e) = n -> touches_only n (ModelAdapter.delete e).
Proof. intros <-. unfold ModelAdapter.delete. frame_auto. Qed.

Lemma fetch_touches q n : file_name (qs_model q) = n -> touches_only n (fetch q).
Proof. intros <-. unfold fetch. frame_auto. Qed.

Lemma fetch_reads q P n :
  file_name (qs_model q) = n -> (forall o, P o -> json_file o) -> st_inv (file_inv P n) (fetch q).
Proof. intros <- Hj. unfold fetch. frame_auto. Qed.

Lemma qs_iter_reads q P n :
  file_name (qs_model q) = n -> (forall o, P o -> json_file o) -> st_inv (file_inv P n) (qs_iter q).
Proof. intros Hn Hj. unfold qs_iter. frame_auto. eauto using fetch_reads. Qed.

Lemma qs_iter_touches q n : file_name (qs_model q) = n -> touches_only n (qs_iter q).
Proof. intros Hn. unfold qs_iter. frame_auto. eauto using fetch_touches. Qed.
End AdapterFrame.

#[export] Hint Resolve get_touches get_reads create_touches save_touches delete_touches
  fetch_touches qs_iter_touches fetch_reads qs_iter_reads : frame.

(** Two collection names given as literals, or as [file_name] of a
    known model, differ. *)
#[export] Hint Extern 1 (_ ≠ _) => let H := fresh in intro H; vm_compute in H; discriminate H : frame.
