(* ===== verification/Concurrency.v ===== *)
(** Interleaved requests.  Django serves requests concurrently, and each
    writing helper of [src/main_app/data/json_manager.py] is a
    read-modify-write of a whole file with no lock: [create_item] and
    [update_item] read the list with [load_data], change it in memory and
    write it back with [save_data].  A request is modelled as a thread with
    two atomic steps, the read ([load_data]) and the rest of the helper
    ([create_commit], [update_commit]); a system state is the shared world
    and the phase of every thread; [step] is the interleaving relation and
    [run_schedule] runs a given schedule of thread indices. *)

From S2P Require Import Prelude PyValue JsonStore.

Open Scope string_scope.

Section Threads.
Context `{Runtime}.

(** The part of [create_item] after [load_data] (lines 52-63). *)
Definition create_commit (name : string) (item_data : doc) (data : list doc) : st world doc :=
  item1 ← (match item_data !! "id" with
           | Some _ => mret item_data
           | None => u ← uuid4; mret (<["id" := VStr u]> item_data)
           end);
  now ← now_iso;
  let item2 := <["updated_at" := VStr now]> (<["created_at" := VStr now]> item1) in
  save_data name (data ++ [item2]);;
  mret item2.

(** The writing requests. *)
Inductive op :=
  | OpCreate (name : string) (item : doc)
  | OpUpdate (name : string) (item_id : value) (upd : doc).

Definition op_file (o : op) : string :=
  match o with OpCreate n _ => n | OpUpdate n _ _ => n end.

(** The helper run as one block, as a single request sees it. *)
Definition op_run (o : op) : st world (option doc) :=
  match o with
  | OpCreate n it => d ← create_item n it; mret (Some d)
  | OpUpdate n i u => update_item n i u
  end.

(** Its second half, from the list read by the first. *)
Definition commit (o : op) (data : list doc) : st world (option doc) :=
  match o with
  | OpCreate n it => d ← create_commit n it data; mret (Some d)
  | OpUpdate n i u => update_commit n i u data
  end.

Inductive phase :=
  | Pending (o : op)
  | Loaded (o : op) (data : list doc)
  | Finished (r : option doc).

Record sys := mk_sys { sys_world : world; sys_threads : list phase }.

(** One step of thread [t]. *)
Inductive step : sys -> sys -> Prop :=
  | step_load t o w ts w' data :
      ts !! t = Some (Pending o) ->
      load_data (op_file o) w = (w', Ok data) ->
      step (mk_sys w ts) (mk_sys w' (<[t := Loaded o data]> ts))
  | step_commit t o data w ts w' r :
      ts !! t = Some (Loaded o data) ->
      commit o data w = (w', Ok r) ->
      step (mk_sys w ts) (mk_sys w' (<[t := Finished r]> ts)).

(** The executable step of thread [t], [None] when it has nothing to do. *)
Definition thread_step (t : nat) (s : sys) : option sys :=
  let '(mk_sys w ts) := s in
  match ts !! t with
  | Some (Pending o) =>
      match load_data (op_file o) w with
      | (w', Ok data) => Some (mk_sys w' (<[t := Loaded o data]> ts))
      | _ => None
      end
  | Some (Loaded o data) =>
      match commit o data w with
      | (w', Ok r) => Some (mk_sys w' (<[t := Finished r]> ts))
      | _ => None
      end
  | _ => None
  end.

Fixpoint run_schedule (sch : list nat) (s : sys) : option sys :=
  match sch with
  | [] => Some s
  | t :: sch' => match thread_step t s with Some s' => run_schedule sch' s' | None => None end
  end.
End Threads.

(** ** The atomic blocks *)

Section Blocks.
Context `{Runtime}.

(** The commit of an update that finds the id at [k]: the file now holds
    the read list with position [k] replaced, and the clock advanced. *)
Lemma update_commit_found n i u data w k :
  find_index (id_matches i) data = Some k ->
  exists d, update_commit n i u data w =
    (mk_world (<[n := FJson (<[k := d]> data)]> (w_files w)) (S (w_ticks w)) (w_draws w), Ok (Some d)) /\
    d !! "id" = Some i.
Proof.
  intros Hk. unfold update_commit. rewrite Hk. st_simpl. eexists; split; [reflexivity|].
  rewrite lookup_insert_ne by done. by destruct (_ !! "created_at"); simplify_map_eq.
Qed.

(** The commit of a create: the read list with the new document appended. *)
Lemma create_commit_spec n it data w :
  exists w1 d, create_commit n it data w =
    (mk_world (<[n := FJson (data ++ [d])]> (w_files w)) (w_ticks w1) (w_draws w1), Ok d).
Proof.
  unfold create_commit. st_simpl. destruct (it !! "id"); simpl; by do 2 eexists.
Qed.
End Blocks.

(** ** Schedules and the step relation *)

Section Schedules.
Context `{Runtime}.

Lemma thread_step_sound t s s' : thread_step t s = Some s' -> step s s'.
Proof.
  destruct s as [w ts]. simpl. destruct (ts !! t) as [[o|o data|r]|] eqn:Ht; try done.
  - destruct (load_data _ w) as [w' [data|]] eqn:Hl; [|done]. intros [= <-]. by eapply step_load.
  - destruct (commit o data w) as [w' [r|]] eqn:Hc; [|done]. intros [= <-]. by eapply step_commit.
Qed.

(** Every state a schedule reaches is reachable by [step]. *)
Lemma run_schedule_sound sch s s' : run_schedule sch s = Some s' -> rtc step s s'.
Proof.
  revert s; induction sch as [|t sch IH]; intros s; simpl; [intros [= <-]; done|].
  destruct (thread_step t s) as [s1|] eqn:E; [|done]. intros Hr.
  eapply rtc_l; [by apply (thread_step_sound t)|]. by apply IH.
Qed.

End Schedules.

(** ** Lost writes *)

Section LostWrites.
Context `{Runtime}.

Definition two_threads (o1 o2 : op) (w : world) : sys := mk_sys w [Pending o1; Pending o2].

(** C18: two concurrent [update_item] requests on one collection, both
    reading before either writes, both report success, but the file ends
    up as the second request's snapshot with only its own change: the
    first update is lost. *)
Theorem lost_update n docs w i1 u1 i2 u2 k1 k2 :
  w_files w !! n = Some (FJson docs) ->
  find_index (id_matches i1) docs = Some k1 -> find_index (id_matches i2) docs = Some k2 ->
  exists w' d1 d2,
    run_schedule [0; 1; 0; 1]%nat (two_threads (OpUpdate n i1 u1) (OpUpdate n i2 u2) w) =
      Some (mk_sys w' [Finished (Some d1); Finished (Some d2)]) /\
    w_files w' !! n = Some (FJson (<[k2 := d2]> docs)).
Proof.
  intros Hf H1 H2. destruct (update_commit_found n i1 u1 docs w k1 H1) as (d1 & Hc1 & _).
  destruct (update_commit_found n i2 u2 docs
              (mk_world (<[n := FJson (<[k1 := d1]> docs)]> (w_files w)) (S (w_ticks w)) (w_draws w))
              k2 H2) as (d2 & Hc2 & _).
  do 3 eexists. split.
  - cbn. rewrite (load_data_valid _ _ _ Hf). cbn. rewrite (load_data_valid _ _ _ Hf). cbn.
    rewrite Hc1. cbn. rewrite Hc2. reflexivity.
  - cbn. by rewrite lookup_insert_eq.
Qed.

(** C19: two concurrent [create_item] requests both return their new
    document, but the file keeps only the second one appended to the list
    both read. *)
Theorem lost_create n docs w it1 it2 :
  w_files w !! n = Some (FJson docs) ->
  exists w' d1 d2,
    run_schedule [0; 1; 0; 1]%nat (two_threads (OpCreate n it1) (OpCreate n it2) w) =
      Some (mk_sys w' [Finished (Some d1); Finished (Some d2)]) /\
    w_files w' !! n = Some (FJson (docs ++ [d2])).
Proof.
  intros Hf. destruct (create_commit_spec n it1 docs w) as (w1 & d1 & Hc1).
  destruct (create_commit_spec n it2 docs
              (mk_world (<[n := FJson (docs ++ [d1])]> (w_files w)) (w_ticks w1) (w_draws w1)))
    as (w2 & d2 & Hc2).
  do 3 eexists. split.
  - cbn. rewrite (load_data_valid _ _ _ Hf). cbn. rewrite (load_data_valid _ _ _ Hf). cbn.
    st_simpl. rewrite Hc1. cbn. st_simpl. rewrite Hc2. reflexivity.
  - cbn. by rewrite lookup_insert_eq.
Qed.
End LostWrites.

(** ** Serial runs and an invariant of updates *)

Section Serial.
Context `{Runtime}.

(** Two ids found at different positions are not equal. *)
Lemma first_index_distinct docs i1 i2 k1 k2 :
  find_index (id_matches i1) docs = Some k1 -> find_index (id_matches i2) docs = Some k2 ->
  k1 ≠ k2 -> py_eq i1 i2 = false.
Proof.
  intros H1 H2 Hne. destruct (py_eq i1 i2) eqn:E; [exfalso|done].
  destruct (find_index_spec _ _ _ H1) as (x1 & Hx1 & Hm1 & Hmin1).
  destruct (find_index_spec _ _ _ H2) as (x2 & Hx2 & Hm2 & Hmin2).
  unfold id_matches in *. destruct (decide (k1 < k2)%nat).
  - pose proof (Hmin2 k1 x1 ltac:(done) Hx1) as F. by rewrite (py_eq_trans _ _ _ Hm1 E) in F.
  - rewrite py_eq_sym in E. pose proof (Hmin1 k2 x2 ltac:(lia) Hx2) as F.
    by rewrite (py_eq_trans _ _ _ Hm2 E) in F.
Qed.

(** run one after the other, two updates of different documents both
    persist: the file holds the first update at its position and the
    second at its own. *)
Theorem serial_updates_persist n docs w i1 u1 i2 u2 k1 k2 :
  w_files w !! n = Some (FJson docs) ->
  find_index (id_matches i1) docs = Some k1 -> find_index (id_matches i2) docs = Some k2 ->
  k1 ≠ k2 ->
  exists w' d1 d2,
    run_schedule [0; 0; 1; 1]%nat (two_threads (OpUpdate n i1 u1) (OpUpdate n i2 u2) w) =
      Some (mk_sys w' [Finished (Some d1); Finished (Some d2)]) /\
    w_files w' !! n = Some (FJson (<[k2 := d2]> (<[k1 := d1]> docs))).
Proof.
  intros Hf H1 H2 Hne. destruct (update_commit_found n i1 u1 docs w k1 H1) as (d1 & Hc1 & Hid1).
  set (w1 := mk_world (<[n := FJson (<[k1 := d1]> docs)]> (w_files w)) (S (w_ticks w)) (w_draws w)).
  assert (Hf1 : w_files w1 !! n = Some (FJson (<[k1 := d1]> docs))) by (cbn; by rewrite lookup_insert_eq).
  assert (H2' : find_index (id_matches i2) (<[k1 := d1]> docs) = Some k2).
  { apply find_index_insert_other; [done|done|]. unfold id_matches, get_or.
    rewrite Hid1. exact (first_index_distinct _ _ _ _ _ H1 H2 Hne). }
  destruct (update_commit_found n i2 u2 _ w1 k2 H2') as (d2 & Hc2 & _).
  do 3 eexists. split.
  - cbn. rewrite (load_data_valid _ _ _ Hf). cbn. rewrite Hc1. cbn.
    fold w1. rewrite (load_data_valid _ _ _ Hf1). cbn. rewrite Hc2. reflexivity.
  - cbn. by rewrite lookup_insert_eq.
Qed.

(** Every thread updates collection [n], whose file is readable with [L]
    documents, and every list read so far has [L] documents. *)
Definition updates_only (n : string) (L : nat) (s : sys) : Prop :=
  (exists docs, w_files (sys_world s) !! n = Some (FJson docs) /\ length docs = L) /\
  Forall (fun ph => match ph with
                    | Pending (OpUpdate n' _ _) => n' = n
                    | Loaded (OpUpdate n' _ _) data => n' = n /\ length data = L
                    | Finished _ => True
                    | _ => False
                    end) (sys_threads s).

Lemma update_commit_file n i u data w w' r :
  update_commit n i u data w = (w', Ok r) ->
  w_files w' !! n = w_files w !! n \/ exists k d, w_files w' !! n = Some (FJson (<[k := d]> data)).
Proof.
  unfold update_commit. destruct (find_index _ data) as [k|].
  - st_simpl. intros [= <- _]. right. do 2 eexists. cbn. by rewrite lookup_insert_eq.
  - intros [= <- _]. by left.
Qed.

Lemma step_updates_only n L s s' : updates_only n L s -> step s s' -> updates_only n L s'.
Proof.
  intros [(docs & Hf & Hlen) Hts] Hstep. destruct Hstep as [t o w ts w' data Ht Hl|t o data w ts w' r Ht Hc];
    pose proof (Forall_lookup_1 _ _ _ _ Hts Ht) as Ho; simpl in *.
  - destruct o as [|n' i u]; [done|]. subst n'. cbn [op_file] in Hl. rewrite (load_data_valid _ _ _ Hf) in Hl.
    injection Hl as <- <-. split; [by exists docs|]. by apply Forall_insert.
  - destruct o as [|n' i u]; [done|]. destruct Ho as [-> Hdl].
    split; [|by apply Forall_insert].
    cbn [sys_world]. destruct (update_commit_file _ _ _ _ _ _ _ Hc) as [->|(k & d & ->)]; [by exists docs|].
    eexists; split; [done|]. by rewrite length_insert.
Qed.

(** C20: whatever the interleaving, concurrent updates of one collection
    never change its number of documents (they can lose each other's
    changes, but they neither drop nor duplicate documents). *)
Theorem updates_preserve_count n L s s' :
  updates_only n L s -> rtc step s s' -> updates_only n L s'.
Proof. intros Hs Hr. induction Hr; eauto using step_updates_only. Qed.
End Serial.

(** ** Concrete runs *)

Section ConcurrencyWitnesses.
#[local] Existing Instance demo_runtime.

Definition rename_chair : op := OpUpdate "marketplace_items" (VStr "a") {[ "title" := VStr "Old Chair" ]}.
Definition rename_table : op := OpUpdate "marketplace_items" (VStr "b") {[ "title" := VStr "Old Table" ]}.

Lemma lost_update_witness :
  exists w' d1 d2,
    run_schedule [0; 1; 0; 1]%nat (two_threads rename_chair rename_table demo_world) =
      Some (mk_sys w' [Finished (Some d1); Finished (Some d2)]) /\
    w_files w' !! "marketplace_items" = Some (FJson (<[1%nat := d2]> [chair; table])).
Proof. apply (lost_update _ [chair; table] _ _ _ _ _ 0 1); reflexivity. Defined.

Lemma lost_create_witness :
  exists w' d1 d2,
    run_schedule [0; 1; 0; 1]%nat
      (two_threads (OpCreate "marketplace_items" lamp) (OpCreate "marketplace_items" second_chair) demo_world) =
      Some (mk_sys w' [Finished (Some d1); Finished (Some d2)]) /\
    w_files w' !! "marketplace_items" = Some (FJson ([chair; table] ++ [d2])).
Proof. apply (lost_create _ [chair; table]). reflexivity. Defined.

Lemma serial_updates_persist_witness :
  exists w' d1 d2,
    run_schedule [0; 0; 1; 1]%nat (two_threads rename_chair rename_table demo_world) =
      Some (mk_sys w' [Finished (Some d1); Finished (Some d2)]) /\
    w_files w' !! "marketplace_items" = Some (FJson (<[1%nat := d2]> (<[0%nat := d1]> [chair; table]))).
Proof. apply (serial_updates_persist _ [chair; table] _ _ _ _ _ 0 1); [reflexivity..|lia]. Defined.

Lemma updates_preserve_count_witness :
  exists s', run_schedule [0; 1; 0; 1]%nat (two_threads rename_chair rename_table demo_world) = Some s' /\
    updates_only "marketplace_items" 2 s'.
Proof.
  destruct (run_schedule [0; 1; 0; 1]%nat (two_threads rename_chair rename_table demo_world)) as [s'|] eqn:E;
    [|vm_compute in E; discriminate].
  exists s'. split; [done|]. apply (updates_preserve_count _ _ (two_threads rename_chair rename_table demo_world)).
  - split; [exists [chair; table]; split; reflexivity|repeat constructor].
  - exact (run_schedule_sound _ _ _ E).
Defined.
End ConcurrencyWitnesses.
