(* ===== verification/Views.v ===== *)
(** The marketplace views of [src/main_app/views_json.py] that read and
    write the JSON store: [get_json_object_or_404], [add_item],
    [my_items], [update_item], [delete_item] and [search_items].  A
    request carries the authenticated user's id, the method, the form or
    query parameters and the uploaded image's name; a view returns the
    messages it adds and a response (a rendered template with its context,
    or a redirect to a named URL).  Template rendering itself is not
    modelled. *)

From S2P Require Import Prelude PyValue JsonStore Entity QuerySet Adapters.
From Stdlib Require Import Ascii.

Open Scope string_scope.

(** ** Requests and responses *)

Record request := mk_req {
  req_user : option Z;            (** [request.user.id], [None] when anonymous *)
  req_is_post : bool;             (** [request.method == 'POST'] *)
  req_params : gmap string string; (** [request.POST] or [request.GET] *)
  req_image : option string       (** [request.FILES.get('image').name] *)
}.

(** [request.POST.get(k)] *)
Definition param (r : request) (k : string) : value :=
  match req_params r !! k with Some s => VStr s | None => VNone end.

(** [request.GET.get(k, '')] *)
Definition param_or_empty (r : request) (k : string) : string :=
  default "" (req_params r !! k).

Inductive message := MsgError (text : string) | MsgSuccess (text : string).

Inductive ctxv :=
  | CStr (s : string)
  | CEntity (e : entity)
  | CEntities (es : list entity)
  | CQuery (q : queryset).

Inductive response :=
  | Render (template : string) (ctx : list (string * ctxv))
  | Redirect (name : string) (arg : option string).

Definition view_result : Type := list message * response.

(** [getattr(obj, k)]: [AttributeError] without the attribute. *)
Definition getattr (e : entity) (k : string) : res value :=
  match attr e k with Some v => Ok v | None => Raise AttributeError end.

(** [getattr(obj, k, default)] *)
Definition getattr_or (e : entity) (k : string) (dflt : value) : value :=
  default dflt (attr e k).

(** ** URLs *)

Definition is_digit (c : ascii) : bool :=
  let n := nat_of_ascii c in (48 <=? n)%nat && (n <=? 57)%nat.

Fixpoint all_digits (s : string) : bool :=
  match s with
  | EmptyString => true
  | String c s' => is_digit c && all_digits s'
  end.

(** ** [except model_class.DoesNotExist] *)

(** Only [UserAdapter] has a class attribute [DoesNotExist]; for the other
    adapters, evaluating the [except] clause's expression raises
    [AttributeError], whatever the exception being handled. *)
Definition has_dne_attr (m : model) : bool :=
  match m with UserAdapter => true | _ => false end.

(** The view functions, in a Module named after their file so that
    [views_json.update_item] and [views_json.delete_item] are told apart
    from the store functions of the same name. *)
Module views_json.
Section Handlers.
Context `{Runtime}.

(** [reverse(view, kwargs={'item_id': v})] for the routes
    ['marketplace/item/<int:item_id>/'] and the like of [urls.py]: the
    [int] converter's [to_url] is [str(v)], which must match [[0-9]+]. *)
Definition reverse_int_arg (view : string) (v : value) : res string :=
  let s := py_str v in
  if bool_decide (s ≠ "") && all_digits s then Ok s else Raise (NoReverseMatch view).


Definition except_model_dne {A} (m : model) (handler : st world A) (ex : exn)
    : option (st world A) :=
  if has_dne_attr m then
    match ex with DoesNotExist _ => Some handler | _ => None end
  else Some (raise AttributeError).

(** [get_json_object_or_404(model_class, **kwargs)] *)
Definition get_json_object_or_404 (m : model) (kwargs : fdict) : st world entity :=
  catch (ModelAdapter.get m kwargs) (except_model_dne m (raise (Http404 (class_name m)))).

(** [@login_required]: an anonymous request is sent to the login page. *)
Definition login_required (r : request) (view : Z -> st world view_result) : st world view_result :=
  match req_user r with
  | None => mret ([], Redirect "login" None)
  | Some uid => view uid
  end.

(** ** [add_item] *)

Definition add_item_form : response :=
  Render "main_app/add_item.html"
    [("categories", CQuery (ModelAdapter.all CategoryAdapter)); ("title", CStr "Add New Item")].

(** [if image: item_data['image'] = ...]; an upload is truthy when it has
    a name. *)
Definition with_image (r : request) (d : doc) : doc :=
  match req_image r with
  | Some n => if bool_decide (n = "") then d else <["image" := VStr ("marketplace_items/" ++ n)]> d
  | None => d
  end.

(** The document [add_item] creates. *)
Definition new_item_data (r : request) (uid : Z) (cid : value) : doc :=
  with_image r
    {[ "title" := param r "title"; "description" := param r "description";
       "category_id" := cid; "condition" := param r "condition";
       "owner_id" := VInt uid; "location" := param r "location";
       "status" := VStr "available"; "is_featured" := VBool false; "views_count" := VInt 0 ]}.

Definition add_item (r : request) : st world view_result :=
  login_required r (fun uid =>
    if req_is_post r then
      if negb (forallb truthy [param r "title"; param r "description"; param r "category";
                               param r "condition"; param r "location"]) then
        mret ([MsgError "Please fill all required fields"], add_item_form)
      else
        cat ← catch (c ← ModelAdapter.get CategoryAdapter [("id", param r "category")]; mret (Some c))
                    (except_model_dne CategoryAdapter (mret None));
        match cat with
        | None => mret ([MsgError "Invalid category"], add_item_form)
        | Some category =>
            cid ← lift_res (getattr category "id");
            item ← ModelAdapter.create MarketplaceItemAdapter (new_item_data r uid cid);
            iid ← lift_res (getattr item "id");
            url ← lift_res (reverse_int_arg "item_detail" iid);
            mret ([MsgSuccess "Item added successfully!"], Redirect "item_detail" (Some url))
        end
    else mret ([], add_item_form)).

(** ** [my_items] *)

(** [sorted(items, key=lambda x: getattr(x, 'created_at', ''), reverse=True)] *)
Definition sort_by_created_desc (es : list entity) : res (list entity) :=
  py_sorted (fun e => getattr_or e "created_at" (VStr "")) true es.

Definition my_items (r : request) : st world view_result :=
  login_required r (fun uid =>
    '(_, all_items) ← qs_iter (ModelAdapter.filter MarketplaceItemAdapter
                                 [("owner_id", VStr (py_str (VInt uid)))]);
    items ← lift_res (sort_by_created_desc all_items);
    mret ([], Render "main_app/my_items.html" [("items", CEntities items); ("title", CStr "My Items")])).

(** ** [delete_item] *)

(** [str(request.user.id) != getattr(item, 'owner_id', None)] *)
Definition not_owner (uid : Z) (item : entity) : bool :=
  negb (py_eq (VStr (py_str (VInt uid))) (getattr_or item "owner_id" VNone)).

Definition delete_item (r : request) (item_id : Z) : st world view_result :=
  login_required r (fun uid =>
    item ← get_json_object_or_404 MarketplaceItemAdapter [("id", VStr (py_str (VInt item_id)))];
    if not_owner uid item then
      mret ([MsgError "You do not have permission to delete this item"], Redirect "marketplace" None)
    else if req_is_post r then
      _ ← ModelAdapter.delete item;
      mret ([MsgSuccess "Item deleted successfully!"], Redirect "my_items" None)
    else mret ([], Render "main_app/delete_item.html" [("item", CEntity item); ("title", CStr "Delete Item")])).

(** ** [update_item] *)

Definition update_item_form (item : entity) : response :=
  Render "main_app/update_item.html"
    [("item", CEntity item); ("categories", CQuery (ModelAdapter.all CategoryAdapter));
     ("title", CStr "Update Item")].

(** The six assignments [item.title = title] ... [item.status = status]
    and the optional [item.image]. *)
Definition apply_form (r : request) (cid : value) (item : entity) : entity :=
  let e := set_attr (set_attr (set_attr (set_attr (set_attr (set_attr item
             "title" (param r "title")) "description" (param r "description"))
             "category_id" cid) "condition" (param r "condition"))
             "location" (param r "location")) "status" (param r "status") in
  match req_image r with
  | Some n => if bool_decide (n = "") then e else set_attr e "image" (VStr ("marketplace_items/" ++ n))
  | None => e
  end.

Definition update_item (r : request) (item_id : Z) : st world view_result :=
  login_required r (fun uid =>
    item ← get_json_object_or_404 MarketplaceItemAdapter [("id", VStr (py_str (VInt item_id)))];
    if not_owner uid item then
      mret ([MsgError "You do not have permission to edit this item"], Redirect "marketplace" None)
    else if req_is_post r then
      if negb (forallb truthy [param r "title"; param r "description"; param r "category";
                               param r "condition"; param r "location"; param r "status"]) then
        mret ([MsgError "Please fill all required fields"], update_item_form item)
      else
        cat ← catch (c ← ModelAdapter.get CategoryAdapter [("id", param r "category")]; mret (Some c))
                    (except_model_dne CategoryAdapter (mret None));
        match cat with
        | None => mret ([MsgError "Invalid category"], update_item_form item)
        | Some category =>
            cid ← lift_res (getattr category "id");
            saved ← ModelAdapter.save (apply_form r cid item);
            iid ← lift_res (getattr saved "id");
            url ← lift_res (reverse_int_arg "item_detail" iid);
            mret ([MsgSuccess "Item updated successfully!"], Redirect "item_detail" (Some url))
        end
    else mret ([], update_item_form item)).

(** ** [search_items] *)

(** [items] is the query set until a filter turns it into a list. *)
Inductive items_v := IQuery (q : queryset) | IList (es : list entity).

Definition iterate (it : items_v) : st world (list entity) :=
  match it with
  | IQuery q => '(_, es) ← qs_iter q; mret es
  | IList es => mret es
  end.

(** [if flag: items = [item for item in items if p(item)]] *)
Definition refine_items (flag : bool) (p : entity -> res bool) (it : items_v) : st world items_v :=
  if flag then es ← iterate it; r ← lift_res (res_filter p es); mret (IList r) else mret it.

(** [getattr(item, k, '').lower()]: [AttributeError] on a value that is
    not a string. *)
Definition lower_attr (e : entity) (k : string) : res string :=
  match getattr_or e k (VStr "") with VStr s => Ok (str_lower s) | _ => Raise AttributeError end.

(** [query.lower() in title.lower() or query.lower() in description.lower()] *)
Definition query_test (q : string) (e : entity) : res bool :=
  match lower_attr e "title" with
  | Raise ex => Raise ex
  | Ok t => if str_contains (str_lower q) t then Ok true
            else match lower_attr e "description" with
                 | Raise ex => Raise ex
                 | Ok d => Ok (str_contains (str_lower q) d)
                 end
  end.

Definition location_test (loc : string) (e : entity) : res bool :=
  match lower_attr e "location" with
  | Raise ex => Raise ex
  | Ok l => Ok (str_contains (str_lower loc) l)
  end.

Definition eq_test (k v : string) (e : entity) : res bool :=
  Ok (py_eq (getattr_or e k (VStr "")) (VStr v)).

Definition items_ctx (it : items_v) : ctxv :=
  match it with IQuery q => CQuery q | IList es => CEntities es end.

Definition search_items (r : request) : st world view_result :=
  let query := param_or_empty r "q" in
  let category_id := param_or_empty r "category" in
  let condition := param_or_empty r "condition" in
  let location := param_or_empty r "location" in
  let nonempty s := negb (bool_decide (s = "")) in
  it1 ← refine_items (nonempty query) (query_test query)
          (IQuery (ModelAdapter.filter MarketplaceItemAdapter [("status", VStr "available")]));
  it2 ← refine_items (nonempty category_id) (eq_test "category_id" category_id) it1;
  it3 ← refine_items (nonempty condition) (eq_test "condition" condition) it2;
  it4 ← refine_items (nonempty location) (location_test location) it3;
  mret ([], Render "main_app/search_results.html"
              [("items", items_ctx it4); ("categories", CQuery (ModelAdapter.all CategoryAdapter));
               ("query", CStr query); ("category_id", CStr category_id);
               ("condition", CStr condition); ("location", CStr location);
               ("title", CStr "Search Results")]).
End Handlers.
End views_json.
Import views_json.

(** ** Shared lemmas *)

Lemma py_eq_str_l s v : py_eq (VStr s) v = true -> v = VStr s.
Proof. destruct v; simpl; try done. by case_bool_decide; [intros _; subst|]. Qed.

(** An adapter other than [UserPreferenceAdapter] built from a document
    without property-named fields holds exactly that document. *)
Lemma construct_plain m d :
  m ≠ UserPreferenceAdapter -> Forall (fun k => d !! k = None) (properties m) ->
  construct m d = Ok (mk_entity m d).
Proof.
  intros Hm Hd. destruct (construct_ok m d Hd) as (e & He & _). rewrite He.
  unfold construct in He. case_bool_decide; [done|]. injection He as <-. by destruct m.
Qed.

Lemma construct_all_plain m ds :
  m ≠ UserPreferenceAdapter -> Forall (fun d => Forall (fun k => d !! k = None) (properties m)) ds ->
  construct_all m ds = Ok (map (mk_entity m) ds).
Proof.
  intros Hm. induction 1 as [|d ds Hd _ IH]; [done|]. simpl. by rewrite construct_plain, IH.
Qed.

Section ViewLemmas.
Context `{Runtime}.

(** Iterating a fresh unordered query set on a readable collection. *)
Lemma qs_iter_plain m fs w docs r :
  w_files w !! file_name m = Some (FJson docs) -> apply_filters fs docs = Ok r ->
  m ≠ UserPreferenceAdapter -> Forall (fun d => Forall (fun k => d !! k = None) (properties m)) r ->
  qs_iter (new_qs m fs None) w = (w, Ok (mk_qs m fs None (Some r), map (mk_entity m) r)).
Proof.
  intros Hf Ha Hm Hr. unfold qs_iter, fetch. st_simpl. simpl.
  rewrite (get_all_items_valid _ _ _ _ Hf), Ha. simpl. by rewrite construct_all_plain.
Qed.

(** [get(id=...)] on a readable collection whose first match builds. *)
Lemma model_get_first m kwargs w docs d rest :
  w_files w !! file_name m = Some (FJson docs) -> apply_filters kwargs docs = Ok (d :: rest) ->
  m ≠ UserPreferenceAdapter -> Forall (fun k => d !! k = None) (properties m) ->
  ModelAdapter.get m kwargs w = (w, Ok (mk_entity m d)).
Proof.
  intros Hf Ha Hm Hd. rewrite (model_get_returns_first _ _ _ _ _ _ Hf Ha). by rewrite construct_plain.
Qed.

(** C7: [get_json_object_or_404] turns a missing object into [Http404]
    only for [UserAdapter]: for every other adapter the [except
    model_class.DoesNotExist] clause itself fails, and the view raises
    [AttributeError] (a server error) instead of a 404. *)
Theorem get_object_or_404_missing m kwargs w docs :
  w_files w !! file_name m = Some (FJson docs) -> apply_filters kwargs docs = Ok [] ->
  get_json_object_or_404 m kwargs w =
    (w, Raise (if has_dne_attr m then Http404 (class_name m) else AttributeError)).
Proof.
  intros Hf Ha. unfold get_json_object_or_404, ModelAdapter.get, except_model_dne. st_simpl.
  rewrite (get_all_items_valid _ _ _ _ Hf), Ha. by destruct (has_dne_attr m).
Qed.

(** [add_item] with a complete form naming a category that does not
    exist does not show the "Invalid category" message: the [except
    Category.DoesNotExist] clause raises [AttributeError], and nothing is
    written. *)
Theorem add_item_unknown_category_raises r uid w cats :
  req_user r = Some uid -> req_is_post r = true ->
  forallb truthy [param r "title"; param r "description"; param r "category";
                  param r "condition"; param r "location"] = true ->
  w_files w !! "categories" = Some (FJson cats) ->
  Forall (fun d => exact_test "id" (param r "category") d = false) cats ->
  add_item r w = (w, Raise AttributeError).
Proof.
  intros Hu Hp Hv Hf Hnone. unfold add_item, login_required. rewrite Hu, Hp, Hv. simpl.
  unfold ModelAdapter.get, except_model_dne. st_simpl.
  rewrite (get_all_items_valid _ _ _ _ Hf), apply_filters_id, filter_Forall_not; [done|].
  eapply Forall_impl; [exact Hnone|]. by intros ? ->.
Qed.
End ViewLemmas.

Section AddItem.
Context `{Runtime}.

Lemma first_with_id_cons docs i d :
  first_with_id docs i = Some d ->
  exists rest x, filter (fun d => exact_test "id" i d = true) docs = d :: rest /\
    d !! "id" = Some x.
Proof.
  unfold first_with_id. destruct (filter _ docs) as [|d' rest] eqn:E; [done|]. intros [= <-].
  assert (Hin : d' ∈ filter (fun d => exact_test "id" i d = true) docs) by (rewrite E; left).
  apply list_elem_of_filter in Hin as [Hx _]. unfold exact_test in Hx.
  destruct (d' !! "id") as [x|] eqn:Hd; [|done]. by exists rest, x.
Qed.

Lemma new_item_data_lookup r uid cid k :
  k ≠ "image" ->
  new_item_data r uid cid !! k =
    ({[ "title" := param r "title"; "description" := param r "description";
        "category_id" := cid; "condition" := param r "condition";
        "owner_id" := VInt uid; "location" := param r "location";
        "status" := VStr "available"; "is_featured" := VBool false;
        "views_count" := VInt 0 ]} : doc) !! k.
Proof.
  intros Hk. unfold new_item_data, with_image.
  destruct (req_image r); [case_bool_decide|]; [done| |done]. by rewrite lookup_insert_ne.
Qed.

(** C3: [add_item] with a complete form and an existing category creates
    the item, with the user's integer id as [owner_id], and then fails:
    the new id is a [uuid4] string, which the [<int:item_id>] route of
    [item_detail] cannot reverse, so the request ends in [NoReverseMatch]
    after the store has been changed. *)
Theorem add_item_redirect_fails r uid w cats mdocs c :
  req_user r = Some uid -> req_is_post r = true ->
  forallb truthy [param r "title"; param r "description"; param r "category";
                  param r "condition"; param r "location"] = true ->
  w_files w !! "categories" = Some (FJson cats) ->
  w_files w !! "marketplace_items" = Some (FJson mdocs) ->
  first_with_id cats (param r "category") = Some c -> c !! "items" = None ->
  all_digits (rt_uuid4 (w_draws w)) = false ->
  exists w' d, add_item r w = (w', Raise (NoReverseMatch "item_detail")) /\
    w_files w' !! "marketplace_items" = Some (FJson (mdocs ++ [d])) /\
    d !! "owner_id" = Some (VInt uid).
Proof.
  intros Hu Hp Hv Hfc Hfm Hc Hitems Huuid.
  destruct (first_with_id_cons _ _ _ Hc) as (rest & x & Hfilt & Hx).
  destruct (create_item_run "marketplace_items" (new_item_data r uid x) _ _ Hfm)
    as (w' & d & Hcr & Hf' & _ & _ & Hid & Hrest).
  rewrite new_item_data_lookup, !lookup_insert_ne, lookup_singleton_ne in Hid by done. simpl in Hid.
  assert (Hd : forall k, k ∈ ["category"; "owner"; "owner_id"] ->
            d !! k = ({[ "title" := param r "title"; "description" := param r "description";
                         "category_id" := x; "condition" := param r "condition";
                         "owner_id" := VInt uid; "location" := param r "location";
                         "status" := VStr "available"; "is_featured" := VBool false;
                         "views_count" := VInt 0 ]} : doc) !! k).
  { intros k Hk. rewrite Hrest, new_item_data_lookup; [done|..];
      repeat (inversion Hk as [|? ? ? Hk']; subst; clear Hk; try rename Hk' into Hk); done. }
  assert (Hprops : Forall (fun k => d !! k = None) (properties MarketplaceItemAdapter)).
  { constructor; [rewrite Hd; [reflexivity|by left]|].
    constructor; [rewrite Hd; [reflexivity|by right; left]|constructor]. }
  exists w', d. split_and!; [|done|by rewrite Hd by (right; right; left)].
  unfold add_item, login_required. rewrite Hu, Hp, Hv. simpl.
  unfold ModelAdapter.get, ModelAdapter.create. st_simpl.
  rewrite (get_all_items_valid _ _ _ _ Hfc), apply_filters_id, Hfilt. simpl.
  rewrite construct_plain by (done || by repeat constructor). simpl.
  unfold getattr, attr. simpl. rewrite Hx. simpl. rewrite Hcr. simpl.
  rewrite construct_plain by done.
  simpl. rewrite Hid. simpl. unfold reverse_int_arg. simpl. by rewrite Huuid, andb_false_r.
Qed.
End AddItem.

Section MyItems.
Context `{Runtime}.

Lemma construct_all_elem m ds es e :
  construct_all m ds = Ok es -> e ∈ es -> exists d, d ∈ ds /\ construct m d = Ok e.
Proof.
  revert es; induction ds as [|d ds IH]; intros es; simpl; [intros [= <-]; by intros ?%elem_of_nil|].
  destruct (construct m d) as [e0|] eqn:Hc; [|done].
  destruct (construct_all m ds) as [es0|] eqn:Hcs; [|done]. intros [= <-] [->|Hin]%elem_of_cons.
  - exists d. split; [left|done].
  - destruct (IH es0 eq_refl Hin) as (d' & Hd' & Hc'). exists d'. split; [by right|done].
Qed.

Lemma py_sorted_perm {A} (key : A -> value) rev l l' : py_sorted key rev l = Ok l' -> l' ≡ₚ l.
Proof. unfold py_sorted. destruct (all_orderable key l); intros [= <-]. apply stable_sort_perm. Qed.

(** Every document an equality scan [k=v] returns passes the test. *)
Lemma get_all_items_plain name k v w w' r :
  str_contains "__" k = false -> get_all_items name [(k, v)] w = (w', Ok r) ->
  Forall (fun d => exact_test k v d = true) r.
Proof.
  intros Hk. rewrite get_all_items_eq. destruct (load_data_ok name w) as [d ->].
  rewrite apply_filters_plain by done. intros [= _ <-]. apply Forall_forall.
  intros x Hx. by apply list_elem_of_filter in Hx as [? _].
Qed.

(** Iterating a fresh unordered one-key query set gives adapters built
    from documents that pass the test. *)
Lemma qs_iter_plain_elem m k v w w' q es e :
  str_contains "__" k = false ->
  qs_iter (new_qs m [(k, v)] None) w = (w', Ok (q, es)) -> e ∈ es ->
  exists d, exact_test k v d = true /\ construct m d = Ok e.
Proof.
  intros Hk. unfold qs_iter, fetch. st_simpl. simpl.
  destruct (get_all_items _ [(k, v)] w) as [w1 [r|]] eqn:Hg; [|done]. simpl.
  destruct (construct_all m r) as [es0|] eqn:Hc; [|done]. intros [= _ _ <-] He.
  destruct (construct_all_elem _ _ _ _ Hc He) as (d & Hd & Hcd). exists d. split; [|done].
  pose proof (get_all_items_plain _ _ _ _ _ _ Hk Hg) as Hall. rewrite Forall_forall in Hall. by apply Hall.
Qed.

(** C6: [my_items] lists only items whose [owner_id] is the {e string}
    form of the user's id, while [add_item] stores the integer id: an item
    a user adds through the site never appears in that user's list. *)
Theorem my_items_string_owner r uid w w' ms tpl ctx es :
  req_user r = Some uid ->
  my_items r w = (w', Ok (ms, Render tpl ctx)) -> ("items", CEntities es) ∈ ctx ->
  Forall (fun e => attr e "owner_id" = Some (VStr (py_str (VInt uid)))) es.
Proof.
  intros Hu. unfold my_items, login_required. rewrite Hu. st_simpl.
  destruct (qs_iter _ w) as [w1 [[q all_items]|]] eqn:Hq; [|done].
  destruct (sort_by_created_desc all_items) as [items|] eqn:Hs; [|done].
  intros [= _ _ <- <-] Hin.
  assert (es = items) as -> by (repeat (apply elem_of_cons in Hin as [Hin|Hin]; [by simplify_eq|]);
                                by apply elem_of_nil in Hin).
  apply Forall_forall. intros e He. rewrite (py_sorted_perm _ _ _ _ Hs) in He.
  assert (Hk : str_contains "__" "owner_id" = false) by reflexivity.
  destruct (qs_iter_plain_elem _ _ _ _ _ _ _ e Hk Hq He) as (d & Hx & Hc).
  unfold exact_test in Hx. destruct (d !! "owner_id") as [x|] eqn:Hd; [|done].
  rewrite py_eq_sym in Hx. apply py_eq_str_l in Hx as ->.
  exact (construct_keeps_fields _ _ _ _ _ Hc Hd).
Qed.
End MyItems.

Section Ownership.
Context `{Runtime}.

Lemma get_object_or_404_found m kwargs w docs d rest :
  w_files w !! file_name m = Some (FJson docs) -> apply_filters kwargs docs = Ok (d :: rest) ->
  m ≠ UserPreferenceAdapter -> Forall (fun k => d !! k = None) (properties m) ->
  get_json_object_or_404 m kwargs w = (w, Ok (mk_entity m d)).
Proof.
  intros Hf Ha Hm Hd. unfold get_json_object_or_404, catch.
  by rewrite (model_get_first _ _ _ _ _ _ Hf Ha Hm Hd).
Qed.

Lemma not_owner_int uid d : d !! "owner_id" = Some (VInt uid) ->
  not_owner uid (mk_entity MarketplaceItemAdapter d) = true.
Proof. intros Hd. unfold not_owner, getattr_or, attr. simpl. by rewrite Hd. Qed.

(** C2: the owner of an item created by [add_item] (whose [owner_id] is
    the integer user id) is refused by [update_item] and [delete_item]:
    both compare [str(request.user.id)] with the stored integer, redirect
    with a permission error and leave the store unchanged. *)
Theorem owner_locked_out r uid item_id w docs d rest :
  req_user r = Some uid ->
  w_files w !! "marketplace_items" = Some (FJson docs) ->
  filter (fun d => exact_test "id" (VStr (py_str (VInt item_id))) d = true) docs = d :: rest ->
  d !! "owner_id" = Some (VInt uid) -> d !! "category" = None -> d !! "owner" = None ->
  delete_item r item_id w =
    (w, Ok ([MsgError "You do not have permission to delete this item"], Redirect "marketplace" None)) /\
  update_item r item_id w =
    (w, Ok ([MsgError "You do not have permission to edit this item"], Redirect "marketplace" None)).
Proof.
  intros Hu Hf Hfilt Ho Hc Hw.
  assert (Hp : Forall (fun k => d !! k = None) (properties MarketplaceItemAdapter)) by
    (repeat constructor; done).
  assert (Hg := get_object_or_404_found MarketplaceItemAdapter [("id", VStr (py_str (VInt item_id)))]
                  w docs d rest Hf ltac:(by rewrite apply_filters_id, Hfilt) ltac:(done) Hp).
  unfold delete_item, update_item, login_required. rewrite Hu. st_simpl.
  by rewrite Hg, not_owner_int.
Qed.
End Ownership.

(** ** Search *)

(** The reference meaning of the search form on one document, its text
    fields read as strings ([''] when absent). *)
Definition text_of (d : doc) (k : string) : string :=
  match d !! k with Some (VStr s) => s | _ => "" end.

Definition search_match (q c cond loc : string) (d : doc) : bool :=
  (bool_decide (q = "") || str_contains (str_lower q) (str_lower (text_of d "title"))
                        || str_contains (str_lower q) (str_lower (text_of d "description"))) &&
  (bool_decide (c = "") || py_eq (default (VStr "") (d !! "category_id")) (VStr c)) &&
  (bool_decide (cond = "") || py_eq (default (VStr "") (d !! "condition")) (VStr cond)) &&
  (bool_decide (loc = "") || str_contains (str_lower loc) (str_lower (text_of d "location"))).

(** A document whose text fields are strings when present. *)
Definition text_fields (d : doc) : Prop :=
  Forall (fun k => match d !! k with Some (VStr _) | None => True | _ => False end)
         ["title"; "description"; "location"].

Lemma elem_of_map_mk_inv m e l :
  e ∈ map (mk_entity m) l -> exists d, e = mk_entity m d /\ d ∈ l.
Proof.
  intros He%list_elem_of_In. apply in_map_iff in He as (d & <- & Hd).
  exists d. split; [done|by apply list_elem_of_In].
Qed.

Lemma elem_of_map_mk m d l : mk_entity m d ∈ map (mk_entity m) l <-> d ∈ l.
Proof.
  split; [|intros Hd; apply list_elem_of_In, in_map, list_elem_of_In, Hd].
  intros (d' & [= ->] & Hd)%elem_of_map_mk_inv. done.
Qed.

Lemma sublist_map {A B} (f : A -> B) l1 l2 : l1 `sublist_of` l2 -> map f l1 `sublist_of` map f l2.
Proof. induction 1; simpl; by constructor. Qed.

Section Search.
Context `{Runtime}.

Lemma refine_items_list flag p pb es w :
  (forall e, e ∈ es -> p e = Ok (pb e)) ->
  refine_items flag p (IList es) w = (w, Ok (IList (filter (fun e => (negb flag || pb e) = true) es))).
Proof.
  intros Hp. destruct flag; simpl; st_simpl; [by rewrite (res_filter_pure_in _ pb)|].
  by rewrite filter_all.
Qed.

Lemma lower_attr_text d k :
  text_fields d -> k ∈ ["title"; "description"; "location"] ->
  lower_attr (mk_entity MarketplaceItemAdapter d) k = Ok (str_lower (text_of d k)).
Proof.
  intros Hd Hk. unfold text_fields in Hd. rewrite Forall_forall in Hd. specialize (Hd k Hk).
  unfold lower_attr, getattr_or, attr, text_of. simpl.
  destruct (d !! k) as [[]|]; done.
Qed.

(** C34: with a non-empty query, [search_items] returns, in file order, the
    available items whose title or description contains the query and
    that pass the category, condition and location fields the form fills
    (case-insensitive substring tests for text, equality for the others),
    and changes nothing; no document raises when its text fields are
    strings. *)
Theorem search_items_refines r w docs :
  w_files w !! "marketplace_items" = Some (FJson docs) ->
  param_or_empty r "q" ≠ "" ->
  Forall (fun d => d !! "category" = None /\ d !! "owner" = None /\ text_fields d) docs ->
  exists items rest,
    search_items r w = (w, Ok ([], Render "main_app/search_results.html" (("items", CEntities items) :: rest))) /\
    items `sublist_of` map (mk_entity MarketplaceItemAdapter) docs /\
    forall d, mk_entity MarketplaceItemAdapter d ∈ items <->
      d ∈ docs /\ exact_test "status" (VStr "available") d = true /\
      search_match (param_or_empty r "q") (param_or_empty r "category")
                   (param_or_empty r "condition") (param_or_empty r "location") d = true.
Proof.
  intros Hf Hq Hdocs.
  set (avail := filter (fun d => exact_test "status" (VStr "available") d = true) docs).
  assert (Hav : forall d, d ∈ avail -> d ∈ docs /\ d !! "category" = None /\ d !! "owner" = None /\ text_fields d).
  { intros d Hd. apply list_elem_of_filter in Hd as [_ Hd]. rewrite Forall_forall in Hdocs.
    split; [done|]. by apply Hdocs. }
  assert (Hit : qs_iter (new_qs MarketplaceItemAdapter [("status", VStr "available")] None) w =
                (w, Ok (mk_qs MarketplaceItemAdapter [("status", VStr "available")] None (Some avail),
                        map (mk_entity MarketplaceItemAdapter) avail))).
  { apply (qs_iter_plain _ _ _ docs); [done|by rewrite apply_filters_plain|done|].
    apply Forall_forall. intros d Hd. destruct (Hav d Hd) as (_ & ? & ? & _). by repeat constructor. }
  set (q := param_or_empty r "q"). set (c := param_or_empty r "category").
  set (cond := param_or_empty r "condition"). set (loc := param_or_empty r "location").
  set (L := map (mk_entity MarketplaceItemAdapter) avail).
  set (qb := fun e : entity => str_contains (str_lower q) (str_lower (text_of (ent_attrs e) "title"))
                               || str_contains (str_lower q) (str_lower (text_of (ent_attrs e) "description"))).
  set (cb := fun e : entity => py_eq (default (VStr "") (ent_attrs e !! "category_id")) (VStr c)).
  set (kb := fun e : entity => py_eq (default (VStr "") (ent_attrs e !! "condition")) (VStr cond)).
  set (lb := fun e : entity => str_contains (str_lower loc) (str_lower (text_of (ent_attrs e) "location"))).
  (* every element of a filtered [L] is a built available document *)
  assert (HL : forall e, e ∈ L -> exists d, e = mk_entity MarketplaceItemAdapter d /\ d ∈ avail)
    by (intros e He; by apply elem_of_map_mk_inv).
  assert (Htxt : forall e, e ∈ L -> forall k, k ∈ ["title"; "description"; "location"] ->
            lower_attr e k = Ok (str_lower (text_of (ent_attrs e) k))).
  { intros e He k Hk. destruct (HL e He) as (d & -> & Hd). destruct (Hav d Hd) as (_ & _ & _ & Ht).
    by apply lower_attr_text. }
  assert (H1 : refine_items (negb (bool_decide (q = ""))) (query_test q)
                 (IQuery (ModelAdapter.filter MarketplaceItemAdapter [("status", VStr "available")])) w =
               (w, Ok (IList (filter (fun e => qb e = true) L)))).
  { rewrite bool_decide_eq_false_2 by done. unfold refine_items, iterate, ModelAdapter.filter. st_simpl.
    cbn [negb]. rewrite Hit. simpl. rewrite (res_filter_pure_in _ qb); [done|].
    intros e He. unfold query_test, qb. rewrite !Htxt by (done || set_solver).
    by destruct (str_contains _ _). }
  set (F1 := filter (fun e => qb e = true) L).
  assert (HF : forall P `{forall x, Decision (P x)} e, e ∈ filter P F1 -> e ∈ L).
  { intros P ? e He. apply list_elem_of_filter in He as [_ He]. by apply list_elem_of_filter in He as [_ He]. }
  set (F2 := filter (fun e => (negb (negb (bool_decide (c = ""))) || cb e) = true) F1).
  set (F3 := filter (fun e => (negb (negb (bool_decide (cond = ""))) || kb e) = true) F2).
  set (F4 := filter (fun e => (negb (negb (bool_decide (loc = ""))) || lb e) = true) F3).
  assert (Hsub : F4 `sublist_of` F3 /\ F3 `sublist_of` F2 /\ F2 `sublist_of` F1 /\ F1 `sublist_of` L)
    by (split_and!; apply sublist_filter).
  assert (HinL : forall e, e ∈ F3 -> e ∈ L).
  { intros e He. destruct Hsub as (_ & H32 & H21 & H1L).
    eapply elem_of_sublist; [|exact H1L]. eapply elem_of_sublist; [|exact H21].
    eapply elem_of_sublist; [exact He|exact H32]. }
  assert (H2 : refine_items (negb (bool_decide (c = ""))) (eq_test "category_id" c) (IList F1) w =
               (w, Ok (IList F2))) by (by apply refine_items_list).
  assert (H3 : refine_items (negb (bool_decide (cond = ""))) (eq_test "condition" cond) (IList F2) w =
               (w, Ok (IList F3))) by (by apply refine_items_list).
  assert (H4 : refine_items (negb (bool_decide (loc = ""))) (location_test loc) (IList F3) w =
               (w, Ok (IList F4))).
  { apply refine_items_list. intros e He. unfold location_test, lb.
    by rewrite Htxt by (by apply HinL || set_solver). }
  unfold search_items. fold q c cond loc. st_simpl. rewrite H1. fold F1. rewrite H2, H3, H4.
  eexists F4, _. split; [reflexivity|]. split.
  - destruct Hsub as (H43 & H32 & H21 & H1L).
    etrans; [exact H43|]. etrans; [exact H32|]. etrans; [exact H21|]. etrans; [exact H1L|].
    apply sublist_map, sublist_filter.
  - intros d. unfold F4, F3, F2, F1, L. rewrite !list_elem_of_filter, elem_of_map_mk.
    unfold avail. rewrite list_elem_of_filter, !negb_involutive.
    unfold search_match, qb, cb, kb, lb. simpl. rewrite (bool_decide_eq_false_2 (q = "")) by done.
    simpl. rewrite !andb_true_iff. naive_solver.
Qed.
End Search.

(** ** Concrete runs *)

Section ViewWitnesses.
#[local] Existing Instance demo_runtime.

Definition add_form (cat : string) : request :=
  mk_req (Some 7) true {[ "title" := "Desk"; "description" := "Oak desk"; "category" := cat;
                          "condition" := "good"; "location" := "Dhaka" ]} None.

Definition my_desk : doc :=
  {[ "id" := VStr "42"; "title" := VStr "Desk"; "owner_id" := VInt 7; "status" := VStr "available";
     "description" := VStr "Oak desk"; "location" := VStr "Dhaka" ]}.
Definition their_chair : doc :=
  {[ "id" := VStr "43"; "title" := VStr "Chair"; "owner_id" := VStr "7"; "status" := VStr "available";
     "description" := VStr "Blue chair"; "location" := VStr "Chittagong" ]}.
Definition desk_world : world :=
  mk_world {[ "marketplace_items" := FJson [my_desk; their_chair]; "categories" := FJson [furniture] ]} 0 0.

Lemma get_object_or_404_missing_witness :
  get_json_object_or_404 MarketplaceItemAdapter [("id", VStr "99")] desk_world = (desk_world, Raise AttributeError).
Proof. rewrite (get_object_or_404_missing MarketplaceItemAdapter _ _ [my_desk; their_chair]); reflexivity. Defined.

Lemma add_item_unknown_category_raises_witness :
  add_item (add_form "c9") desk_world = (desk_world, Raise AttributeError).
Proof. apply (add_item_unknown_category_raises _ 7 _ [furniture]); [reflexivity..|repeat constructor]. Defined.

Lemma add_item_redirect_fails_witness :
  exists w' d, add_item (add_form "c1") desk_world = (w', Raise (NoReverseMatch "item_detail")) /\
    w_files w' !! "marketplace_items" = Some (FJson ([my_desk; their_chair] ++ [d])) /\
    d !! "owner_id" = Some (VInt 7).
Proof. apply (add_item_redirect_fails _ _ _ [furniture] _ furniture); reflexivity. Defined.

Lemma my_items_string_owner_witness :
  exists w' ms tpl ctx es, my_items (add_form "c1") desk_world = (w', Ok (ms, Render tpl ctx)) /\
    ("items", CEntities es) ∈ ctx /\ Forall (fun e => attr e "owner_id" = Some (VStr "7")) es.
Proof.
  destruct (my_items (add_form "c1") desk_world) as [w' [[ms [tpl ctx|n a]]|ex]] eqn:E;
    try (vm_compute in E; discriminate).
  assert (Hctx : exists es, ("items", CEntities es) ∈ ctx)
    by (vm_compute in E; injection E as _ _ _ <-; eexists; left).
  destruct Hctx as [es Hes]. exists w', ms, tpl, ctx, es. split_and!; [done|done|].
  exact (my_items_string_owner (add_form "c1") 7 _ _ _ _ _ _ eq_refl E Hes).
Defined.

Lemma owner_locked_out_witness :
  delete_item (add_form "c1") 42 desk_world =
    (desk_world, Ok ([MsgError "You do not have permission to delete this item"], Redirect "marketplace" None)).
Proof.
  apply (owner_locked_out _ 7 42 _ [my_desk; their_chair] my_desk []); reflexivity.
Defined.

Definition search_form : request := mk_req None false {[ "q" := "CHAIR" ]} None.

Lemma search_items_refines_witness :
  exists items rest,
    search_items search_form desk_world =
      (desk_world, Ok ([], Render "main_app/search_results.html" (("items", CEntities items) :: rest))) /\
    mk_entity MarketplaceItemAdapter their_chair ∈ items.
Proof.
  destruct (search_items_refines search_form desk_world [my_desk; their_chair])
    as (items & rest & Hs & _ & Hiff); [reflexivity|discriminate|repeat constructor|].
  exists items, rest. split; [done|]. apply Hiff. split; [right; left|]. split; reflexivity.
Defined.
End ViewWitnesses.
