(* ===== verification/Recommend.v ===== *)
(** The recommendation helpers of [src/main_app/views_json.py]:
    [calculate_recommendation_score], which adds fixed weights for the
    preferences and the viewed item an item matches, a draw of
    [np.random.uniform(0, 0.1)] and caps the sum at [1.0], and
    [update_recommendations], which averages the new score into the
    user's recommendation of every available item of another owner.  The
    arithmetic is binary64 ([f64_add], [f64_div]), so the scores are the
    ones Python computes, rounding included. *)

From S2P Require Import Prelude PyValue JsonStore Entity QuerySet Adapters Frame Views.
From Stdlib Require Import Ascii SpecFloat.

Open Scope string_scope.

(** ** [str.split(',')] and [str.strip()] *)

(** [s.split(sep)] for a one-character separator: every occurrence cuts,
    so empty pieces are kept and [''.split(',')] is [['']]. *)
Fixpoint split_on (sep : ascii) (s : string) : list string :=
  match s with
  | EmptyString => [EmptyString]
  | String c s' =>
      if bool_decide (c = sep) then EmptyString :: split_on sep s'
      else match split_on sep s' with
           | h :: t => String c h :: t
           | [] => [String c EmptyString]
           end
  end.

(** [str.isspace] on the Latin-1 code points. *)
Definition is_space (c : ascii) : bool :=
  let n := nat_of_ascii c in
  ((9 <=? n)%nat && (n <=? 13)%nat) || ((28 <=? n)%nat && (n <=? 32)%nat) ||
  (n =? 133)%nat || (n =? 160)%nat.

Fixpoint lstrip (s : string) : string :=
  match s with
  | String c s' => if is_space c then lstrip s' else s
  | EmptyString => EmptyString
  end.

Fixpoint rstrip (s : string) : string :=
  match s with
  | EmptyString => EmptyString
  | String c s' =>
      let r := rstrip s' in
      if is_space c && bool_decide (r = EmptyString) then EmptyString else String c r
  end.

(** [s.strip()] *)
Definition strip (s : string) : string := rstrip (lstrip s).

(** ** [+] and [/] on numbers *)

Definition int_like (v : value) : option Z :=
  match v with
  | VInt z => Some z
  | VBool b => Some (if b then 1 else 0)
  | _ => None
  end.

(** [float(v)] of a number: an [int] too large for a float raises
    [OverflowError]. *)
Definition to_f64 (v : value) : res spec_float :=
  match v with
  | VFloat f => Ok f
  | _ => match int_like v with
         | Some z => match f64_of_Z z with
                     | S754_infinity _ => Raise OverflowError
                     | f => Ok f
                     end
         | None => Raise TypeError
         end
  end.

(** [a + b] *)
Definition py_add (a b : value) : res value :=
  match a, b with
  | VStr x, VStr y => Ok (VStr (x ++ y))
  | VList x, VList y => Ok (VList (x ++ y))
  | VFloat _, _ | _, VFloat _ =>
      match to_f64 a, to_f64 b with
      | Ok x, Ok y => Ok (VFloat (f64_add x y))
      | Raise e, _ | _, Raise e => Raise e
      end
  | _, _ =>
      match int_like a, int_like b with
      | Some x, Some y => Ok (VInt (x + y))
      | _, _ => Raise TypeError
      end
  end.

(** [a / b] with a [float] operand, as in the code ([(old + score) / 2]);
    for two [int]s below [2^53] the conversions are exact and one rounding
    gives Python's correctly rounded quotient. *)
Definition py_truediv (a b : value) : res value :=
  match to_f64 a, to_f64 b with
  | Ok x, Ok y =>
      match y with
      | S754_zero _ => Raise ZeroDivisionError
      | _ => Ok (VFloat (f64_div x y))
      end
  | Raise e, _ | _, Raise e => Raise e
  end.

(** [min(score, 1.0)]: the first argument unless the second is smaller. *)
Definition f64_min (x y : spec_float) : spec_float := if f64_ltb y x then y else x.

(** ** The weights *)

Definition f64_zero : spec_float := f64_of_Z 0.
Definition f64_one : spec_float := f64_of_Z 1.
Definition w_category : spec_float := f64_lit 4 10.   (** [0.4] *)
Definition w_condition : spec_float := f64_lit 2 10.  (** [0.2] *)
Definition w_location : spec_float := f64_lit 2 10.   (** [0.2] *)
Definition w_same_category : spec_float := f64_lit 1 10.  (** [0.1] *)
Definition w_same_condition : spec_float := f64_lit 5 100.  (** [0.05] *)
Definition w_same_location : spec_float := f64_lit 5 100.   (** [0.05] *)

(** [if b: score += w] *)
Definition add_if (b : bool) (w score : spec_float) : spec_float :=
  if b then f64_add score w else score.

(** The score before the random draw, from the six tests in the order
    the code makes them. *)
Definition base_score (cat cond loc same_cat same_cond same_loc : bool) : spec_float :=
  add_if same_loc w_same_location
    (add_if same_cond w_same_condition
      (add_if same_cat w_same_category
        (add_if loc w_location
          (add_if cond w_condition
            (add_if cat w_category f64_zero))))).

(** ** The preference tests *)

(** [hasattr(p, 'preferred_category_ids') and hasattr(item, 'category_id')
    and item.category_id in p.preferred_category_ids] *)
Definition category_hit (item prefs : entity) : res bool :=
  match attr prefs "preferred_category_ids", attr item "category_id" with
  | Some ids, Some cid => py_in cid ids
  | _, _ => Ok false
  end.

(** [[c.strip() for c in v.split(',')]]: [split] is a [str] method. *)
Definition split_strip (v : value) : res (list string) :=
  match v with
  | VStr s => Ok (map strip (split_on "," s))
  | _ => Raise AttributeError
  end.

(** The condition test: [item.condition in preferred_conditions_list]. *)
Definition condition_hit (item prefs : entity) : res bool :=
  match attr prefs "preferred_conditions" with
  | Some pc =>
      if truthy pc then
        match split_strip pc with
        | Raise e => Raise e
        | Ok lst =>
            match attr item "condition" with
            | Some c => py_in c (VList (map VStr lst))
            | None => Ok false
            end
        end
      else Ok false
  | None => Ok false
  end.

(** The location loop: [location.lower() in item.location.lower()] for
    each listed location until one matches; [item.location.lower()]
    raises [AttributeError] on a value that is not a string. *)
Fixpoint location_loop (lst : list string) (item_loc : value) : res bool :=
  match lst with
  | [] => Ok false
  | l :: rest =>
      match item_loc with
      | VStr s => if str_contains (str_lower l) (str_lower s) then Ok true
                  else location_loop rest item_loc
      | _ => Raise AttributeError
      end
  end.

Definition location_hit (item prefs : entity) : res bool :=
  match attr prefs "preferred_locations" with
  | Some pl =>
      if truthy pl then
        match split_strip pl with
        | Raise e => Raise e
        | Ok lst =>
            match attr item "location" with
            | Some l => location_loop lst l
            | None => Ok false
            end
        end
      else Ok false
  | None => Ok false
  end.

(** [hasattr(item, k) and hasattr(viewed_item, k) and item.k == viewed_item.k] *)
Definition same_attr (k : string) (item viewed : entity) : bool :=
  match attr item k, attr viewed k with
  | Some a, Some b => py_eq a b
  | _, _ => false
  end.

Section Scoring.
Context `{Runtime}.

(** [np.random.uniform(0, 0.1)] *)
Definition uniform_draw : st world spec_float :=
  fun w => (mk_world (w_files w) (w_ticks w) (S (w_draws w)), Ok (rt_uniform (w_draws w))).

(** [calculate_recommendation_score(user, item, preferences, viewed_item)];
    [user] is not read by the code.  A [viewed_item] adapter is always
    truthy (the classes define neither [__bool__] nor [__len__]). *)
Definition calculate_recommendation_score (user item prefs : entity) (viewed : option entity)
    : st world spec_float :=
  cat ← lift_res (category_hit item prefs);
  cond ← lift_res (condition_hit item prefs);
  loc ← lift_res (location_hit item prefs);
  let base := match viewed with
              | Some v => base_score cat cond loc (same_attr "category_id" item v)
                            (same_attr "condition" item v) (same_attr "location" item v)
              | None => base_score cat cond loc false false false
              end in
  r ← uniform_draw;
  mret (f64_min (f64_add base r) f64_one).

(** The preference [update_recommendations] would create. *)
Definition default_preferences (viewed : entity) (uid : value) : doc :=
  {[ "user_id" := uid;
     "preferred_category_ids" := match attr viewed "category_id" with
                                 | Some c => VList [c]
                                 | None => VList []
                                 end;
     "preferred_conditions" := VStr ""; "preferred_locations" := VStr "" ]}.

(** One iteration of the loop: compute the score, then average it into
    the user's existing recommendation of the item, or create one. *)
Definition rec_step (user prefs viewed item : entity) : st world unit :=
  score ← calculate_recommendation_score user item prefs (Some viewed);
  catch (uid ← lift_res (getattr user "id");
         iid ← lift_res (getattr item "id");
         rec ← ModelAdapter.get ItemRecommendationAdapter [("user_id", uid); ("item_id", iid)];
         old ← lift_res (getattr rec "score");
         sum ← lift_res (py_add old (VFloat score));
         avg ← lift_res (py_truediv sum (VInt 2));
         _ ← ModelAdapter.save (set_attr rec "score" avg);
         mret tt)
    (views_json.except_model_dne ItemRecommendationAdapter
       (uid ← lift_res (getattr user "id");
        iid ← lift_res (getattr item "id");
        _ ← ModelAdapter.create ItemRecommendationAdapter
              {[ "user_id" := uid; "item_id" := iid; "score" := VFloat score;
                 "is_viewed" := VBool false ]};
        mret tt)).

Fixpoint rec_loop (user prefs viewed : entity) (items : list entity) : st world unit :=
  match items with
  | [] => mret tt
  | it :: rest => rec_step user prefs viewed it;; rec_loop user prefs viewed rest
  end.

(** [getattr(item, 'owner_id', None) != user.id] *)
Definition other_owner (user item : entity) : res bool :=
  match getattr user "id" with
  | Ok uid => Ok (negb (py_eq (getattr_or item "owner_id" VNone) uid))
  | Raise e => Raise e
  end.

(** [update_recommendations(user, viewed_item)] *)
Definition update_recommendations (user viewed : entity) : st world unit :=
  prefs ← catch (uid ← lift_res (getattr user "id");
                 ModelAdapter.get UserPreferenceAdapter [("user_id", uid)])
            (views_json.except_model_dne UserPreferenceAdapter
               (uid ← lift_res (getattr user "id");
                ModelAdapter.create UserPreferenceAdapter (default_preferences viewed uid)));
  '(_, avail) ← qs_iter (ModelAdapter.filter MarketplaceItemAdapter [("status", VStr "available")]);
  others ← lift_res (res_filter (other_owner user) avail);
  rec_loop user prefs viewed others.
End Scoring.

(** ** Sums of the weights *)

(** before the random draw the score is between [0.0] and [1.0]
    whatever the item matches: all 64 combinations of the six tests,
    evaluated in binary64 with the order of additions of the code. *)
Theorem base_score_bounds c1 c2 c3 c4 c5 c6 :
  f64_leb f64_zero (base_score c1 c2 c3 c4 c5 c6) = true /\
  f64_leb (base_score c1 c2 c3 c4 c5 c6) f64_one = true.
Proof. destruct c1, c2, c3, c4, c5, c6; vm_compute; split; reflexivity. Qed.

(** An item matching all six tests scores exactly [1.0] before the draw,
    so the cap decides its final score. *)
Lemma base_score_all : base_score true true true true true true = f64_one.
Proof. vm_compute. reflexivity. Qed.

(** ** The recommendations file is never extended *)

(** A document with a truthy [id]. *)
Definition has_id_doc (d : doc) : Prop := exists i, d !! "id" = Some i /\ truthy i = true.

(** The file [item_recommendations.json]: valid JSON with [n] documents,
    each with a truthy id (as [create_item] leaves them). *)
Definition recs_ok (n : nat) (o : option file) : Prop :=
  exists docs, o = Some (FJson docs) /\ length docs = n /\ Forall has_id_doc docs.

Lemma recs_ok_json n o : recs_ok n o -> json_file o.
Proof. intros (docs & -> & _). by exists docs. Qed.

Section RecsFrame.
Context `{Runtime}.

Lemma uniform_draw_keeps : keeps_files uniform_draw.
Proof. by intros w w' r [= <- _]. Qed.

(** [except M.DoesNotExist] on an adapter without that attribute: what
    runs is [raise AttributeError], whatever the handler. *)
Lemma except_no_dne_inv {A} I m (h : st world A) e k :
  has_dne_attr m = false -> views_json.except_model_dne m h e = Some k -> st_inv I k.
Proof. intros Hm. unfold views_json.except_model_dne. rewrite Hm. intros [= <-]. apply st_inv_raise. Qed.

Lemma except_dne_inv {A} I m (h : st world A) e k :
  st_inv I h -> views_json.except_model_dne m h e = Some k -> st_inv I k.
Proof.
  intros Hh. unfold views_json.except_model_dne. destruct (has_dne_attr m).
  - destruct e; intros [= <-]. done.
  - intros [= <-]. apply st_inv_raise.
Qed.

(** [update_item] with a truthy id keeps the size of a valid file and
    the truthy ids of its documents. *)
Lemma update_item_recs_ok n name i u :
  truthy i = true -> st_inv (file_inv (recs_ok n) name) (update_item name i u).
Proof.
  intros Hi w w' r (docs & Hd & Hlen & Hall). unfold file_inv in *.
  unfold update_item, load_data, update_commit. st_simpl. rewrite Hd.
  destruct (find_index (id_matches i) docs) as [j|]; [|intros [= <- _]; by exists docs].
  intros [= <- _]. simpl. rewrite lookup_insert_eq. eexists. split_and!; [done| |].
  - by rewrite length_insert.
  - apply Forall_insert; [done|]. exists i. split; [|done].
    case_match; by rewrite !lookup_insert_ne, ?lookup_insert_ne, ?lookup_insert_eq by done.
Qed.

(** [recommendation.save()] on a recommendation read from the file. *)
Lemma save_rec_recs_ok n e i :
  ent_model e = ItemRecommendationAdapter -> has_truthy_id e = Some i ->
  st_inv (file_inv (recs_ok n) "item_recommendations") (ModelAdapter.save e).
Proof.
  intros Hm Hi. unfold ModelAdapter.save. rewrite Hm, Hi. simpl.
  unfold has_truthy_id in Hi. case_match; [|done]. case_match; [|done]. injection Hi as <-.
  apply st_inv_bind; [by apply update_item_recs_ok|]. frame_auto.
Qed.
End RecsFrame.

#[export] Hint Resolve recs_ok_json uniform_draw_keeps except_dne_inv : frame.

Section RecsInvariant.
Context `{Runtime}.

Definition rec_read (e : entity) : Prop :=
  ent_model e = ItemRecommendationAdapter /\ exists i, has_truthy_id e = Some i.

(** [ItemRecommendation.get(...)] on a valid file returns a
    recommendation with a truthy id. *)
Lemma get_rec_read n kw w w' e :
  file_inv (recs_ok n) "item_recommendations" w ->
  ModelAdapter.get ItemRecommendationAdapter kw w = (w', Ok e) -> rec_read e.
Proof.
  intros (docs & Hd & _ & Hall) Hg.
  destruct (get_valid ItemRecommendationAdapter _ _ _ _ _ Hd Hg) as (_ & d & Hin & Hc).
  rewrite Forall_forall in Hall. destruct (Hall d Hin) as (i & Hdi & Hti).
  split; [unfold construct in Hc; case_bool_decide; by simplify_eq|].
  exists i. unfold has_truthy_id. by rewrite (construct_keeps_fields _ _ _ _ _ Hc Hdi), Hti.
Qed.

Lemma rec_read_set_score e v : rec_read e -> rec_read (set_attr e "score" v).
Proof.
  intros [Hm [i Hi]]. split; [done|]. exists i. revert Hi. unfold has_truthy_id, attr, set_attr. simpl.
  by rewrite lookup_insert_ne.
Qed.

Lemma rec_step_recs_ok n user prefs viewed item :
  st_inv (file_inv (recs_ok n) "item_recommendations") (rec_step user prefs viewed item).
Proof.
  unfold rec_step. apply st_inv_bind; [unfold calculate_recommendation_score; frame_auto|].
  intros score. apply st_inv_catch; [|intros e k Hk; by eapply (except_no_dne_inv _ ItemRecommendationAdapter _ e)].
  apply st_inv_bind; [frame_auto|intros uid]. apply st_inv_bind; [frame_auto|intros iid].
  apply (st_inv_bind_post _ rec_read); [frame_auto|eapply get_rec_read|].
  intros rec Hrec. frame_auto.
  destruct (rec_read_set_score rec a1 Hrec) as [Hm [i Hi]]. by eapply save_rec_recs_ok.
Qed.

Lemma rec_loop_recs_ok n user prefs viewed items :
  st_inv (file_inv (recs_ok n) "item_recommendations") (rec_loop user prefs viewed items).
Proof.
  induction items as [|it items IH]; simpl; [apply st_inv_ret|].
  apply st_inv_bind; [apply rec_step_recs_ok|done].
Qed.
End RecsInvariant.

Section FirstView.
Context `{Runtime}.

Lemma calculate_keeps user item prefs viewed :
  keeps_files (calculate_recommendation_score user item prefs viewed).
Proof.
  intros w w' r. unfold calculate_recommendation_score, uniform_draw. st_simpl.
  repeat case_match; by intros [= <- _].
Qed.

(** The user has no recommendation in a valid file. *)
Definition no_recs_of (uid : value) (o : option file) : Prop :=
  exists recs, o = Some (FJson recs) /\ Forall (fun d => exact_test "user_id" uid d = false) recs.

(** One iteration for a user without recommendations raises. *)
Lemma rec_step_no_rec user prefs viewed item uid w w' r :
  attr user "id" = Some uid -> no_recs_of uid (w_files w !! "item_recommendations") ->
  rec_step user prefs viewed item w = (w', r) -> exists e, r = Raise e.
Proof.
  intros Hu (recs & Hd & Hall). unfold rec_step.
  destruct (calculate_recommendation_score user item prefs (Some viewed) w) as [w1 [sc|e]] eqn:Ec;
    [|rewrite (bind_raise _ _ _ _ _ Ec); intros [= _ <-]; eauto].
  rewrite (bind_ok _ _ _ _ _ Ec). rewrite <- (calculate_keeps _ _ _ _ _ _ _ Ec) in Hd.
  unfold catch, getattr. rewrite Hu. cbv [mbind st_mbind st_bind lift_res].
  destruct (attr item "id") as [iid|]; [|intros [= _ <-]; eauto].
  rewrite (get_none ItemRecommendationAdapter _ _ _ _ _ Hd); [|done|repeat constructor|done].
  intros [= _ <-]. eauto.
Qed.

Lemma rec_loop_no_rec user prefs viewed items uid w w' r :
  items ≠ [] -> attr user "id" = Some uid ->
  no_recs_of uid (w_files w !! "item_recommendations") ->
  rec_loop user prefs viewed items w = (w', r) -> exists e, r = Raise e.
Proof.
  destruct items as [|it rest]; [done|]. intros _ Hu Hn. simpl.
  destruct (rec_step user prefs viewed it w) as [w1 [[]|e]] eqn:Es.
  - by destruct (rec_step_no_rec _ _ _ _ _ _ _ _ Hu Hn Es).
  - rewrite (bind_raise _ _ _ _ _ Es). intros [= _ <-]. eauto.
Qed.

Lemma update_recommendations_no_prefs_run user viewed uid prefs w :
  attr user "id" = Some uid ->
  w_files w !! "user_preferences" = Some (FJson prefs) ->
  Forall (fun d => exact_test "user_id" uid d = false) prefs ->
  update_recommendations user viewed w = (w, Raise AttributeError).
Proof.
  intros Hu Hp Hall. unfold update_recommendations, getattr. rewrite Hu.
  unfold catch. cbv [mbind st_mbind st_bind lift_res].
  rewrite (get_none UserPreferenceAdapter _ _ [] prefs w Hp); done.
Qed.

(** The preference lookup of [update_recommendations] on a valid
    preferences file: a normal outcome changes nothing. *)
Lemma prefs_step_ok user viewed w w0 prefs :
  json_file (w_files w !! "user_preferences") ->
  catch (uid ← lift_res (getattr user "id");
         ModelAdapter.get UserPreferenceAdapter [("user_id", uid)])
    (views_json.except_model_dne UserPreferenceAdapter
       (uid ← lift_res (getattr user "id");
        ModelAdapter.create UserPreferenceAdapter (default_preferences viewed uid))) w
  = (w0, Ok prefs) -> w0 = w.
Proof.
  intros [docs Hd]. unfold catch. cbv [mbind st_mbind st_bind lift_res].
  destruct (getattr user "id") as [uid|]; [|done].
  destruct (ModelAdapter.get UserPreferenceAdapter [("user_id", uid)] w) as [w1 [e|ex]] eqn:Eg.
  - intros [= <- _]. by destruct (get_valid UserPreferenceAdapter _ _ _ _ _ Hd Eg).
  - done.
Qed.
End FirstView.

Section RecsTheorems.
Context `{Runtime}.

(** C8: [update_recommendations] never adds a recommendation: from a
    valid [item_recommendations.json] of [n] documents with truthy ids,
    every run, normal or exceptional, leaves [n] such documents.  The
    [ItemRecommendation.create] branch sits behind [except
    ItemRecommendation.DoesNotExist], and evaluating that clause raises
    [AttributeError]; [recommendation.save()] updates in place. *)
Theorem update_recommendations_keeps_recs n user viewed w w' r :
  recs_ok n (w_files w !! "item_recommendations") ->
  update_recommendations user viewed w = (w', r) ->
  recs_ok n (w_files w' !! "item_recommendations").
Proof.
  revert w w' r.
  change (st_inv (file_inv (recs_ok n) "item_recommendations") (update_recommendations user viewed)).
  unfold update_recommendations. apply st_inv_bind.
  - apply st_inv_catch; [frame_auto|]. intros e k. apply except_dne_inv. frame_auto.
  - intros prefs. frame_auto. apply rec_loop_recs_ok.
Qed.

(** a user without a stored preference: [UserPreference.get] raises
    [DoesNotExist], and evaluating [except UserPreference.DoesNotExist]
    raises [AttributeError] before the default preference is created,
    so [update_recommendations] fails and changes nothing. *)
Theorem update_recommendations_no_preferences user viewed uid prefs w :
  attr user "id" = Some uid ->
  w_files w !! "user_preferences" = Some (FJson prefs) ->
  Forall (fun d => exact_test "user_id" uid d = false) prefs ->
  update_recommendations user viewed w = (w, Raise AttributeError).
Proof. apply update_recommendations_no_prefs_run. Qed.

(** the first view of an item by a user without recommendations
    ends in an exception: every available item of another owner sends
    [update_recommendations] to [ItemRecommendation.get], which raises
    [DoesNotExist], and the [except] clause raises [AttributeError]; so
    the function returns normally only when there is no such item. *)
Theorem update_recommendations_first_view user viewed uid docs w w' r :
  attr user "id" = Some uid ->
  json_file (w_files w !! "user_preferences") ->
  no_recs_of uid (w_files w !! "item_recommendations") ->
  w_files w !! "marketplace_items" = Some (FJson docs) ->
  Exists (fun d => exact_test "status" (VStr "available") d = true /\
                   py_eq (get_or d "owner_id" VNone) uid = false) docs ->
  update_recommendations user viewed w = (w', r) -> exists e, r = Raise e.
Proof.
  intros Hu Hp Hn Hm Hex. unfold update_recommendations.
  match goal with |- (mbind _ ?c) w = _ -> _ => destruct (c w) as [w0 [prefs|e]] eqn:E0 end;
    [|rewrite (bind_raise _ _ _ _ _ E0); intros [= _ <-]; eauto].
  rewrite (bind_ok _ _ _ _ _ E0), (prefs_step_ok _ _ _ _ _ Hp E0).
  match goal with |- (mbind _ ?c) w = _ -> _ => destruct (c w) as [w1 [[q avail]|e]] eqn:Hq end;
    [|rewrite (bind_raise _ _ _ _ _ Hq); intros [= _ <-]; eauto].
  rewrite (bind_ok _ _ _ _ _ Hq).
  destruct (qs_iter_filter_run MarketplaceItemAdapter "status" _ docs _ _ _ _ Hm eq_refl Hq) as [-> Hc].
  apply construct_all_map in Hc as ->; [|done].
  assert (Hok : forall it, exists b, other_owner user it = Ok b).
  { intros it. unfold other_owner, getattr. rewrite Hu. by eexists. }
  destruct (res_filter_total (other_owner user) (map (mk_entity MarketplaceItemAdapter) (filter (fun d => exact_test "status" (VStr "available") d = true) docs))) as [others Ho];
    [apply Forall_forall; intros; apply Hok|].
  cbv [mbind st_mbind st_bind lift_res]. rewrite Ho. apply rec_loop_no_rec with uid; [|done|done].
  apply res_filter_ok in Ho as ->. apply Exists_exists in Hex as (d & Hin & Hst & How).
  intros Hnil. eapply (filter_nil_not_elem_of _ _ (mk_entity MarketplaceItemAdapter d) Hnil).
  - unfold other_owner, getattr. rewrite Hu. unfold getattr_or, attr. simpl. unfold get_or in How. by rewrite How.
  - apply list_elem_of_In, in_map, list_elem_of_In. by apply list_elem_of_filter.
Qed.
End RecsTheorems.

(** ** Concrete runs *)

Section RecommendWitnesses.
#[local] Existing Instance demo_runtime.

Definition ana : entity := mk_entity UserAdapter {[ "id" := VInt 1; "username" := VStr "ana" ]}.
Definition ana_prefs : doc :=
  {[ "id" := VStr "p1"; "user_id" := VInt 1; "preferred_category_ids" := VList [VStr "c1"];
     "preferred_conditions" := VStr "good"; "preferred_locations" := VStr "Dhaka, Sylhet" ]}.
Definition lamp_doc : doc :=
  {[ "id" := VStr "m1"; "owner_id" := VInt 2; "status" := VStr "available";
     "category_id" := VStr "c1"; "condition" := VStr "good"; "location" := VStr "Dhaka" ]}.
Definition own_desk : doc :=
  {[ "id" := VStr "m2"; "owner_id" := VInt 1; "status" := VStr "available" ]}.
Definition lamp_rec : doc :=
  {[ "id" := VStr "r1"; "user_id" := VInt 1; "item_id" := VStr "m1";
     "score" := VFloat (f64_lit 1 2); "is_viewed" := VBool false ]}.
Definition lamp_e : entity := mk_entity MarketplaceItemAdapter lamp_doc.

Definition rec_world (recs : list doc) : world :=
  mk_world {[ "user_preferences" := FJson [ana_prefs];
              "marketplace_items" := FJson [lamp_doc; own_desk];
              "item_recommendations" := FJson recs ]} 0 0.

Lemma update_recommendations_keeps_recs_witness :
  exists w' r, update_recommendations ana lamp_e (rec_world [lamp_rec]) = (w', r) /\
    recs_ok 1 (w_files w' !! "item_recommendations").
Proof.
  destruct (update_recommendations ana lamp_e (rec_world [lamp_rec])) as [w' r] eqn:E.
  exists w', r. split; [done|]. refine (update_recommendations_keeps_recs 1 _ _ _ _ _ _ E).
  exists [lamp_rec]. split_and!; [vm_compute; reflexivity|reflexivity|]. repeat constructor.
  exists (VStr "r1"). split; reflexivity.
Defined.

Lemma update_recommendations_no_preferences_witness :
  update_recommendations (mk_entity UserAdapter {[ "id" := VInt 3 ]}) lamp_e (rec_world [])
    = (rec_world [], Raise AttributeError).
Proof.
  apply (update_recommendations_no_preferences _ _ (VInt 3) [ana_prefs]); [reflexivity|vm_compute; reflexivity|].
  repeat constructor.
Defined.

Lemma update_recommendations_first_view_witness :
  exists w' e, update_recommendations ana lamp_e (rec_world []) = (w', Raise e).
Proof.
  destruct (update_recommendations ana lamp_e (rec_world [])) as [w' r] eqn:E.
  destruct (update_recommendations_first_view ana lamp_e (VInt 1) [lamp_doc; own_desk] (rec_world []) w' r)
    as [e ->]; [reflexivity|exists [ana_prefs]; vm_compute; reflexivity|
                exists []; split; [vm_compute; reflexivity|constructor]|vm_compute; reflexivity| |exact E|].
  - left. split; vm_compute; reflexivity.
  - by exists w', e.
Defined.
End RecommendWitnesses.
