(* ===== verification/Pages.v ===== *)
(** The page views of [src/main_app/views_json.py] that compose the
    other components: [home], [register], [map_view], [marketplace]
    (featured, recent and recommended items), [item_detail] (view count,
    similar items and the call of [update_recommendations]) and
    [user_preferences].  The Django pieces they call ([UserCreationForm],
    [render], [messages]) are modelled by their results: the form by the
    user it saves, a rendered page by its template and context. *)

From S2P Require Import Prelude PyValue JsonStore Entity QuerySet Adapters Frame Views Recommend.
From Stdlib Require Import SpecFloat.

Open Scope string_scope.

(** [request.POST.getlist(k)]: a request carries one value per key, so
    the list has at most one element. *)
Definition param_list (r : request) (k : string) : value :=
  match req_params r !! k with Some s => VList [VStr s] | None => VList [] end.

(** The user [UserCreationForm.save()] stores in Django's own database. *)
Record auth_user := mk_auth_user {
  au_id : Z;
  au_username : string;
  au_email : option string;
  au_first_name : option string;
  au_last_name : option string
}.

(** [except (M1.DoesNotExist, M2.DoesNotExist, ...)]: the tuple is
    evaluated left to right when an exception reaches the clause; an
    adapter without the attribute raises [AttributeError] there. *)
Definition except_models_dne {A} `{Runtime} (ms : list model) (handler : st world A) (ex : exn)
    : option (st world A) :=
  if forallb has_dne_attr ms then
    match ex with DoesNotExist _ => Some handler | _ => None end
  else Some (raise AttributeError).

Module pages.
Section Pages.
Context `{Runtime}.

(** ** [home], [map_view] and [register] *)

Definition home (r : request) : st world view_result :=
  mret ([], Render "main_app/home.html" [("title", CStr "Hackathon Project Home")]).

(** The query set is handed to the template unevaluated. *)
Definition map_view (r : request) : st world view_result :=
  mret ([], Render "main_app/map.html"
              [("centers", CQuery (ModelAdapter.filter RecyclingCenterAdapter [("is_active", VBool true)]))]).

Definition register_form : response :=
  Render "main_app/register.html" [("form", CStr "UserCreationForm"); ("title", CStr "Register")].

(** The JSON copy of a new Django user. *)
Definition json_user_doc (u : auth_user) : doc :=
  {[ "id" := VInt (au_id u); "username" := VStr (au_username u);
     "email" := VStr (default "" (au_email u));
     "first_name" := VStr (default "" (au_first_name u));
     "last_name" := VStr (default "" (au_last_name u)) ]}.

(** [register(request)]; [form] is the user a valid [UserCreationForm]
    saves, [None] for an invalid form. *)
Definition register (r : request) (form : option auth_user) : st world view_result :=
  if req_is_post r then
    match form with
    | Some u =>
        _ ← ModelAdapter.create UserAdapter (json_user_doc u);
        mret ([MsgSuccess ("Account created for " ++ au_username u ++ "! You can now log in.")],
              Redirect "login" None)
    | None => mret ([], register_form)
    end
  else mret ([], register_form).

(** ** [marketplace] *)

(** [item.is_featured] *)
Definition featured_test (e : entity) : res bool :=
  match getattr e "is_featured" with Ok v => Ok (truthy v) | Raise ex => Raise ex end.

(** [sorted(recs, key=lambda x: getattr(x, 'score', 0), reverse=True)] *)
Definition sort_by_score_desc (es : list entity) : res (list entity) :=
  py_sorted (fun e => getattr_or e "score" (VInt 0)) true es.

(** The loop over the first four recommendations: [try: item =
    MarketplaceItem.get(id=rec.item_id); if item.status == 'available':
    append; except MarketplaceItem.DoesNotExist: continue]. *)
Fixpoint recommended_loop (recs : list entity) : st world (list entity) :=
  match recs with
  | [] => mret []
  | rec :: rest =>
      found ← catch (iid ← lift_res (getattr rec "item_id");
                     item ← ModelAdapter.get MarketplaceItemAdapter [("id", iid)];
                     status ← lift_res (getattr item "status");
                     mret (if py_eq status (VStr "available") then [item] else []))
                (views_json.except_model_dne MarketplaceItemAdapter (mret []));
      more ← recommended_loop rest;
      mret (found ++ more)%list
  end.

(** The [if request.user.is_authenticated] block. *)
Definition recommended_items (uid : Z) : st world (list entity) :=
  catch (json_user ← ModelAdapter.get UserAdapter [("id", VInt uid)];
         juid ← lift_res (getattr json_user "id");
         '(_, recs) ← qs_iter (ModelAdapter.filter ItemRecommendationAdapter [("user_id", juid)]);
         sorted ← lift_res (sort_by_score_desc recs);
         recommended_loop (py_slice sorted None (Some 4)))
    (views_json.except_model_dne UserAdapter (mret [])).

Definition marketplace (r : request) : st world view_result :=
  let categories := ModelAdapter.all CategoryAdapter in
  let all_items := ModelAdapter.filter MarketplaceItemAdapter [("status", VStr "available")] in
  '(all_items, its) ← qs_iter all_items;
  featured ← lift_res (res_filter featured_test its);
  '(_, its') ← qs_iter all_items;
  recent ← lift_res (views_json.sort_by_created_desc its');
  recommended ← (match req_user r with
                 | Some uid => recommended_items uid
                 | None => mret []
                 end);
  mret ([], Render "main_app/marketplace.html"
              [("categories", CQuery categories); ("featured_items", CEntities (py_slice featured None (Some 4)));
               ("recent_items", CEntities (py_slice recent None (Some 8)));
               ("recommended_items", CEntities recommended);
               ("title", CStr "Marketplace - Exchange Reusable Items")]).

(** ** [item_detail] *)

(** [hasattr(i, 'category_id') and i.category_id == item.category_id and
    i.id != item.id], evaluated left to right. *)
Definition similar_test (item i : entity) : res bool :=
  match attr i "category_id" with
  | None => Ok false
  | Some c =>
      match getattr item "category_id" with
      | Raise e => Raise e
      | Ok c' =>
          if py_eq c c' then
            match getattr i "id", getattr item "id" with
            | Ok a, Ok b => Ok (negb (py_eq a b))
            | Raise e, _ | _, Raise e => Raise e
            end
          else Ok false
      end
  end.

Definition similar_items (item : entity) : st world (list entity) :=
  match attr item "category_id" with
  | Some _ =>
      '(_, all_items) ← qs_iter (ModelAdapter.filter MarketplaceItemAdapter [("status", VStr "available")]);
      sim ← lift_res (res_filter (similar_test item) all_items);
      mret (py_slice sim None (Some 4))
  | None => mret []
  end.

(** The [if request.user.is_authenticated] block: [User.DoesNotExist]
    exists, so a missing JSON user is skipped. *)
Definition detail_recommend (uid : Z) (item : entity) : st world unit :=
  catch (json_user ← ModelAdapter.get UserAdapter [("id", VInt uid)];
         juid ← lift_res (getattr json_user "id");
         if py_eq juid (getattr_or item "owner_id" VNone) then mret tt
         else update_recommendations json_user item)
    (views_json.except_model_dne UserAdapter (mret tt)).

(** [item.views_count = getattr(item, 'views_count', 0) + 1; item.save()] *)
Definition count_view (item : entity) : st world entity :=
  vc ← lift_res (py_add (getattr_or item "views_count" (VInt 0)) (VInt 1));
  ModelAdapter.save (set_attr item "views_count" vc).

(** The rest of [item_detail] once the view is counted. *)
Definition detail_page (r : request) (item : entity) : st world view_result :=
  sim ← similar_items item;
  title ← lift_res (getattr item "title");
  let ctx := [("item", CEntity item); ("similar_items", CEntities sim);
              ("title", CStr (py_str title ++ " - Marketplace"))] in
  _ ← (match req_user r with
       | Some uid => detail_recommend uid item
       | None => mret tt
       end);
  mret ([], Render "main_app/item_detail.html" ctx).

Definition item_detail (r : request) (item_id : Z) : st world view_result :=
  item ← views_json.get_json_object_or_404 MarketplaceItemAdapter [("id", VStr (py_str (VInt item_id)))];
  item ← count_view item;
  detail_page r item.

(** ** [user_preferences] *)

Definition default_user_prefs (uid : Z) : doc :=
  {[ "user_id" := VStr (py_str (VInt uid)); "preferred_category_ids" := VList [];
     "preferred_conditions" := VStr ""; "preferred_locations" := VStr "" ]}.

(** The three assignments of the POST branch. *)
Definition apply_prefs (r : request) (p : entity) : entity :=
  set_attr (set_attr (set_attr p
    "preferred_category_ids" (param_list r "preferred_categories"))
    "preferred_conditions" (param r "preferred_conditions"))
    "preferred_locations" (param r "preferred_locations").

Definition user_preferences (r : request) : st world view_result :=
  views_json.login_required r (fun uid =>
    prefs ← catch (json_user ← ModelAdapter.get UserAdapter [("id", VInt uid)];
                   juid ← lift_res (getattr json_user "id");
                   ModelAdapter.get UserPreferenceAdapter [("user_id", juid)])
              (except_models_dne [UserAdapter; UserPreferenceAdapter]
                 (ModelAdapter.create UserPreferenceAdapter (default_user_prefs uid)));
    let categories := ModelAdapter.all CategoryAdapter in
    if req_is_post r then
      _ ← ModelAdapter.save (apply_prefs r prefs);
      mret ([MsgSuccess "Preferences updated successfully!"], Redirect "marketplace" None)
    else
      mret ([], Render "main_app/user_preferences.html"
                  [("preferences", CEntity prefs); ("categories", CQuery categories);
                   ("title", CStr "My Preferences")])).
End Pages.
End pages.
Import pages.

(** ** Frames of the page blocks *)

Section PageFrames.
Context `{Runtime}.

Lemma except_dne_touches {A} n m (h : st world A) e k :
  touches_only n h -> views_json.except_model_dne m h e = Some k -> touches_only n k.
Proof. intros Hh Hk P k' Hk'. eapply except_dne_inv; [|exact Hk]. by apply Hh. Qed.

(** One iteration of [update_recommendations] writes only the
    recommendations. *)
Lemma rec_step_touches user prefs viewed item :
  touches_only "item_recommendations" (rec_step user prefs viewed item).
Proof.
  unfold rec_step. apply touches_only_bind; [unfold calculate_recommendation_score; frame_auto|].
  intros sc. apply touches_only_catch; [|intros e k; apply except_dne_touches; frame_auto].
  apply touches_only_bind; [frame_auto|intros uid]. apply touches_only_bind; [frame_auto|intros iid].
  apply get_bind_touches; [done|]. intros rec Hm. frame_auto.
  apply save_touches. simpl. by rewrite Hm.
Qed.

Lemma rec_loop_touches user prefs viewed items :
  touches_only "item_recommendations" (rec_loop user prefs viewed items).
Proof.
  induction items as [|it items IH]; simpl; [apply touches_only_ret|].
  apply touches_only_bind; [apply rec_step_touches|done].
Qed.

(** [update_recommendations] only reads the marketplace items. *)
Lemma update_recommendations_reads_items P user viewed :
  (forall o, P o -> json_file o) ->
  st_inv (file_inv P "marketplace_items") (update_recommendations user viewed).
Proof.
  intros Hj. unfold update_recommendations. apply st_inv_bind.
  - apply st_inv_catch; [frame_auto|]. intros e k. apply except_dne_inv. frame_auto.
  - intros prefs. apply st_inv_bind; [by apply qs_iter_reads|].
    intros [q avail]. frame_auto. apply (touches_only_inv "item_recommendations"); [|done].
    apply rec_loop_touches.
Qed.

#[local] Hint Resolve update_recommendations_reads_items : frame.

Lemma detail_page_reads_items P r item :
  (forall o, P o -> json_file o) -> st_inv (file_inv P "marketplace_items") (detail_page r item).
Proof.
  intros Hj. unfold detail_page, similar_items, detail_recommend. frame_auto.
Qed.
End PageFrames.

(** ** Runs of [item_detail] *)

Lemma py_eq_str_r x s : py_eq x (VStr s) = true -> x = VStr s.
Proof. destruct x; simpl; try discriminate. by case_bool_decide as Hs; [intros _; subst|]. Qed.

Lemma pretty_N_go_nonempty x s : s ≠ "" -> stdpp.pretty.pretty_N_go x s ≠ "".
Proof.
  revert s. induction (N.lt_wf_0 x) as [x _ IH]; intros s Hs.
  destruct (decide (0 < x)%N) as [Hx|Hx].
  - rewrite stdpp.pretty.pretty_N_go_step by done. apply IH; [by apply N.div_lt|discriminate].
  - assert (x = 0%N) as -> by lia. by rewrite stdpp.pretty.pretty_N_go_0.
Qed.

(** [str(i)] of an [int] is never empty, so an id built from it is truthy. *)
Lemma py_str_int_nonempty `{Runtime} z : py_str (VInt z) ≠ "".
Proof.
  simpl. unfold stdpp.pretty.pretty, stdpp.pretty.pretty_Z. destruct z as [|p|p]; try discriminate.
  unfold stdpp.pretty.pretty, stdpp.pretty.pretty_positive, stdpp.pretty.pretty, stdpp.pretty.pretty_N.
  case_decide; [discriminate|]. rewrite stdpp.pretty.pretty_N_go_step by lia. apply pretty_N_go_nonempty. discriminate.
Qed.

Lemma id_matches_exact s d : id_matches (VStr s) d = exact_test "id" (VStr s) d.
Proof. unfold id_matches, exact_test, get_or. by destruct (d !! "id"). Qed.

Lemma option_union_diag {A} (o : option A) : o ∪ o = o.
Proof. by destruct o. Qed.

(** An item document as [add_item] writes it: it has an [id], and no
    key shadows a property of [MarketplaceItemAdapter] (so [__init__]'s
    [setattr] succeeds). *)
Definition item_doc_ok (d : doc) : Prop :=
  is_Some (d !! "id") /\ d !! "category" = None /\ d !! "owner" = None.

Section DetailRuns.
Context `{Runtime}.

Lemma get_404_first docs j d w v :
  w_files w !! "marketplace_items" = Some (FJson docs) ->
  find_index (exact_test "id" v) docs = Some j -> docs !! j = Some d ->
  d !! "category" = None -> d !! "owner" = None ->
  views_json.get_json_object_or_404 MarketplaceItemAdapter [("id", v)] w
    = (w, Ok (mk_entity MarketplaceItemAdapter d)).
Proof.
  intros Hm Hj Hd Hc Ho. unfold views_json.get_json_object_or_404, catch.
  rewrite (get_first MarketplaceItemAdapter "id" _ docs j d w Hm eq_refl Hj Hd).
  rewrite construct_plain; [done|done|by repeat constructor].
Qed.

(** [count_view] on the first document of a valid collection with the
    given id: the document is replaced by one with [views_count] one
    more, the other fields kept (but [updated_at]); the returned
    instance carries the same fields. *)
Lemma count_view_run s docs j d n w :
  w_files w !! "marketplace_items" = Some (FJson docs) ->
  find_index (exact_test "id" (VStr s)) docs = Some j -> docs !! j = Some d -> s ≠ "" ->
  get_or d "views_count" (VInt 0) = VInt n ->
  exists w1 e1 d', count_view (mk_entity MarketplaceItemAdapter d) w = (w1, Ok e1) /\
    w_files w1 !! "marketplace_items" = Some (FJson (<[j := d']> docs)) /\
    d' !! "views_count" = Some (VInt (n + 1)) /\
    (forall k, k ≠ "updated_at" -> k ≠ "views_count" -> d' !! k = d !! k) /\
    (forall k, k ≠ "updated_at" -> k ≠ "views_count" -> attr e1 k = d !! k) /\
    ent_model e1 = MarketplaceItemAdapter.
Proof.
  intros Hm Hj Hd Hs Hn.
  destruct (find_index_spec _ _ _ Hj) as (d0 & Hd0 & Hex & _). rewrite Hd in Hd0. injection Hd0 as <-.
  unfold exact_test in Hex. destruct (d !! "id") as [x|] eqn:Hid; [|done]. apply py_eq_str_r in Hex as ->.
  unfold count_view, getattr_or, attr. simpl. unfold get_or in Hn. rewrite Hn.
  cbv [mbind st_mbind st_bind lift_res]. simpl py_add. cbv beta iota.
  unfold ModelAdapter.save, has_truthy_id, attr, set_attr. simpl.
  rewrite lookup_insert_ne, Hid by done. simpl. rewrite bool_decide_eq_false_2 by done.
  assert (Hj' : find_index (id_matches (VStr s)) docs = Some j)
    by (rewrite (find_index_ext _ (exact_test "id" (VStr s))); [done|apply id_matches_exact]).
  set (upd := <["views_count" := VInt (n + 1)]> d).
  destruct (update_item_run "marketplace_items" docs w (VStr s) upd j d Hm) as (w1 & d' & Hu & Hf & Hi & Hc & _ & Hk);
    [exact Hj'|done|].
  assert (Hkeep : forall k, k ≠ "updated_at" -> k ≠ "views_count" -> d' !! k = d !! k).
  { intros k Hk1 Hk2. destruct (decide (k = "id")) as [->|]; [by rewrite Hi|].
    destruct (decide (k = "created_at")) as [->|].
    - rewrite Hc. subst upd. rewrite lookup_insert_ne by done. by destruct (d !! "created_at").
    - rewrite Hk by done. subst upd. by rewrite lookup_insert_ne. }
  cbn [negb]. cbv [mbind st_mbind st_bind]. rewrite Hu. simpl.
  rewrite bool_decide_eq_false_2 by (intros ->; by rewrite lookup_empty in Hi).
  eexists _, _, d'. split_and!; [reflexivity|done| |done|intros k Hk1 Hk2|done].
  - rewrite Hk by done. subst upd. by rewrite lookup_insert_eq.
  - unfold dict_merge, attr. simpl. rewrite lookup_union, Hkeep by done.
    subst upd. rewrite lookup_insert_ne by done. apply option_union_diag.
Qed.

Lemma count_view_touches d : touches_only "marketplace_items" (count_view (mk_entity MarketplaceItemAdapter d)).
Proof. unfold count_view. frame_auto. Qed.
(** On a collection of such documents, the similar-items block of
    [item_detail] succeeds and reads only. *)
Lemma similar_items_ok item w docs :
  w_files w !! "marketplace_items" = Some (FJson docs) -> Forall item_doc_ok docs ->
  is_Some (attr item "id") -> exists sim, similar_items item w = (w, Ok sim).
Proof.
  intros Hf Hall [iid Hiid]. unfold similar_items.
  destruct (attr item "category_id") as [c|] eqn:Hc; [|by eexists].
  unfold ModelAdapter.filter.
  set (avail := filter (fun d => exact_test "status" (VStr "available") d = true) docs).
  assert (Hq : qs_iter (new_qs MarketplaceItemAdapter [("status", VStr "available")] None) w =
    (w, Ok (mk_qs MarketplaceItemAdapter [("status", VStr "available")] None (Some avail),
            map (mk_entity MarketplaceItemAdapter) avail))).
  { apply (qs_iter_plain _ _ _ docs); [done|by apply apply_filters_plain|done|].
    apply Forall_forall. intros d [_ Hd]%list_elem_of_filter. rewrite Forall_forall in Hall.
    destruct (Hall d Hd) as (_ & Hc1 & Ho1). by repeat constructor. }
  rewrite (bind_ok _ _ _ _ _ Hq).
  destruct (res_filter_total (similar_test item) (map (mk_entity MarketplaceItemAdapter) avail)) as [sim Hsim].
  { apply Forall_map, Forall_forall. intros d [_ Hd]%list_elem_of_filter. rewrite Forall_forall in Hall.
    destruct (Hall d Hd) as ([i Hi] & _ & _).
    unfold similar_test, getattr. rewrite Hc, Hiid. unfold attr. simpl. rewrite Hi.
    destruct (d !! "category_id"); [|by eexists]. case_match; by eexists. }
  st_simpl. rewrite Hsim. by eexists.
Qed.

End DetailRuns.

Section DetailTheorems.
Context `{Runtime}.

(** [item_detail] on an item found by its id commits the new view
    count before the rest of the page runs: whatever the outcome (a
    rendered page or an exception from the similar items, the title or
    [update_recommendations]), the stored document has [views_count] one
    more and its other fields but [updated_at] unchanged. *)
Theorem item_detail_counts_view r item_id docs j d n w w' res :
  w_files w !! "marketplace_items" = Some (FJson docs) ->
  find_index (exact_test "id" (VStr (py_str (VInt item_id)))) docs = Some j -> docs !! j = Some d ->
  d !! "category" = None -> d !! "owner" = None ->
  get_or d "views_count" (VInt 0) = VInt n ->
  item_detail r item_id w = (w', res) ->
  exists d', w_files w' !! "marketplace_items" = Some (FJson (<[j := d']> docs)) /\
    d' !! "views_count" = Some (VInt (n + 1)) /\
    (forall k, k ≠ "updated_at" -> k ≠ "views_count" -> d' !! k = d !! k).
Proof.
  intros Hm Hj Hd Hc Ho Hn. unfold item_detail.
  rewrite (bind_ok _ _ _ _ _ (get_404_first _ _ _ _ _ Hm Hj Hd Hc Ho)).
  destruct (count_view_run _ _ _ _ _ _ Hm Hj Hd (py_str_int_nonempty item_id) Hn)
    as (w1 & e1 & d' & Hcv & Hf & Hv & Hk & _).
  rewrite (bind_ok _ _ _ _ _ Hcv). intros Hrun. exists d'. split_and!; [|done|done].
  refine (detail_page_reads_items (fun o => o = Some (FJson (<[j := d']> docs))) r e1 _ w1 w' res Hf Hrun).
  intros o ->. by eexists.
Qed.

(** A JSON user found by its id. *)
Definition user_found (uid : Z) (us : list doc) (u : doc) : Prop :=
  exists ju, find_index (exact_test "id" (VInt uid)) us = Some ju /\ us !! ju = Some u /\
    u !! "id" = Some (VInt uid) /\ Forall (fun k => u !! k = None) (properties UserAdapter).

Lemma get_user_found uid us u w :
  w_files w !! "users" = Some (FJson us) -> user_found uid us u ->
  ModelAdapter.get UserAdapter [("id", VInt uid)] w = (w, Ok (mk_entity UserAdapter u)).
Proof.
  intros Hus (ju & Hj & Hu & _ & Hp).
  rewrite (get_first UserAdapter "id" _ us ju u w Hus eq_refl Hj Hu). by rewrite construct_plain.
Qed.

(** C9: whenever a signed-in user who is not the owner and has no
    stored preference opens an item, [item_detail] fails with
    [AttributeError] (from [except UserPreference.DoesNotExist] inside
    [update_recommendations], which [except User.DoesNotExist] does not
    catch): the page is never rendered, though the view was counted.
    This holds for every item document as [add_item] stores it (any
    [views_count], with or without a [category_id]). *)
Theorem item_detail_no_prefs_fails r uid item_id docs j d n us u prefs w :
  req_user r = Some uid ->
  w_files w !! "marketplace_items" = Some (FJson docs) -> Forall item_doc_ok docs ->
  find_index (exact_test "id" (VStr (py_str (VInt item_id)))) docs = Some j -> docs !! j = Some d ->
  get_or d "views_count" (VInt 0) = VInt n -> is_Some (d !! "title") ->
  py_eq (VInt uid) (get_or d "owner_id" VNone) = false ->
  w_files w !! "users" = Some (FJson us) -> user_found uid us u ->
  w_files w !! "user_preferences" = Some (FJson prefs) ->
  Forall (fun p => exact_test "user_id" (VInt uid) p = false) prefs ->
  exists w', item_detail r item_id w = (w', Raise AttributeError).
Proof.
  intros Hr Hm Hall Hj Hd Hn [t Ht] Hown Hus Hu Hp Hnone. unfold item_detail.
  destruct (Forall_lookup_1 _ _ _ _ Hall Hd) as ([iid Hid] & Hc & Ho).
  rewrite (bind_ok _ _ _ _ _ (get_404_first _ _ _ _ _ Hm Hj Hd Hc Ho)).
  destruct (count_view_run _ _ _ _ _ _ Hm Hj Hd (py_str_int_nonempty item_id) Hn)
    as (w1 & e1 & d' & Hcv & Hm1 & _ & Hd' & Hattr & _).
  rewrite (bind_ok _ _ _ _ _ Hcv).
  assert (Hfr : forall k, k ≠ "marketplace_items" -> w_files w1 !! k = w_files w !! k).
  { intros k Hk. exact (count_view_touches d (fun o => o = w_files w !! k) k Hk w w1 _ eq_refl Hcv). }
  rewrite <- Hfr in Hus, Hp by done.
  assert (Hall1 : Forall item_doc_ok (<[j := d']> docs)).
  { apply Forall_insert; [done|]. split_and!; rewrite Hd' by done; [by eexists|done|done]. }
  destruct (similar_items_ok e1 w1 _ Hm1 Hall1) as [sim Hsim]; [rewrite Hattr by done; by eexists|].
  unfold detail_page. rewrite (bind_ok _ _ _ _ _ Hsim).
  unfold getattr at 1. rewrite Hattr, Ht by done. cbv [mbind st_mbind st_bind lift_res]. rewrite Hr.
  unfold detail_recommend, catch. cbv [mbind st_mbind st_bind lift_res st_mret st_ret mret].
  rewrite (get_user_found _ _ _ _ Hus Hu). destruct Hu as (_ & _ & _ & Huid & _).
  unfold getattr, attr. simpl. rewrite Huid. unfold getattr_or. rewrite Hattr by done.
  unfold get_or in Hown. rewrite Hown.
  rewrite (update_recommendations_no_prefs_run (mk_entity UserAdapter u) e1 (VInt uid) prefs w1);
    [by eexists|done|done|done].
Qed.
End DetailTheorems.

(** ** [marketplace] *)

Section MarketplaceTheorems.
Context `{Runtime}.

(** An exception in the recommendation block: [except User.DoesNotExist:
    pass] leaves the empty list, any other exception propagates. *)
Ltac no_recs_case e :=
  unfold views_json.except_model_dne; simpl; destruct e; cbv [mret st_mret st_ret raise];
  intros Heq; injection Heq; intros; try congruence; subst; split; [constructor|simpl; lia].

Definition is_available (e : entity) : Prop :=
  exists st, attr e "status" = Some st /\ py_eq st (VStr "available") = true.

Lemma recommended_loop_ok recs w w' es :
  recommended_loop recs w = (w', Ok es) ->
  Forall is_available es /\ (length es <= length recs)%nat.
Proof.
  revert w w' es; induction recs as [|rec rest IH]; intros w w' es; simpl; [intros [= _ <-]; split; [constructor|simpl; lia]|].
  unfold catch. cbv [mbind st_mbind st_bind lift_res].
  destruct (getattr rec "item_id") as [iid|ex]; [|cbn; intros; simplify_eq].
  destruct (ModelAdapter.get MarketplaceItemAdapter [("id", iid)] w) as [w1 [item|ex]]; [|cbn; intros; simplify_eq].
  unfold getattr at 1. destruct (attr item "status") as [st|] eqn:Hst; [|cbn; intros; simplify_eq].
  cbv [mret st_mret st_ret]. cbv beta iota zeta.
  destruct (recommended_loop rest w1) as [w2 [more|ex]] eqn:Hrest; [|cbn; intros; simplify_eq].
  intros Heq. injection Heq as _ <-. destruct (IH _ _ _ Hrest) as [Hall Hlen].
  destruct (py_eq st (VStr "available")) eqn:Ha; simpl; (split; [|lia]); [|done].
  constructor; [by exists st|done].
Qed.

(** C28: the recommended items of the marketplace page are available
    items, at most four: the loop keeps an item only when its [status]
    equals ['available'] and runs over [recommendations[:4]]. *)
Theorem recommended_items_available uid w w' es :
  recommended_items uid w = (w', Ok es) -> Forall is_available es /\ (length es <= 4)%nat.
Proof.
  unfold recommended_items, catch. cbv [mbind st_mbind st_bind lift_res].
  destruct (ModelAdapter.get UserAdapter [("id", VInt uid)] w) as [w1 [ju|ex]]; [|no_recs_case ex].
  destruct (getattr ju "id") as [juid|ex]; [|no_recs_case ex].
  destruct (qs_iter (ModelAdapter.filter ItemRecommendationAdapter [("user_id", juid)]) w1) as [w2 [[q recs]|ex]]; [|no_recs_case ex].
  destruct (sort_by_score_desc recs) as [sorted|ex]; [|no_recs_case ex].
  destruct (recommended_loop _ w2) as [w3 [found|ex]] eqn:Hl; [|no_recs_case ex].
  intros [= _ <-]. destruct (recommended_loop_ok _ _ _ _ Hl) as [Hall Hlen]. split; [done|].
  pose proof (py_slice_prefix_length sorted 4 ltac:(lia)). simpl in *. lia.
Qed.

(** C11: a recommendation whose item is gone (for instance deleted by
    [delete_item], which leaves the recommendations in place) breaks the
    marketplace page of its user: [MarketplaceItem.get] raises
    [DoesNotExist] and evaluating [except MarketplaceItem.DoesNotExist]
    raises [AttributeError] instead of [continue]. *)
Theorem recommended_loop_dangling rec rest iid docs w :
  attr rec "item_id" = Some iid ->
  w_files w !! "marketplace_items" = Some (FJson docs) ->
  Forall (fun d => exact_test "id" iid d = false) docs ->
  recommended_loop (rec :: rest) w = (w, Raise AttributeError).
Proof.
  intros Hi Hm Hall. simpl. unfold catch, getattr. rewrite Hi.
  cbv [mbind st_mbind st_bind lift_res].
  by rewrite (get_none MarketplaceItemAdapter "id" iid [] docs w Hm eq_refl ltac:(constructor) Hall).
Qed.
End MarketplaceTheorems.

(** ** [user_preferences] and [register] *)

Section PreferenceTheorems.
Context `{Runtime}.

(** C10: [user_preferences] for a signed-in user without a stored
    preference fails with [AttributeError] and stores nothing: the
    lookup raises [DoesNotExist] (of [User] or of [UserPreference]), and
    evaluating the tuple [(User.DoesNotExist, UserPreference.DoesNotExist)]
    raises at its second element, so the default preference of the
    [except] branch is never created. *)
Theorem user_preferences_first_visit r uid us prefs w :
  req_user r = Some uid ->
  w_files w !! "users" = Some (FJson us) ->
  (Forall (fun d => exact_test "id" (VInt uid) d = false) us \/ exists u, user_found uid us u) ->
  w_files w !! "user_preferences" = Some (FJson prefs) ->
  Forall (fun p => exact_test "user_id" (VInt uid) p = false) prefs ->
  user_preferences r w = (w, Raise AttributeError).
Proof.
  intros Hr Hus Hu Hp Hnone. unfold user_preferences, views_json.login_required. rewrite Hr.
  unfold catch. cbv [mbind st_mbind st_bind lift_res].
  destruct Hu as [Hno|[u Hu]].
  - by rewrite (get_none UserAdapter "id" (VInt uid) [] us w Hus eq_refl ltac:(constructor) Hno).
  - rewrite (get_user_found _ _ _ _ Hus Hu). destruct Hu as (_ & _ & _ & Huid & _).
    unfold getattr, attr. simpl. rewrite Huid.
    by rewrite (get_none UserPreferenceAdapter "user_id" (VInt uid) [] prefs w Hp eq_refl ltac:(constructor) Hnone).
Qed.

(** a valid sign-up stores the JSON copy of the new user at the end
    of [users.json], under the Django user's id, and redirects to the
    login page with the success message. *)
Theorem register_creates_user r u users w :
  req_is_post r = true ->
  w_files w !! "users" = Some (FJson users) ->
  exists w' d, register r (Some u) w =
      (w', Ok ([MsgSuccess ("Account created for " ++ au_username u ++ "! You can now log in.")],
               Redirect "login" None)) /\
    w_files w' !! "users" = Some (FJson (users ++ [d])) /\
    d !! "id" = Some (VInt (au_id u)) /\ d !! "username" = Some (VStr (au_username u)).
Proof.
  intros Hpost Hus. unfold register. rewrite Hpost. unfold ModelAdapter.create.
  destruct (create_item_run "users" (json_user_doc u) users w Hus)
    as (w' & d & Hc & Hf & _ & _ & Hid & Hk).
  simpl file_name. cbv [mbind st_mbind st_bind lift_res]. rewrite Hc.
  rewrite construct_plain; [|done|].
  - exists w', d. split_and!; [done|done| |].
    + rewrite Hid. reflexivity.
    + rewrite Hk by done. reflexivity.
  - repeat constructor; rewrite Hk by done; reflexivity.
Qed.
End PreferenceTheorems.

(** ** Concrete runs *)

Section PageWitnesses.
#[local] Existing Instance demo_runtime.

Definition stool : doc :=
  {[ "id" := VStr "5"; "title" := VStr "Stool"; "owner_id" := VInt 2; "status" := VStr "available" ]}.
Definition ana_doc : doc := {[ "id" := VInt 1; "username" := VStr "ana" ]}.
Definition detail_world : world :=
  mk_world {[ "marketplace_items" := FJson [stool]; "users" := FJson [ana_doc];
              "user_preferences" := FJson []; "item_recommendations" := FJson [] ]} 0 0.
Definition anonymous_get : request := mk_req None false ∅ None.
Definition ana_get : request := mk_req (Some 1) false ∅ None.

Lemma item_detail_counts_view_witness :
  exists w' res d', item_detail anonymous_get 5 detail_world = (w', res) /\
    w_files w' !! "marketplace_items" = Some (FJson [d']) /\ d' !! "views_count" = Some (VInt 1).
Proof.
  destruct (item_detail anonymous_get 5 detail_world) as [w' res] eqn:E.
  edestruct (item_detail_counts_view anonymous_get 5 [stool] 0 stool 0 detail_world w' res)
    as (d' & Hf & Hv & _); [vm_compute; reflexivity..|exact E|].
  by exists w', res, d'.
Defined.

(** Two listed items of one category, as [add_item] stores them; user
    1 has no preference yet and opens the first. *)
Definition listed_lamp : doc :=
  {[ "id" := VStr "7"; "title" := VStr "Lamp"; "category_id" := VStr "c1"; "owner_id" := VInt 2;
     "status" := VStr "available"; "views_count" := VInt 0 ]}.
Definition listed_shelf : doc :=
  {[ "id" := VStr "8"; "title" := VStr "Shelf"; "category_id" := VStr "c1"; "owner_id" := VInt 2;
     "status" := VStr "available"; "views_count" := VInt 3 ]}.
Definition listing_world : world :=
  mk_world {[ "marketplace_items" := FJson [listed_lamp; listed_shelf]; "users" := FJson [ana_doc];
              "user_preferences" := FJson []; "item_recommendations" := FJson [] ]} 0 0.

Lemma item_detail_no_prefs_fails_witness :
  exists w', item_detail ana_get 7 listing_world = (w', Raise AttributeError).
Proof.
  apply (item_detail_no_prefs_fails ana_get 1 7 [listed_lamp; listed_shelf] 0 listed_lamp 0 [ana_doc] ana_doc []);
    try (vm_compute; reflexivity).
  - apply Forall_cons_2; [|apply Forall_cons_2; [|apply Forall_nil_2]];
      unfold item_doc_ok; vm_compute; split_and!; solve [eauto].
  - vm_compute. by eexists.
  - exists 0%nat. split_and!; try (vm_compute; reflexivity). repeat constructor.
  - constructor.
Defined.
Definition stool_rec : doc :=
  {[ "id" := VStr "r1"; "user_id" := VInt 1; "item_id" := VStr "5"; "score" := VFloat (f64_lit 1 2) ]}.

Lemma recommended_items_available_witness :
  exists w' es, recommended_items 1
      (set_files (<["item_recommendations" := FJson [stool_rec]]> (w_files detail_world)) detail_world)
      = (w', Ok es) /\ Forall is_available es /\ (length es <= 4)%nat.
Proof.
  destruct (recommended_items 1
      (set_files (<["item_recommendations" := FJson [stool_rec]]> (w_files detail_world)) detail_world))
    as [w' [es|ex]] eqn:E; [|vm_compute in E; discriminate].
  exists w', es. split; [done|]. exact (recommended_items_available _ _ _ _ E).
Defined.

Lemma recommended_loop_dangling_witness :
  recommended_loop [mk_entity ItemRecommendationAdapter {[ "item_id" := VStr "9" ]}] detail_world
    = (detail_world, Raise AttributeError).
Proof.
  apply (recommended_loop_dangling _ [] (VStr "9") [stool]); [reflexivity|vm_compute; reflexivity|].
  repeat constructor.
Defined.

Lemma user_preferences_first_visit_witness :
  user_preferences ana_get detail_world = (detail_world, Raise AttributeError).
Proof.
  apply (user_preferences_first_visit ana_get 1 [ana_doc] []); [reflexivity|vm_compute; reflexivity| |
    vm_compute; reflexivity|constructor].
  right. exists ana_doc, 0%nat. split_and!; try (vm_compute; reflexivity). repeat constructor.
Defined.

Definition sign_up : request := mk_req None true ∅ None.

Lemma register_creates_user_witness :
  exists w' d, register sign_up (Some (mk_auth_user 3 "bo" None None None)) detail_world =
      (w', Ok ([MsgSuccess "Account created for bo! You can now log in."], Redirect "login" None)) /\
    w_files w' !! "users" = Some (FJson ([ana_doc] ++ [d])) /\
    d !! "id" = Some (VInt 3) /\ d !! "username" = Some (VStr "bo").
Proof.
  exact (register_creates_user sign_up (mk_auth_user 3 "bo" None None None) [ana_doc] detail_world
           eq_refl ltac:(vm_compute; reflexivity)).
Defined.
End PageWitnesses.
