(* ===== verification/StoreWf.v ===== *)
(** The shape of the stored documents.  [create_item] and [update_item]
    of [src/main_app/data/json_manager.py] give every document an [id],
    a [created_at] and an [updated_at] timestamp (ISO strings from
    [datetime.now().isoformat()]); [doc_wf] says so and [docs_wf] says it
    of every document of a collection file.  The theorems show that the
    store operations, the adapters and every view of
    [src/main_app/views_json.py] keep every collection well formed,
    whatever they do or raise. *)

From S2P Require Import Prelude PyValue JsonStore Entity QuerySet Adapters Frame Views Recommend Pages.
Import pages.

Open Scope string_scope.

Definition doc_wf (d : doc) : Prop :=
  is_Some (d !! "id") /\ (exists t, d !! "created_at" = Some (VStr t)) /\
  (exists t, d !! "updated_at" = Some (VStr t)).

(** A missing or unreadable file is read as an empty list, so it is well
    formed too. *)
Definition docs_wf (o : option file) : Prop :=
  match o with Some (FJson docs) => Forall doc_wf docs | _ => True end.

Definition world_wf (w : world) : Prop := forall k, docs_wf (w_files w !! k).

Section StoreOps.
Context `{Runtime}.

Lemma world_wf_insert w n docs :
  world_wf w -> Forall doc_wf docs -> world_wf (set_files (<[n := FJson docs]> (w_files w)) w).
Proof.
  intros Hw Hd k. simpl. destruct (decide (k = n)) as [->|]; [by rewrite lookup_insert_eq|].
  rewrite lookup_insert_ne by congruence. apply Hw.
Qed.

Lemma load_data_inv n : st_inv world_wf (load_data n).
Proof.
  intros w w' r Hw. unfold load_data.
  destruct (w_files w !! n) as [[docs|]|]; intros [= <- _]; try done; by apply world_wf_insert.
Qed.

(** [load_data] reads a well formed list from a well formed world. *)
Lemma load_data_post n w w' data : world_wf w -> load_data n w = (w', Ok data) -> Forall doc_wf data.
Proof.
  intros Hw. unfold load_data. specialize (Hw n).
  destruct (w_files w !! n) as [[docs|]|]; by intros [= <- <-].
Qed.

Lemma save_data_wf n data : Forall doc_wf data -> st_inv world_wf (save_data n data).
Proof. intros Hd w w' r Hw [= <- _]. by apply world_wf_insert. Qed.

Lemma keeps_files_wf {A} (c : st world A) : keeps_files c -> st_inv world_wf c.
Proof. intros Hc w w' r Hw Hr k. rewrite (Hc _ _ _ Hr). apply Hw. Qed.

(** The stamped document of [create_item] and [update_item]. *)
Lemma stamped_wf d c u :
  is_Some (d !! "id") -> doc_wf (<["updated_at" := VStr u]> (<["created_at" := VStr c]> d)).
Proof.
  intros Hid. split_and!.
  - by rewrite !lookup_insert_ne.
  - exists c. by rewrite lookup_insert_ne, lookup_insert_eq.
  - exists u. by rewrite lookup_insert_eq.
Qed.

Lemma create_item_wf n it : st_inv world_wf (create_item n it).
Proof.
  unfold create_item. apply (st_inv_bind_post _ (Forall doc_wf)); [apply load_data_inv|apply load_data_post|].
  intros data Hdata.
  apply (st_inv_bind_post _ (fun item1 => is_Some (item1 !! "id"))).
  - destruct (it !! "id"); [apply st_inv_ret|]. apply st_inv_bind; [apply keeps_files_wf, uuid4_keeps|].
    intros; apply st_inv_ret.
  - intros s s' a _. destruct (it !! "id") eqn:Hid; st_simpl.
    + intros [= _ <-]. by rewrite Hid.
    + intros [= _ <-]. by rewrite lookup_insert_eq.
  - intros item1 Hid. apply st_inv_bind; [apply keeps_files_wf, now_iso_keeps|]. intros now.
    apply st_inv_bind; [|intros; apply st_inv_ret]. apply save_data_wf.
    apply Forall_app. split; [done|]. constructor; [|done]. by apply stamped_wf.
Qed.
End StoreOps.

Section StoreOps2.
Context `{Runtime}.

Lemma update_commit_wf n i u data : Forall doc_wf data -> st_inv world_wf (update_commit n i u data).
Proof.
  intros Hdata. unfold update_commit. destruct (find_index (id_matches i) data) as [j|] eqn:Hj;
    [|apply st_inv_ret].
  destruct (find_index_spec _ _ _ Hj) as (item & Hitem & _). rewrite Hitem. simpl.
  destruct (Forall_lookup_1 _ _ _ _ Hdata Hitem) as (_ & [t Ht] & _). rewrite Ht.
  apply st_inv_bind; [apply keeps_files_wf, now_iso_keeps|]. intros now.
  apply st_inv_bind; [|intros; apply st_inv_ret]. apply save_data_wf, Forall_insert; [done|].
  split_and!.
  - rewrite !lookup_insert_ne by done. rewrite lookup_insert_eq. by eexists.
  - exists t. by rewrite lookup_insert_ne, lookup_insert_eq.
  - exists now. by rewrite lookup_insert_eq.
Qed.

Lemma update_item_wf n i u : st_inv world_wf (update_item n i u).
Proof.
  unfold update_item. apply (st_inv_bind_post _ (Forall doc_wf)); [apply load_data_inv|apply load_data_post|].
  apply update_commit_wf.
Qed.

Lemma delete_item_wf n i : st_inv world_wf (delete_item n i).
Proof.
  unfold delete_item. apply (st_inv_bind_post _ (Forall doc_wf)); [apply load_data_inv|apply load_data_post|].
  intros data Hdata. destruct (find_index _ data); [|apply st_inv_ret].
  apply st_inv_bind; [|intros; apply st_inv_ret]. apply save_data_wf.
  apply Forall_forall. intros d Hd. rewrite Forall_forall in Hdata. eauto with py.
Qed.
End StoreOps2.

Create HintDb wf.
#[export] Hint Resolve keeps_files_wf load_data_inv create_item_wf update_item_wf delete_item_wf : wf.

Lemma except_models_dne_inv {A} `{Runtime} I ms (h : st world A) e k :
  st_inv I h -> except_models_dne ms h e = Some k -> st_inv I k.
Proof.
  intros Hh. unfold except_models_dne. destruct (forallb has_dne_attr ms).
  - destruct e; intros [= <-]; done.
  - intros [= <-]. apply st_inv_raise.
Qed.

(** [frame_auto] for [world_wf]; an [except] handler is reduced to the
    code it runs. *)
Ltac wf_auto :=
  repeat first
    [ match goal with
      | |- forall _, _ => intro
      | |- st_inv _ (mbind _ _) => apply st_inv_bind
      | |- st_inv _ (catch _ _) => apply st_inv_catch
      | H : views_json.except_model_dne _ _ _ = Some ?k |- st_inv _ ?k =>
          refine (except_dne_inv _ _ _ _ _ _ H)
      | H : except_models_dne _ _ _ = Some ?k |- st_inv _ ?k =>
          refine (except_models_dne_inv _ _ _ _ _ _ H)
      end
    | case_match ];
  eauto with wf frame st_inv.

Section AdapterWf.
Context `{Runtime}.

Lemma get_all_items_wf n fs : st_inv world_wf (get_all_items n fs).
Proof. unfold get_all_items. wf_auto. Qed.

Lemma get_wf m kw : st_inv world_wf (ModelAdapter.get m kw).
Proof. unfold ModelAdapter.get. wf_auto. eauto using get_all_items_wf. Qed.

Lemma create_wf m kw : st_inv world_wf (ModelAdapter.create m kw).
Proof. unfold ModelAdapter.create. wf_auto. Qed.

Lemma save_wf e : st_inv world_wf (ModelAdapter.save e).
Proof. unfold ModelAdapter.save. wf_auto. Qed.

Lemma delete_wf e : st_inv world_wf (ModelAdapter.delete e).
Proof. unfold ModelAdapter.delete. wf_auto. Qed.

Lemma qs_iter_wf q : st_inv world_wf (qs_iter q).
Proof. unfold qs_iter, fetch. wf_auto. eauto using get_all_items_wf. Qed.
End AdapterWf.

#[export] Hint Resolve get_all_items_wf get_wf create_wf save_wf delete_wf qs_iter_wf : wf.

Section ViewWf.
Context `{Runtime}.


Lemma get_404_wf m kw : st_inv world_wf (views_json.get_json_object_or_404 m kw).
Proof. unfold views_json.get_json_object_or_404. wf_auto. Qed.

Lemma iterate_wf it : st_inv world_wf (views_json.iterate it).
Proof. unfold views_json.iterate. wf_auto. Qed.

Lemma refine_items_wf flag p it : st_inv world_wf (views_json.refine_items flag p it).
Proof. unfold views_json.refine_items. wf_auto. eauto using iterate_wf. Qed.

Lemma rec_loop_wf user prefs viewed items : st_inv world_wf (rec_loop user prefs viewed items).
Proof.
  induction items as [|it rest IH]; simpl; [apply st_inv_ret|]. apply st_inv_bind; [|done].
  unfold rec_step, calculate_recommendation_score. wf_auto.
Qed.

#[local] Hint Resolve rec_loop_wf : wf.

Lemma update_recommendations_wf user viewed : st_inv world_wf (update_recommendations user viewed).
Proof. unfold update_recommendations. wf_auto. Qed.

Lemma recommended_loop_wf recs : st_inv world_wf (recommended_loop recs).
Proof. induction recs; simpl; wf_auto. Qed.

#[local] Hint Resolve get_404_wf refine_items_wf update_recommendations_wf recommended_loop_wf : wf.

Lemma item_detail_wf r i : st_inv world_wf (item_detail r i).
Proof. unfold item_detail, count_view, detail_page, similar_items, detail_recommend. wf_auto. Qed.

Lemma marketplace_wf r : st_inv world_wf (marketplace r).
Proof. unfold marketplace, recommended_items. wf_auto. Qed.
End ViewWf.

Section ViewsKeepWf.
Context `{Runtime}.

Lemma search_items_wf r : st_inv world_wf (views_json.search_items r).
Proof.
  unfold views_json.search_items. cbv zeta.
  do 4 (apply st_inv_bind; [apply refine_items_wf|intros]). apply st_inv_ret.
Qed.

(** C12: every view keeps the store well formed: run from a world whose
    collections hold only documents with an id and string timestamps,
    each view of [views_json.py], normal or exceptional, leaves such a
    world, because every write goes through [create_item],
    [update_item] or [delete_item]. *)
Theorem views_keep_store_wf r item_id form :
  st_inv world_wf (views_json.add_item r) /\ st_inv world_wf (views_json.my_items r) /\
  st_inv world_wf (views_json.update_item r item_id) /\ st_inv world_wf (views_json.delete_item r item_id) /\
  st_inv world_wf (views_json.search_items r) /\ st_inv world_wf (home r) /\
  st_inv world_wf (map_view r) /\ st_inv world_wf (register r form) /\
  st_inv world_wf (marketplace r) /\ st_inv world_wf (item_detail r item_id) /\
  st_inv world_wf (user_preferences r).
Proof.
  split_and!; try apply marketplace_wf; try apply item_detail_wf; try apply search_items_wf;
    unfold views_json.add_item, views_json.my_items, views_json.update_item, views_json.delete_item,
      home, map_view, register, user_preferences, views_json.login_required; wf_auto.
Qed.
End ViewsKeepWf.

Lemma world_wf_single n docs t d :
  Forall doc_wf docs -> world_wf (mk_world {[ n := FJson docs ]} t d).
Proof.
  intros Hd k. simpl. destruct (decide (k = n)) as [->|]; [by simplify_map_eq|].
  by rewrite lookup_singleton_ne by congruence.
Qed.

Section StoreWfWitnesses.
#[local] Existing Instance demo_runtime.

Definition wf_stool : doc :=
  <["created_at" := VStr "t0"]> (<["updated_at" := VStr "t0"]> stool).

Lemma views_keep_store_wf_witness :
  exists w' res, item_detail anonymous_get 5 (mk_world {[ "marketplace_items" := FJson [wf_stool] ]} 0 0)
    = (w', res) /\ world_wf w'.
Proof.
  destruct (item_detail anonymous_get 5 (mk_world {[ "marketplace_items" := FJson [wf_stool] ]} 0 0))
    as [w' res] eqn:E.
  exists w', res. split; [done|].
  destruct (views_keep_store_wf anonymous_get 5 None) as (_ & _ & _ & _ & _ & _ & _ & _ & _ & Hd & _).
  refine (Hd _ _ _ (world_wf_single _ _ _ _ _) E).
  repeat constructor; eexists; vm_compute; reflexivity.
Defined.
End StoreWfWitnesses.
