(* ===== verification/OrmModels.v ===== *)
(** The relational data model of [src/main_app/models.py] and the part of
    Django's ORM that [src/main_app/views.py] uses.  A table is the list
    of its rows in primary-key order with the next key of its sequence
    (the [AutoField]); the database [db] holds one table per model, the
    table of [django.contrib.auth]'s [User], and the counters of the
    [Runtime] clock and random draws.  The class [Model] is the interface
    the generic operations ([objects_get], [insert_row], [save_row], ...)
    are written against; each model of [models.py] is an instance. *)

From S2P Require Import Prelude PyValue.
From Stdlib Require Import SpecFloat.

Open Scope string_scope.

(** ** Tables *)

Record table (R : Type) := mk_table { t_rows : list (Z * R); t_next : Z }.
Arguments mk_table {R} _ _.
Arguments t_rows {R} _.
Arguments t_next {R} _.

(** ** The models *)

(** [django.contrib.auth.models.User], by the fields the views read. *)
Record dj_user := mk_dj_user { du_username : string }.

(** [RecyclingCenter]; a [DecimalField(max_digits=9, decimal_places=6)]
    holds an integer number of millionths. *)
Record center := mk_center {
  ce_name : string; ce_address : string; ce_city : string; ce_state : string;
  ce_zip_code : string; ce_latitude : Z; ce_longitude : Z;
  ce_phone : option string; ce_website : option string;
  ce_materials_accepted : option string; ce_hours_of_operation : option string;
  ce_is_active : bool; ce_created_at : string; ce_updated_at : string
}.

Record category := mk_category {
  ca_name : string; ca_description : option string; ca_created_at : string
}.

(** [MarketplaceItem]: [category] and [owner] are foreign keys (the key
    of the row); [status] is a [CharField] whose [choices] Django checks
    only in form validation, not in [save()]. *)
Record item := mk_item {
  mi_title : string; mi_description : string; mi_category : Z; mi_condition : string;
  mi_owner : Z; mi_image : option string; mi_status : string; mi_location : string;
  mi_is_featured : bool; mi_views_count : Z; mi_created_at : string; mi_updated_at : string
}.

Definition STATUS_CHOICES : list (string * string) :=
  [("available", "Available"); ("pending", "Pending Exchange"); ("exchanged", "Exchanged")].

(** [UserPreference]: [user] is a [OneToOneField]; the many-to-many
    [preferred_categories] lives in its own table, [pref_cat]. *)
Record preference := mk_preference {
  up_user : Z; up_conditions : option string; up_locations : option string;
  up_created_at : string; up_updated_at : string
}.

(** A row of the table Django creates for [preferred_categories]. *)
Record pref_cat := mk_pref_cat { pc_pref : Z; pc_category : Z }.

(** [ItemRecommendation], [unique_together = ('user', 'item')]. *)
Record recommendation := mk_recommendation {
  ir_user : Z; ir_item : Z; ir_score : spec_float; ir_is_viewed : bool; ir_created_at : string
}.

Record db := mk_db {
  db_users : table dj_user;
  db_centers : table center;
  db_categories : table category;
  db_items : table item;
  db_prefs : table preference;
  db_pref_cats : table pref_cat;
  db_recs : table recommendation;
  db_ticks : nat;
  db_draws : nat
}.

(** The interface of a model class: its name and its table. *)
Class Model (R : Type) := {
  model_name : string;
  tbl : db -> table R;
  set_tbl : table R -> db -> db
}.

#[export] Instance user_model : Model dj_user := {|
  model_name := "User"; tbl := db_users;
  set_tbl t d := mk_db t (db_centers d) (db_categories d) (db_items d) (db_prefs d) (db_pref_cats d) (db_recs d) (db_ticks d) (db_draws d) |}.
#[export] Instance center_model : Model center := {|
  model_name := "RecyclingCenter"; tbl := db_centers;
  set_tbl t d := mk_db (db_users d) t (db_categories d) (db_items d) (db_prefs d) (db_pref_cats d) (db_recs d) (db_ticks d) (db_draws d) |}.
#[export] Instance category_model : Model category := {|
  model_name := "Category"; tbl := db_categories;
  set_tbl t d := mk_db (db_users d) (db_centers d) t (db_items d) (db_prefs d) (db_pref_cats d) (db_recs d) (db_ticks d) (db_draws d) |}.
#[export] Instance item_model : Model item := {|
  model_name := "MarketplaceItem"; tbl := db_items;
  set_tbl t d := mk_db (db_users d) (db_centers d) (db_categories d) t (db_prefs d) (db_pref_cats d) (db_recs d) (db_ticks d) (db_draws d) |}.
#[export] Instance preference_model : Model preference := {|
  model_name := "UserPreference"; tbl := db_prefs;
  set_tbl t d := mk_db (db_users d) (db_centers d) (db_categories d) (db_items d) t (db_pref_cats d) (db_recs d) (db_ticks d) (db_draws d) |}.
#[export] Instance pref_cat_model : Model pref_cat := {|
  model_name := "UserPreference_preferred_categories"; tbl := db_pref_cats;
  set_tbl t d := mk_db (db_users d) (db_centers d) (db_categories d) (db_items d) (db_prefs d) t (db_recs d) (db_ticks d) (db_draws d) |}.
#[export] Instance recommendation_model : Model recommendation := {|
  model_name := "ItemRecommendation"; tbl := db_recs;
  set_tbl t d := mk_db (db_users d) (db_centers d) (db_categories d) (db_items d) (db_prefs d) (db_pref_cats d) t (db_ticks d) (db_draws d) |}.

(** ** The clock and the random source *)

Section Runtime.
Context `{Runtime}.

(** [timezone.now()], read by every [auto_now] and [auto_now_add] field. *)
Definition tz_now : st db string :=
  fun d => (mk_db (db_users d) (db_centers d) (db_categories d) (db_items d) (db_prefs d) (db_pref_cats d)
              (db_recs d) (S (db_ticks d)) (db_draws d), Ok (rt_now (db_ticks d))).

(** [np.random.uniform(0, 0.1)] *)
Definition np_uniform : st db spec_float :=
  fun d => (mk_db (db_users d) (db_centers d) (db_categories d) (db_items d) (db_prefs d) (db_pref_cats d)
              (db_recs d) (db_ticks d) (S (db_draws d)), Ok (rt_uniform (db_draws d))).
End Runtime.

(** ** Manager and query set operations *)

Section Orm.
Context {R : Type} `{Model R}.

Definition rows (d : db) : list (Z * R) := t_rows (tbl d).

(** [M.objects.filter(...)] evaluated: the rows the lookup accepts, in
    key order (the order of a query without [ORDER BY] is the table's). *)
Definition qs_filter (p : Z -> R -> bool) : st db (list (Z * R)) :=
  fun d => (d, Ok (filter (fun kr => p kr.1 kr.2) (rows d))).

Definition objects_all : st db (list (Z * R)) := qs_filter (fun _ _ => true).

(** [M.objects.get(...)]: exactly one row, or [DoesNotExist] /
    [MultipleObjectsReturned]. *)
Definition objects_get (p : Z -> R -> bool) : st db (Z * R) :=
  rs ← qs_filter p;
  match rs with
  | [] => raise (DoesNotExist model_name)
  | [kr] => mret kr
  | _ :: _ :: _ => raise (MultipleObjectsReturned model_name)
  end.

(** [get_object_or_404(M, ...)] *)
Definition get_object_or_404 (p : Z -> R -> bool) : st db (Z * R) :=
  catch (objects_get p)
    (fun e => match e with DoesNotExist _ => Some (raise (Http404 model_name)) | _ => None end).

(** The [INSERT] of [save()] on a new instance: the row gets the next
    key of the sequence. *)
Definition insert_row (r : R) : st db Z :=
  fun d => let t := tbl d in
    (set_tbl (mk_table (t_rows t ++ [(t_next t, r)]) (t_next t + 1)) d, Ok (t_next t)).

(** [save()] on an instance with key [k]: an [UPDATE] of the row, or an
    [INSERT] with that key when no row has it. *)
Definition save_row (k : Z) (r : R) : st db unit :=
  fun d => let t := tbl d in
    if existsb (fun kr => bool_decide (kr.1 = k)) (t_rows t) then
      (set_tbl (mk_table (map (fun kr => if bool_decide (kr.1 = k) then (k, r) else kr) (t_rows t))
                  (t_next t)) d, Ok tt)
    else (set_tbl (mk_table (t_rows t ++ [(k, r)]) (t_next t)) d, Ok tt).

(** A [DELETE] of the rows [p] accepts. *)
Definition delete_where (p : Z -> R -> bool) : st db unit :=
  fun d => let t := tbl d in
    (set_tbl (mk_table (filter (fun kr => negb (p kr.1 kr.2)) (t_rows t)) (t_next t)) d, Ok tt).

(** [M.objects.get_or_create(lookup, defaults)]: the row, and whether it
    was created. *)
Definition get_or_create (p : Z -> R -> bool) (mk : st db R) : st db ((Z * R) * bool) :=
  catch (kr ← objects_get p; mret (kr, false))
    (fun e => match e with
              | DoesNotExist _ => Some (r ← mk; k ← insert_row r; mret ((k, r), true))
              | _ => None
              end).
End Orm.

Arguments rows R {_} d.
Arguments objects_all R {_} d.

(** ** [order_by] *)

(** A stable insertion sort: [le a b] says [a] may stay before [b], so
    rows with equal keys keep the table's order. *)
Fixpoint insert_sorted {A} (le : A -> A -> bool) (x : A) (l : list A) : list A :=
  match l with
  | [] => [x]
  | y :: l' => if le x y then x :: l else y :: insert_sorted le x l'
  end.

Fixpoint sort_stable {A} (le : A -> A -> bool) (l : list A) : list A :=
  match l with
  | [] => []
  | x :: l' => insert_sorted le x (sort_stable le l')
  end.

Lemma insert_sorted_perm {A} (le : A -> A -> bool) x l : insert_sorted le x l ≡ₚ x :: l.
Proof.
  induction l as [|y l IH]; simpl; [done|]. destruct (le x y); [done|].
  rewrite IH. apply perm_swap.
Qed.

Lemma sort_stable_perm {A} (le : A -> A -> bool) l : sort_stable le l ≡ₚ l.
Proof. induction l as [|x l IH]; simpl; [done|]. by rewrite insert_sorted_perm, IH. Qed.

(** ** The many-to-many manager and [on_delete=CASCADE] *)

(** [pref.preferred_categories.add(c)]: a link row unless there is one. *)
Definition m2m_add (p c : Z) : st db unit :=
  links ← qs_filter (R:=pref_cat) (fun _ l => Z.eqb (pc_pref l) p && Z.eqb (pc_category l) c);
  match links with
  | [] => _ ← insert_row (mk_pref_cat p c); mret tt
  | _ => mret tt
  end.

(** [pref.preferred_categories.clear()] *)
Definition m2m_clear (p : Z) : st db unit :=
  delete_where (R:=pref_cat) (fun _ l => Z.eqb (pc_pref l) p).

(** [pref.preferred_categories.all()]: the linked categories. *)
Definition m2m_all (p : Z) : st db (list (Z * category)) :=
  links ← qs_filter (R:=pref_cat) (fun _ l => Z.eqb (pc_pref l) p);
  qs_filter (R:=category) (fun k _ => existsb (fun l => Z.eqb (pc_category l.2) k) links).

(** [item.delete()]: the recommendations of the item go with it. *)
Definition delete_item_cascade (k : Z) : st db unit :=
  delete_where (R:=recommendation) (fun _ r => Z.eqb (ir_item r) k);;
  delete_where (R:=item) (fun k' _ => Z.eqb k' k).

(** ** Runs of the generic operations *)

Section OrmLemmas.
Context {R : Type} `{Model R}.

Lemma objects_get_one (p : Z -> R -> bool) d kr :
  filter (fun kr => p kr.1 kr.2) (rows R d) = [kr] -> objects_get p d = (d, Ok kr).
Proof. intros E. unfold objects_get, qs_filter. st_simpl. by rewrite E. Qed.

Lemma objects_get_none (p : Z -> R -> bool) d :
  filter (fun kr => p kr.1 kr.2) (rows R d) = [] -> objects_get p d = (d, Raise (DoesNotExist model_name)).
Proof. intros E. unfold objects_get, qs_filter. st_simpl. by rewrite E. Qed.

Lemma get_object_or_404_one (p : Z -> R -> bool) d kr :
  filter (fun kr => p kr.1 kr.2) (rows R d) = [kr] -> get_object_or_404 p d = (d, Ok kr).
Proof. intros E. unfold get_object_or_404, catch. by rewrite (objects_get_one _ _ _ E). Qed.

Lemma get_object_or_404_none (p : Z -> R -> bool) d :
  filter (fun kr => p kr.1 kr.2) (rows R d) = [] -> get_object_or_404 p d = (d, Raise (Http404 model_name)).
Proof. intros E. unfold get_object_or_404, catch. by rewrite (objects_get_none _ _ E). Qed.

(** No row has key [k]: the lookup [pk=k] finds nothing. *)
Lemma filter_key_none (k : Z) (l : list (Z * R)) :
  Forall (fun kr => kr.1 ≠ k) l -> filter (fun kr => Z.eqb kr.1 k) l = [].
Proof.
  induction 1 as [|[k' r] l Hk _ IH]; [done|]. simpl in *.
  apply Z.eqb_neq in Hk. rewrite filter_cons_False; [done|]. cbn. rewrite Hk. tauto.
Qed.
(** With distinct keys, the lookup [pk=k] of a present key finds its row. *)
Lemma filter_key_unique (k : Z) (x : R) (l : list (Z * R)) :
  NoDup (map fst l) -> (k, x) ∈ l -> filter (fun kr => Z.eqb kr.1 k) l = [(k, x)].
Proof.
  induction l as [|[k' y] l IH]; intros Hnd Hin; [by apply not_elem_of_nil in Hin|].
  simpl in Hnd. apply NoDup_cons in Hnd as [Hk' Hnd].
  apply elem_of_cons in Hin as [[= -> ->]|Hin].
  - rewrite filter_cons_True by (cbn; by rewrite Z.eqb_refl). f_equal.
    apply filter_key_none, Forall_forall. intros [k'' z] Hz E. simpl in E. subst. apply Hk'.
    apply list_elem_of_fmap. by exists (k', z).
  - assert (k' ≠ k) as Hne.
    { intros ->. apply Hk', list_elem_of_fmap. by exists (k, x). }
    apply Z.eqb_neq in Hne. rewrite filter_cons_False by (cbn; rewrite Hne; tauto). by apply IH.
Qed.
End OrmLemmas.

#[export] Hint Resolve objects_get_one objects_get_none get_object_or_404_one get_object_or_404_none : py.
