(* ===== verification/OrmViews.v ===== *)
(** The ORM-backed views of [src/main_app/views.py] and its recommendation
    helpers, on the database of [OrmModels].  The request and the
    messages are those of [Views]; a rendered page carries its template
    and its context with every query set evaluated, as the template
    evaluates it at render time (no view writes between building a query
    set and rendering it, so the rows are the same).  The score reuses
    the binary64 weights of [Recommend]: the two files compute it with
    the same additions in the same order. *)

From S2P Require Import Prelude PyValue Views Recommend OrmModels.
From Stdlib Require Import Ascii SpecFloat.

Open Scope string_scope.

Module orm.

(** ** Lookup values *)

Fixpoint digits_val (s : string) (acc : Z) (prev_digit : bool) : option Z :=
  match s with
  | EmptyString => if prev_digit then Some acc else None
  | String c s' =>
      if is_digit c then digits_val s' (acc * 10 + (Z.of_nat (nat_of_ascii c) - 48)) true
      else if bool_decide (c = "_"%char) && prev_digit then digits_val s' acc false
      else None
  end.

(** [int(s)]: surrounding whitespace, an optional sign, and decimal
    digits with single underscores between them. *)
Definition py_int (s : string) : option Z :=
  match strip s with
  | String c r =>
      if bool_decide (c = "-"%char) then Z.opp <$> digits_val r 0 false
      else if bool_decide (c = "+"%char) then digits_val r 0 false
      else digits_val (String c r) 0 false
  | EmptyString => None
  end.

(** The conversion of a string lookup value for an integer field
    ([IntegerField.get_prep_value]): [ValueError] when [int()] fails. *)
Definition pk_of (s : string) : res Z :=
  match py_int s with Some z => Ok z | None => Raise ValueError end.

(** [request.POST.get(k)] *)
Definition post_get (r : request) (k : string) : option string := req_params r !! k.

(** [request.GET.get(k, '')] *)
Definition get_or_empty (r : request) (k : string) : string := default "" (req_params r !! k).

(** [request.POST.getlist(k)]: at most one value per key. *)
Definition post_getlist (r : request) (k : string) : list string :=
  match req_params r !! k with Some s => [s] | None => [] end.

(** A form value is truthy when present and not empty. *)
Definition filled (o : option string) : bool :=
  match o with Some s => negb (bool_decide (s = "")) | None => false end.

(** [field__icontains=q] on SQLite: [LIKE] ignores the case of ASCII letters. *)
Definition icontains (fld q : string) : bool := str_contains (str_lower q) (str_lower fld).

(** ** Pages *)

Inductive octx :=
  | OStr (s : string)
  | OItem (kr : Z * item)
  | OItems (l : list (Z * item))
  | OCategories (l : list (Z * category))
  | OCenters (l : list (Z * center))
  | OPref (kr : Z * preference)
  | OForm.

Inductive oresponse :=
  | ORender (template : string) (ctx : list (string * octx))
  | ORedirect (name : string) (arg : option Z).

Definition oview_result : Type := list message * oresponse.

(** [order_by('-created_at')] *)
Definition newest_first : list (Z * item) -> list (Z * item) :=
  sort_stable (fun a b => String.leb (mi_created_at b.2) (mi_created_at a.2)).

(** [order_by('-score')] *)
Definition best_first : list (Z * recommendation) -> list (Z * recommendation) :=
  sort_stable (fun a b => f64_leb (ir_score b.2) (ir_score a.2)).

(** Accessing a foreign key: a query for the row. *)
Definition fk_category (k : Z) : st db (Z * category) := objects_get (fun k' _ => Z.eqb k' k).
Definition fk_item (k : Z) : st db (Z * item) := objects_get (fun k' _ => Z.eqb k' k).
Definition fk_user (k : Z) : st db (Z * dj_user) := objects_get (fun k' _ => Z.eqb k' k).

Section OrmViews.
Context `{Runtime}.

(** [@login_required]: the anonymous user is sent to the login page. *)
Definition orm_login_required (r : request) (body : Z -> st db oview_result) : st db oview_result :=
  match req_user r with
  | Some uid => body uid
  | None => mret ([], ORedirect "login" None)
  end.

Definition home (r : request) : st db oview_result :=
  mret ([], ORender "main_app/home.html" [("title", OStr "Hackathon Project Home")]).

(** [register]; [form] is the username of a valid [UserCreationForm],
    whose [save()] inserts the user. *)
Definition register (r : request) (form : option string) : st db oview_result :=
  let page := ORender "main_app/register.html" [("form", OForm); ("title", OStr "Register")] in
  if req_is_post r then
    match form with
    | Some username =>
        _ ← insert_row (mk_dj_user username);
        mret ([MsgSuccess ("Account created for " ++ username ++ "! You can now log in.")],
              ORedirect "login" None)
    | None => mret ([], page)
    end
  else mret ([], page).

Definition map_view (r : request) : st db oview_result :=
  centers ← qs_filter (fun _ c => ce_is_active c);
  mret ([], ORender "main_app/map.html" [("centers", OCenters centers)]).

(** ** [marketplace] *)

Definition is_available (it : item) : bool := bool_decide (mi_status it = "available").

(** [ItemRecommendation.objects.filter(user=request.user,
    item__status='available').order_by('-score')[:4]], then [rec.item]
    for each. *)
Definition recommended_for (uid : Z) : st db (list (Z * item)) :=
  its ← objects_all item;
  recs ← qs_filter (fun _ rc => Z.eqb (ir_user rc) uid &&
                     existsb (fun kr => Z.eqb kr.1 (ir_item rc) && is_available kr.2) its);
  mapM (fun rc => fk_item (ir_item rc.2)) (py_slice (best_first recs) None (Some 4)).

Definition marketplace (r : request) : st db oview_result :=
  categories ← objects_all category;
  featured ← qs_filter (fun _ it => mi_is_featured it && is_available it);
  avail ← qs_filter (fun _ it => is_available it);
  recommended ← (match req_user r with Some uid => recommended_for uid | None => mret [] end);
  mret ([], ORender "main_app/marketplace.html"
              [("categories", OCategories categories);
               ("featured_items", OItems (py_slice featured None (Some 4)));
               ("recent_items", OItems (py_slice (newest_first avail) None (Some 8)));
               ("recommended_items", OItems recommended);
               ("title", OStr "Marketplace - Exchange Reusable Items")]).

(** ** The recommendation helpers *)

(** [[c.strip() for c in s.split(',')]] *)
Definition split_list (s : string) : list string := map strip (split_on "," s).

(** [calculate_recommendation_score(user, item, preferences, viewed_item)]:
    every foreign key the tests read ([item.category],
    [viewed_item.category]) is a query. *)
Definition calculate_recommendation_score (item_kr : Z * item) (pref_k : Z) (pref : preference)
    (viewed : option (Z * item)) : st db spec_float :=
  cat ← fk_category (mi_category item_kr.2);
  cats ← m2m_all pref_k;
  let cat_hit := existsb (fun c => Z.eqb c.1 cat.1) cats in
  let cond_hit := match up_conditions pref with
                  | Some s => filled (Some s) && bool_decide (mi_condition item_kr.2 ∈ split_list s)
                  | None => false
                  end in
  let loc_hit := match up_locations pref with
                 | Some s => filled (Some s) && bool_decide (mi_location item_kr.2 ∈ split_list s)
                 | None => false
                 end in
  base ← (match viewed with
          | Some v =>
              c1 ← fk_category (mi_category item_kr.2);
              c2 ← fk_category (mi_category v.2);
              mret (base_score cat_hit cond_hit loc_hit (Z.eqb c1.1 c2.1)
                      (bool_decide (mi_condition item_kr.2 = mi_condition v.2))
                      (bool_decide (mi_location item_kr.2 = mi_location v.2)))
          | None => mret (base_score cat_hit cond_hit loc_hit false false false)
          end);
  r ← np_uniform;
  mret (f64_min (f64_add base r) f64_one).

(** [UserPreference.objects.create(user=user)] and the category of the
    viewed item. *)
Definition create_preference (uid : Z) (viewed : Z * item) : st db (Z * preference) :=
  t1 ← tz_now; t2 ← tz_now;
  let p := mk_preference uid None None t1 t2 in
  k ← insert_row p;
  c ← fk_category (mi_category viewed.2);
  m2m_add k c.1;;
  mret (k, p).

(** One iteration: [get_or_create] the recommendation with the score as
    default, or average the score into the existing one. *)
Definition rec_step (uid : Z) (pref : Z * preference) (viewed : Z * item) (it : Z * item) : st db unit :=
  score ← calculate_recommendation_score it pref.1 pref.2 (Some viewed);
  get_or_create (fun _ rc => Z.eqb (ir_user rc) uid && Z.eqb (ir_item rc) it.1)
    (t ← tz_now; mret (mk_recommendation uid it.1 score false t)) ≫=
  fun (got : (Z * recommendation) * bool) =>
    let '((k, rec), created) := got in
    if created then mret tt
    else save_row k (mk_recommendation (ir_user rec) (ir_item rec)
                       (f64_div (f64_add (ir_score rec) score) (f64_of_Z 2))
                       (ir_is_viewed rec) (ir_created_at rec)).

Fixpoint rec_loop (uid : Z) (pref : Z * preference) (viewed : Z * item) (its : list (Z * item)) : st db unit :=
  match its with
  | [] => mret tt
  | it :: rest => rec_step uid pref viewed it;; rec_loop uid pref viewed rest
  end.

(** [update_recommendations(user, viewed_item)] *)
Definition update_recommendations (uid : Z) (viewed : Z * item) : st db unit :=
  pref ← catch (objects_get (fun _ p => Z.eqb (up_user p) uid))
           (fun e => match e with
                     | DoesNotExist _ => Some (create_preference uid viewed)
                     | _ => None
                     end);
  avail ← qs_filter (fun _ it => is_available it && negb (Z.eqb (mi_owner it) uid));
  rec_loop uid pref viewed avail.

(** ** [item_detail] *)

Definition with_views (it : item) (n : Z) (t : string) : item :=
  mk_item (mi_title it) (mi_description it) (mi_category it) (mi_condition it) (mi_owner it)
    (mi_image it) (mi_status it) (mi_location it) (mi_is_featured it) n (mi_created_at it) t.

Definition item_detail (r : request) (item_id : Z) : st db oview_result :=
  kr ← get_object_or_404 (R:=item) (fun k _ => Z.eqb k item_id);
  t ← tz_now;
  let it := with_views kr.2 (mi_views_count kr.2 + 1) t in
  save_row kr.1 it;;
  cat ← fk_category (mi_category it);
  _ ← (match req_user r with
       | Some uid =>
           owner ← fk_user (mi_owner it);
           if Z.eqb uid owner.1 then mret tt else update_recommendations uid (kr.1, it)
       | None => mret tt
       end);
  similar ← qs_filter (fun k i => Z.eqb (mi_category i) cat.1 && is_available i && negb (Z.eqb k kr.1));
  mret ([], ORender "main_app/item_detail.html"
              [("item", OItem (kr.1, it)); ("similar_items", OItems (py_slice similar None (Some 4)));
               ("title", OStr (mi_title it ++ " - Marketplace"))]).

(** ** [add_item], [my_items], [update_item], [delete_item] *)

Definition add_item_page (categories : list (Z * category)) : oresponse :=
  ORender "main_app/add_item.html" [("categories", OCategories categories); ("title", OStr "Add New Item")].

Definition add_item (r : request) : st db oview_result :=
  orm_login_required r (fun uid =>
    categories ← objects_all category;
    if req_is_post r then
      let title := post_get r "title" in
      let description := post_get r "description" in
      let category_id := post_get r "category" in
      let condition := post_get r "condition" in
      let location := post_get r "location" in
      if forallb filled [title; description; category_id; condition; location] then
        ck ← lift_res (pk_of (default "" category_id));
        cat ← get_object_or_404 (R:=category) (fun k _ => Z.eqb k ck);
        t1 ← tz_now; t2 ← tz_now;
        k ← insert_row (mk_item (default "" title) (default "" description) cat.1
                          (default "" condition) uid (req_image r) "available"
                          (default "" location) false 0 t1 t2);
        mret ([MsgSuccess "Item added successfully!"], ORedirect "item_detail" (Some k))
      else mret ([MsgError "Please fill all required fields"], add_item_page categories)
    else mret ([], add_item_page categories)).

Definition my_items (r : request) : st db oview_result :=
  orm_login_required r (fun uid =>
    its ← qs_filter (fun _ it => Z.eqb (mi_owner it) uid);
    mret ([], ORender "main_app/my_items.html" [("items", OItems (newest_first its)); ("title", OStr "My Items")])).

Definition update_item_page (kr : Z * item) (categories : list (Z * category)) : oresponse :=
  ORender "main_app/update_item.html"
    [("item", OItem kr); ("categories", OCategories categories); ("title", OStr "Update Item")].

(** The assignments of [update_item] and [item.image = image] when an
    image was sent; [updated_at] is [auto_now]. *)
Definition edit_item (it : item) (title description : string) (ck : Z) (condition location status : string)
    (image : option string) (t : string) : item :=
  mk_item title description ck condition (mi_owner it)
    (if filled image then image else mi_image it) status location (mi_is_featured it)
    (mi_views_count it) (mi_created_at it) t.

Definition update_item (r : request) (item_id : Z) : st db oview_result :=
  orm_login_required r (fun uid =>
    kr ← get_object_or_404 (R:=item) (fun k it => Z.eqb k item_id && Z.eqb (mi_owner it) uid);
    categories ← objects_all category;
    if req_is_post r then
      let title := post_get r "title" in
      let description := post_get r "description" in
      let category_id := post_get r "category" in
      let condition := post_get r "condition" in
      let location := post_get r "location" in
      let status := post_get r "status" in
      if forallb filled [title; description; category_id; condition; location; status] then
        ck ← lift_res (pk_of (default "" category_id));
        cat ← get_object_or_404 (R:=category) (fun k _ => Z.eqb k ck);
        t ← tz_now;
        save_row kr.1 (edit_item kr.2 (default "" title) (default "" description) cat.1
                         (default "" condition) (default "" location) (default "" status) (req_image r) t);;
        mret ([MsgSuccess "Item updated successfully!"], ORedirect "item_detail" (Some kr.1))
      else mret ([MsgError "Please fill all required fields"], update_item_page kr categories)
    else mret ([], update_item_page kr categories)).

Definition delete_item (r : request) (item_id : Z) : st db oview_result :=
  orm_login_required r (fun uid =>
    kr ← get_object_or_404 (R:=item) (fun k it => Z.eqb k item_id && Z.eqb (mi_owner it) uid);
    if req_is_post r then
      delete_item_cascade kr.1;;
      mret ([MsgSuccess "Item deleted successfully!"], ORedirect "my_items" None)
    else mret ([], ORender "main_app/delete_item.html" [("item", OItem kr); ("title", OStr "Delete Item")])).

(** ** [search_items] *)

(** The filters in the order the view chains them; the category lookup
    converts its value when the filter is built. *)
Definition search_filter (query : string) (ck : option Z) (condition location : string) (it : item) : bool :=
  is_available it &&
  (if bool_decide (query = "") then true else icontains (mi_title it) query || icontains (mi_description it) query) &&
  (match ck with Some c => Z.eqb (mi_category it) c | None => true end) &&
  (if bool_decide (condition = "") then true else bool_decide (mi_condition it = condition)) &&
  (if bool_decide (location = "") then true else icontains (mi_location it) location).

Definition search_items (r : request) : st db oview_result :=
  let query := get_or_empty r "q" in
  let category_id := get_or_empty r "category" in
  let condition := get_or_empty r "condition" in
  let location := get_or_empty r "location" in
  ck ← (if bool_decide (category_id = "") then mret None
        else c ← lift_res (pk_of category_id); mret (Some c));
  its ← qs_filter (fun _ it => search_filter query ck condition location it);
  categories ← objects_all category;
  mret ([], ORender "main_app/search_results.html"
              [("items", OItems its); ("categories", OCategories categories); ("query", OStr query);
               ("category_id", OStr category_id); ("condition", OStr condition);
               ("location", OStr location); ("title", OStr "Search Results")]).

(** ** [user_preferences] *)

Definition new_preference (uid : Z) : st db preference :=
  t1 ← tz_now; t2 ← tz_now; mret (mk_preference uid None None t1 t2).

(** The loop over [request.POST.getlist('preferred_categories')]. *)
Fixpoint add_categories (pk : Z) (ids : list string) : st db unit :=
  match ids with
  | [] => mret tt
  | s :: rest =>
      ck ← lift_res (pk_of s);
      cat ← get_object_or_404 (R:=category) (fun k _ => Z.eqb k ck);
      m2m_add pk cat.1;;
      add_categories pk rest
  end.

Definition user_preferences (r : request) : st db oview_result :=
  orm_login_required r (fun uid =>
    got ← get_or_create (fun _ p => Z.eqb (up_user p) uid) (new_preference uid);
    let pref := got.1 in
    categories ← objects_all category;
    if req_is_post r then
      m2m_clear pref.1;;
      add_categories pref.1 (post_getlist r "preferred_categories");;
      t ← tz_now;
      save_row pref.1 (mk_preference (up_user pref.2) (post_get r "preferred_conditions")
                         (post_get r "preferred_locations") (up_created_at pref.2) t);;
      mret ([MsgSuccess "Preferences updated successfully!"], ORedirect "marketplace" None)
    else mret ([], ORender "main_app/user_preferences.html"
                     [("preferences", OPref pref); ("categories", OCategories categories);
                      ("title", OStr "My Preferences")])).
End OrmViews.
End orm.
