(* ===== verification/OrmProps.v ===== *)
(** Theorems on the ORM-backed views of [src/main_app/views.py]
    ([OrmViews]): what they store and what they raise, and how the
    recommendation score of the ORM version relates to the one of
    [views_json.py] ([Recommend]). *)

From S2P Require Import Prelude PyValue Views Recommend OrmModels OrmViews.
From Stdlib Require Import Ascii SpecFloat.

Open Scope string_scope.
Import orm.

#[local] Arguments objects_get : simpl never.
#[local] Arguments get_object_or_404 : simpl never.

(** The primary keys of a table are distinct, as the database keeps them. *)
Definition keys_unique (R : Type) `{Model R} (d : db) : Prop := NoDup (map fst (rows R d)).

(** The [UserPreference] rows of a user: [UserPreference.objects.filter(user=u)]. *)
Definition prefs_of (uid : Z) (d : db) : list (Z * preference) :=
  filter (fun kr => Z.eqb (up_user kr.2) uid) (rows preference d).

Section OrmRuns.
Context `{Runtime}.

(** C38: [user_preferences] is not atomic: a POST naming a category that
    does not exist raises [Http404] after [preferred_categories.clear()]
    has run, so the stored preference has lost all its categories while
    its other fields are unchanged. *)
Theorem orm_preferences_unknown_category r uid s ck d pk p :
  req_user r = Some uid -> req_is_post r = true ->
  req_params r !! "preferred_categories" = Some s -> py_int s = Some ck ->
  Forall (fun kr => kr.1 ≠ ck) (rows category d) ->
  prefs_of uid d = [(pk, p)] ->
  exists d', user_preferences r d = (d', Raise (Http404 "Category")) /\
    Forall (fun l => pc_pref l.2 ≠ pk) (rows pref_cat d') /\
    rows preference d' = rows preference d.
Proof.
  intros Hu Hpost Hs Hck Hnone Hp.
  unfold user_preferences, orm_login_required. rewrite Hu.
  unfold get_or_create, catch. st_simpl. rewrite (objects_get_one _ _ _ Hp).
  cbn. rewrite Hpost. unfold post_getlist. rewrite Hs. cbn. unfold pk_of. rewrite Hck. st_simpl. cbn beta iota.
  rewrite get_object_or_404_none by (cbn; apply filter_key_none, Hnone).
  eexists; split_and!; [reflexivity| |reflexivity].
  apply Forall_forall. intros l [Hl _]%list_elem_of_filter.
  apply Is_true_true, negb_true_iff, Z.eqb_neq in Hl. done.
Qed.

(** The page [update_item] redirects to after a valid form. *)
Definition item_updated (k : Z) : oview_result :=
  ([MsgSuccess "Item updated successfully!"], ORedirect "item_detail" (Some k)).

(** the owner of an item can edit it: a POST of a complete form with
    an existing category rewrites the item's row in place (title,
    description, category, condition, location, the image when one is
    sent, a fresh [updated_at]) and stores the posted [status] as it is,
    whether or not it is one of [STATUS_CHOICES]. *)
Theorem orm_update_item_stores r uid k it d title desc cs ck cat cond loc status :
  req_user r = Some uid -> req_is_post r = true ->
  post_get r "title" = Some title -> post_get r "description" = Some desc ->
  post_get r "category" = Some cs -> post_get r "condition" = Some cond ->
  post_get r "location" = Some loc -> post_get r "status" = Some status ->
  forallb filled [Some title; Some desc; Some cs; Some cond; Some loc; Some status] = true ->
  py_int cs = Some ck ->
  filter (fun kr => Z.eqb kr.1 k && Z.eqb (mi_owner kr.2) uid) (rows item d) = [(k, it)] ->
  filter (fun kr => Z.eqb kr.1 ck) (rows category d) = [(ck, cat)] ->
  exists d' t, update_item r k d = (d', Ok (item_updated k)) /\
    rows item d' = map (fun kr => if bool_decide (kr.1 = k)
                                 then (k, edit_item it title desc ck cond loc status (req_image r) t)
                                 else kr) (rows item d) /\
    mi_status (edit_item it title desc ck cond loc status (req_image r) t) = status.
Proof.
  intros Hu Hpost Ht Hd Hc Hco Hl Hs Hf Hck Hit Hcat.
  unfold update_item, orm_login_required. rewrite Hu. st_simpl.
  rewrite (get_object_or_404_one _ _ _ Hit). cbn beta iota. rewrite Hpost, Ht, Hd, Hc, Hco, Hl, Hs.
  rewrite Hf. unfold objects_all, qs_filter, pk_of. cbn beta iota. unfold default, id. rewrite Hck. cbn beta iota.
  rewrite (get_object_or_404_one _ _ _ Hcat). unfold save_row. cbn.
  assert (Hin : existsb (fun kr => bool_decide (kr.1 = k)) (t_rows (db_items d)) = true).
  { apply existsb_exists. exists (k, it). split; [|by rewrite bool_decide_eq_true].
    apply list_elem_of_In. apply (list_elem_of_filter (fun kr => Z.eqb kr.1 k && Z.eqb (mi_owner kr.2) uid)).
    change (rows item d) with (t_rows (db_items d)) in Hit. rewrite Hit. by left. }
  rewrite Hin. by do 2 eexists.
Qed.

(** The page [delete_item] redirects to. *)
Definition item_deleted : oview_result :=
  ([MsgSuccess "Item deleted successfully!"], ORedirect "my_items" None).

(** C22: deleting an item deletes its recommendations with it
    ([on_delete=CASCADE]): after the owner's POST the row is gone and
    no recommendation refers to it. *)
Theorem orm_delete_item_cascade r uid k it d :
  req_user r = Some uid -> req_is_post r = true ->
  filter (fun kr => Z.eqb kr.1 k && Z.eqb (mi_owner kr.2) uid) (rows item d) = [(k, it)] ->
  exists d', delete_item r k d = (d', Ok item_deleted) /\
    rows item d' = filter (fun kr => negb (Z.eqb kr.1 k)) (rows item d) /\
    Forall (fun rc => ir_item rc.2 ≠ k) (rows recommendation d').
Proof.
  intros Hu Hpost Hit. unfold delete_item, orm_login_required. rewrite Hu. st_simpl.
  rewrite (get_object_or_404_one _ _ _ Hit). cbn beta iota. rewrite Hpost. cbn.
  eexists; split_and!; [reflexivity|reflexivity|].
  apply Forall_forall. intros l [Hl _]%list_elem_of_filter.
  by apply Is_true_true, negb_true_iff, Z.eqb_neq in Hl.
Qed.

(** [rec.item] for each recommendation whose item is present and
    available: every access succeeds and returns that item. *)
Lemma fk_items_ok d (L : list (Z * recommendation)) :
  NoDup (map fst (rows item d)) ->
  Forall (fun rc => exists it, (ir_item rc.2, it) ∈ rows item d /\ is_available it = true) L ->
  exists es, mapM (fun rc => fk_item (ir_item rc.2)) L d = (d, Ok es) /\
    Forall (fun kr => is_available kr.2 = true) es /\ length es = length L.
Proof.
  intros Hnd. induction 1 as [|rc L (it & Hin & Ha) _ (es & Hes & Hall & Hlen)]; [by exists []|].
  exists ((ir_item rc.2, it) :: es). simpl. st_simpl.
  assert (fk_item (ir_item rc.2) d = (d, Ok (ir_item rc.2, it))) as ->
    by apply objects_get_one, (filter_key_unique _ _ _ Hnd Hin).
  cbn beta iota.
  rewrite Hes. split_and!; [done| |by rewrite Hlen]. by constructor.
Qed.

(** C37: the recommended items of the ORM marketplace page are available
    items, at most four, and computing them never raises: the join
    [item__status='available'] keeps only recommendations whose item is
    present and available, and [on_delete=CASCADE] leaves none dangling,
    so each [rec.item] finds its row (the keys of a table are distinct). *)
Theorem orm_recommended_available uid d :
  keys_unique item d ->
  exists es, recommended_for uid d = (d, Ok es) /\
    Forall (fun kr => is_available kr.2 = true) es /\ (length es <= 4)%nat.
Proof.
  intros Hnd. unfold recommended_for, objects_all, qs_filter. st_simpl. cbn beta iota.
  match goal with |- context [mapM _ ?L d] => destruct (fk_items_ok d L) as (es & Hes & Hall & Hlen) end;
    [exact Hnd| |].
  - apply py_slice_Forall. unfold best_first. rewrite sort_stable_perm.
    apply Forall_forall. intros rc [Hp _]%list_elem_of_filter.
    apply Is_true_true, andb_true_iff in Hp as [_ Hex].
    apply existsb_exists in Hex as ([k it] & Hk & Hka). apply andb_true_iff in Hka as [Hk' Ha].
    apply Z.eqb_eq in Hk'. simpl in *. subst k. exists it. split; [|done].
    apply list_elem_of_In in Hk. by apply list_elem_of_filter in Hk as [_ Hk].
  - exists es. split_and!; [exact Hes|done|]. rewrite Hlen. by apply py_slice_prefix_length.
Qed.
End OrmRuns.

(** ** The recommendation table under [update_recommendations] *)

(** [c] writes neither the recommendations nor the items. *)
Definition keeps_recs {A} (c : st db A) : Prop :=
  forall d d' r, c d = (d', r) -> db_recs d' = db_recs d /\ db_items d' = db_items d.

Section KeepsRecs.
Context `{Runtime}.

Lemma keeps_recs_ret {A} (a : A) : keeps_recs (mret a).
Proof. by intros d d' r [= <- _]. Qed.

Lemma keeps_recs_raise {A} e : keeps_recs (raise (A:=A) e).
Proof. by intros d d' r [= <- _]. Qed.

Lemma keeps_recs_lift {A} (x : res A) : keeps_recs (lift_res x).
Proof. by intros d d' r [= <- _]. Qed.

Lemma keeps_recs_bind {A B} (c : st db A) (f : A -> st db B) :
  keeps_recs c -> (forall a, keeps_recs (f a)) -> keeps_recs (c ≫= f).
Proof.
  intros Hc Hf d d' r. st_simpl. destruct (c d) as [d1 [a|e]] eqn:E.
  - intros Hr. destruct (Hc _ _ _ E), (Hf a _ _ _ Hr). split; congruence.
  - intros [= <- _]. by apply (Hc _ _ _ E).
Qed.

Lemma keeps_recs_catch {A} (c : st db A) h :
  keeps_recs c -> (forall e k, h e = Some k -> keeps_recs k) -> keeps_recs (catch c h).
Proof.
  intros Hc Hh d d' r. st_simpl. destruct (c d) as [d1 [a|e]] eqn:E.
  - intros [= <- _]. by apply (Hc _ _ _ E).
  - destruct (h e) as [k|] eqn:Hk.
    + intros Hr. destruct (Hc _ _ _ E), (Hh _ _ Hk _ _ _ Hr). split; congruence.
    + intros [= <- _]. by apply (Hc _ _ _ E).
Qed.

Lemma keeps_recs_qs_filter {R} `{Model R} p : keeps_recs (qs_filter (R:=R) p).
Proof. by intros d d' r [= <- _]. Qed.

Lemma keeps_recs_tz_now : keeps_recs tz_now.
Proof. by intros d d' r [= <- _]. Qed.

Lemma keeps_recs_np_uniform : keeps_recs np_uniform.
Proof. by intros d d' r [= <- _]. Qed.

Lemma keeps_recs_insert_pref p : keeps_recs (insert_row (R:=preference) p).
Proof. by intros d d' r [= <- _]. Qed.

Lemma keeps_recs_insert_link l : keeps_recs (insert_row (R:=pref_cat) l).
Proof. by intros d d' r [= <- _]. Qed.
End KeepsRecs.

Create HintDb recs.
#[export] Hint Resolve keeps_recs_ret keeps_recs_raise keeps_recs_lift keeps_recs_qs_filter
  keeps_recs_tz_now keeps_recs_np_uniform keeps_recs_insert_pref keeps_recs_insert_link : recs.

(** Split a computation along its binds, catches and [match]es. *)
Ltac recs_auto :=
  repeat first
    [ match goal with
      | |- forall _, _ => intro
      | |- keeps_recs (mbind _ _) => apply keeps_recs_bind
      | |- keeps_recs (catch _ _) => apply keeps_recs_catch
      | H : Some _ = Some _ |- _ => injection H as <-
      | H : None = Some _ |- _ => discriminate H
      | H : _ = Some _ |- _ => progress (simpl in H)
      end
    | case_match ];
  eauto with recs.

Section KeepsRecs2.
Context `{Runtime}.

Lemma keeps_recs_objects_get {R} `{Model R} p : keeps_recs (objects_get (R:=R) p).
Proof. unfold objects_get. recs_auto. Qed.

Lemma keeps_recs_m2m_all p : keeps_recs (m2m_all p).
Proof. unfold m2m_all. recs_auto. Qed.

#[local] Hint Resolve keeps_recs_objects_get keeps_recs_m2m_all : recs.

Lemma keeps_recs_score it pk p v : keeps_recs (calculate_recommendation_score it pk p v).
Proof. unfold calculate_recommendation_score, fk_category. recs_auto. Qed.

Lemma keeps_recs_m2m_add p c : keeps_recs (m2m_add p c).
Proof. unfold m2m_add. recs_auto. Qed.

#[local] Hint Resolve keeps_recs_m2m_add : recs.

Lemma keeps_recs_pref uid viewed :
  keeps_recs (catch (objects_get (R:=preference) (fun _ p => Z.eqb (up_user p) uid))
               (fun e => match e with DoesNotExist _ => Some (create_preference uid viewed) | _ => None end)).
Proof. unfold create_preference, fk_category. recs_auto. Qed.
End KeepsRecs2.

(** The pair [unique_together] constrains. *)
Definition rec_pair (kr : Z * recommendation) : Z * Z := (ir_user kr.2, ir_item kr.2).

(** The recommendation table is well formed: distinct keys below the
    next key of the sequence, and at most one row per [(user, item)]. *)
Definition orm_recs_ok (d : db) : Prop :=
  NoDup (map fst (rows recommendation d)) /\ NoDup (map rec_pair (rows recommendation d)) /\
  Forall (fun kr => kr.1 < t_next (db_recs d)) (rows recommendation d).

Definition has_rec (uid k : Z) (d : db) : Prop :=
  exists kr, kr ∈ rows recommendation d /\ rec_pair kr = (uid, k).

Definition rec_lookup (uid k : Z) (kr : Z * recommendation) : bool :=
  Z.eqb (ir_user kr.2) uid && Z.eqb (ir_item kr.2) k.

Lemma nodup_key_eq {A} (l : list (Z * A)) k a b :
  NoDup (map fst l) -> (k, a) ∈ l -> (k, b) ∈ l -> a = b.
Proof.
  induction l as [|[k' c] l IH]; intros Hnd Ha Hb; [by apply not_elem_of_nil in Ha|].
  simpl in Hnd. apply NoDup_cons in Hnd as [Hk Hnd].
  apply elem_of_cons in Ha, Hb.
  destruct Ha as [[= -> ->]|Ha], Hb as [[= ->]|Hb]; try done; eauto;
    exfalso; apply Hk, list_elem_of_fmap; by eexists (_, _).
Qed.

Lemma rec_lookup_spec uid k kr : rec_lookup uid k kr = true <-> rec_pair kr = (uid, k).
Proof.
  unfold rec_lookup, rec_pair. rewrite andb_true_iff, !Z.eqb_eq.
  split; [intros [-> ->]|intros [= -> ->]]; done.
Qed.

Section RecStep.
Context `{Runtime}.

(** The three ways one iteration of the loop ends: an exception before
    any write, the update of the existing recommendation, or the
    insertion of a new one. *)
Lemma rec_step_cases uid pref viewed it d d' r :
  rec_step uid pref viewed it d = (d', r) ->
  (db_recs d' = db_recs d /\ exists e, r = Raise e) \/
  (exists d1 rk rc new, db_recs d1 = db_recs d /\
     filter (rec_lookup uid it.1) (rows recommendation d1) = [(rk, rc)] /\
     rec_pair (rk, new) = rec_pair (rk, rc) /\ save_row rk new d1 = (d', r)) \/
  (exists new, filter (rec_lookup uid it.1) (rows recommendation d) = [] /\
     rec_pair (t_next (db_recs d), new) = (uid, it.1) /\
     db_recs d' = mk_table (rows recommendation d ++ [(t_next (db_recs d), new)]) (t_next (db_recs d) + 1) /\
     r = Ok tt).
Proof.
  unfold rec_step. st_simpl.
  destruct (calculate_recommendation_score _ _ _ _ d) as [d1 [score|e]] eqn:Hs;
    destruct (keeps_recs_score _ _ _ _ _ _ _ Hs) as [Hr1 _]; [|intros [= <- <-]; left; eauto].
  unfold get_or_create, catch, objects_get, qs_filter. st_simpl.
  change (filter _ (rows recommendation d1)) with (filter (rec_lookup uid it.1) (rows recommendation d1)).
  destruct (filter (rec_lookup uid it.1) (rows recommendation d1)) as [|[rk rc] [|kr2 rest]] eqn:Hf.
  - cbn. intros [= <- <-]. right; right.
    exists (mk_recommendation uid it.1 score false (rt_now (db_ticks d1))).
    change (rows recommendation d) with (t_rows (db_recs d)). rewrite <- Hr1. by split_and!.
  - intros Hsave. right; left. exists d1, rk, rc. eexists. split_and!; [done|exact Hf| |exact Hsave]. reflexivity.
  - intros [= <- <-]. left. eauto.
Qed.

(** [save()] of a recommendation whose key is in the table. *)
Lemma save_row_rec_present d rk rc new d' r :
  (rk, rc) ∈ rows recommendation d -> save_row rk new d = (d', r) ->
  db_recs d' = mk_table (map (fun kr => if bool_decide (kr.1 = rk) then (rk, new) else kr)
                           (rows recommendation d)) (t_next (db_recs d)) /\ r = Ok tt.
Proof.
  intros Hin. unfold save_row. cbn.
  assert (existsb (fun kr => bool_decide (kr.1 = rk)) (t_rows (db_recs d)) = true) as ->
    by (apply existsb_exists; exists (rk, rc); split; [by apply list_elem_of_In|by rewrite bool_decide_eq_true]).
  by intros [= <- <-].
Qed.

Lemma save_rows_keys rk new (l : list (Z * recommendation)) :
  map fst (map (fun kr => if bool_decide (kr.1 = rk) then (rk, new) else kr) l) = map fst l.
Proof. rewrite map_map. apply map_ext. intros kr. by case_bool_decide. Qed.

Lemma save_rows_pairs rk rc new (l : list (Z * recommendation)) :
  NoDup (map fst l) -> (rk, rc) ∈ l -> rec_pair (rk, new) = rec_pair (rk, rc) ->
  map rec_pair (map (fun kr => if bool_decide (kr.1 = rk) then (rk, new) else kr) l) = map rec_pair l.
Proof.
  intros Hnd Hin Hp. rewrite map_map. apply map_ext_in. intros [k x] Hx%list_elem_of_In.
  simpl. case_bool_decide; [subst k|done]. rewrite Hp. by rewrite (nodup_key_eq _ _ _ _ Hnd Hin Hx).
Qed.

Lemma filter_single_elem {A} (p : A -> bool) l x : filter p l = [x] -> x ∈ l /\ p x = true.
Proof.
  intros E. assert (x ∈ filter p l) as Hx by (rewrite E; by left).
  apply list_elem_of_filter in Hx as [Hp Hx]. split; [done|]. by apply Is_true_true.
Qed.

Lemma filter_nil_pair uid k (l : list (Z * recommendation)) :
  filter (rec_lookup uid k) l = [] -> (uid, k) ∉ map rec_pair l.
Proof.
  intros E (kr & Hkr & Hin)%list_elem_of_fmap.
  assert (kr ∈ filter (rec_lookup uid k) l) as Hf.
  { apply list_elem_of_filter. split; [|done]. apply Is_true_true, rec_lookup_spec. by symmetry. }
  rewrite E in Hf. by apply not_elem_of_nil in Hf.
Qed.

(** One iteration keeps the table well formed. *)
Lemma orm_step_recs_ok uid pref viewed it d d' r :
  orm_recs_ok d -> rec_step uid pref viewed it d = (d', r) -> orm_recs_ok d'.
Proof.
  intros (Hk & Hp & Hn) Hs. unfold orm_recs_ok, rows in *. cbn in *.
  destruct (rec_step_cases _ _ _ _ _ _ _ Hs) as [[-> _]|[(d1 & rk & rc & new & Hr1 & Hf & Hpair & Hsave)|
    (new & Hf & Hpair & -> & ->)]]; [done| |].
  - destruct (filter_single_elem _ _ _ Hf) as [Hin _].
    destruct (save_row_rec_present _ _ _ _ _ _ Hin Hsave) as [-> _].
    change (rows recommendation d1) with (t_rows (db_recs d1)) in Hin |- *.
    rewrite Hr1 in Hin |- *. cbn. split_and!.
    + by rewrite save_rows_keys.
    + by rewrite (save_rows_pairs _ rc).
    + rewrite Forall_forall in Hn. apply Forall_fmap, Forall_forall. intros [k x] Hx. simpl.
      case_bool_decide; [subst k; by apply (Hn (rk, rc))|by apply (Hn (k, x))].
  - cbn. rewrite !map_app. split_and!.
    + apply NoDup_app. split_and!; [done| |by constructor; [apply not_elem_of_nil|constructor]].
      intros k Hk1 Hk2. apply list_elem_of_singleton in Hk2. subst k.
      apply list_elem_of_fmap in Hk1 as ([k x] & E & Hx). simpl in E. subst k.
      rewrite Forall_forall in Hn. pose proof (Hn _ Hx). simpl in *. lia.
    + apply NoDup_app. split_and!; [done| |by constructor; [apply not_elem_of_nil|constructor]].
      intros pr Hp1 Hp2. apply list_elem_of_singleton in Hp2. rewrite Hp2, Hpair in Hp1.
      by apply (filter_nil_pair uid it.1 (t_rows (db_recs d))).
    + apply Forall_app. split; [|constructor; [simpl; lia|done]].
      eapply Forall_impl; [exact Hn|]. intros kr. simpl. lia.
Qed.

Lemma orm_recs_ok_ext d d' : db_recs d' = db_recs d -> orm_recs_ok d -> orm_recs_ok d'.
Proof. unfold orm_recs_ok, rows. cbn. by intros ->. Qed.

Lemma has_rec_ext u k d d' : db_recs d' = db_recs d -> has_rec u k d -> has_rec u k d'.
Proof. unfold has_rec, rows. cbn. by intros ->. Qed.

(** An iteration keeps every recommendation (the update rewrites the
    score of a row and keeps its pair). *)
Lemma rec_step_has_rec uid pref viewed it d d' r u k :
  orm_recs_ok d -> has_rec u k d -> rec_step uid pref viewed it d = (d', r) -> has_rec u k d'.
Proof.
  intros (Hk & _ & _) (kr & Hkr & Hp) Hs.
  destruct (rec_step_cases _ _ _ _ _ _ _ Hs) as [[E _]|[(d1 & rk & rc & new & Hr1 & Hf & Hpair & Hsave)|
    (new & Hf & Hpair & E & ->)]].
  - by apply (has_rec_ext _ _ d), (ex_intro _ kr).
  - destruct (filter_single_elem _ _ _ Hf) as [Hin _].
    destruct (save_row_rec_present _ _ _ _ _ _ Hin Hsave) as [E _].
    change (rows recommendation d1) with (t_rows (db_recs d1)) in Hin. rewrite Hr1 in Hin.
    unfold has_rec. change (rows recommendation d') with (t_rows (db_recs d')).
    rewrite E. cbn. change (rows recommendation d1) with (t_rows (db_recs d1)). rewrite Hr1. change (rows recommendation d) with (t_rows (db_recs d)) in Hkr, Hk.
    destruct kr as [k0 x]. destruct (decide (k0 = rk)) as [->|Hne].
    + rewrite (nodup_key_eq _ _ _ _ Hk Hkr Hin) in Hp. exists (rk, new). split; [|by rewrite Hpair].
      apply list_elem_of_fmap. exists (rk, rc). split; [simpl; case_bool_decide; [done|congruence]|done].
    + exists (k0, x). split; [|done]. apply list_elem_of_fmap. exists (k0, x).
      split; [simpl; by case_bool_decide|done].
  - exists kr. unfold rows. cbn. rewrite E. cbn. split; [|done]. apply elem_of_app. by left.
Qed.

(** An iteration that returns has a recommendation of its item. *)
Lemma rec_step_creates uid pref viewed it d d' :
  rec_step uid pref viewed it d = (d', Ok tt) -> has_rec uid it.1 d'.
Proof.
  intros Hs.
  destruct (rec_step_cases _ _ _ _ _ _ _ Hs) as [[_ [e [=]]]|[(d1 & rk & rc & new & Hr1 & Hf & Hpair & Hsave)|
    (new & Hf & Hpair & E & _)]].
  - destruct (filter_single_elem _ _ _ Hf) as [Hin Hl%rec_lookup_spec].
    destruct (save_row_rec_present _ _ _ _ _ _ Hin Hsave) as [E _].
    exists (rk, new). unfold rows at 1. cbn. rewrite E. cbn. split; [|by rewrite Hpair].
    apply list_elem_of_fmap. exists (rk, rc). split; [simpl; case_bool_decide; [done|congruence]|done].
  - exists (t_next (db_recs d), new). unfold rows. cbn. rewrite E. cbn. split; [|done].
    apply elem_of_app. right. by left.
Qed.

Lemma orm_loop_recs_ok uid pref viewed L d d' r :
  orm_recs_ok d -> rec_loop uid pref viewed L d = (d', r) -> orm_recs_ok d'.
Proof.
  revert d. induction L as [|it L IH]; intros d Hd; simpl; [by intros [= <- _]|]. st_simpl.
  destruct (rec_step uid pref viewed it d) as [d1 [[]|e]] eqn:Hs; pose proof (orm_step_recs_ok _ _ _ _ _ _ _ Hd Hs).
  - by apply IH.
  - by intros [= <- _].
Qed.

Lemma rec_loop_has_rec uid pref viewed L d d' r u k :
  orm_recs_ok d -> has_rec u k d -> rec_loop uid pref viewed L d = (d', r) -> has_rec u k d'.
Proof.
  revert d. induction L as [|it L IH]; intros d Hd Hh; simpl; [by intros [= <- _]|]. st_simpl.
  destruct (rec_step uid pref viewed it d) as [d1 [[]|e]] eqn:Hs;
    pose proof (orm_step_recs_ok _ _ _ _ _ _ _ Hd Hs); pose proof (rec_step_has_rec _ _ _ _ _ _ _ _ _ Hd Hh Hs).
  - by apply IH.
  - by intros [= <- _].
Qed.

(** A loop that returns has a recommendation of every item it ran over. *)
Lemma rec_loop_creates uid pref viewed L d d' :
  orm_recs_ok d -> rec_loop uid pref viewed L d = (d', Ok tt) -> Forall (fun it => has_rec uid it.1 d') L.
Proof.
  revert d. induction L as [|it L IH]; intros d Hd; simpl; [by constructor|]. st_simpl.
  destruct (rec_step uid pref viewed it d) as [d1 [[]|e]] eqn:Hs; [|done].
  pose proof (orm_step_recs_ok _ _ _ _ _ _ _ Hd Hs). intros Hl. constructor; [|by apply (IH d1)].
  eapply rec_loop_has_rec; [done| |exact Hl]. by apply (rec_step_creates _ pref viewed it d).
Qed.
End RecStep.

Section UpdateRecs.
Context `{Runtime}.

(** The preference step and the query of the available items. *)
Lemma update_recommendations_loop uid viewed d d' r :
  update_recommendations uid viewed d = (d', r) ->
  exists d1 pref, db_recs d1 = db_recs d /\ db_items d1 = db_items d /\
    ((exists e, r = Raise e /\ d' = d1) \/
     rec_loop uid pref viewed
       (filter (fun kr => is_available kr.2 && negb (Z.eqb (mi_owner kr.2) uid)) (rows item d1)) d1 = (d', r)).
Proof.
  unfold update_recommendations. cbv [mbind st_mbind st_bind].
  match goal with |- context [catch ?c ?h d] => destruct (catch c h d) as [d1 [pref|e]] eqn:Hp;
    destruct (keeps_recs_pref uid viewed _ _ _ Hp) as [Hr Hi] end.
  - intros Hl. exists d1, pref. split_and!; [done|done|by right].
  - intros [= <- <-]. exists d1, (0, mk_preference uid None None "" ""). split_and!; [done|done|left; eauto].
Qed.

(** Every run keeps the recommendation table well formed. *)
Lemma update_recommendations_recs_ok uid viewed d d' r :
  orm_recs_ok d -> update_recommendations uid viewed d = (d', r) -> orm_recs_ok d'.
Proof.
  intros Hd Hu. destruct (update_recommendations_loop _ _ _ _ _ Hu) as (d1 & pref & Hr & _ & [(e & _ & ->)|Hl]);
    [by apply (orm_recs_ok_ext _ _ Hr)|].
  eapply orm_loop_recs_ok; [|exact Hl]. by apply (orm_recs_ok_ext _ _ Hr).
Qed.

(** C21: the ORM [update_recommendations] keeps [unique_together =
    ('user', 'item')] and, when it returns, has given the user a
    recommendation of every available item of another owner, through
    [get_or_create] (compare [Recommend.update_recommendations_first_view],
    where the JSON version raises instead). *)
Theorem orm_update_recommendations_creates uid viewed d d' :
  orm_recs_ok d -> update_recommendations uid viewed d = (d', Ok tt) ->
  orm_recs_ok d' /\
  Forall (fun kr => is_available kr.2 = true -> mi_owner kr.2 ≠ uid -> has_rec uid kr.1 d') (rows item d).
Proof.
  intros Hd Hu. split; [by eapply update_recommendations_recs_ok|].
  destruct (update_recommendations_loop _ _ _ _ _ Hu) as (d1 & pref & Hr & Hi & [(e & [=] & _)|Hl]).
  pose proof (rec_loop_creates _ _ _ _ _ _ (orm_recs_ok_ext _ _ Hr Hd) Hl) as Hall.
  rewrite Forall_forall in Hall |- *. intros kr Hkr Ha Ho. apply Hall, list_elem_of_filter. split; [|].
  - apply Is_true_true. rewrite Ha. simpl. by apply negb_true_iff, Z.eqb_neq.
  - change (rows item d1) with (t_rows (db_items d1)). by rewrite Hi.
Qed.
End UpdateRecs.

(** ** [int()] reads back the key a template renders *)

Fixpoint str_all (f : ascii -> bool) (s : string) : bool :=
  match s with EmptyString => true | String c s' => f c && str_all f s' end.

Lemma rstrip_id s : str_all (fun c => negb (is_space c)) s = true -> rstrip s = s.
Proof.
  induction s as [|c s IH]; [done|]. simpl. intros [Hc Hs]%andb_true_iff.
  rewrite IH by done. apply negb_true_iff in Hc. by rewrite Hc.
Qed.

Lemma strip_id s : str_all (fun c => negb (is_space c)) s = true -> strip s = s.
Proof.
  intros Hs. unfold strip. destruct s as [|c s']; [done|].
  pose proof Hs as Hs'. simpl in Hs'. apply andb_true_iff in Hs' as [Hc _]. apply negb_true_iff in Hc.
  simpl. rewrite Hc. by apply rstrip_id.
Qed.

Lemma pretty_N_char_digit d :
  (d < 10)%N -> is_digit (stdpp.pretty.pretty_N_char d) = true /\ is_space (stdpp.pretty.pretty_N_char d) = false /\
  Z.of_nat (nat_of_ascii (stdpp.pretty.pretty_N_char d)) - 48 = Z.of_N d.
Proof.
  intros Hd. assert (d = 0 \/ d = 1 \/ d = 2 \/ d = 3 \/ d = 4 \/ d = 5 \/ d = 6 \/ d = 7 \/ d = 8 \/ d = 9)%N
    as Hc by lia.
  destruct_or! Hc; subst d; split_and!; reflexivity.
Qed.

(** The digits [pretty_N_go] puts in front of [s], read left to right. *)
Lemma digits_val_pretty x s :
  (0 < x)%N -> exists m, forall acc b,
    digits_val (stdpp.pretty.pretty_N_go x s) acc b = digits_val s (acc * m + Z.of_N x) true.
Proof.
  revert s. induction (N.lt_wf_0 x) as [x _ IH]; intros s Hx.
  rewrite stdpp.pretty.pretty_N_go_step by done.
  destruct (pretty_N_char_digit (x `mod` 10)) as (Hd & _ & Hv); [apply N.mod_lt; lia|].
  pose proof (N.div_mod x 10 ltac:(lia)) as Hdm.
  destruct (decide (x `div` 10 = 0)%N) as [Hq|Hq].
  - rewrite Hq, stdpp.pretty.pretty_N_go_0. exists 10. intros acc b. simpl. rewrite Hd, Hv. f_equal. lia.
  - assert (0 < x `div` 10)%N as Hq' by (by apply N.neq_0_lt_0).
    destruct (IH (x `div` 10)%N ltac:(apply N.div_lt; lia) (String (stdpp.pretty.pretty_N_char (x `mod` 10)) s)
      Hq') as [m Hm].
    exists (m * 10). intros acc b. rewrite Hm. simpl. rewrite Hd, Hv. f_equal. lia.
Qed.

Lemma pretty_N_go_shape x s :
  (0 < x)%N -> str_all (fun c => negb (is_space c)) s = true ->
  exists c r, stdpp.pretty.pretty_N_go x s = String c r /\ is_digit c = true /\
    str_all (fun c => negb (is_space c)) (String c r) = true.
Proof.
  revert s. induction (N.lt_wf_0 x) as [x _ IH]; intros s Hx Hs.
  rewrite stdpp.pretty.pretty_N_go_step by done.
  destruct (pretty_N_char_digit (x `mod` 10)) as (Hd & Hsp & _); [apply N.mod_lt; lia|].
  destruct (decide (x `div` 10 = 0)%N) as [Hq|Hq].
  - rewrite Hq, stdpp.pretty.pretty_N_go_0. do 2 eexists. split_and!; [reflexivity|done|].
    simpl. by rewrite Hsp, Hs.
  - apply IH; [apply N.div_lt; lia|by apply N.neq_0_lt_0|]. simpl. by rewrite Hsp, Hs.
Qed.

Lemma is_digit_not_sign c : is_digit c = true -> c <> "-"%char /\ c <> "+"%char.
Proof. intros Hd. split; intros ->; discriminate. Qed.

Lemma pretty_pos p : stdpp.pretty.pretty p = stdpp.pretty.pretty_N_go (N.pos p) "".
Proof.
  cbv [stdpp.pretty.pretty stdpp.pretty.pretty_positive stdpp.pretty.pretty_N]. by rewrite decide_False.
Qed.

Section Roundtrip.
Context `{Runtime}.

(** [int()] reads back the decimal string of every integer: a key
    rendered into a form ([str(pk)]) is the key the view looks up
    ([pk_of]), with no [ValueError]. *)
Theorem pk_of_pretty z : pk_of (py_str (VInt z)) = Ok z.
Proof.
  unfold pk_of, py_int, py_str, py_repr. destruct z as [|p|p]; [reflexivity| |].
  - cbv [stdpp.pretty.pretty stdpp.pretty.pretty_Z]. rewrite pretty_pos.
    destruct (pretty_N_go_shape (N.pos p) "" ltac:(lia) eq_refl) as (c & r & Hcr & Hd & Hall).
    rewrite strip_id by (by rewrite Hcr). rewrite Hcr.
    destruct (is_digit_not_sign c Hd) as [Hm Hp]. rewrite !bool_decide_eq_false_2 by done.
    rewrite <- Hcr. destruct (digits_val_pretty (N.pos p) "" ltac:(lia)) as [m ->]. reflexivity.
  - cbv [stdpp.pretty.pretty stdpp.pretty.pretty_Z]. rewrite pretty_pos.
    destruct (pretty_N_go_shape (N.pos p) "" ltac:(lia) eq_refl) as (c & r & Hcr & Hd & Hall).
    rewrite strip_id by (simpl; by rewrite Hcr). simpl.
    destruct (digits_val_pretty (N.pos p) "" ltac:(lia)) as [m ->]. reflexivity.
Qed.
End Roundtrip.

(** ** The location test of the two versions *)

Lemma str_prefix_refl s : str_prefix s s = true.
Proof. induction s as [|c s IH]; [done|]. simpl. by rewrite bool_decide_eq_true_2, IH. Qed.

Lemma str_contains_refl s : str_contains s s = true.
Proof. destruct s; simpl; [done|]. by rewrite bool_decide_eq_true_2, str_prefix_refl. Qed.

Lemma location_loop_elem lst x : x ∈ lst -> location_loop lst (VStr x) = Ok true.
Proof.
  induction lst as [|l lst IH]; intros Hx; [by apply not_elem_of_nil in Hx|]. simpl.
  apply elem_of_cons in Hx as [->|Hx]; [by rewrite str_contains_refl|].
  by destruct (str_contains _ _); [|apply IH].
Qed.

(** the ORM location test refines the JSON one: a location the ORM
    version finds in [preferred_locations.split(',')] (exact membership
    after [strip()]) also passes the JSON version's loop
    ([location.lower() in item.location.lower()]), so every item the
    ORM scores for its location the JSON version scores too. *)
Theorem location_test_refines s loc :
  loc ∈ split_list s -> location_loop (split_list s) (VStr loc) = Ok true.
Proof. apply location_loop_elem. Qed.

(** ** Runs on a small database *)

Section OrmWitnesses.
#[local] Existing Instance demo_runtime.

Definition furniture : category := mk_category "Furniture" None "t0".
Definition oak_chair : item :=
  mk_item "Chair" "Oak chair" 1 "good" 2 None "available" "Dhaka" false 0 "t0" "t0".
Definition ana_pref : preference := mk_preference 1 (Some "good") None "t0" "t0".

Definition orm_db : db :=
  mk_db (mk_table [(1, mk_dj_user "ana"); (2, mk_dj_user "bo")] 3)
        (mk_table [] 1)
        (mk_table [(1, furniture)] 2)
        (mk_table [(1, oak_chair)] 2)
        (mk_table [(1, ana_pref)] 2)
        (mk_table [(1, mk_pref_cat 1 1)] 2)
        (mk_table [] 1) 0 0.

Definition prefs_post : request :=
  mk_req (Some 1) true {[ "preferred_categories" := "7" ]} None.

Definition edit_post : request :=
  mk_req (Some 2) true {[ "title" := "Chair"; "description" := "Oak chair"; "category" := "1";
                          "condition" := "good"; "location" := "Dhaka"; "status" := "sold" ]} None.

Definition delete_post : request := mk_req (Some 2) true ∅ None.

Definition chair_rec : recommendation := mk_recommendation 1 1 (f64_of_Z 0) false "t0".

(** [orm_db] after a recommendation of the chair to ana. *)
Definition orm_db_rec : db :=
  mk_db (db_users orm_db) (db_centers orm_db) (db_categories orm_db) (db_items orm_db)
        (db_prefs orm_db) (db_pref_cats orm_db) (mk_table [(1, chair_rec)] 2) 0 0.

Lemma orm_preferences_unknown_category_witness :
  exists d', user_preferences prefs_post orm_db = (d', Raise (Http404 "Category")) /\
    Forall (fun l => pc_pref l.2 ≠ 1) (rows pref_cat d') /\ rows preference d' = rows preference orm_db.
Proof.
  apply (orm_preferences_unknown_category prefs_post 1 "7" 7 orm_db 1 ana_pref);
    try (vm_compute; reflexivity).
  constructor; [simpl; lia|constructor].
Defined.

Lemma orm_update_item_stores_witness :
  exists d' t, update_item edit_post 1 orm_db = (d', Ok (item_updated 1)) /\
    mi_status (edit_item oak_chair "Chair" "Oak chair" 1 "good" "Dhaka" "sold" None t) = "sold" /\
    "sold" ∉ map fst STATUS_CHOICES.
Proof.
  destruct (orm_update_item_stores edit_post 2 1 oak_chair orm_db "Chair" "Oak chair" "1" 1 furniture
              "good" "Dhaka" "sold") as (d' & t & H1 & _ & H3); try (vm_compute; reflexivity).
  exists d', t. split_and!; [exact H1|exact H3|]. simpl. intros Hin.
  repeat (apply elem_of_cons in Hin as [Hin|Hin]; [discriminate|]). by apply not_elem_of_nil in Hin.
Defined.

Lemma orm_delete_item_cascade_witness :
  exists d', delete_item delete_post 1 orm_db_rec = (d', Ok item_deleted) /\
    rows item d' = [] /\ Forall (fun rc => ir_item rc.2 ≠ 1) (rows recommendation d') /\
    rows recommendation orm_db_rec ≠ [].
Proof.
  destruct (orm_delete_item_cascade delete_post 2 1 oak_chair orm_db_rec) as (d' & H1 & H2 & H3);
    try (vm_compute; reflexivity).
  exists d'. split_and!; [exact H1| |exact H3|discriminate]. rewrite H2. vm_compute. reflexivity.
Defined.

Lemma orm_recommended_available_witness :
  exists es, recommended_for 1 orm_db_rec = (orm_db_rec, Ok es) /\
    Forall (fun kr => is_available kr.2 = true) es /\ (length es <= 4)%nat.
Proof.
  apply orm_recommended_available. vm_compute. constructor; [apply not_elem_of_nil|constructor].
Defined.

Lemma orm_update_recommendations_creates_witness :
  exists d', update_recommendations 1 (1, oak_chair) orm_db = (d', Ok tt) /\ orm_recs_ok d' /\
    Forall (fun kr => is_available kr.2 = true -> mi_owner kr.2 ≠ 1 -> has_rec 1 kr.1 d') (rows item orm_db).
Proof.
  set (d' := fst (update_recommendations 1 (1, oak_chair) orm_db)).
  assert (E : update_recommendations 1 (1, oak_chair) orm_db = (d', Ok tt)) by (vm_compute; reflexivity).
  exists d'. split; [exact E|]. apply (orm_update_recommendations_creates 1 (1, oak_chair) orm_db d'); [|exact E].
  split_and!; constructor.
Defined.

Lemma location_test_refines_witness :
  location_loop (split_list "Dhaka, Sylhet") (VStr "Sylhet") = Ok true /\
  location_loop (split_list "Dhaka") (VStr "North Dhaka") = Ok true /\
  "North Dhaka" ∉ split_list "Dhaka".
Proof.
  split_and!.
  - apply location_test_refines. vm_compute. right. left.
  - vm_compute. reflexivity.
  - vm_compute. intros Hin. apply elem_of_cons in Hin as [Hin|Hin]; [discriminate|].
    by apply not_elem_of_nil in Hin.
Defined.
End OrmWitnesses.
