(* ===== verification/Waste.v ===== *)
(** The waste forecasting part: the models of [src/main_app/models_waste.py],
    [WastePredictionService] of [src/main_app/services/waste_prediction_service.py]
    and the view [predictions] of [src/main_app/views_waste.py].  A naive
    [datetime] is an integer number of microseconds, days starting at the
    multiples of [us_per_day].  Prophet, pandas' time zone conversion and
    the clock are the class [WasteEnv]: the service is verified for every
    forecaster that returns one row per requested date. *)

From S2P Require Import Prelude PyValue Views OrmModels OrmViews.
From Stdlib Require Import SpecFloat.

Open Scope string_scope.

Definition us_per_day : Z := 86400000000.

(** [WasteGeneration], [unique_together = ('timestamp', 'location')]. *)
Record waste_gen := mk_waste_gen { wg_timestamp : Z; wg_location : string; wg_tons : spec_float }.

(** [WastePrediction], [unique_together = ('timestamp', 'location')]. *)
Record waste_pred := mk_waste_pred {
  wp_timestamp : Z; wp_location : string; wp_tons : spec_float;
  wp_lower : spec_float; wp_upper : spec_float; wp_created_at : Z
}.

Record wdb := mk_wdb { wdb_gen : table waste_gen; wdb_pred : table waste_pred; wdb_ticks : nat }.

(** What the service takes from outside: the clock, the conversion
    [record.timestamp.astimezone().replace(tzinfo=None)], Prophet's
    [fit] (which raises, e.g. on fewer than two rows) and [predict]
    (one [(yhat, yhat_lower, yhat_upper)] per date), [float(s)] and
    [str(e)]. *)
Class WasteEnv := {
  wr_now : nat -> Z;
  wr_local : Z -> Z;
  pmodel : Type;
  prophet_fit : list (Z * spec_float) -> res pmodel;
  prophet_predict : pmodel -> list Z -> list (spec_float * spec_float * spec_float);
  py_float : string -> option spec_float;
  exn_str : exn -> string
}.

(** A row of the data frame [load_historic_data] builds. *)
Record frame_row := mk_frame_row { fr_ds : Z; fr_y : spec_float; fr_location : string }.

(** [order_by('timestamp')] *)
Definition by_timestamp {A} (ts : A -> Z) : list (Z * A) -> list (Z * A) :=
  sort_stable (fun a b => Z.leb (ts a.2) (ts b.2)).

(** First appearances, in order: [pandas.Series.unique()] and
    [SELECT DISTINCT] over ordered rows. *)
Fixpoint dedup_from {A} `{EqDecision A} (seen : list A) (l : list A) : list A :=
  match l with
  | [] => []
  | x :: l' => if bool_decide (x ∈ seen) then dedup_from seen l' else x :: dedup_from (x :: seen) l'
  end.

Definition dedup {A} `{EqDecision A} (l : list A) : list A := dedup_from [] l.

(** The dates of [make_predictions]: tomorrow at this time, then one
    day apart, [days] of them ([range(days)]). *)
Definition forecast_dates (now days : Z) : list Z :=
  map (fun i => now + us_per_day + Z.of_nat i * us_per_day) (seq 0 (Z.to_nat days)).

(** The window of [get_predictions]: from midnight today to [days + 1]
    days later, both ends included. *)
Definition window_start (now : Z) : Z := now - now mod us_per_day.
Definition window_end (now days : Z) : Z := window_start now + (days + 1) * us_per_day.

Definition in_window (now days ts : Z) : bool :=
  Z.leb (window_start now) ts && Z.leb ts (window_end now days).

Section Service.
Context `{WasteEnv}.

(** [datetime.now()] / [timezone.now()] *)
Definition w_now : st wdb Z :=
  fun d => (mk_wdb (wdb_gen d) (wdb_pred d) (S (wdb_ticks d)), Ok (wr_now (wdb_ticks d))).

Definition set_pred (t : table waste_pred) (d : wdb) : wdb := mk_wdb (wdb_gen d) t (wdb_ticks d).
Definition set_gen (t : table waste_gen) (d : wdb) : wdb := mk_wdb t (wdb_pred d) (wdb_ticks d).

(** [load_historic_data()] *)
Definition load_historic_data : st wdb (list frame_row) :=
  fun d => (d, Ok (map (fun kr => mk_frame_row (wr_local (wg_timestamp kr.2)) (wg_tons kr.2) (wg_location kr.2))
                      (by_timestamp wg_timestamp (t_rows (wdb_gen d))))).

(** [train_model(df, location)] *)
Definition train_model (df : list frame_row) (loc : string) : res pmodel :=
  prophet_fit (map (fun r => (fr_ds r, fr_y r)) (filter (fun r => bool_decide (fr_location r = loc)) df)).

(** [make_predictions(model, days)]: the rows of the forecast, [ds] first. *)
Definition make_predictions (m : pmodel) (days : Z) : st wdb (list (Z * (spec_float * spec_float * spec_float))) :=
  now ← w_now;
  let dates := forecast_dates now days in
  mret (combine dates (prophet_predict m dates)).

(** The [INSERT] of a prediction: it fails on a second row with the
    same [(timestamp, location)]. *)
Definition insert_prediction (p : waste_pred) : st wdb unit :=
  fun d =>
    let t := wdb_pred d in
    if existsb (fun kr => Z.eqb (wp_timestamp kr.2) (wp_timestamp p) &&
                          bool_decide (wp_location kr.2 = wp_location p)) (t_rows t)
    then (d, Raise IntegrityError)
    else (set_pred (mk_table (t_rows t ++ [(t_next t, p)]) (t_next t + 1)) d, Ok tt).

(** [WastePrediction.objects.create(...)]; [created_at] is [auto_now_add]. *)
Definition create_prediction (ts : Z) (loc : string) (yhat lower upper : spec_float) : st wdb unit :=
  created ← w_now;
  insert_prediction (mk_waste_pred ts loc yhat lower upper created).

(** [save_predictions(forecast, location)] *)
Fixpoint save_predictions (forecast : list (Z * (spec_float * spec_float * spec_float))) (loc : string)
    : st wdb unit :=
  match forecast with
  | [] => mret tt
  | (ds, (yhat, lower, upper)) :: rest => create_prediction ds loc yhat lower upper;; save_predictions rest loc
  end.

(** [WastePrediction.objects.filter(location=loc).delete()] *)
Definition delete_predictions (loc : string) : st wdb unit :=
  fun d => let t := wdb_pred d in
    (set_pred (mk_table (filter (fun kr => negb (bool_decide (wp_location kr.2 = loc))) (t_rows t)) (t_next t)) d,
     Ok tt).

(** The body of the loop of [generate_predictions]. *)
Definition generate_for (df : list frame_row) (days : Z) (loc : string) : st wdb unit :=
  delete_predictions loc;;
  m ← lift_res (train_model df loc);
  forecast ← make_predictions m days;
  save_predictions forecast loc.

Fixpoint generate_loop (df : list frame_row) (days : Z) (locs : list string) : st wdb unit :=
  match locs with
  | [] => mret tt
  | loc :: rest => generate_for df days loc;; generate_loop df days rest
  end.

(** [generate_predictions(days, location)] *)
Definition generate_predictions (days : Z) (location : option string) : st wdb bool :=
  df ← load_historic_data;
  let locs := match location with
              | Some l => if bool_decide (l = "") then dedup (map fr_location df) else [l]
              | None => dedup (map fr_location df)
              end in
  generate_loop df days locs;;
  mret true.

(** [WasteGeneration.objects.values_list('location', flat=True).distinct()]:
    the default ordering [['timestamp']] adds [timestamp] to the
    [SELECT DISTINCT], so the rows are distinct [(location, timestamp)]
    pairs. *)
Definition get_available_locations : st wdb (list string) :=
  fun d => (d, Ok (map fst (dedup (map (fun kr => (wg_location kr.2, wg_timestamp kr.2))
                                          (by_timestamp wg_timestamp (t_rows (wdb_gen d))))))).

Definition prediction_rows : st wdb (list (Z * waste_pred)) := fun d => (d, Ok (t_rows (wdb_pred d))).

(** [get_predictions(location, days)] *)
Definition get_predictions (loc : string) (days : Z) : st wdb (list (Z * waste_pred)) :=
  now ← w_now;
  ps ← prediction_rows;
  mret (by_timestamp wp_timestamp
          (filter (fun kr => bool_decide (wp_location kr.2 = loc) && in_window now days (wp_timestamp kr.2)) ps)).
End Service.

(** ** The view [predictions] *)

Inductive wctx :=
  | WLocations (l : list string)
  | WSelected (o : option string)
  | WDays (n : Z)
  | WPredictions (o : option (list (Z * waste_pred)))
  | WTitle (s : string).

Definition wresult : Type := list message * (string * list (string * wctx)).

Section View.
Context `{WasteEnv}.

Definition predictions_page (locs : list string) (sel : option string) (days : Z)
    (preds : option (list (Z * waste_pred))) : string * list (string * wctx) :=
  ("main_app/predictions.html",
   [("locations", WLocations locs); ("selected_location", WSelected sel); ("days", WDays days);
    ("predictions", WPredictions preds); ("title", WTitle "Waste Generation Predictions")]).

(** [predictions(request)]: [int(request.POST.get('days', 7))] raises
    [ValueError] on a value that is not an integer; [except Exception]
    turns any failure of the generation into a message. *)
Definition predictions (r : request) : st wdb wresult :=
  locs ← get_available_locations;
  if req_is_post r then
    let sel := orm.post_get r "location" in
    days ← (match orm.post_get r "days" with
            | None => mret 7
            | Some s => lift_res (orm.pk_of s)
            end);
    if negb (orm.filled sel) then
      mret ([MsgError "Please select a location"], predictions_page locs sel days None)
    else if Z.ltb days 1 || Z.ltb 7 days then
      mret ([MsgError "Days must be between 1 and 7"], predictions_page locs sel days None)
    else
      let loc := default "" sel in
      catch (_ ← generate_predictions days (Some loc);
             preds ← get_predictions loc days;
             mret ([MsgSuccess ("Successfully generated predictions for " ++ loc)],
                   predictions_page locs sel days (Some preds)))
        (fun e => Some (mret ([MsgError ("Error generating predictions: " ++ exn_str e)],
                              predictions_page locs sel days None)))
  else mret ([], predictions_page locs None 7 None).
End View.

(** ** Properties of the helpers *)

(** [pandas.Series.unique()]: every element once, nothing else. *)
Lemma dedup_from_spec {A} `{EqDecision A} (seen l : list A) :
  NoDup seen -> NoDup (seen ++ dedup_from seen l) /\
  forall x, x ∈ dedup_from seen l <-> x ∈ l /\ x ∉ seen.
Proof.
  revert seen. induction l as [|y l IH]; intros seen Hs; simpl.
  { rewrite app_nil_r. split; [done|]. intros x. split; [by intros ?%not_elem_of_nil|]. by intros [?%not_elem_of_nil _]. }
  case_bool_decide as Hy.
  - destruct (IH seen Hs) as [Hn Hx]. split; [done|]. intros x. rewrite Hx, elem_of_cons. naive_solver.
  - assert (NoDup (y :: seen)) as Hys by (by constructor).
    destruct (IH (y :: seen) Hys) as [Hn Hx]. split.
    + rewrite <- Permutation_middle. simpl in *. done.
    + intros x. rewrite elem_of_cons, Hx, !elem_of_cons.
      destruct (decide (x = y)) as [->|Hne]; [tauto|]. intuition.
Qed.

(** [dedup], the model of [df['location'].unique()] over which
    [generate_predictions] loops when no location is given, lists every
    location of the history exactly once: a model is trained once per
    location. *)
Theorem dedup_unique {A} `{EqDecision A} (l : list A) :
  NoDup (dedup l) /\ forall x, x ∈ dedup l <-> x ∈ l.
Proof.
  destruct (dedup_from_spec [] l NoDup_nil_2) as [Hnd Hx]. split; [done|].
  intros x. rewrite Hx. split; [by intros []|intros Hl; split; [done|apply not_elem_of_nil]].
Qed.

