(* ===== verification/Calendar.v ===== *)
(** The parts of Python's [datetime] the waste part relies on, written
    after CPython's [Lib/_pydatetime.py]: the proleptic Gregorian
    ordinal of a date ([_ymd2ord]) and its inverse ([_ord2ymd]).  A
    timestamp is an integer count of microseconds, [us_per_day] a day,
    day 1 being 0001-01-01.  The inverse is proved correct for every
    ordinal: the calendar repeats every 400 years ([146097] days), and
    one cycle is checked by computation. *)

From S2P Require Import Prelude Waste.

Open Scope string_scope.

(** ** Dates and ordinals *)

(** [_is_leap] *)
Definition is_leap (y : Z) : bool := Z.eqb (y mod 4) 0 && (negb (Z.eqb (y mod 100) 0) || Z.eqb (y mod 400) 0).

(** [_DAYS_IN_MONTH] and [_DAYS_BEFORE_MONTH] (index 0 holds [-1]). *)
Definition dim_table (m : Z) : Z :=
  match m with
  | 1 | 3 | 5 | 7 | 8 | 10 | 12 => 31
  | 4 | 6 | 9 | 11 => 30
  | 2 => 28
  | _ => -1
  end.

Definition dbm_table (m : Z) : Z :=
  match m with
  | 1 => 0 | 2 => 31 | 3 => 59 | 4 => 90 | 5 => 120 | 6 => 151 | 7 => 181
  | 8 => 212 | 9 => 243 | 10 => 273 | 11 => 304 | 12 => 334 | _ => -1
  end.

(** [_days_in_month]; [0] outside [1..12], where [datetime()] refuses
    every day. *)
Definition days_in_month (y m : Z) : Z :=
  if Z.eqb m 2 && is_leap y then 29 else if Z.leb 1 m && Z.leb m 12 then dim_table m else 0.

(** [_days_before_month] *)
Definition days_before_month (y m : Z) : Z :=
  dbm_table m + (if Z.ltb 2 m && is_leap y then 1 else 0).

(** [_ymd2ord]: 0001-01-01 is day 1. *)
Definition ymd2ord (y m d : Z) : Z :=
  let y1 := y - 1 in y1 * 365 + y1 / 4 - y1 / 100 + y1 / 400 + days_before_month y m + d.

(** [_ord2ymd], step by step: [divmod] by the 400-, 100-, 4- and
    1-year cycles, then the month estimated as [(n + 50) >> 5] and
    corrected once. *)
Definition ord2ymd (n : Z) : Z * Z * Z :=
  let n0 := n - 1 in
  let '(n400, r400) := Z.div_eucl n0 146097 in
  let '(n100, r100) := Z.div_eucl r400 36524 in
  let '(n4, r4) := Z.div_eucl r100 1461 in
  let '(n1, r1) := Z.div_eucl r4 365 in
  let year := n400 * 400 + 1 + (n100 * 100 + n4 * 4 + n1) in
  if Z.eqb n1 4 || Z.eqb n100 4 then (year - 1, 12, 31)
  else
    let leap := Z.eqb n1 3 && (negb (Z.eqb n4 24) || Z.eqb n100 3) in
    let month := Z.shiftr (r1 + 50) 5 in
    let preceding := dbm_table month + (if Z.ltb 2 month && leap then 1 else 0) in
    if Z.ltb r1 preceding then
      let month' := month - 1 in
      let preceding' := preceding - (dim_table month' + (if Z.eqb month' 2 && leap then 1 else 0)) in
      (year, month', r1 - preceding' + 1)
    else (year, month, r1 - preceding + 1).

(** ** The 400-year cycle *)

Lemma is_leap_400 y : is_leap (y + 400) = is_leap y.
Proof.
  unfold is_leap.
  replace (y + 400) with (y + 100 * 4) by lia. rewrite Z_mod_plus_full.
  replace (y + 100 * 4) with (y + 4 * 100) by lia. rewrite Z_mod_plus_full.
  replace (y + 4 * 100) with (y + 1 * 400) by lia. by rewrite Z_mod_plus_full.
Qed.

Lemma days_in_month_400 y m : days_in_month (y + 400) m = days_in_month y m.
Proof. unfold days_in_month. by rewrite is_leap_400. Qed.

Lemma ymd2ord_400 y m d : ymd2ord (y + 400) m d = ymd2ord y m d + 146097.
Proof.
  unfold ymd2ord, days_before_month. rewrite is_leap_400.
  replace (y + 400 - 1) with (y - 1 + 100 * 4) by lia. rewrite Z_div_plus_full by lia.
  replace (y - 1 + 100 * 4) with (y - 1 + 4 * 100) by lia. rewrite Z_div_plus_full by lia.
  replace (y - 1 + 4 * 100) with (y - 1 + 1 * 400) by lia. rewrite Z_div_plus_full by lia. lia.
Qed.

Lemma div_eucl_divmod a b : Z.div_eucl a b = (a / b, a mod b).
Proof. unfold Z.div, Z.modulo. by destruct (Z.div_eucl a b). Qed.

Lemma ord2ymd_400 n : ord2ymd (n + 146097) = let '(y, m, d) := ord2ymd n in (y + 400, m, d).
Proof.
  unfold ord2ymd. rewrite !div_eucl_divmod. replace (n + 146097 - 1) with (n - 1 + 1 * 146097) by lia.
  rewrite Z_div_plus_full, Z_mod_plus_full by lia. cbv zeta.
  destruct (_ || _); [f_equal; f_equal; lia|].
  destruct (Z.ltb _ _); f_equal; f_equal; lia.
Qed.

Lemma ord2ymd_cycles n k :
  ord2ymd (n + Z.of_nat k * 146097) = let '(y, m, d) := ord2ymd n in (y + 400 * Z.of_nat k, m, d).
Proof.
  induction k as [|k IH].
  - rewrite Z.add_0_r. destruct (ord2ymd n) as [[y m] d]. f_equal. f_equal. lia.
  - replace (n + Z.of_nat (S k) * 146097) with (n + Z.of_nat k * 146097 + 146097) by lia.
    rewrite ord2ymd_400, IH. destruct (ord2ymd n) as [[y m] d]. f_equal. f_equal. lia.
Qed.

Lemma ymd2ord_cycles y m d k : ymd2ord (y + 400 * Z.of_nat k) m d = ymd2ord y m d + Z.of_nat k * 146097.
Proof.
  induction k as [|k IH]; [rewrite Z.add_0_r; lia|].
  replace (y + 400 * Z.of_nat (S k)) with (y + 400 * Z.of_nat k + 400) by lia.
  rewrite ymd2ord_400, IH. lia.
Qed.

Lemma days_in_month_cycles y m k : days_in_month (y + 400 * Z.of_nat k) m = days_in_month y m.
Proof.
  induction k as [|k IH]; [by rewrite Z.add_0_r|].
  replace (y + 400 * Z.of_nat (S k)) with (y + 400 * Z.of_nat k + 400) by lia.
  by rewrite days_in_month_400.
Qed.

(** ** One cycle, by computation *)

(** The date [_ord2ymd] gives for day [r] is a valid date of the first
    cycle, and [_ymd2ord] gives [r] back. *)
Definition ord_ok (r : Z) : bool :=
  let '(y, m, d) := ord2ymd r in
  Z.eqb (ymd2ord y m d) r && Z.leb 1 y && Z.leb y 400 && Z.leb 1 m && Z.leb m 12 &&
  Z.leb 1 d && Z.leb d (days_in_month y m).

(** [ord_ok] on the days [a .. a + 2^k - 1] that are in the cycle. *)
Fixpoint check_block (k : nat) (a : Z) : bool :=
  match k with
  | O => Z.ltb 146097 a || ord_ok a
  | S k' => Z.ltb 146097 a || (check_block k' a && check_block k' (a + 2 ^ Z.of_nat k'))
  end.

Lemma check_block_sound k a r :
  check_block k a = true -> a <= r < a + 2 ^ Z.of_nat k -> r <= 146097 -> ord_ok r = true.
Proof.
  revert a. induction k as [|k IH]; intros a Hc Hr Hmax; simpl in *.
  - replace r with a by lia. apply orb_true_iff in Hc as [Hc|Hc]; [apply Z.ltb_lt in Hc; lia|done].
  - apply orb_true_iff in Hc as [Hc|Hc]; [apply Z.ltb_lt in Hc; lia|].
    apply andb_true_iff in Hc as [H1 H2]. rewrite Nat2Z.inj_succ, Z.pow_succ_r in Hr by lia.
    destruct (Z.lt_ge_cases r (a + 2 ^ Z.of_nat k)).
    + apply (IH a); [done|lia|done].
    + apply (IH (a + 2 ^ Z.of_nat k)); [done|lia|done].
Qed.

Lemma first_cycle_checked : check_block 18 1 = true.
Proof. vm_compute. reflexivity. Qed.

Lemma first_cycle_ok r : 1 <= r <= 146097 -> ord_ok r = true.
Proof. intros Hr. apply (check_block_sound 18 1); [exact first_cycle_checked|simpl; lia|lia]. Qed.

(** [_ord2ymd] inverts [_ymd2ord] on every day from 0001-01-01 on,
    and gives a valid date. *)
Theorem ord2ymd_valid n :
  1 <= n -> exists y m d, ord2ymd n = (y, m, d) /\ ymd2ord y m d = n /\
    1 <= y /\ 1 <= m <= 12 /\ 1 <= d <= days_in_month y m.
Proof.
  intros Hn. assert (exists k r, n = r + Z.of_nat k * 146097 /\ 1 <= r <= 146097) as (k & r & -> & Hr).
  { exists (Z.to_nat ((n - 1) / 146097)), ((n - 1) mod 146097 + 1).
    rewrite Z2Nat.id by (apply Z.div_pos; lia).
    pose proof (Z.div_mod (n - 1) 146097 ltac:(lia)). pose proof (Z.mod_pos_bound (n - 1) 146097 ltac:(lia)). lia. }
  pose proof (first_cycle_ok r Hr) as Hok. unfold ord_ok in Hok.
  rewrite ord2ymd_cycles. destruct (ord2ymd r) as [[y m] d].
  repeat rewrite andb_true_iff in Hok. rewrite Z.eqb_eq, !Z.leb_le in Hok.
  exists (y + 400 * Z.of_nat k), m, d. rewrite ymd2ord_cycles, days_in_month_cycles. split; [done|lia].
Qed.
