(* ===== verification/WasteImport.v ===== *)
(** The management command of
    [src/main_app/management/commands/import_waste_data.py]: each row of
    the CSV file is parsed ([datetime.strptime(row['timestamp'],
    '%Y-%m-%d')], [float(row['waste_generated_tons'])]) and passed to
    [WasteGeneration.objects.update_or_create]; a failing row is
    reported and skipped.  [strptime] is written out from the regular
    expressions of CPython's [_strptime] and the range checks of
    [datetime]; a date becomes its proleptic Gregorian ordinal
    ([date.toordinal()]) times [us_per_day]. *)

From S2P Require Import Prelude PyValue Views OrmModels OrmViews Waste Calendar.
From Stdlib Require Import Ascii SpecFloat.

Open Scope string_scope.

(** ** [datetime.strptime(s, '%Y-%m-%d')] *)

Definition digit_val (c : ascii) : Z := Z.of_nat (nat_of_ascii c) - 48.

(** [(?P<Y>\d\d\d\d)] *)
Definition match_year (s : string) : option (Z * string) :=
  match s with
  | String a (String b (String c (String d r))) =>
      if is_digit a && is_digit b && is_digit c && is_digit d
      then Some (((digit_val a * 10 + digit_val b) * 10 + digit_val c) * 10 + digit_val d, r)
      else None
  | _ => None
  end.

(** [(?P<m>1[0-2]|0[1-9]|[1-9])]: the alternatives in the order the
    regular expression tries them. *)
Definition match_month (s : string) : list (Z * string) :=
  match s with
  | String a r =>
      (match r with
       | String b r' =>
           (if bool_decide (a = "1"%char) && is_digit b && Z.leb (digit_val b) 2
            then [(10 + digit_val b, r')] else []) ++
           (if bool_decide (a = "0"%char) && is_digit b && Z.leb 1 (digit_val b)
            then [(digit_val b, r')] else [])
       | EmptyString => []
       end) ++
      (if is_digit a && Z.leb 1 (digit_val a) then [(digit_val a, r)] else [])
  | EmptyString => []
  end.

(** [(?P<d>3[01]|[12]\d|0[1-9]|[1-9]| [1-9])] *)
Definition match_day (s : string) : list (Z * string) :=
  match s with
  | String a r =>
      (match r with
       | String b r' =>
           (if bool_decide (a = "3"%char) && is_digit b && Z.leb (digit_val b) 1
            then [(30 + digit_val b, r')] else []) ++
           (if (bool_decide (a = "1"%char) || bool_decide (a = "2"%char)) && is_digit b
            then [(digit_val a * 10 + digit_val b, r')] else []) ++
           (if bool_decide (a = "0"%char) && is_digit b && Z.leb 1 (digit_val b)
            then [(digit_val b, r')] else []) ++
           (if bool_decide (a = " "%char) && is_digit b && Z.leb 1 (digit_val b)
            then [(digit_val b, r')] else [])
       | EmptyString => []
       end) ++
      (if is_digit a && Z.leb 1 (digit_val a) then [(digit_val a, r)] else [])
  | EmptyString => []
  end.

(** The first way the pattern matches the whole string ([strptime]
    raises [ValueError] on unconverted data). *)
Definition match_ymd (s : string) : option (Z * Z * Z) :=
  match match_year s with
  | Some (y, String "-" r) =>
      head (omap (fun '(m, r1) =>
                    match r1 with
                    | String "-" r2 => head (omap (fun '(d, r3) => if bool_decide (r3 = "") then Some (y, m, d) else None)
                                                 (match_day r2))
                    | _ => None
                    end) (match_month r))
  | _ => None
  end.

(** [datetime(y, m, d)]: [ValueError] out of range. *)
Definition mk_date (y m d : Z) : res Z :=
  if Z.leb 1 y && Z.leb y 9999 && Z.leb 1 d && Z.leb d (days_in_month y m)
  then Ok (ymd2ord y m d * us_per_day) else Raise ValueError.

(** [datetime.strptime(s, '%Y-%m-%d')] *)
Definition strptime_ymd (s : string) : res Z :=
  match match_ymd s with
  | Some (y, m, d) => mk_date y m d
  | None => Raise ValueError
  end.

(** ** The command *)

(** A row of [csv.DictReader]: the header names, and [None] for the
    fields a short line lacks. *)
Definition csv_row : Type := gmap string (option string).

Inductive out_line :=
  | OutFileNotFound (path : string)
  | OutRowError (row : csv_row) (e : exn)
  | OutImported (count : nat).

(** [row[k]]: [KeyError] without the column. *)
Definition row_get (row : csv_row) (k : string) : res (option string) :=
  match row !! k with Some v => Ok v | None => Raise KeyError end.

Section ImportCmd.
Context `{WasteEnv}.

(** [strptime] and [float] of [None] raise [TypeError]. *)
Definition parse_timestamp (v : option string) : res Z :=
  match v with Some s => strptime_ymd s | None => Raise TypeError end.

Definition parse_float (v : option string) : res spec_float :=
  match v with
  | Some s => match py_float s with Some f => Ok f | None => Raise ValueError end
  | None => Raise TypeError
  end.

(** The values a row passes to [update_or_create], in the order Python
    evaluates them. *)
Definition row_values (row : csv_row) : res (Z * option string * spec_float) :=
  match row_get row "timestamp" with
  | Raise e => Raise e
  | Ok tv =>
      match parse_timestamp tv with
      | Raise e => Raise e
      | Ok ts =>
          match row_get row "location" with
          | Raise e => Raise e
          | Ok loc =>
              match row_get row "waste_generated_tons" with
              | Raise e => Raise e
              | Ok wv => match parse_float wv with
                         | Raise e => Raise e
                         | Ok w => Ok (ts, loc, w)
                         end
              end
          end
      end
  end.

(** [WasteGeneration.objects.update_or_create(timestamp=ts, location=loc,
    defaults={'waste_generated_tons': w})]: [location=None] matches no
    row ([IS NULL]) and the [INSERT] of a [NULL] location fails. *)
Definition update_or_create_gen (ts : Z) (loc : option string) (w : spec_float) : st wdb bool :=
  fun d =>
    let t := wdb_gen d in
    let found := filter (fun kr => Z.eqb (wg_timestamp kr.2) ts &&
                                   match loc with Some l => bool_decide (wg_location kr.2 = l) | None => false end)
                   (t_rows t) in
    match found, loc with
    | [(k, g)], _ =>
        (set_gen (mk_table (map (fun kr => if Z.eqb kr.1 k then (k, mk_waste_gen ts (wg_location g) w) else kr)
                             (t_rows t)) (t_next t)) d, Ok false)
    | [], Some l => (set_gen (mk_table (t_rows t ++ [(t_next t, mk_waste_gen ts l w)]) (t_next t + 1)) d, Ok true)
    | [], None => (d, Raise IntegrityError)
    | _ :: _ :: _, _ => (d, Raise (MultipleObjectsReturned "WasteGeneration"))
    end.

(** The [try] block of one row: [created], or the exception
    [except Exception as e] catches. *)
Definition import_row (row : csv_row) : st wdb (bool + exn) :=
  catch (match row_values row with
         | Ok (ts, loc, w) => created ← update_or_create_gen ts loc w; mret (inl created)
         | Raise e => raise e
         end)
    (fun e => Some (mret (inr e))).

(** The loop over the rows: [count] and the lines written. *)
Fixpoint import_rows (rows : list csv_row) (count : nat) : st wdb (nat * list out_line) :=
  match rows with
  | [] => mret (count, [])
  | row :: rest =>
      r ← import_row row;
      let '(count', line) := match r with
                             | inl true => (S count, [])
                             | inl false => (count, [])
                             | inr e => (count, [OutRowError row e])
                             end in
      '(final, lines) ← import_rows rest count';
      mret (final, line ++ lines)%list
  end.

(** [Command.handle(csv_file=path)]; [exists] is [os.path.exists(path)]
    and [rows] the rows [csv.DictReader] reads. *)
Definition handle (path : string) (exists_ : bool) (rows : list csv_row) : st wdb (list out_line) :=
  if exists_ then
    '(count, lines) ← import_rows rows 0;
    mret (lines ++ [OutImported count])%list
  else mret [OutFileNotFound path].

(** a row the command cannot read (a missing column, a date
    [strptime] rejects such as [2023-02-29], a value [float()] rejects)
    is reported with its exception and skipped: nothing is written and
    the count stays [0]. *)
Theorem import_bad_row_skipped path row d e :
  row_values row = Raise e ->
  handle path true [row] d = (d, Ok [OutRowError row e; OutImported 0]).
Proof. intros He. unfold handle, import_rows, import_row. st_simpl. by rewrite He. Qed.
End ImportCmd.
