(* ===== verification/WasteDates.v ===== *)
(** The [__str__] methods of [src/main_app/models_waste.py], which
    write a row's date with [strftime('%Y-%m-%d')], and the round trip
    between that text and the [strptime] of the import command: a date
    written by the models is read back by [import_waste_data] as
    midnight of the same day. *)

From S2P Require Import Prelude PyValue Views OrmModels OrmViews Waste Calendar WasteImport.
From Stdlib Require Import Ascii SpecFloat.

Open Scope string_scope.

(** ** [strftime('%Y-%m-%d')] *)

Definition digit_char (k : Z) : ascii := ascii_of_nat (48 + Z.to_nat k).

(** [%m], [%d]: two digits, zero-padded. *)
Definition pad2 (k : Z) : string :=
  String (digit_char (k / 10 mod 10)) (String (digit_char (k mod 10)) "").

Definition pad4 (y : Z) : string :=
  String (digit_char (y / 1000 mod 10)) (String (digit_char (y / 100 mod 10))
    (String (digit_char (y / 10 mod 10)) (String (digit_char (y mod 10)) ""))).

(** [%Y] as glibc writes it: the decimal year, which has four digits
    from the year 1000 on. *)
Definition fmt_year (y : Z) : string :=
  if Z.leb 1000 y then pad4 y else stdpp.pretty.pretty y.

(** The date part of a timestamp, [timestamp.strftime('%Y-%m-%d')]. *)
Definition strftime_ymd (ts : Z) : string :=
  let '(y, m, d) := ord2ymd (ts / us_per_day) in
  fmt_year y ++ "-" ++ pad2 m ++ "-" ++ pad2 d.

Section ModelStr.
Context `{Runtime}.

(** [WasteGeneration.__str__] *)
Definition gen_str (g : waste_gen) : string :=
  wg_location g ++ " - " ++ strftime_ymd (wg_timestamp g) ++ ": " ++ rt_float_repr (wg_tons g) ++ " tons".

(** [WastePrediction.__str__] *)
Definition pred_str (p : waste_pred) : string :=
  wp_location p ++ " - " ++ strftime_ymd (wp_timestamp p) ++ ": " ++ rt_float_repr (wp_tons p) ++ " tons".
End ModelStr.

(** ** Reading back the date *)

Lemma digit_char_spec k :
  0 <= k <= 9 -> is_digit (digit_char k) = true /\ digit_val (digit_char k) = k.
Proof.
  intros Hk. assert (k = 0 \/ k = 1 \/ k = 2 \/ k = 3 \/ k = 4 \/ k = 5 \/ k = 6 \/ k = 7 \/ k = 8 \/ k = 9)
    as Hc by lia.
  destruct_or! Hc; subst k; split; reflexivity.
Qed.

Lemma four_digits y :
  0 <= y <= 9999 ->
  ((y / 1000 mod 10 * 10 + y / 100 mod 10) * 10 + y / 10 mod 10) * 10 + y mod 10 = y.
Proof.
  intros Hy.
  assert (y / 100 = y / 10 / 10) as H100 by (rewrite Z.div_div; [reflexivity|lia..]).
  assert (y / 1000 = y / 10 / 10 / 10) as H1000 by (rewrite !Z.div_div; [reflexivity|lia..]).
  rewrite H100, H1000.
  set (q1 := y / 10). set (q2 := q1 / 10). set (q3 := q2 / 10).
  pose proof (Z.div_mod y 10 ltac:(lia)). pose proof (Z.div_mod q1 10 ltac:(lia)).
  pose proof (Z.div_mod q2 10 ltac:(lia)).
  assert (0 <= q3 < 10) as Hq3.
  { unfold q3, q2, q1. rewrite !Z.div_div by lia. split; [apply Z.div_pos; lia|apply Z.div_lt_upper_bound; lia]. }
  rewrite (Z.mod_small q3 10) by lia. lia.
Qed.

Lemma match_year_pad4 y r : 0 <= y <= 9999 -> match_year (pad4 y ++ r) = Some (y, r).
Proof.
  intros Hy. unfold pad4. autorewrite with str. unfold match_year.
  destruct (digit_char_spec (y / 1000 mod 10)) as [Ha Va]; [pose proof (Z.mod_pos_bound (y / 1000) 10); lia|].
  destruct (digit_char_spec (y / 100 mod 10)) as [Hb Vb]; [pose proof (Z.mod_pos_bound (y / 100) 10); lia|].
  destruct (digit_char_spec (y / 10 mod 10)) as [Hc Vc]; [pose proof (Z.mod_pos_bound (y / 10) 10); lia|].
  destruct (digit_char_spec (y mod 10)) as [Hd Vd]; [pose proof (Z.mod_pos_bound y 10); lia|].
  rewrite Ha, Hb, Hc, Hd, Va, Vb, Vc, Vd. simpl. by rewrite four_digits.
Qed.

(** The month and day part of the pattern, for every month and every
    day number up to 31. *)
Lemma match_md_pad (y m d : Z) :
  1 <= m <= 12 -> 1 <= d <= 31 ->
  head (@omap list _ (Z * string) (Z * Z * Z) (fun '(m', r1) =>
                match r1 with
                | String "-" r2 => head (omap (fun '((d', r3) : Z * string) => if bool_decide (r3 = "") then Some (y, m', d') else None)
                                             (match_day r2))
                | _ => None
                end) (match_month (pad2 m ++ String "-" (pad2 d)))) = Some (y, m, d).
Proof.
  intros Hm Hd.
  assert (m = 1 \/ m = 2 \/ m = 3 \/ m = 4 \/ m = 5 \/ m = 6 \/ m = 7 \/ m = 8 \/ m = 9 \/ m = 10 \/
          m = 11 \/ m = 12) as Cm by lia.
  assert (d = 1 \/ d = 2 \/ d = 3 \/ d = 4 \/ d = 5 \/ d = 6 \/ d = 7 \/ d = 8 \/ d = 9 \/ d = 10 \/
          d = 11 \/ d = 12 \/ d = 13 \/ d = 14 \/ d = 15 \/ d = 16 \/ d = 17 \/ d = 18 \/ d = 19 \/ d = 20 \/
          d = 21 \/ d = 22 \/ d = 23 \/ d = 24 \/ d = 25 \/ d = 26 \/ d = 27 \/ d = 28 \/ d = 29 \/ d = 30 \/
          d = 31) as Cd by lia.
  destruct_or! Cm; destruct_or! Cd; subst m d; vm_compute; reflexivity.
Qed.

Lemma days_in_month_le_31 y m : days_in_month y m <= 31.
Proof.
  unfold days_in_month. destruct (Z.eqb m 2 && is_leap y); [lia|].
  destruct (Z.leb 1 m && Z.leb m 12); [|lia]. unfold dim_table. repeat case_match; lia.
Qed.

(** A date written by [strftime('%Y-%m-%d')] is read back by
    [strptime('%Y-%m-%d')] as midnight of the same day, for every
    timestamp from the year 1000 to the year 9999 (before 1000, glibc
    writes fewer than the four digits [%Y] reads). *)
Lemma strptime_strftime ts y m d :
  us_per_day <= ts -> ord2ymd (ts / us_per_day) = (y, m, d) -> 1000 <= y <= 9999 ->
  strptime_ymd (strftime_ymd ts) = Ok (ts - ts mod us_per_day).
Proof.
  intros Hts Hymd Hy.
  assert (1 <= ts / us_per_day) as Hn by (apply Z.div_le_lower_bound; unfold us_per_day in *; lia).
  destruct (ord2ymd_valid _ Hn) as (y' & m' & d' & E & Hord & _ & Hm & Hd).
  rewrite Hymd in E. injection E as <- <- <-.
  unfold strftime_ymd. rewrite Hymd. unfold fmt_year. rewrite (proj2 (Z.leb_le _ _)) by lia.
  unfold strptime_ymd, match_ymd. rewrite match_year_pad4 by lia.
  autorewrite with str. cbn iota. rewrite match_md_pad by (pose proof (days_in_month_le_31 y m); lia).
  unfold mk_date. rewrite (proj2 (Z.leb_le _ _)), (proj2 (Z.leb_le 1 d)), (proj2 (Z.leb_le d _)),
    (proj2 (Z.leb_le y 9999)) by lia. cbn [andb].
  rewrite Hord, Z.mod_eq by (unfold us_per_day; lia). f_equal. lia.
Qed.

Section StrReadBack.
Context `{Runtime}.

(** C27: the text [WasteGeneration.__str__] writes (models_waste.py
    line 9) is [location - DATE: tons tons], where DATE is a date the
    import command's [strptime] (import_waste_data.py line 30) reads
    back as midnight of the row's day: the two formats agree, for every
    row from the year 1000 to the year 9999. *)
Theorem gen_str_date_reads_back g y m d :
  us_per_day <= wg_timestamp g -> ord2ymd (wg_timestamp g / us_per_day) = (y, m, d) -> 1000 <= y <= 9999 ->
  exists ds, gen_str g = wg_location g ++ " - " ++ ds ++ ": " ++ rt_float_repr (wg_tons g) ++ " tons" /\
    strptime_ymd ds = Ok (wg_timestamp g - wg_timestamp g mod us_per_day).
Proof.
  intros Hts Hymd Hy. exists (strftime_ymd (wg_timestamp g)). split; [reflexivity|].
  by apply (strptime_strftime _ y m d).
Qed.
End StrReadBack.

Section DateWitnesses.
#[local] Existing Instance demo_runtime.

(** A row of 2024-01-05 (day 738890), 12345 microseconds after
    midnight. *)
Definition dhaka_jan5 : waste_gen := mk_waste_gen (738890 * us_per_day + 12345) "Dhaka" (f64_of_Z 3).

Lemma gen_str_date_reads_back_witness :
  exists ds, gen_str dhaka_jan5 = "Dhaka - " ++ ds ++ ": " ++ rt_float_repr (f64_of_Z 3) ++ " tons" /\
    strptime_ymd ds = Ok (738890 * us_per_day).
Proof.
  destruct (gen_str_date_reads_back dhaka_jan5 2024 1 5) as [ds [E1 E2]];
    [unfold dhaka_jan5, us_per_day; simpl; lia|vm_compute; reflexivity|lia|].
  exists ds. split; [exact E1|]. rewrite E2. vm_compute. reflexivity.
Defined.
End DateWitnesses.
