(* ===== verification/WasteProps.v ===== *)
(** Theorems on the waste forecasting part ([Waste], [WasteImport]): the
    window [get_predictions] reads holds the dates [make_predictions]
    writes, what the view [predictions] does on each of its branches,
    the duplicates of [get_available_locations], and the idempotence of
    the import command. *)

From S2P Require Import Prelude PyValue Views OrmModels OrmViews OrmProps Waste WasteImport.
From Stdlib Require Import SpecFloat Sorted.

Open Scope string_scope.

(** The forecast dates lie in the window [get_predictions] reads, as
    long as it reads within a day after [make_predictions] took the
    time: tomorrow at this time and the [days - 1] days after are
    between midnight today and [days + 1] days later. *)
Lemma forecast_in_window now now' days :
  now <= now' <= now + us_per_day ->
  Forall (fun ts => in_window now' days ts = true) (forecast_dates now days).
Proof.
  intros Hn. unfold forecast_dates, in_window, window_end, window_start.
  apply Forall_forall. intros ts (i & -> & Hi%elem_of_seq)%list_elem_of_fmap.
  pose proof (Z.mod_pos_bound now' us_per_day ltac:(unfold us_per_day; lia)).
  apply andb_true_iff. rewrite !Z.leb_le. unfold us_per_day in *. nia.
Qed.

(** ** The import command *)

(** The [unique_together] key of a [WasteGeneration] row. *)
Definition gen_key (kr : Z * waste_gen) : Z * string := (wg_timestamp kr.2, wg_location kr.2).
Definition gen_keys (d : wdb) : list (Z * string) := map gen_key (t_rows (wdb_gen d)).

(** The table of [WasteGeneration] as the database keeps it: distinct
    primary keys below the next one, distinct [(timestamp, location)]. *)
Definition gen_ok (d : wdb) : Prop :=
  NoDup (map fst (t_rows (wdb_gen d))) /\ NoDup (gen_keys d) /\
  Forall (fun k => k < t_next (wdb_gen d)) (map fst (t_rows (wdb_gen d))).

(** The [UPDATE] of the row with primary key [k]. *)
Lemma map_replace_key {A B} (f : Z * A -> B) (l : list (Z * A)) k a a' :
  NoDup (map fst l) -> (k, a) ∈ l -> f (k, a') = f (k, a) ->
  map f (map (fun kr => if Z.eqb kr.1 k then (k, a') else kr) l) = map f l.
Proof.
  intros Hnd Hin Hf. rewrite map_map. apply map_ext_in. intros [k' x] Hx%list_elem_of_In.
  simpl. destruct (Z.eqb_spec k' k) as [->|]; [|done].
  by rewrite Hf, (nodup_key_eq _ _ _ _ Hnd Hin Hx).
Qed.

Lemma filter_nil_false {A} (p : A -> bool) l x : filter p l = [] -> x ∈ l -> p x = false.
Proof.
  intros E Hx. destruct (p x) eqn:Hp; [|done].
  assert (x ∈ filter p l) as Hf by (apply list_elem_of_filter; split; [by apply Is_true_true|done]).
  rewrite E in Hf. by apply not_elem_of_nil in Hf.
Qed.

(** [order_by] leaves a list already in order as it is. *)
Lemma insert_sorted_head {A} (le : A -> A -> bool) x l :
  Forall (fun y => le x y = true) l -> insert_sorted le x l = x :: l.
Proof. destruct l as [|y l]; [done|]. intros Hy%Forall_cons_1. simpl. by rewrite (proj1 Hy). Qed.

Lemma by_timestamp_sorted {A} (ts : A -> Z) (l : list (Z * A)) :
  StronglySorted Z.le (map (fun kr => ts kr.2) l) -> by_timestamp ts l = l.
Proof.
  unfold by_timestamp. induction l as [|x l IH]; intros Hs; [done|].
  simpl in Hs. apply StronglySorted_inv in Hs as [Hs Hx].
  simpl. rewrite IH by done. apply insert_sorted_head.
  rewrite Forall_map in Hx. eapply Forall_impl; [exact Hx|]. intros y. simpl. apply Z.leb_le.
Qed.

(** The forecast dates are one day apart, in increasing order. *)
Lemma forecast_dates_sorted now days : StronglySorted Z.le (forecast_dates now days).
Proof.
  unfold forecast_dates. generalize 0%nat as s. induction (Z.to_nat days) as [|k IH]; intros s; [constructor|].
  cbn [seq map]. constructor; [apply IH|].
  apply Forall_forall. intros y (i & -> & Hi%elem_of_seq)%list_elem_of_fmap. unfold us_per_day. lia.
Qed.

Lemma forecast_dates_nodup now days : NoDup (forecast_dates now days).
Proof.
  unfold forecast_dates. apply NoDup_fmap_2; [|apply NoDup_seq].
  intros i j E. unfold us_per_day in E. lia.
Qed.

Lemma map_fst_combine {A B} (l : list A) (l' : list B) :
  length l' = length l -> map fst (combine l l') = l.
Proof.
  revert l'. induction l as [|x l IH]; intros [|y l'] E; simpl in *; try done.
  f_equal. apply IH. lia.
Qed.

Lemma forecast_dates_length now days : length (forecast_dates now days) = Z.to_nat days.
Proof. unfold forecast_dates. by rewrite length_map, length_seq. Qed.

Lemma dedup_from_nodup_id {A} `{EqDecision A} (seen l : list A) :
  NoDup l -> (forall x, x ∈ l -> x ∉ seen) -> dedup_from seen l = l.
Proof.
  revert seen. induction l as [|y l IH]; intros seen Hnd Hs; [done|].
  apply NoDup_cons in Hnd as [Hy Hnd]. simpl.
  rewrite bool_decide_false by (apply Hs; by left). f_equal. apply IH; [done|].
  intros x Hx [->|Hx']%elem_of_cons; [done|]. apply (Hs x); [by right|done].
Qed.

Lemma filter_all_true {A} (p : A -> bool) (l : list A) : (forall x, x ∈ l -> p x = true) -> filter p l = l.
Proof.
  induction l as [|x l IH]; intros Hp; [done|].
  rewrite filter_cons_True by (apply Is_true_true, Hp; by left).
  f_equal. apply IH. intros y Hy. apply Hp. by right.
Qed.

Section ImportCmd.
Context `{WasteEnv}.

Definition gen_match (ts : Z) (loc : option string) (kr : Z * waste_gen) : bool :=
  Z.eqb (wg_timestamp kr.2) ts &&
  match loc with Some l => bool_decide (wg_location kr.2 = l) | None => false end.

Lemma gen_match_spec ts l kr : gen_match ts (Some l) kr = true <-> gen_key kr = (ts, l).
Proof.
  unfold gen_match, gen_key. rewrite andb_true_iff, Z.eqb_eq, bool_decide_eq_true.
  split; [intros [-> ->]|intros [= -> ->]]; done.
Qed.

(** [update_or_create] keeps the table well formed, loses no key, leaves
    the key of a row with a location in the table, and creates nothing
    when that key was there already. *)
Lemma update_or_create_gen_spec ts loc w d d' r :
  gen_ok d -> update_or_create_gen ts loc w d = (d', r) ->
  gen_ok d' /\ gen_keys d ⊆ gen_keys d' /\
  (forall l, loc = Some l -> (ts, l) ∈ gen_keys d') /\
  (forall l, loc = Some l -> (ts, l) ∈ gen_keys d -> r <> Ok true) /\
  (r = Ok true -> loc <> None /\ length (t_rows (wdb_gen d')) = S (length (t_rows (wdb_gen d)))) /\
  (r = Ok false -> length (t_rows (wdb_gen d')) = length (t_rows (wdb_gen d))) /\
  (forall e, r = Raise e -> d' = d).
Proof.
  intros (Hpk & Hkeys & Hlt). unfold update_or_create_gen.
  change (filter _ _) with (filter (gen_match ts loc) (t_rows (wdb_gen d))).
  destruct (filter (gen_match ts loc) (t_rows (wdb_gen d))) as [|[k g] [|kr2 rest]] eqn:Hf.
  - assert (forall l, loc = Some l -> (ts, l) ∉ gen_keys d) as Hnot.
    { intros l -> (kr & Hk & Hin)%list_elem_of_fmap.
      pose proof (filter_nil_false _ _ _ Hf Hin) as Hm.
      by rewrite (proj2 (gen_match_spec _ _ _) (eq_sym Hk)) in Hm. }
    destruct loc as [l|]; [|intros [= <- <-]; split_and!; try done; by intros ? ?].
    intros [= <- <-]. unfold gen_ok, gen_keys in *; cbn. rewrite !map_app, !length_app. cbn.
    rewrite Forall_app, Forall_forall in *. split_and!.
    + apply NoDup_app. split_and!; [done| |by constructor; [apply not_elem_of_nil|constructor]].
      intros x Hx ->%list_elem_of_singleton. specialize (Hlt _ Hx). lia.
    + apply NoDup_app. split_and!; [done| |by constructor; [apply not_elem_of_nil|constructor]].
      intros x Hx ->%list_elem_of_singleton. by apply (Hnot l).
    + intros x Hx. specialize (Hlt _ Hx). lia.
    + apply Forall_singleton. lia.
    + intros x Hx. apply elem_of_app. by left.
    + intros ? [= <-]. apply elem_of_app. right. by left.
    + intros ? [= <-] Hin. by destruct (Hnot l eq_refl).
    + intros _. split; [done|lia].
    + by intros [=].
    + by intros ? [=].
  - destruct (filter_single_elem _ _ _ Hf) as [Hin Hm].
    destruct loc as [l|]; [|by destruct (andb_prop _ _ Hm)].
    apply gen_match_spec in Hm. unfold gen_key in Hm; simpl in Hm. injection Hm as Hts Hl.
    intros [= <- <-]. unfold gen_ok, gen_keys in *; cbn.
    rewrite (map_replace_key fst _ k g (mk_waste_gen ts (wg_location g) w)) by done.
    rewrite (map_replace_key gen_key _ k g (mk_waste_gen ts (wg_location g) w))
      by (done || by unfold gen_key; cbn; rewrite Hts).
    rewrite length_map. split_and!; try done; intros ? [= <-]; rewrite <- Hl, <- Hts;
      apply list_elem_of_fmap; by exists (k, g).
  - intros [= <- <-]. split_and!; try done.
    intros l ->. assert ((k, g) ∈ filter (gen_match ts (Some l)) (t_rows (wdb_gen d))) as Hk
      by (rewrite Hf; by left).
    apply list_elem_of_filter in Hk as [Hm%Is_true_true Hin].
    apply gen_match_spec in Hm. rewrite <- Hm. apply list_elem_of_fmap. by exists (k, g).
Qed.

Definition imported_keys_in (rows : list csv_row) (d : wdb) : Prop :=
  forall row ts l w, row ∈ rows -> row_values row = Ok (ts, Some l, w) -> (ts, l) ∈ gen_keys d.

Lemma imported_keys_in_cons row rows d :
  imported_keys_in (row :: rows) d <->
  (forall ts l w, row_values row = Ok (ts, Some l, w) -> (ts, l) ∈ gen_keys d) /\ imported_keys_in rows d.
Proof.
  unfold imported_keys_in. setoid_rewrite elem_of_cons. naive_solver.
Qed.

Lemma imported_keys_in_mono rows d d' :
  gen_keys d ⊆ gen_keys d' -> imported_keys_in rows d -> imported_keys_in rows d'.
Proof. unfold imported_keys_in. naive_solver. Qed.

(** The loop over the rows never raises; it keeps the table well formed,
    loses no key, leaves the key of every row it read in the table,
    counts exactly the rows it added, and counts none when every key was
    there already. *)
(** One row: it never raises; [inl true] only when it added a row with a
    key that was not in the table. *)
Lemma import_row_spec row d d' r :
  gen_ok d -> import_row row d = (d', r) ->
  gen_ok d' /\ gen_keys d ⊆ gen_keys d' /\
  (forall ts l w, row_values row = Ok (ts, Some l, w) -> (ts, l) ∈ gen_keys d') /\
  exists x, r = Ok x /\
    (x = inl true -> length (t_rows (wdb_gen d')) = S (length (t_rows (wdb_gen d))) /\
                     ~ imported_keys_in [row] d) /\
    (x <> inl true -> length (t_rows (wdb_gen d')) = length (t_rows (wdb_gen d))).
Proof.
  intros Hok. unfold import_row. st_simpl.
  destruct (row_values row) as [[[ts loc] w]|e] eqn:Hv.
  - destruct (update_or_create_gen ts loc w d) as [d1 r1] eqn:Hu.
    destruct (update_or_create_gen_spec _ _ _ _ _ _ Hok Hu) as (Hok1 & Hsub1 & Hin1 & Hnew1 & Hl1 & Hl2 & He).
    intros E. destruct r1 as [[]|e]; injection E as <- <-.
    + destruct (Hl1 eq_refl) as [Hloc Hlen]. destruct loc as [l|]; [|done].
      split_and!; [done|done|by intros ? ? ? [= -> -> ->]; apply Hin1|].
      eexists; split_and!; [done| |done]. intros _. split; [done|].
      intros Hk. apply (Hnew1 l eq_refl); [|done]. by apply (Hk row ts l w); [left|].
    + split_and!; [done|done|by intros ? ? ? [= -> -> ->]; apply Hin1|].
      eexists; split_and!; [done|done|]. intros _. by apply Hl2.
    + rewrite (He e eq_refl) in *. split_and!; [done|done| |].
      * intros ? ? ? [= -> -> ->]. by apply Hin1.
      * eexists; split_and!; [done|done|done].
  - intros [= <- <-]. split_and!; [done|done|done|].
    eexists; split_and!; [done|done|done].
Qed.

Lemma import_rows_spec rows c d d' r :
  gen_ok d -> import_rows rows c d = (d', r) ->
  gen_ok d' /\ gen_keys d ⊆ gen_keys d' /\ imported_keys_in rows d' /\
  exists c' lines, r = Ok (c', lines) /\
    (length (t_rows (wdb_gen d')) + c = length (t_rows (wdb_gen d)) + c')%nat /\
    (imported_keys_in rows d -> c' = c).
Proof.
  revert c d d' r. induction rows as [|row rows IH]; intros c d d' r Hok.
  { intros [= <- <-]. split_and!; [done|done|by intros ? ? ? ? ?%not_elem_of_nil|].
    exists c, []. split_and!; [done|lia|done]. }
  cbn [import_rows]. st_simpl.
  destruct (import_row row d) as [d1 r1] eqn:Hrow.
  destruct (import_row_spec _ _ _ _ Hok Hrow) as (Hok1 & Hsub1 & Hin1 & x & -> & Hx).
  assert (exists c1 line, (match x with
                           | inl true => (S c, []) | inl false => (c, [])
                           | inr e => (c, [OutRowError row e]) end) = (c1, line) /\
            (length (t_rows (wdb_gen d1)) + c = length (t_rows (wdb_gen d)) + c1)%nat /\
            (imported_keys_in [row] d -> c1 = c)) as (c1 & line & -> & Hlen1 & Hc1).
  { destruct x as [[]|e]; (eexists _, _; split; [reflexivity|]);
      [destruct (proj1 Hx eq_refl) as [Hl Hn]; split; [lia|done]
      |rewrite (proj2 Hx ltac:(done)); lia..]. }
  destruct (import_rows rows c1 d1) as [d2 r2] eqn:Hr.
  destruct (IH _ _ _ _ Hok1 Hr) as (Hok2 & Hsub2 & Hin2 & c' & lines & -> & Hlen2 & Hc2).
  intros [= <- <-]. split_and!; [done|by etrans| |].
  - apply imported_keys_in_cons. split; [|done]. intros ? ? ? Hv. apply Hsub2. by eapply Hin1.
  - exists c', (line ++ lines)%list. split_and!; [done|lia|].
    intros Hk%imported_keys_in_cons. destruct Hk as [Hk1 Hk].
    assert (c1 = c) as ->.
    { apply Hc1. intros row' ts l w ->%list_elem_of_singleton. apply Hk1. }
    apply Hc2. by eapply imported_keys_in_mono.
Qed.

Lemma handle_run path rows d :
  handle path true rows d =
  match import_rows rows 0 d with
  | (d', Ok (count, lines)) => (d', Ok (lines ++ [OutImported count])%list)
  | (d', Raise e) => (d', Raise e)
  end.
Proof. unfold handle. st_simpl. destruct (import_rows rows 0 d) as [? [[]|]]; reflexivity. Qed.

(** C26: the import command keeps the table of [WasteGeneration] well
    formed ([unique_together] included), never fails, and the count it
    reports is the number of rows it added to the table. *)
Theorem import_count_added path rows d d' r :
  gen_ok d -> handle path true rows d = (d', r) ->
  gen_ok d' /\ exists lines count, r = Ok (lines ++ [OutImported count])%list /\
    length (t_rows (wdb_gen d')) = (length (t_rows (wdb_gen d)) + count)%nat.
Proof.
  intros Hok. rewrite handle_run. destruct (import_rows rows 0 d) as [d1 r1] eqn:Hr.
  destruct (import_rows_spec _ _ _ _ _ Hok Hr) as (Hok1 & _ & _ & c' & lines & -> & Hlen & _).
  intros [= <- <-]. split; [done|]. exists lines, c'. split; [done|lia].
Qed.

(** C25: running the import command a second time on the same file adds
    nothing: every key [(timestamp, location)] of a row the first run
    read is in the table, so [update_or_create] only updates, and the
    command reports [Successfully imported 0 waste generation records]. *)
Theorem import_rerun_imports_nothing path rows d d1 r1 :
  gen_ok d -> handle path true rows d = (d1, r1) ->
  exists d2 lines, handle path true rows d1 = (d2, Ok (lines ++ [OutImported 0])%list) /\
    length (t_rows (wdb_gen d2)) = length (t_rows (wdb_gen d1)).
Proof.
  intros Hok. rewrite !handle_run. destruct (import_rows rows 0 d) as [d1' r1'] eqn:Hr.
  destruct (import_rows_spec _ _ _ _ _ Hok Hr) as (Hok1 & _ & Hin1 & c1 & l1 & -> & _).
  intros [= <- <-]. destruct (import_rows rows 0 d1') as [d2 r2] eqn:Hr2.
  destruct (import_rows_spec _ _ _ _ _ Hok1 Hr2) as (_ & _ & _ & c2 & l2 & -> & Hlen & Hc).
  rewrite (Hc Hin1) in Hlen |- *. exists d2, l2. split; [done|lia].
Qed.
End ImportCmd.

(** ** The view [predictions] *)

Section View.
Context `{WasteEnv}.

(** The locations [get_available_locations] returns in state [d]. *)
Definition available_locations (d : wdb) : list string :=
  map fst (dedup (map (fun kr => (wg_location kr.2, wg_timestamp kr.2))
                      (by_timestamp wg_timestamp (t_rows (wdb_gen d))))).

(** C39: [get_available_locations] returns one location per row of
    [WasteGeneration], not one per location: the default ordering puts
    [timestamp] into the [SELECT DISTINCT], and the [(timestamp,
    location)] pairs are distinct already, so a location with [n] rows
    is offered [n] times. *)
Theorem available_locations_one_per_row d d' r :
  gen_ok d -> get_available_locations d = (d', r) ->
  d' = d /\ exists locs, r = Ok locs /\
    locs ≡ₚ map (fun kr => wg_location kr.2) (t_rows (wdb_gen d)).
Proof.
  intros (_ & Hkeys & _). unfold get_available_locations. intros [= <- <-].
  split; [done|]. eexists; split; [done|].
  set (pair := fun kr : Z * waste_gen => (wg_location kr.2, wg_timestamp kr.2)).
  assert (map pair (by_timestamp wg_timestamp (t_rows (wdb_gen d))) ≡ₚ map pair (t_rows (wdb_gen d))) as Hp
    by (unfold by_timestamp; by rewrite sort_stable_perm).
  unfold dedup. rewrite dedup_from_nodup_id.
  - rewrite Hp, map_map. done.
  - rewrite Hp. replace (map pair _) with (map (fun k => (k.2, k.1)) (gen_keys d))
      by (unfold gen_keys; by rewrite map_map).
    apply NoDup_fmap_2; [intros [] [] [=]; by subst|done].
  - by intros ? ? ?%not_elem_of_nil.
Qed.

(** What a prediction row shows: its date, location and the three
    numbers of the forecast. *)
Definition pred_view (p : waste_pred) : Z * string * (spec_float * spec_float * spec_float) :=
  (wp_timestamp p, wp_location p, (wp_tons p, wp_lower p, wp_upper p)).

Definition tick (d : wdb) : wdb := mk_wdb (wdb_gen d) (wdb_pred d) (S (wdb_ticks d)).

Lemma make_predictions_run m days d :
  make_predictions m days d =
  (tick d, Ok (combine (forecast_dates (wr_now (wdb_ticks d)) days)
                       (prophet_predict m (forecast_dates (wr_now (wdb_ticks d)) days)))).
Proof. reflexivity. Qed.

(** [save_predictions] appends one row per line of the forecast, in
    order, when no row of the location has one of its dates. *)
Lemma save_predictions_run forecast l d :
  NoDup (map fst forecast) ->
  Forall (fun kr => wp_location kr.2 = l -> wp_timestamp kr.2 ∉ map fst forecast) (t_rows (wdb_pred d)) ->
  exists new, save_predictions forecast l d =
    (mk_wdb (wdb_gen d) (mk_table (t_rows (wdb_pred d) ++ new) (t_next (wdb_pred d) + Z.of_nat (length forecast)))
            (wdb_ticks d + length forecast), Ok tt) /\
    map (fun kr => pred_view kr.2) new = map (fun f => (f.1, l, f.2)) forecast.
Proof.
  revert d. induction forecast as [|[ds [[yhat lower] upper]] rest IH]; intros d Hnd Hfree.
  { exists []. rewrite !app_nil_r, Z.add_0_r, Nat.add_0_r. by destruct d as [? [] ?]. }
  cbn [map fst] in Hnd. apply NoDup_cons in Hnd as [Hds Hnd].
  cbn [save_predictions]. unfold create_prediction, insert_prediction, w_now. st_simpl. cbn.
  set (p := mk_waste_pred ds l yhat lower upper (wr_now (wdb_ticks d))).
  assert (existsb (fun kr => Z.eqb (wp_timestamp kr.2) ds && bool_decide (wp_location kr.2 = l))
            (t_rows (wdb_pred d)) = false) as ->.
  { apply not_true_iff_false. intros (kr & Hin%list_elem_of_In & Hm)%existsb_exists.
    apply andb_true_iff in Hm as [Hts%Z.eqb_eq Hl%bool_decide_eq_true].
    rewrite Forall_forall in Hfree. apply (Hfree kr Hin Hl). rewrite Hts. by left. }
  set (d1 := set_pred (mk_table (t_rows (wdb_pred d) ++ [(t_next (wdb_pred d), p)]) (t_next (wdb_pred d) + 1))
                      (mk_wdb (wdb_gen d) (wdb_pred d) (S (wdb_ticks d)))).
  destruct (IH d1) as (new & Hrun & Hview); [done| |].
  { cbn. apply Forall_app. split.
    - eapply Forall_impl; [exact Hfree|]. intros kr Hk Hl Hin. apply Hk; [done|by right].
    - apply Forall_singleton. by intros _. }
  exists ((t_next (wdb_pred d), p) :: new). rewrite Hrun. cbn. split; [|by rewrite Hview].
  rewrite <- app_assoc. do 3 f_equal; lia.
Qed.

(** The value of [days] a POST carries: [int(request.POST.get('days', 7))]. *)
Definition post_days (r : request) : res Z :=
  match orm.post_get r "days" with None => Ok 7 | Some s => orm.pk_of s end.

Lemma predictions_post r d :
  req_is_post r = true ->
  predictions r d =
  match post_days r with
  | Raise e => (d, Raise e)
  | Ok days =>
      let sel := orm.post_get r "location" in
      let locs := available_locations d in
      if negb (orm.filled sel) then
        (d, Ok ([MsgError "Please select a location"], predictions_page locs sel days None))
      else if Z.ltb days 1 || Z.ltb 7 days then
        (d, Ok ([MsgError "Days must be between 1 and 7"], predictions_page locs sel days None))
      else
        catch (_ ← generate_predictions days (Some (default "" sel));
               preds ← get_predictions (default "" sel) days;
               mret ([MsgSuccess ("Successfully generated predictions for " ++ default "" sel)],
                     predictions_page locs sel days (Some preds)))
          (fun e => Some (mret ([MsgError ("Error generating predictions: " ++ exn_str e)],
                                predictions_page locs sel days None))) d
  end.
Proof.
  intros Hp. unfold predictions, post_days. rewrite Hp.
  cbv [mbind st_mbind st_bind mret st_mret st_ret lift_res get_available_locations].
  destruct (orm.post_get r "days") as [s|]; [destruct (orm.pk_of s)|]; try reflexivity;
    destruct (orm.filled _), (_ || _); reflexivity.
Qed.

(** [generate_predictions(days, location)] for a non-empty location:
    the loop runs once, for that location. *)
Lemma generate_predictions_one days l df d :
  l <> "" -> load_historic_data d = (d, Ok df) ->
  generate_predictions days (Some l) d =
  match generate_for df days l d with
  | (d', Ok _) => (d', Ok true)
  | (d', Raise e) => (d', Raise e)
  end.
Proof.
  intros Hl Hd. unfold generate_predictions. st_simpl. rewrite Hd.
  rewrite bool_decide_false by done. cbn [generate_loop]. st_simpl.
  destruct (generate_for df days l d) as [? []]; reflexivity.
Qed.

(** a POST the view rejects (no location, or a number of days
    outside [1..7]) writes nothing: the state is unchanged, the page
    carries one error message and no predictions. *)
Theorem predictions_invalid_input_no_write r d days :
  req_is_post r = true -> post_days r = Ok days ->
  orm.filled (orm.post_get r "location") = false \/ days < 1 \/ 7 < days ->
  exists msg, predictions r d =
    (d, Ok ([MsgError msg], predictions_page (available_locations d) (orm.post_get r "location") days None)).
Proof.
  intros Hp Hd Hbad. rewrite predictions_post, Hd by done. cbn zeta.
  destruct (orm.filled _); [|by eexists]. cbn.
  assert (Z.ltb days 1 || Z.ltb 7 days = true) as -> by (apply orb_true_iff; rewrite !Z.ltb_lt; lia). by eexists.
Qed.

(** [int(request.POST.get('days', 7))] runs outside the [try]
    block: when it raises (a [days] value that is not an integer gives
    [ValueError]), the exception escapes the view before any check or
    write. *)
Theorem predictions_non_integer_days r d e :
  req_is_post r = true -> post_days r = Raise e -> predictions r d = (d, Raise e).
Proof. intros Hp He. by rewrite predictions_post, He. Qed.

(** C24: when Prophet fails to fit the history of the selected location,
    the view reports the error, but the old predictions of that location
    are gone: [generate_predictions] deletes them before training, and
    no transaction undoes the deletion. *)
Theorem predictions_failed_fit_deletes r d l days df e :
  req_is_post r = true -> orm.post_get r "location" = Some l -> l <> "" ->
  post_days r = Ok days -> 1 <= days <= 7 ->
  load_historic_data d = (d, Ok df) -> train_model df l = Raise e ->
  exists d', predictions r d =
    (d', Ok ([MsgError ("Error generating predictions: " ++ exn_str e)],
             predictions_page (available_locations d) (Some l) days None)) /\
    t_rows (wdb_pred d') = filter (fun kr => negb (bool_decide (wp_location kr.2 = l))) (t_rows (wdb_pred d)).
Proof.
  intros Hp Hl Hne Hd Hdays Hdf Hfit. rewrite predictions_post, Hd by done. cbn zeta.
  rewrite Hl. cbn [orm.filled negb default]. rewrite bool_decide_false by done.
  assert (Z.ltb days 1 || Z.ltb 7 days = false) as -> by (apply orb_false_iff; rewrite !Z.ltb_ge; lia).
  unfold catch. st_simpl. rewrite (generate_predictions_one _ _ _ _ Hne Hdf).
  unfold generate_for. st_simpl. cbn [delete_predictions]. rewrite Hfit.
  by eexists.
Qed.

Lemma pred_view_proj {B} (g : Z * string * (spec_float * spec_float * spec_float) -> B) new l
    (forecast : list (Z * (spec_float * spec_float * spec_float))) :
  map (fun kr : Z * waste_pred => pred_view kr.2) new = map (fun f => (f.1, l, f.2)) forecast ->
  map (fun kr => g (pred_view kr.2)) new = map (fun f => g (f.1, l, f.2)) forecast.
Proof. intros E. rewrite <- (map_map _ g), E. by rewrite map_map. Qed.

Lemma filter_other_locations l (rows : list (Z * waste_pred)) p :
  filter (fun kr => bool_decide (wp_location kr.2 = l) && p kr)
         (filter (fun kr => negb (bool_decide (wp_location kr.2 = l))) rows) = [].
Proof.
  induction rows as [|kr rows IH]; [done|]. rewrite filter_cons. case_decide as Hn; [|done].
  rewrite filter_cons_False; [done|]. intros Hy. apply Is_true_true in Hn, Hy.
  destruct (bool_decide (wp_location kr.2 = l)); simpl in *; congruence.
Qed.

(** C23: when the history of the selected location trains a model and
    the forecaster returns one line per date, the page shows exactly the
    [days] forecasts just made, in date order, from tomorrow on: the
    ones [save_predictions] wrote, found again by [get_predictions]
    (the clock moving less than a day meanwhile). *)
Theorem predictions_shows_forecast r d l days df m :
  req_is_post r = true -> orm.post_get r "location" = Some l -> l <> "" ->
  post_days r = Ok days -> 1 <= days <= 7 ->
  load_historic_data d = (d, Ok df) -> train_model df l = Ok m ->
  length (prophet_predict m (forecast_dates (wr_now (wdb_ticks d)) days)) = Z.to_nat days ->
  wr_now (wdb_ticks d) <= wr_now (wdb_ticks d + S (Z.to_nat days)) <= wr_now (wdb_ticks d) + us_per_day ->
  exists d' preds, predictions r d =
    (d', Ok ([MsgSuccess ("Successfully generated predictions for " ++ l)],
             predictions_page (available_locations d) (Some l) days (Some preds))) /\
    map (fun kr => pred_view kr.2) preds =
    map (fun f => (f.1, l, f.2)) (combine (forecast_dates (wr_now (wdb_ticks d)) days)
                                          (prophet_predict m (forecast_dates (wr_now (wdb_ticks d)) days))).
Proof.
  intros Hp Hl Hne Hd Hdays Hdf Hfit Hlen Hclock.
  set (dates := forecast_dates (wr_now (wdb_ticks d)) days) in *.
  set (forecast := combine dates (prophet_predict m dates)).
  assert (map fst forecast = dates) as Hfst
    by (apply map_fst_combine; rewrite Hlen; symmetry; apply forecast_dates_length).
  rewrite predictions_post, Hd by done. cbn zeta.
  rewrite Hl. cbn [orm.filled negb default]. rewrite bool_decide_false by done.
  assert (Z.ltb days 1 || Z.ltb 7 days = false) as -> by (apply orb_false_iff; rewrite !Z.ltb_ge; lia).
  unfold catch. st_simpl. rewrite (generate_predictions_one _ _ _ _ Hne Hdf).
  unfold generate_for. st_simpl. cbn [delete_predictions]. rewrite Hfit, make_predictions_run.
  cbn [wdb_ticks set_pred negb]. unfold id. fold dates forecast.
  set (d1 := tick (set_pred _ d)).
  destruct (save_predictions_run forecast l d1) as (new & Hrun & Hview).
  { rewrite Hfst. apply forecast_dates_nodup. }
  { cbn. apply Forall_forall. intros kr (Hkr & _)%list_elem_of_filter Hkl.
    by rewrite Hkl, bool_decide_eq_true_2 in Hkr. }
  rewrite Hrun. cbv [get_predictions prediction_rows w_now mbind st_mbind st_bind mret st_mret st_ret].
  cbn [wdb_pred wdb_ticks t_rows tick d1 set_pred].
  eexists _, _. split; [reflexivity|].
  rewrite filter_app, filter_other_locations, app_nil_l.
  assert (map (fun kr => wp_timestamp kr.2) new = dates) as Hts.
  { rewrite <- Hfst. exact (pred_view_proj (fun v => v.1.1) _ _ _ Hview). }
  assert (map (fun kr => wp_location kr.2) new = map (fun _ => l) forecast) as Hloc.
  { exact (pred_view_proj (fun v => v.1.2) _ _ _ Hview). }
  assert (length forecast = Z.to_nat days) as Hn
    by (unfold forecast; rewrite length_combine, Hlen; unfold dates; rewrite forecast_dates_length; lia).
  rewrite filter_all_true.
  - rewrite by_timestamp_sorted; [done|]. rewrite Hts. apply forecast_dates_sorted.
  - intros kr Hkr. apply andb_true_iff. split.
    + apply bool_decide_eq_true.
      assert (wp_location kr.2 ∈ map (fun _ => l) forecast) as (? & ? & _)%list_elem_of_fmap
        by (rewrite <- Hloc; apply list_elem_of_fmap; by exists kr).
      done.
    + assert (wp_timestamp kr.2 ∈ dates) as Hin
        by (rewrite <- Hts; apply list_elem_of_fmap; by exists kr).
      pose proof (forecast_in_window (wr_now (wdb_ticks d)) (wr_now (S (wdb_ticks d) + length forecast)) days)
        as Hw. rewrite Forall_forall in Hw. apply Hw; [|exact Hin].
      rewrite Hn. by replace (S (wdb_ticks d) + Z.to_nat days)%nat with (wdb_ticks d + S (Z.to_nat days))%nat by lia.
Qed.
End View.

(** ** Witnesses *)

(** A forecaster for the examples: the clock advances a second per
    reading from 2023-11-14, [fit] raises [ValueError] on fewer than two
    rows (as Prophet does) and [predict] repeats the last value. *)
Definition demo_waste_env : WasteEnv := {|
  wr_now := fun n => 1700000000000000 + Z.of_nat n * 1000000;
  wr_local := fun ts => ts;
  pmodel := list (Z * spec_float);
  prophet_fit := fun rows => if Nat.ltb (length rows) 2 then Raise ValueError else Ok rows;
  prophet_predict := fun m dates =>
    let y := default (f64_of_Z 0) (snd <$> last m) in map (fun _ => (y, y, y)) dates;
  py_float := fun s => f64_of_Z <$> orm.py_int s;
  exn_str := fun _ => "error"
|}.

Section WasteWitnesses.
#[local] Existing Instance demo_waste_env.

Definition dhaka_row : csv_row :=
  {[ "timestamp" := Some "2024-01-05"; "location" := Some "Dhaka"; "waste_generated_tons" := Some "3" ]}.
Definition bad_row : csv_row :=
  {[ "timestamp" := Some "2024-13-05"; "location" := Some "Dhaka"; "waste_generated_tons" := Some "3" ]}.

Definition wdb_empty : wdb := mk_wdb (mk_table [] 1) (mk_table [] 1) 0.

Definition wdb_dhaka : wdb :=
  mk_wdb (mk_table [(1, mk_waste_gen (19700 * us_per_day) "Dhaka" (f64_of_Z 3));
                    (2, mk_waste_gen (19701 * us_per_day) "Dhaka" (f64_of_Z 4))] 3)
         (mk_table [(1, mk_waste_pred (19702 * us_per_day) "Khulna" (f64_of_Z 1) (f64_of_Z 0) (f64_of_Z 2) 0)] 2) 0.

Definition predict_post (loc days : string) : request :=
  mk_req None true {[ "location" := loc; "days" := days ]} None.

Lemma gen_ok_empty : gen_ok wdb_empty.
Proof. split_and!; constructor. Qed.

Lemma gen_ok_dhaka : gen_ok wdb_dhaka.
Proof.
  split_and!; cbn; repeat constructor; try set_solver.
Qed.

Definition import_run := handle "waste.csv" true [dhaka_row; bad_row] wdb_empty.

Lemma import_count_added_witness :
  gen_ok wdb_empty /\
  gen_ok import_run.1 /\ exists lines count, import_run.2 = Ok (lines ++ [OutImported count])%list /\
    length (t_rows (wdb_gen import_run.1)) = (length (t_rows (wdb_gen wdb_empty)) + count)%nat.
Proof.
  split; [split_and!; constructor|].
  apply (import_count_added "waste.csv" [dhaka_row; bad_row] wdb_empty); [split_and!; constructor|].
  apply surjective_pairing.
Defined.

Lemma import_rerun_imports_nothing_witness :
  gen_ok wdb_empty /\
  exists d2 lines, handle "waste.csv" true [dhaka_row; bad_row] import_run.1 = (d2, Ok (lines ++ [OutImported 0])%list) /\
    length (t_rows (wdb_gen d2)) = length (t_rows (wdb_gen import_run.1)).
Proof.
  split; [split_and!; constructor|].
  apply (import_rerun_imports_nothing "waste.csv" [dhaka_row; bad_row] wdb_empty _ import_run.2);
    [split_and!; constructor|apply surjective_pairing].
Defined.

Lemma available_locations_one_per_row_witness :
  gen_ok wdb_dhaka /\
  (get_available_locations wdb_dhaka).1 = wdb_dhaka /\
  exists locs, (get_available_locations wdb_dhaka).2 = Ok locs /\ locs ≡ₚ ["Dhaka"; "Dhaka"].
Proof.
  split; [exact gen_ok_dhaka|].
  apply (available_locations_one_per_row wdb_dhaka); [exact gen_ok_dhaka|apply surjective_pairing].
Defined.

Lemma predictions_invalid_input_no_write_witness :
  req_is_post (predict_post "Dhaka" "9") = true /\ post_days (predict_post "Dhaka" "9") = Ok 9 /\
  exists msg, predictions (predict_post "Dhaka" "9") wdb_dhaka =
    (wdb_dhaka, Ok ([MsgError msg], predictions_page (available_locations wdb_dhaka) (Some "Dhaka") 9 None)).
Proof.
  split_and!; [reflexivity|reflexivity|].
  apply (predictions_invalid_input_no_write (predict_post "Dhaka" "9") wdb_dhaka 9);
    [reflexivity|reflexivity|right; right; lia].
Defined.

Lemma predictions_non_integer_days_witness :
  post_days (predict_post "Dhaka" "three") = Raise ValueError /\
  predictions (predict_post "Dhaka" "three") wdb_dhaka = (wdb_dhaka, Raise ValueError).
Proof.
  split; [reflexivity|].
  apply predictions_non_integer_days; reflexivity.
Defined.

Lemma predictions_failed_fit_deletes_witness :
  train_model (map (fun kr => mk_frame_row (wg_timestamp kr.2) (wg_tons kr.2) (wg_location kr.2))
                   (t_rows (wdb_gen wdb_dhaka))) "Khulna" = Raise ValueError /\
  exists d', predictions (predict_post "Khulna" "3") wdb_dhaka =
    (d', Ok ([MsgError ("Error generating predictions: " ++ exn_str ValueError)],
             predictions_page (available_locations wdb_dhaka) (Some "Khulna") 3 None)) /\
    t_rows (wdb_pred d') =
    filter (fun kr => negb (bool_decide (wp_location kr.2 = "Khulna"))) (t_rows (wdb_pred wdb_dhaka)).
Proof.
  split; [reflexivity|].
  apply (predictions_failed_fit_deletes (predict_post "Khulna" "3") wdb_dhaka "Khulna" 3
           (map (fun kr => mk_frame_row (wg_timestamp kr.2) (wg_tons kr.2) (wg_location kr.2))
                (t_rows (wdb_gen wdb_dhaka))) ValueError);
    try reflexivity; [done|lia].
Defined.

Definition dhaka_model : @pmodel demo_waste_env := [(19700 * us_per_day, f64_of_Z 3); (19701 * us_per_day, f64_of_Z 4)].

Lemma predictions_shows_forecast_witness :
  train_model (map (fun kr => mk_frame_row (wg_timestamp kr.2) (wg_tons kr.2) (wg_location kr.2))
                   (t_rows (wdb_gen wdb_dhaka))) "Dhaka" = Ok dhaka_model /\
  exists d' preds, predictions (predict_post "Dhaka" "3") wdb_dhaka =
    (d', Ok ([MsgSuccess ("Successfully generated predictions for " ++ "Dhaka")],
             predictions_page (available_locations wdb_dhaka) (Some "Dhaka") 3 (Some preds))) /\
    map (fun kr => pred_view kr.2) preds =
    map (fun f => (f.1, "Dhaka", f.2)) (combine (forecast_dates (wr_now 0) 3)
                                                (prophet_predict dhaka_model (forecast_dates (wr_now 0) 3))).
Proof.
  split; [reflexivity|].
  apply (predictions_shows_forecast (predict_post "Dhaka" "3") wdb_dhaka "Dhaka" 3
           (map (fun kr => mk_frame_row (wg_timestamp kr.2) (wg_tons kr.2) (wg_location kr.2))
                (t_rows (wdb_gen wdb_dhaka))) dhaka_model);
    try reflexivity; [done|lia|cbn; unfold us_per_day; lia].
Defined.
Definition leap_day_row : csv_row :=
  {[ "timestamp" := Some "2023-02-29"; "location" := Some "Dhaka"; "waste_generated_tons" := Some "3" ]}.

Lemma import_bad_row_skipped_witness :
  row_values leap_day_row = Raise ValueError /\
  handle "waste.csv" true [leap_day_row] wdb_dhaka = (wdb_dhaka, Ok [OutRowError leap_day_row ValueError; OutImported 0]).
Proof. split; [reflexivity|]. apply import_bad_row_skipped. reflexivity. Defined.

End WasteWitnesses.
