(* ===== verification/Dunder.v ===== *)
(** The special methods of [src/main_app/data/model_adapter.py] the
    other files leave out: [QuerySetAdapter.__len__] and the [__str__]
    of each adapter class.  [str()] of a preference or a recommendation
    looks its user and item up in the store and falls back to
    ["Unknown"] when [get] raises [DoesNotExist]; the other classes show
    one attribute, which must be a string. *)

From S2P Require Import Prelude PyValue JsonStore Entity QuerySet Adapters Frame Views.

Open Scope string_scope.

Section Dunder.
Context `{Runtime}.

(** [__len__]: [len(self._fetch_results())]. *)
Definition qs_len (qs : queryset) : st world (queryset * nat) :=
  '(self, results) ← fetch qs; mret (self, length results).

(** [return self.name]: [str()] raises [TypeError] when [__str__]
    returns something else than a string. *)
Definition str_attr (e : entity) (k : string) : res string :=
  match attr e k with
  | None => Raise AttributeError
  | Some (VStr s) => Ok s
  | Some _ => Raise TypeError
  end.

(** [except DoesNotExist: pass]: the name keeps its default. *)
Definition dne_default (dflt : value) (ex : exn) : option (st world value) :=
  match ex with DoesNotExist _ => Some (mret dflt) | _ => None end.

(** [if hasattr(self, fk): try: x = M.get(id=self.fk); name = x.field
    except DoesNotExist: pass] *)
Definition related_name (e : entity) (fk : string) (m : model) (field : string) : st world value :=
  match attr e fk with
  | Some i => catch (x ← ModelAdapter.get m [("id", i)]; lift_res (getattr x field))
                    (dne_default (VStr "Unknown"))
  | None => mret (VStr "Unknown")
  end.

(** [UserPreferenceAdapter.__str__]: [f"{username}'s preferences"]. *)
Definition pref_str (e : entity) : st world string :=
  username ← related_name e "user_id" UserAdapter "username";
  mret (py_str username ++ "'s preferences").

(** [ItemRecommendationAdapter.__str__]. *)
Definition rec_str (e : entity) : st world string :=
  user_str ← related_name e "user_id" UserAdapter "username";
  item_str ← related_name e "item_id" MarketplaceItemAdapter "title";
  mret ("Recommendation for " ++ py_str user_str ++ ": " ++ py_str item_str).

(** [str(obj)] for an adapter instance. *)
Definition adapter_str (e : entity) : st world string :=
  match ent_model e with
  | RecyclingCenterAdapter | CategoryAdapter => lift_res (str_attr e "name")
  | MarketplaceItemAdapter => lift_res (str_attr e "title")
  | UserPreferenceAdapter => pref_str e
  | ItemRecommendationAdapter => rec_str e
  | UserAdapter => lift_res (str_attr e "username")
  end.
End Dunder.

Section DunderProps.
Context `{Runtime}.

(** A reference to a document that is gone shows as ["Unknown"]; the
    store is only read. *)
Lemma related_name_dangling e fk m field i docs w :
  attr e fk = Some i -> w_files w !! file_name m = Some (FJson docs) ->
  Forall (fun d => exact_test "id" i d = false) docs ->
  related_name e fk m field w = (w, Ok (VStr "Unknown")).
Proof.
  intros Hi Hd Hall. unfold related_name. rewrite Hi. unfold catch. st_simpl.
  rewrite (get_none m "id" i [] docs w Hd eq_refl (Forall_nil_2 _) Hall). reflexivity.
Qed.

(** C40: [str()] of a recommendation whose user and item have both been
    deleted does not fail: each [DoesNotExist] is caught and the text is
    [Recommendation for Unknown: Unknown]; the store is unchanged. *)
Theorem rec_str_dangling e u i udocs idocs w :
  attr e "user_id" = Some u -> attr e "item_id" = Some i ->
  w_files w !! "users" = Some (FJson udocs) -> Forall (fun d => exact_test "id" u d = false) udocs ->
  w_files w !! "marketplace_items" = Some (FJson idocs) -> Forall (fun d => exact_test "id" i d = false) idocs ->
  rec_str e w = (w, Ok "Recommendation for Unknown: Unknown").
Proof.
  intros Hu Hi Hus Hun His Hin. unfold rec_str. st_simpl.
  rewrite (related_name_dangling e "user_id" UserAdapter "username" u udocs w Hu Hus Hun).
  rewrite (related_name_dangling e "item_id" MarketplaceItemAdapter "title" i idocs w Hi His Hin).
  reflexivity.
Qed.
End DunderProps.

Section DunderWitnesses.
#[local] Existing Instance demo_runtime.

(** A recommendation of item 9 to user 3, in a store where both are
    gone (user 4 and item 8 remain). *)
Definition stale_rec : entity :=
  mk_entity ItemRecommendationAdapter {[ "id" := VInt 1; "user_id" := VInt 3; "item_id" := VInt 9 ]}.

Definition pruned_world : world :=
  mk_world {[ "users" := FJson [{[ "id" := VInt 4; "username" := VStr "bo" ]}];
              "marketplace_items" := FJson [{[ "id" := VInt 8; "title" := VStr "Desk" ]}] ]} 0 0.

Lemma rec_str_dangling_witness :
  rec_str stale_rec pruned_world = (pruned_world, Ok "Recommendation for Unknown: Unknown").
Proof.
  apply (rec_str_dangling stale_rec (VInt 3) (VInt 9)
           [{[ "id" := VInt 4; "username" := VStr "bo" ]}] [{[ "id" := VInt 8; "title" := VStr "Desk" ]}]);
    try reflexivity; repeat constructor.
Defined.
End DunderWitnesses.
