(* ===== verification/Urls.v ===== *)
(** The URL configuration [src/main_app/urls.py] and Django's resolver
    and [reverse] on it: a route is a list of tokens (literal text, an
    [<int:name>] converter, the [path] tail of [static()]); a path
    resolves to the first pattern whose regular expression matches
    it whole, and [reverse] fills a named route with [str()] of its
    arguments and checks the result against the route.  [dispatch]
    composes the resolver with the views it names: the JSON views of
    [views_json.py] ([urls.py] imports them as [views]) on the store,
    and [predictions] of [views_waste.py] on the waste tables. *)

From S2P Require Import Prelude PyValue JsonStore Entity QuerySet Adapters Views Recommend Pages Waste WasteProps.
From Stdlib Require Import Ascii.

Open Scope string_scope.

(** ** Routes *)

Inductive tok :=
  | TLit (s : string)         (** literal text of the route *)
  | TInt (name : string)      (** [<int:name>]: [(?P<name>[0-9]+)] *)
  | TPathEnd (name : string). (** the [path] group of [static()]: dot-star, then the end *)

(** The views [urls.py] routes to. *)
Inductive route_view :=
  | RHome | RRegister | RMap | RMarketplace | RItemDetail | RAddItem | RMyItems
  | RUpdateItem | RDeleteItem | RSearchItems | RUserPreferences | RPredictions | RServe.

#[export] Instance route_view_eq_dec : EqDecision route_view.
Proof. solve_decision. Defined.

Record url_pattern := mk_url { u_toks : list tok; u_view : route_view; u_name : option string }.

(** [urlpatterns], in the order of the file. *)
Definition urlpatterns_base : list url_pattern := [
  mk_url [] RHome (Some "home");
  mk_url [TLit "register/"] RRegister (Some "register");
  mk_url [TLit "map/"] RMap (Some "map");
  mk_url [TLit "marketplace/"] RMarketplace (Some "marketplace");
  mk_url [TLit "marketplace/item/"; TInt "item_id"; TLit "/"] RItemDetail (Some "item_detail");
  mk_url [TLit "marketplace/add/"] RAddItem (Some "add_item");
  mk_url [TLit "marketplace/my-items/"] RMyItems (Some "my_items");
  mk_url [TLit "marketplace/update/"; TInt "item_id"; TLit "/"] RUpdateItem (Some "update_item");
  mk_url [TLit "marketplace/delete/"; TInt "item_id"; TLit "/"] RDeleteItem (Some "delete_item");
  mk_url [TLit "marketplace/search/"] RSearchItems (Some "search_items");
  mk_url [TLit "marketplace/preferences/"] RUserPreferences (Some "user_preferences");
  mk_url [TLit "predictions/"] RPredictions (Some "predictions")
].

Fixpoint lstrip_slash (s : string) : string :=
  match s with
  | String "/" s' => lstrip_slash s'
  | _ => s
  end.

(** [urlsplit(prefix).netloc] is not empty: a prefix [//host/...] or
    [scheme://host/...]. *)
Definition has_netloc (p : string) : bool := str_prefix "//" p || str_contains "://" p.

(** [static(settings.MEDIA_URL, document_root=...)]: an empty prefix is
    refused; outside [DEBUG], or for a prefix on another host, no
    route; otherwise [re_path] of the prefix followed by a [path] group
    (dot-star, then [$]) to [serve]. *)
Definition static_routes (debug : bool) (prefix : string) : res (list url_pattern) :=
  if bool_decide (prefix = "") then Raise ImproperlyConfigured
  else if negb debug || has_netloc prefix then Ok []
  else Ok [mk_url [TLit (lstrip_slash prefix); TPathEnd "path"] RServe None].

(** [urlpatterns += static(...)] under [if settings.DEBUG]. *)
Definition urlpatterns (debug : bool) (media_url : string) : res (list url_pattern) :=
  if debug then
    match static_routes debug media_url with
    | Ok extra => Ok (urlpatterns_base ++ extra)%list
    | Raise e => Raise e
    end
  else Ok urlpatterns_base.

(** ** Matching a path *)

Inductive rarg := AInt (z : Z) | AStr (s : string).

(** The value of a string of decimal digits ([int(value)], the [int]
    converter's [to_python]). *)
Fixpoint dec_val_acc (s : string) (acc : Z) : Z :=
  match s with
  | EmptyString => acc
  | String c s' => dec_val_acc s' (acc * 10 + (Z.of_nat (nat_of_ascii c) - 48))
  end.
Definition dec_val (s : string) : Z := dec_val_acc s 0.

(** The ways [[0-9]+] matches a prefix of [s], longest first (the
    backtracking order of a greedy [+]). *)
Fixpoint digit_splits (s : string) : list (string * string) :=
  match s with
  | EmptyString => []
  | String c s' =>
      if is_digit c
      then map (fun dr => (String c dr.1, dr.2)) (digit_splits s') ++ [(String c EmptyString, s')]
      else []
  end.

Fixpoint strip_prefix (p s : string) : option string :=
  match p, s with
  | EmptyString, _ => Some s
  | String a p', String b s' => if bool_decide (a = b) then strip_prefix p' s' else None
  | String _ _, EmptyString => None
  end.

(** The [path] group, dot-star then [$]: [.] stops at a newline, and
    [$] also matches before a newline that ends the string. *)
Fixpoint path_end (s : string) : option string :=
  match s with
  | EmptyString => Some EmptyString
  | String c s' =>
      if bool_decide (c = "010"%char) then (if bool_decide (s' = "") then Some EmptyString else None)
      else match path_end s' with Some p => Some (String c p) | None => None end
  end.

(** The route's regular expression against the whole remaining path:
    the captured arguments, or [None]. *)
Fixpoint match_toks (ts : list tok) (s : string) : option (list (string * rarg)) :=
  match ts with
  | [] => if bool_decide (s = "") then Some [] else None
  | TLit l :: ts' => match strip_prefix l s with Some r => match_toks ts' r | None => None end
  | TInt n :: ts' =>
      head (omap (fun dr => match match_toks ts' dr.2 with
                            | Some m => Some ((n, AInt (dec_val dr.1)) :: m)
                            | None => None
                            end) (digit_splits s))
  | TPathEnd n :: _ => match path_end s with Some p => Some [(n, AStr p)] | None => None end
  end.

(** The root resolver strips the leading [/] ([^/]); the first pattern
    that matches wins; no match is [Resolver404]. *)
Fixpoint first_match (pats : list url_pattern) (p : string) : option (route_view * list (string * rarg)) :=
  match pats with
  | [] => None
  | u :: pats' => match match_toks (u_toks u) p with
                  | Some m => Some (u_view u, m)
                  | None => first_match pats' p
                  end
  end.

Definition resolve (pats : list url_pattern) (path : string) : option (route_view * list (string * rarg)) :=
  match path with
  | String "/" p => first_match pats p
  | _ => None
  end.

(** ** [reverse(name, kwargs=...)] *)

Section Reverse.
Context `{Runtime}.

Fixpoint tok_params (ts : list tok) : list string :=
  match ts with
  | [] => []
  | TLit _ :: ts' => tok_params ts'
  | TInt n :: ts' => n :: tok_params ts'
  | TPathEnd n :: ts' => n :: tok_params ts'
  end.

(** The candidate path with [str()] of each argument in place of its
    converter ([to_url] of [int] is [str]). *)
Fixpoint fill_toks (ts : list tok) (kwargs : list (string * value)) : option string :=
  match ts with
  | [] => Some ""
  | TLit l :: ts' => (fun r => l ++ r) <$> fill_toks ts' kwargs
  | TInt n :: ts' | TPathEnd n :: ts' =>
      match list_find (fun kv => kv.1 = n) kwargs with
      | Some (_, (_, v)) => (fun r => py_str v ++ r) <$> fill_toks ts' kwargs
      | None => None
      end
  end.

(** Django tries the patterns of a name from the last one defined; the
    keyword arguments must be exactly the route's parameters, and the
    candidate must match the route.  The result is the path with its
    leading [/]. *)
Definition reverse (pats : list url_pattern) (name : string) (kwargs : list (string * value))
    : res string :=
  match find (fun u => bool_decide (u_name u = Some name)) (rev pats) with
  | None => Raise (NoReverseMatch name)
  | Some u =>
      if bool_decide (tok_params (u_toks u) ≡ₚ map fst kwargs) then
        match fill_toks (u_toks u) kwargs with
        | Some c => match match_toks (u_toks u) c with
                    | Some _ => Ok ("/" ++ c)
                    | None => Raise (NoReverseMatch name)
                    end
        | None => Raise (NoReverseMatch name)
        end
      else Raise (NoReverseMatch name)
  end.
End Reverse.

(** ** Dispatch *)

(** What the site keeps: the JSON files of the store and the tables of
    the waste models. *)
Record site := mk_site { site_world : world; site_waste : wdb }.

Inductive site_response :=
  | RespView (v : view_result)   (** a view of [views_json.py] *)
  | RespWaste (w : wresult)      (** [views_waste.predictions] *)
  | RespServe (path : string)    (** [django.views.static.serve] of a media file *)
  | RespNotFound.                (** [Resolver404] *)

Section Dispatch.
Context `{Runtime} `{WasteEnv}.

Definition on_world {A} (c : st world A) : st site A :=
  fun s => let '(w', r) := c (site_world s) in (mk_site w' (site_waste s), r).

Definition on_waste {A} (c : st wdb A) : st site A :=
  fun s => let '(d', r) := c (site_waste s) in (mk_site (site_world s) d', r).

Definition json_view (c : st world view_result) : st site site_response :=
  v ← on_world c; mret (RespView v).

(** [view(request, item_id=...)]: any other keyword arguments are a
    [TypeError]. *)
Definition with_item_id (kwargs : list (string * rarg)) (f : Z -> st world view_result)
    : st site site_response :=
  match kwargs with
  | [(k, AInt z)] => if bool_decide (k = "item_id") then json_view (f z) else raise TypeError
  | _ => raise TypeError
  end.

(** The view a route names, called with the request and the captured
    keyword arguments ([form] is what [UserCreationForm(request.POST)]
    gives [register]). *)
Definition call_view (v : route_view) (kwargs : list (string * rarg)) (r : request)
    (form : option auth_user) : st site site_response :=
  match v with
  | RHome => json_view (pages.home r)
  | RRegister => json_view (pages.register r form)
  | RMap => json_view (pages.map_view r)
  | RMarketplace => json_view (pages.marketplace r)
  | RItemDetail => with_item_id kwargs (pages.item_detail r)
  | RAddItem => json_view (views_json.add_item r)
  | RMyItems => json_view (views_json.my_items r)
  | RUpdateItem => with_item_id kwargs (views_json.update_item r)
  | RDeleteItem => with_item_id kwargs (views_json.delete_item r)
  | RSearchItems => json_view (views_json.search_items r)
  | RUserPreferences => json_view (pages.user_preferences r)
  | RPredictions => w ← on_waste (predictions r); mret (RespWaste w)
  | RServe => match kwargs with [(_, AStr p)] => mret (RespServe p) | _ => raise TypeError end
  end.

(** The handling of a request for [path]. *)
Definition dispatch (pats : list url_pattern) (path : string) (r : request) (form : option auth_user)
    : st site site_response :=
  match resolve pats path with
  | Some (v, kwargs) => call_view v kwargs r form
  | None => mret RespNotFound
  end.
End Dispatch.

(** ** Decimal strings *)

Lemma all_digits_app a b : all_digits (a ++ b) = all_digits a && all_digits b.
Proof. induction a as [|x a IH]; autorewrite with str; simpl; [done|by rewrite IH, andb_assoc]. Qed.

Lemma dec_val_acc_app a b acc : dec_val_acc (a ++ b) acc = dec_val_acc b (dec_val_acc a acc).
Proof. revert acc. induction a as [|x a IH]; intros acc; autorewrite with str; simpl; [done|apply IH]. Qed.

Lemma dec_val_acc_nonneg d acc : all_digits d = true -> 0 <= acc -> 0 <= dec_val_acc d acc.
Proof.
  revert acc. induction d as [|c d IH]; intros acc Hd Hacc; simpl in *; [done|].
  apply andb_true_iff in Hd as [Hc Hd]. apply IH; [done|].
  unfold is_digit in Hc. apply andb_true_iff in Hc as [?%Nat.leb_le ?%Nat.leb_le]. lia.
Qed.

(** [pretty_N_go x s] puts the decimal digits of [x] in front of [s]. *)
Lemma pretty_N_go_digits x s :
  (0 < x)%N -> exists d, stdpp.pretty.pretty_N_go x s = d ++ s /\ d <> "" /\ all_digits d = true /\
    forall acc, dec_val_acc d acc = acc * 10 ^ Z.of_nat (String.length d) + Z.of_N x.
Proof.
  revert s. induction (N.lt_wf_0 x) as [x _ IH]; intros s Hx.
  rewrite stdpp.pretty.pretty_N_go_step by done.
  set (c := stdpp.pretty.pretty_N_char (x `mod` 10)).
  assert (is_digit c = true /\ Z.of_nat (nat_of_ascii c) - 48 = Z.of_N (x `mod` 10)) as [Hc Hv].
  { assert (x `mod` 10 < 10)%N as Hm by (apply N.mod_lt; lia). unfold c.
    destruct (x `mod` 10)%N as [|p] eqn:E; [done|].
    do 10 (destruct p as [p|p|]; try (simpl in Hm; lia); try done). }
  pose proof (N.div_mod x 10 ltac:(lia)) as Hdm.
  destruct (decide (x `div` 10 = 0)%N) as [Hq|Hq].
  - rewrite Hq, stdpp.pretty.pretty_N_go_0. exists (String c "").
    split_and!; [done|done|simpl; by rewrite Hc|]. intros acc. simpl. rewrite Hv. lia.
  - destruct (IH (x `div` 10)%N ltac:(apply N.div_lt; lia) (String c s) ltac:(by apply N.neq_0_lt_0))
      as (d & Hd & Hne & Hall & Hval).
    exists (d ++ String c ""). rewrite Hd, str_app_assoc. split_and!; [done| | |].
    + by destruct d.
    + rewrite all_digits_app, Hall. simpl. by rewrite Hc.
    + intros acc. rewrite dec_val_acc_app, Hval. simpl. rewrite Hv.
      rewrite str_length_app, Nat2Z.inj_add, Z.pow_add_r by lia. simpl. lia.
Qed.

Section DecimalRepr.
Context `{Runtime}.

(** [str(z)] of a non-negative [int] is a non-empty string of digits
    whose value is [z]. *)
Lemma py_str_nonneg z :
  0 <= z -> exists d, py_str (VInt z) = d /\ d <> "" /\ all_digits d = true /\ dec_val d = z.
Proof.
  intros Hz. destruct z as [|p|p]; [by exists "0"| |lia].
  cbv [py_str py_repr stdpp.pretty.pretty stdpp.pretty.pretty_Z stdpp.pretty.pretty_positive
       stdpp.pretty.pretty_N]. rewrite decide_False by done.
  destruct (pretty_N_go_digits (N.pos p) "" ltac:(lia)) as (d & Hd & Hne & Hall & Hval).
  rewrite Hd. exists (d ++ ""). split_and!; [done| |by rewrite all_digits_app, Hall|].
  - by destruct d.
  - unfold dec_val. rewrite dec_val_acc_app, Hval. simpl. lia.
Qed.
End DecimalRepr.

(** ** Matching lemmas *)

Lemma digit_splits_spec s d r :
  (d, r) ∈ digit_splits s <-> s = d ++ r /\ d <> "" /\ all_digits d = true.
Proof.
  revert d r. induction s as [|c s IH]; intros d r; simpl.
  { split; [by intros ?%not_elem_of_nil|]. intros (E & Hne & _). destruct d; [done|discriminate]. }
  destruct (is_digit c) eqn:Hc.
  - rewrite elem_of_app, list_elem_of_fmap, list_elem_of_singleton. split.
    + intros [([d' r'] & [= -> ->] & Hin)|[= -> ->]].
      * apply IH in Hin as (-> & Hne & Hall). simpl. rewrite Hc, Hall. by split_and!.
      * simpl. by rewrite Hc.
    + intros (E & Hne & Hall). destruct d as [|c' d]; [done|]. autorewrite with str in E.
      injection E as <- ->. simpl in Hall. rewrite Hc in Hall.
      destruct d as [|c'' d]; [by right|]. left. exists (String c'' d, r). split; [done|].
      apply IH. by split_and!.
  - split; [by intros ?%not_elem_of_nil|]. intros (E & Hne & Hall).
    destruct d as [|c' d]; [done|]. autorewrite with str in E. injection E as <- _.
    simpl in Hall. by rewrite Hc in Hall.
Qed.

(** [head (omap f l)]: the first success of [f] along [l]. *)
Lemma head_omap_none {A B} (f : A -> option B) l :
  (forall x, x ∈ l -> f x = None) -> head (omap f l) = None.
Proof.
  induction l as [|x l IH]; intros Hf; [done|]. simpl.
  rewrite (Hf x) by by left. apply IH. intros y Hy. apply Hf. by right.
Qed.

Lemma head_omap_some {A B} (f : A -> option B) l y :
  (forall x, x ∈ l -> f x = None \/ f x = Some y) -> (exists x, x ∈ l /\ f x = Some y) ->
  head (omap f l) = Some y.
Proof.
  induction l as [|x l IH]; intros Hf (x' & Hx' & Hy); [by apply not_elem_of_nil in Hx'|]. simpl.
  destruct (Hf x ltac:(by left)) as [Hn| ->]; [|done]. rewrite Hn.
  apply IH; [intros z Hz; apply Hf; by right|].
  apply elem_of_cons in Hx' as [->|Hx']; [congruence|eauto].
Qed.

(** [<int:n>/] at the end of a route: the text before the final [/]
    must be a non-empty string of digits. *)
Lemma match_int_slash n s :
  match_toks [TInt n; TLit "/"] (s ++ "/") =
  if negb (bool_decide (s = "")) && all_digits s then Some [(n, AInt (dec_val s))] else None.
Proof.
  cbn [match_toks].
  assert (forall dr, dr ∈ digit_splits (s ++ "/") ->
            match (match strip_prefix "/" dr.2 with Some r => match_toks [] r | None => None end) with
            | Some m => Some ((n, AInt (dec_val dr.1)) :: m) | None => None end = None \/
            dr = (s, "/")) as Hsplit.
  { intros [d r] Hin. apply digit_splits_spec in Hin as (E & _ & _). simpl.
    destruct r as [|c r]; [by left|]. simpl. case_bool_decide as Hc; [subst c|by left].
    cbn. case_bool_decide as Hr; [subst r|by left]. right.
    f_equal. symmetry. by apply str_app_inv_r in E. }
  destruct (negb (bool_decide (s = "")) && all_digits s) eqn:Hs.
  - apply andb_true_iff in Hs as [Hne%negb_true_iff%bool_decide_eq_false Hall].
    apply head_omap_some.
    + intros dr Hdr. destruct (Hsplit dr Hdr) as [Hn| ->]; [by left|by right].
    + exists (s, "/"). split; [|done]. apply digit_splits_spec. by split_and!.
  - apply head_omap_none. intros dr Hdr. destruct (Hsplit dr Hdr) as [Hn| ->]; [done|].
    apply digit_splits_spec in Hdr as (_ & Hne & Hall). apply andb_false_iff in Hs as [Hs|Hs].
    + apply negb_false_iff, bool_decide_eq_true in Hs. done.
    + congruence.
Qed.

(** ** The route table *)

(** With or without [DEBUG], the table is [urlpatterns_base] followed
    by unnamed routes. *)
Lemma urlpatterns_shape debug media pats :
  urlpatterns debug media = Ok pats ->
  exists extra, pats = (urlpatterns_base ++ extra)%list /\
    Forall (fun u => u_name u = None /\ u_view u = RServe) extra.
Proof.
  unfold urlpatterns, static_routes. destruct debug.
  - case_bool_decide; [done|].
    destruct (negb true || has_netloc media); intros [= <-]; eexists; (split; [done|]); repeat constructor.
  - intros [= <-]. exists []. by rewrite app_nil_r.
Qed.

Lemma first_match_app l1 l2 p :
  first_match (l1 ++ l2) p = match first_match l1 p with Some r => Some r | None => first_match l2 p end.
Proof. induction l1 as [|u l1 IH]; [done|]. simpl. by destruct (match_toks _ _). Qed.

Lemma find_unnamed name (extra l : list url_pattern) :
  Forall (fun u => u_name u = None) extra ->
  find (fun u => bool_decide (u_name u = Some name)) (extra ++ l) =
  find (fun u => bool_decide (u_name u = Some name)) l.
Proof.
  induction 1 as [|u extra Hu _ IH]; [done|]. simpl. rewrite Hu, bool_decide_false by done. exact IH.
Qed.

Section RouteTable.
Context `{Runtime}.

Lemma reverse_base debug media pats name kwargs :
  urlpatterns debug media = Ok pats -> reverse pats name kwargs = reverse urlpatterns_base name kwargs.
Proof.
  intros (extra & -> & Hextra)%urlpatterns_shape. unfold reverse.
  rewrite rev_app_distr, find_unnamed; [done|]. apply Forall_rev. eapply Forall_impl; [exact Hextra|]. by intros ? [].
Qed.

Lemma resolve_base debug media pats path r :
  urlpatterns debug media = Ok pats -> resolve urlpatterns_base path = Some r -> resolve pats path = Some r.
Proof.
  intros (extra & -> & _)%urlpatterns_shape. destruct path as [|c p]; [done|].
  unfold resolve. destruct (decide (c = "/"%char)) as [->|Hc].
  - rewrite first_match_app. by intros ->.
  - destruct c as [[] [] [] [] [] [] [] []]; try done; congruence.
Qed.
End RouteTable.

Lemma strip_prefix_app p s : strip_prefix p (p ++ s) = Some s.
Proof. induction p as [|c p IH]; [done|]. autorewrite with str. simpl. by rewrite bool_decide_true. Qed.

Lemma match_lit_app l ts s : match_toks (TLit l :: ts) (l ++ s) = match_toks ts s.
Proof. simpl. by rewrite strip_prefix_app. Qed.

(** What a match of a route says about the path. *)
Lemma match_toks_nil s m : match_toks [] s = Some m -> s = "".
Proof. simpl. by case_bool_decide. Qed.

Lemma strip_prefix_some l s r : strip_prefix l s = Some r -> s = l ++ r.
Proof.
  revert s. induction l as [|c l IH]; intros [|c' s]; simpl; [by intros [= <-]..|done|].
  case_bool_decide; [subst c'|done]. intros E. autorewrite with str. f_equal. by apply IH.
Qed.

Lemma match_toks_lit l ts s m :
  match_toks (TLit l :: ts) s = Some m -> exists r, s = l ++ r /\ match_toks ts r = Some m.
Proof.
  simpl. destruct (strip_prefix l s) as [r|] eqn:E; [|done].
  intros Hm. exists r. split; [by apply strip_prefix_some|done].
Qed.

(** A route that matched a path that is not its own: the two literal
    texts disagree. *)
Ltac route_contra E :=
  first [ apply match_toks_nil in E
        | let r := fresh "r" in let E' := fresh "E" in
          apply match_toks_lit in E as (r & E & E');
          try (apply match_toks_nil in E'; subst r) ];
  rewrite ?str_app_nil_r in E; autorewrite with str in E; simplify_eq.

(** Run [first_match] along the table, ruling out every route before
    the one that matches. *)
Ltac route_miss :=
  repeat match goal with
  | |- context [match match_toks ?ts ?s with Some _ => _ | None => _ end] =>
      let E := fresh "E" in destruct (match_toks ts s) eqn:E; [exfalso; route_contra E|]
  end.

Section Routes.
Context `{Runtime}.

Lemma fill_int_route a n b v :
  fill_toks [TLit a; TInt n; TLit b] [(n, v)] = Some (a ++ py_str v ++ b).
Proof. simpl. rewrite decide_True by done. simpl. by rewrite str_app_nil_r. Qed.

Lemma find_item_detail :
  find (fun u => bool_decide (u_name u = Some "item_detail")) (rev urlpatterns_base) =
  Some (mk_url [TLit "marketplace/item/"; TInt "item_id"; TLit "/"] RItemDetail (Some "item_detail")).
Proof. reflexivity. Qed.

(** C33: the [reverse] the JSON views use ([views_json.reverse_int_arg],
    which only checks that [str(v)] is a non-empty string of digits) is
    Django's [reverse] on the table of [urls.py]: both fail together,
    and on success the URL of the item page is the digits between
    [/marketplace/item/] and [/]. *)
Theorem reverse_int_arg_refines debug media pats v :
  urlpatterns debug media = Ok pats ->
  reverse pats "item_detail" [("item_id", v)] =
  match views_json.reverse_int_arg "item_detail" v with
  | Ok s => Ok ("/marketplace/item/" ++ s ++ "/")
  | Raise e => Raise e
  end.
Proof.
  intros Hp. rewrite (reverse_base _ _ _ _ _ Hp). unfold reverse, views_json.reverse_int_arg.
  rewrite find_item_detail. cbn [u_toks tok_params map fst]. rewrite bool_decide_true by done.
  rewrite fill_int_route, match_lit_app, match_int_slash, bool_decide_not.
  by destruct (negb (bool_decide (py_str v = "")) && all_digits (py_str v)).
Qed.

Lemma find_named u name :
  u ∈ urlpatterns_base -> u_name u = Some name ->
  find (fun u => bool_decide (u_name u = Some name)) (rev urlpatterns_base) = Some u.
Proof.
  intros Hu Hn. repeat (apply elem_of_cons in Hu as [->|Hu]; [injection Hn as <-; reflexivity|]).
  by apply not_elem_of_nil in Hu.
Qed.

(** The three routes with an [<int:item_id>]: the URL [reverse] builds
    resolves back to the view with the same id. *)
Lemma int_route_roundtrip a view name z :
  0 <= z -> mk_url [TLit a; TInt "item_id"; TLit "/"] view (Some name) ∈ urlpatterns_base ->
  exists d, reverse urlpatterns_base name [("item_id", VInt z)] = Ok (String "/" (a ++ d ++ "/")) /\
    match_toks [TLit a; TInt "item_id"; TLit "/"] (a ++ d ++ "/") = Some [("item_id", AInt z)].
Proof.
  intros Hz Hu. destruct (py_str_nonneg z Hz) as (d & Hd & Hne & Hall & Hval).
  assert (match_toks [TLit a; TInt "item_id"; TLit "/"] (a ++ d ++ "/") = Some [("item_id", AInt z)]) as Hm.
  { rewrite match_lit_app, match_int_slash, bool_decide_false, Hall by done. simpl. by rewrite Hval. }
  exists d. split; [|done]. unfold reverse. rewrite (find_named _ _ Hu eq_refl).
  cbn [u_toks tok_params map fst]. rewrite bool_decide_true by done.
  rewrite fill_int_route, Hd, Hm. done.
Qed.

(** C32: every named route of [urls.py] reverses, and the URL [reverse]
    builds resolves back to the same view with the same arguments: a
    non-negative id for the item routes, none for the others.  The
    routes never shadow one another, and the [static()] route comes
    after them. *)
Theorem reverse_resolve_roundtrip debug media pats u name z :
  urlpatterns debug media = Ok pats -> u ∈ urlpatterns_base -> u_name u = Some name -> 0 <= z ->
  exists url, reverse pats name (map (fun n => (n, VInt z)) (tok_params (u_toks u))) = Ok url /\
    resolve pats url = Some (u_view u, map (fun n => (n, AInt z)) (tok_params (u_toks u))).
Proof.
  intros Hp Hu Hn Hz. setoid_rewrite (reverse_base _ _ _ _ _ Hp).
  cut (exists url, reverse urlpatterns_base name (map (fun n => (n, VInt z)) (tok_params (u_toks u))) = Ok url /\
         resolve urlpatterns_base url = Some (u_view u, map (fun n => (n, AInt z)) (tok_params (u_toks u)))).
  { intros (url & Hr & Hres). exists url. split; [done|]. by eapply resolve_base. }
  pose proof Hu as Hu'.
  repeat (apply elem_of_cons in Hu as [->|Hu]; [simplify_eq/=|]); [..|by apply not_elem_of_nil in Hu].
  all: first [ by eexists; split; reflexivity | idtac ].
  all: destruct (int_route_roundtrip _ _ _ z Hz Hu') as (d & Hr & Hm);
    (eexists; split; [exact Hr|]); cbn [resolve first_match urlpatterns_base u_toks u_view].
  all: rewrite Hm; route_miss; reflexivity.
Qed.

Lemma first_match_in pats p v m :
  first_match pats p = Some (v, m) -> exists u, u ∈ pats /\ u_view u = v /\ match_toks (u_toks u) p = Some m.
Proof.
  induction pats as [|u pats IH]; [done|]. simpl.
  destruct (match_toks (u_toks u) p) as [m'|] eqn:E.
  - intros [= <- <-]. exists u. split_and!; [by left|done|done].
  - intros (u' & Hu' & Hv & Hm)%IH. exists u'. split_and!; [by right|done|done].
Qed.

(** Whatever follows the literal part, an [<int:n>/] tail that matches
    captures the value of a string of digits. *)
Lemma match_int_slash_inv n r m :
  match_toks [TInt n; TLit "/"] r = Some m ->
  exists d, r = d ++ "/" /\ all_digits d = true /\ m = [(n, AInt (dec_val d))].
Proof.
  intros Hm. pose proof Hm as Hm'. cbn [match_toks] in Hm.
  destruct (omap _ (digit_splits r)) as [|y ys] eqn:E; [done|]. simpl in Hm. injection Hm as Hym. subst m.
  assert (y ∈ y :: ys) as Hy by left. rewrite <- E in Hy.
  apply list_elem_of_omap in Hy as ([d r'] & Hin & Hf). apply digit_splits_spec in Hin as (-> & Hne & Hall).
  cbv beta in Hf. cbn [fst snd] in Hf. destruct (strip_prefix "/" r') as [r''|] eqn:Hs; [|done].
  case_bool_decide as Hn; [subst r''|done].
  apply strip_prefix_some in Hs. rewrite str_app_nil_r in Hs. subst r'.
  exists d. split_and!; [done|done|]. rewrite match_int_slash, bool_decide_false, Hall in Hm' by done.
  by injection Hm' as <-.
Qed.

(** C4: the item routes only ever pass a non-negative integer id to
    [item_detail], [update_item] and [delete_item]: no path reaches them
    with the [uuid4] string ids [create_item] gives new items. *)
Theorem resolve_item_id_nonneg debug media pats path v m :
  urlpatterns debug media = Ok pats -> resolve pats path = Some (v, m) ->
  v = RItemDetail \/ v = RUpdateItem \/ v = RDeleteItem ->
  exists z, 0 <= z /\ m = [("item_id", AInt z)].
Proof.
  intros (extra & -> & Hextra)%urlpatterns_shape Hres Hv.
  destruct path as [|c p]; [done|]. unfold resolve in Hres.
  destruct (decide (c = "/"%char)) as [->|Hc];
    [|by destruct c as [[] [] [] [] [] [] [] []]; try done; congruence].
  apply first_match_in in Hres as (u & Hu & <- & Hm).
  apply elem_of_app in Hu as [Hu|Hu].
  - assert (exists a, u_toks u = [TLit a; TInt "item_id"; TLit "/"]) as [a Ha].
    { repeat (apply elem_of_cons in Hu as [->|Hu];
        [simpl in Hv; destruct_or! Hv; try discriminate; by eexists|]).
      by apply not_elem_of_nil in Hu. }
    rewrite Ha in Hm. apply match_toks_lit in Hm as (r & _ & Hm).
    apply match_int_slash_inv in Hm as (d & _ & Hall & ->).
    exists (dec_val d). split; [by apply dec_val_acc_nonneg|done].
  - rewrite Forall_forall in Hextra. destruct (Hextra u Hu) as [_ Hs]. rewrite Hs in Hv.
    destruct_or! Hv; discriminate.
Qed.
End Routes.

Section Following.
Context `{Runtime} `{WasteEnv}.

(** The item page's URL is matched by its own route only. *)
Lemma resolve_item_page s :
  s <> "" -> all_digits s = true ->
  resolve urlpatterns_base (String "/" ("marketplace/item/" ++ s ++ "/")) =
  Some (RItemDetail, [("item_id", AInt (dec_val s))]).
Proof.
  intros Hne Hall. cbn [resolve first_match urlpatterns_base u_toks u_view].
  rewrite match_lit_app, match_int_slash, bool_decide_false, Hall by done. cbn [negb andb].
  route_miss. reflexivity.
Qed.

(** C5: following the redirect [add_item] and [update_item] answer with
    ([redirect('item_detail', item_id=...)], whose URL
    [views_json.reverse_int_arg] builds) runs [item_detail] on the item
    whose id the URL carries: the view and the route table agree. *)
Theorem redirect_dispatches_item_detail debug media pats v s r form :
  urlpatterns debug media = Ok pats -> views_json.reverse_int_arg "item_detail" v = Ok s ->
  dispatch pats ("/marketplace/item/" ++ s ++ "/") r form =
  json_view (pages.item_detail r (dec_val s)).
Proof.
  intros Hp Hs. unfold views_json.reverse_int_arg in Hs.
  destruct (bool_decide (py_str v ≠ "") && all_digits (py_str v)) eqn:Hc; [|done].
  injection Hs as <-. apply andb_true_iff in Hc as [Hne%bool_decide_eq_true Hall].
  unfold dispatch. change ("/marketplace/item/" ++ py_str v ++ "/") with
    (String "/" ("marketplace/item/" ++ py_str v ++ "/")).
  rewrite (resolve_base _ _ _ _ _ Hp (resolve_item_page _ Hne Hall)).
  cbn [call_view with_item_id]. by rewrite bool_decide_true.
Qed.
End Following.

(** ** Witnesses *)

Section UrlWitnesses.
#[local] Existing Instance demo_runtime.
#[local] Existing Instance demo_waste_env.

Definition update_route : url_pattern :=
  mk_url [TLit "marketplace/update/"; TInt "item_id"; TLit "/"] RUpdateItem (Some "update_item").

Definition debug_patterns : list url_pattern :=
  (urlpatterns_base ++ [mk_url [TLit "media/"; TPathEnd "path"] RServe None])%list.

Lemma reverse_int_arg_refines_witness :
  urlpatterns false "" = Ok urlpatterns_base /\
  reverse urlpatterns_base "item_detail" [("item_id", VInt 7)] =
  match views_json.reverse_int_arg "item_detail" (VInt 7) with
  | Ok s => Ok ("/marketplace/item/" ++ s ++ "/")
  | Raise e => Raise e
  end.
Proof. split; [reflexivity|]. apply (reverse_int_arg_refines false ""). reflexivity. Defined.

Lemma reverse_resolve_roundtrip_witness :
  urlpatterns true "/media/" = Ok debug_patterns /\ update_route ∈ urlpatterns_base /\
  exists url, reverse debug_patterns "update_item" [("item_id", VInt 42)] = Ok url /\
    resolve debug_patterns url = Some (RUpdateItem, [("item_id", AInt 42)]).
Proof.
  split; [reflexivity|]. split; [by repeat (try (left; reflexivity); right)|].
  apply (reverse_resolve_roundtrip true "/media/" debug_patterns update_route "update_item" 42);
    [reflexivity| |reflexivity|lia].
  by repeat (try (left; reflexivity); right).
Defined.

Lemma resolve_item_id_nonneg_witness :
  resolve debug_patterns "/marketplace/delete/7/" = Some (RDeleteItem, [("item_id", AInt 7)]) /\
  exists z, 0 <= z /\ [("item_id", AInt 7)] = [("item_id", AInt z)].
Proof.
  split; [reflexivity|].
  apply (resolve_item_id_nonneg true "/media/" debug_patterns "/marketplace/delete/7/" RDeleteItem);
    [reflexivity|reflexivity|right; right; reflexivity].
Defined.

Lemma redirect_dispatches_item_detail_witness :
  views_json.reverse_int_arg "item_detail" (VInt 7) = Ok "7" /\
  dispatch debug_patterns ("/marketplace/item/" ++ "7" ++ "/") (mk_req (Some 1) false ∅ None) None =
  json_view (pages.item_detail (mk_req (Some 1) false ∅ None) (dec_val "7")).
Proof.
  split; [reflexivity|].
  apply (redirect_dispatches_item_detail true "/media/" debug_patterns (VInt 7)); reflexivity.
Defined.
End UrlWitnesses.
